(** * MAS Financial Market Laboratory: agents and coordination loop

    A shallow embedding of the agent decision core (MarketMaker,
    ValueInvestor, MomentumTrader) and of the coordination loop
    (AgentManager, SimulationEngine), with the properties of the
    specification proved about it.

    Python values are modelled as follows.
    - [float] is the kernel's binary64 type, so every arithmetic step
      rounds exactly as CPython does;
    - [int] is [Z];
    - a [dict] is an insertion-ordered association list ([Dict.t]);
    - an exception is the [Raise] outcome of [result];
    - a method that mutates [self] is a state transformer over the
      agent record ([M]). *)

From Stdlib Require Import ZArith List Bool Floats Lia Permutation.
Import ListNotations.

Set Warnings "-inexact-float".

(** ** Python prelude *)

Inductive exn : Type :=
| AssertionError
| ZeroDivisionError
| OverflowError
| ValueError
| KeyError
| IndexError
| RuntimeError.

Inductive result (A : Type) : Type :=
| Ok (a : A)
| Raise (e : exn).

Arguments Ok {A} a.
Arguments Raise {A} e.

Definition rbind {A B : Type} (r : result A) (k : A -> result B) : result B :=
  match r with
  | Ok a => k a
  | Raise e => Raise e
  end.

(** State transformer over [result]: the methods of an object of type [S]. *)
Definition M (S A : Type) : Type := S -> result (A * S).

Definition ret {S A : Type} (a : A) : M S A := fun s => Ok (a, s).

Definition bind {S A B : Type} (m : M S A) (k : A -> M S B) : M S B :=
  fun s =>
    match m s with
    | Ok (a, s') => k a s'
    | Raise e => Raise e
    end.

Definition lift {S A : Type} (r : result A) : M S A :=
  fun s =>
    match r with
    | Ok a => Ok (a, s)
    | Raise e => Raise e
    end.

Definition gets {S A : Type} (f : S -> A) : M S A := fun s => Ok (f s, s).

Definition modify {S : Type} (f : S -> S) : M S unit := fun s => Ok (tt, f s).

Definition py_assert {S : Type} (b : bool) : M S unit :=
  fun s => if b then Ok (tt, s) else Raise AssertionError.

Declare Scope py_scope.
Delimit Scope py_scope with py.
Notation "x <- m ;; k" := (bind m (fun x => k))
  (at level 61, m at next level, right associativity) : py_scope.
Notation "m ;;; k" := (bind m (fun _ => k))
  (at level 61, right associativity) : py_scope.
Notation "x <~ r ;; k" := (rbind r (fun x => k))
  (at level 61, r at next level, right associativity) : py_scope.

(** *** Floats *)

Module PyFloat.

Local Open Scope float_scope.

(** [float(n)] for an int [n]: rounded to nearest even; an int beyond the
    range of binary64 raises. *)
Definition of_int (n : Z) : result float :=
  let f := SF2Prim (SpecFloat.binary_normalize 53 1024 n 0 false) in
  if is_infinity f then Raise OverflowError else Ok f.

(** [int(x)]: truncation toward zero. *)
Definition to_int (x : float) : result Z :=
  match Prim2SF x with
  | SpecFloat.S754_zero _ => Ok 0%Z
  | SpecFloat.S754_infinity _ => Raise OverflowError
  | SpecFloat.S754_nan => Raise ValueError
  | SpecFloat.S754_finite s m e =>
      let mag := (if 0 <=? e then Z.shiftl (Z.pos m) e
                  else Z.shiftr (Z.pos m) (- e))%Z in
      Ok (if s then (- mag)%Z else mag)
  end.

(** [x / y]: Python raises on a zero divisor instead of returning an
    infinity or a NaN. *)
Definition truediv (x y : float) : result float :=
  if y =? 0 then Raise ZeroDivisionError else Ok (x / y).

(** [max(a, b)] and [min(a, b)] keep the first argument unless the second
    compares strictly beyond it. *)
Definition max (a b : float) : float := if a <? b then b else a.
Definition min (a b : float) : float := if b <? a then b else a.

(** [x > y] and [x >= y] on floats. *)
Definition gtb (x y : float) : bool := y <? x.
Definition geb (x y : float) : bool := y <=? x.

End PyFloat.

(** *** Ints *)

Module PyInt.

Definition sf_of_int (n : Z) : spec_float :=
  match n with
  | Z0 => SpecFloat.S754_zero false
  | Zpos p => SpecFloat.S754_finite false p 0
  | Zneg p => SpecFloat.S754_finite true p 0
  end.

(** [a / b] on two ints: the quotient rounded once to binary64; raises on a
    zero divisor and on a quotient beyond the float range. *)
Definition truediv (a b : Z) : result float :=
  if Z.eqb b 0 then Raise ZeroDivisionError
  else
    let q := SF2Prim (SpecFloat.SFdiv 53 1024 (sf_of_int a) (sf_of_int b)) in
    if is_infinity q then Raise OverflowError else Ok q.

(** [max] of a non-empty sequence of ints. *)
Definition maximum (x : Z) (xs : list Z) : Z := fold_left Z.max xs x.

End PyInt.

(** *** Dictionaries *)

Module Dict.

Definition t (V : Type) : Type := list (Z * V).

Definition empty {V : Type} : t V := [].

Fixpoint get {V : Type} (d : t V) (k : Z) : option V :=
  match d with
  | [] => None
  | (k', v) :: d' => if Z.eqb k k' then Some v else get d' k
  end.

Definition mem {V : Type} (d : t V) (k : Z) : bool :=
  match get d k with Some _ => true | None => false end.

(** [d[k] = v]: an existing key keeps its position. *)
Fixpoint set {V : Type} (d : t V) (k : Z) (v : V) : t V :=
  match d with
  | [] => [(k, v)]
  | (k', v') :: d' =>
      if Z.eqb k k' then (k, v) :: d' else (k', v') :: set d' k v
  end.

(** [del d[k]]: raises on a missing key. *)
Fixpoint del {V : Type} (d : t V) (k : Z) : result (t V) :=
  match d with
  | [] => Raise KeyError
  | (k', v') :: d' =>
      if Z.eqb k k' then Ok d'
      else match del d' k with
           | Ok d'' => Ok ((k', v') :: d'')
           | Raise e => Raise e
           end
  end.

Definition items {V : Type} (d : t V) : list (Z * V) := d.
Definition keys {V : Type} (d : t V) : list Z := map fst d.
Definition values {V : Type} (d : t V) : list V := map snd d.

End Dict.

(** ** Data model

    Modelled from the spec: the packages [environment] and [agents.models]
    / [agents.intents] are not part of the sources; the records below carry
    the fields the agents and the engine read or write (spec section 3). *)

Inductive Side : Type := BUY | SELL.

Inductive OrderType : Type := LIMIT | MARKET.

Inductive OrderLifecycle : Type := WORKING | DONE.

Inductive OrderEndReasons : Type := FILLED | CANCELLED | OTHER_REASON.

Definition Side_eqb (a b : Side) : bool :=
  match a, b with
  | BUY, BUY | SELL, SELL => true
  | _, _ => false
  end.

Definition is_working (l : OrderLifecycle) : bool :=
  match l with WORKING => true | DONE => false end.

Definition is_done (l : OrderLifecycle) : bool :=
  match l with DONE => true | WORKING => false end.

Record OrderView : Type := {
  order_id : Z;
  side : Side;
  lifecycle : OrderLifecycle;
  end_reason : option OrderEndReasons;
  price : option float
}.

Record DepositView : Type := {
  deposit_id : Z;
  maturity_macro_tick : Z
}.

(** The live account of an agent: the market owns it, the agent reads it. *)
Record AccountView : Type := {
  cash : float;
  shares : Z
}.

Record AgentConstants : Type := {
  simulation_macro_tick : Z;
  simulation_micro_tick : Z;
  fee_rate : float
}.

(** A top-of-book level [(price, size, #orders)]. *)
Record L1 : Type := {
  l1_price : float;
  l1_size : Z;
  l1_orders : Z
}.

Record MarketDataView : Type := {
  mid_price : option float;
  micro_price : option float;
  last_traded_price : option float;
  L1_bids : option L1;
  L1_asks : option L1
}.

Record EconomyInsightView : Type := {
  tv_interval : float * float;
  deposit_rates : Dict.t float
}.

(** The [timestamp] field (wall clock) is left out: no agent reads it. *)
Record AgentView : Type := {
  view_agent_id : Z;
  macro_tick : Z;
  micro_tick : Z;
  market_data_view : option MarketDataView;
  economy_insight_view : option EconomyInsightView
}.

Inductive AgentIntent : Type :=
| PlaceOrderIntent (intent_id : Z) (side : Side) (order_type : OrderType)
    (quantity : Z) (price : option float)
| CancelOrderIntent (intent_id : Z) (order_id : Z)
| CreateDepositIntent (intent_id : Z) (amount : float) (term : Z).

Definition intent_id_of (i : AgentIntent) : Z :=
  match i with
  | PlaceOrderIntent n _ _ _ _ => n
  | CancelOrderIntent n _ => n
  | CreateDepositIntent n _ _ => n
  end.

Definition is_cancel (i : AgentIntent) : bool :=
  match i with CancelOrderIntent _ _ => true | _ => false end.

Definition is_place (i : AgentIntent) : bool :=
  match i with PlaceOrderIntent _ _ _ _ _ => true | _ => false end.

Definition is_deposit (i : AgentIntent) : bool :=
  match i with CreateDepositIntent _ _ _ => true | _ => false end.

Record AgentFeedback : Type := {
  feedback_agent_id : Z;
  order_results : Dict.t (option OrderView);
  deposit_results : Dict.t (option DepositView)
}.

(** [range(n0, n0 + len)]: the ids a counter at [n0] hands out. *)
Fixpoint zseq (n0 : Z) (len : nat) : list Z :=
  match len with
  | O => []
  | S len' => n0 :: zseq (n0 + 1) len'
  end.

Local Open Scope py_scope.

(** ** MarketMaker (agents/agents/market_maker.py) *)

Module MarketMaker.

Local Open Scope float_scope.

(** The layer tags ['SURVIVE'], ['STABILIZE'], ['PROVIDE']. *)
Inductive Layer : Type := SURVIVE | STABILIZE | PROVIDE.

Definition Layer_eqb (a b : Layer) : bool :=
  match a, b with
  | SURVIVE, SURVIVE | STABILIZE, STABILIZE | PROVIDE, PROVIDE => true
  | _, _ => false
  end.

Record t : Type := {
  agent_id : Z;
  constants : AgentConstants;
  target_inventory_fraction : float;
  risk_lower_bound : float;
  risk_upper_bound : float;
  stabilization_tolerance : float;
  spread_size : Z;
  order_size : Z;
  wait_time : Z;
  skew_factor : Z;
  active_bids : Dict.t OrderView;
  active_asks : Dict.t OrderView;
  last_known_price : option float;
  last_quote_tick : option Z;
  current_micro_tick : Z;
  last_mid_price : option float;
  last_inventory_ratio : option float;
  layer_changed : bool;
  order_filled_this_tick : bool;
  _last_layer : Layer;
  current_global_tick : Z;
  last_quote_global_tick : option Z;
  __intent_id : Z
}.

Definition __init__ (agent_id : Z) (constants : AgentConstants)
  (target_inventory_fraction risk_lower_bound risk_upper_bound
     stabilization_tolerance : float)
  (spread_size order_size wait_time skew_factor : Z) : t :=
  {| agent_id := agent_id;
     constants := constants;
     target_inventory_fraction := target_inventory_fraction;
     risk_lower_bound := risk_lower_bound;
     risk_upper_bound := risk_upper_bound;
     stabilization_tolerance := stabilization_tolerance;
     spread_size := spread_size;
     order_size := order_size;
     wait_time := wait_time;
     skew_factor := skew_factor;
     active_bids := Dict.empty;
     active_asks := Dict.empty;
     last_known_price := None;
     last_quote_tick := None;
     current_micro_tick := 0;
     last_mid_price := None;
     last_inventory_ratio := None;
     layer_changed := false;
     order_filled_this_tick := false;
     _last_layer := PROVIDE;
     current_global_tick := 0;
     last_quote_global_tick := None;
     __intent_id := 0 |}.

(** Attribute assignments [self.x = v]. *)
Definition set_active_bids (v : Dict.t OrderView) (s : t) : t :=
  {| agent_id := agent_id s; constants := constants s;
     target_inventory_fraction := target_inventory_fraction s;
     risk_lower_bound := risk_lower_bound s;
     risk_upper_bound := risk_upper_bound s;
     stabilization_tolerance := stabilization_tolerance s;
     spread_size := spread_size s; order_size := order_size s;
     wait_time := wait_time s; skew_factor := skew_factor s;
     active_bids := v; active_asks := active_asks s;
     last_known_price := last_known_price s;
     last_quote_tick := last_quote_tick s;
     current_micro_tick := current_micro_tick s;
     last_mid_price := last_mid_price s;
     last_inventory_ratio := last_inventory_ratio s;
     layer_changed := layer_changed s;
     order_filled_this_tick := order_filled_this_tick s;
     _last_layer := _last_layer s;
     current_global_tick := current_global_tick s;
     last_quote_global_tick := last_quote_global_tick s;
     __intent_id := __intent_id s |}.

Definition set_active_asks (v : Dict.t OrderView) (s : t) : t :=
  {| agent_id := agent_id s; constants := constants s;
     target_inventory_fraction := target_inventory_fraction s;
     risk_lower_bound := risk_lower_bound s;
     risk_upper_bound := risk_upper_bound s;
     stabilization_tolerance := stabilization_tolerance s;
     spread_size := spread_size s; order_size := order_size s;
     wait_time := wait_time s; skew_factor := skew_factor s;
     active_bids := active_bids s; active_asks := v;
     last_known_price := last_known_price s;
     last_quote_tick := last_quote_tick s;
     current_micro_tick := current_micro_tick s;
     last_mid_price := last_mid_price s;
     last_inventory_ratio := last_inventory_ratio s;
     layer_changed := layer_changed s;
     order_filled_this_tick := order_filled_this_tick s;
     _last_layer := _last_layer s;
     current_global_tick := current_global_tick s;
     last_quote_global_tick := last_quote_global_tick s;
     __intent_id := __intent_id s |}.

Definition set_last_known_price (v : option float) (s : t) : t :=
  {| agent_id := agent_id s; constants := constants s;
     target_inventory_fraction := target_inventory_fraction s;
     risk_lower_bound := risk_lower_bound s;
     risk_upper_bound := risk_upper_bound s;
     stabilization_tolerance := stabilization_tolerance s;
     spread_size := spread_size s; order_size := order_size s;
     wait_time := wait_time s; skew_factor := skew_factor s;
     active_bids := active_bids s; active_asks := active_asks s;
     last_known_price := v;
     last_quote_tick := last_quote_tick s;
     current_micro_tick := current_micro_tick s;
     last_mid_price := last_mid_price s;
     last_inventory_ratio := last_inventory_ratio s;
     layer_changed := layer_changed s;
     order_filled_this_tick := order_filled_this_tick s;
     _last_layer := _last_layer s;
     current_global_tick := current_global_tick s;
     last_quote_global_tick := last_quote_global_tick s;
     __intent_id := __intent_id s |}.

Definition set_current_micro_tick (v : Z) (s : t) : t :=
  {| agent_id := agent_id s; constants := constants s;
     target_inventory_fraction := target_inventory_fraction s;
     risk_lower_bound := risk_lower_bound s;
     risk_upper_bound := risk_upper_bound s;
     stabilization_tolerance := stabilization_tolerance s;
     spread_size := spread_size s; order_size := order_size s;
     wait_time := wait_time s; skew_factor := skew_factor s;
     active_bids := active_bids s; active_asks := active_asks s;
     last_known_price := last_known_price s;
     last_quote_tick := last_quote_tick s;
     current_micro_tick := v;
     last_mid_price := last_mid_price s;
     last_inventory_ratio := last_inventory_ratio s;
     layer_changed := layer_changed s;
     order_filled_this_tick := order_filled_this_tick s;
     _last_layer := _last_layer s;
     current_global_tick := current_global_tick s;
     last_quote_global_tick := last_quote_global_tick s;
     __intent_id := __intent_id s |}.

Definition set_last_mid_price (v : option float) (s : t) : t :=
  {| agent_id := agent_id s; constants := constants s;
     target_inventory_fraction := target_inventory_fraction s;
     risk_lower_bound := risk_lower_bound s;
     risk_upper_bound := risk_upper_bound s;
     stabilization_tolerance := stabilization_tolerance s;
     spread_size := spread_size s; order_size := order_size s;
     wait_time := wait_time s; skew_factor := skew_factor s;
     active_bids := active_bids s; active_asks := active_asks s;
     last_known_price := last_known_price s;
     last_quote_tick := last_quote_tick s;
     current_micro_tick := current_micro_tick s;
     last_mid_price := v;
     last_inventory_ratio := last_inventory_ratio s;
     layer_changed := layer_changed s;
     order_filled_this_tick := order_filled_this_tick s;
     _last_layer := _last_layer s;
     current_global_tick := current_global_tick s;
     last_quote_global_tick := last_quote_global_tick s;
     __intent_id := __intent_id s |}.

Definition set_last_inventory_ratio (v : option float) (s : t) : t :=
  {| agent_id := agent_id s; constants := constants s;
     target_inventory_fraction := target_inventory_fraction s;
     risk_lower_bound := risk_lower_bound s;
     risk_upper_bound := risk_upper_bound s;
     stabilization_tolerance := stabilization_tolerance s;
     spread_size := spread_size s; order_size := order_size s;
     wait_time := wait_time s; skew_factor := skew_factor s;
     active_bids := active_bids s; active_asks := active_asks s;
     last_known_price := last_known_price s;
     last_quote_tick := last_quote_tick s;
     current_micro_tick := current_micro_tick s;
     last_mid_price := last_mid_price s;
     last_inventory_ratio := v;
     layer_changed := layer_changed s;
     order_filled_this_tick := order_filled_this_tick s;
     _last_layer := _last_layer s;
     current_global_tick := current_global_tick s;
     last_quote_global_tick := last_quote_global_tick s;
     __intent_id := __intent_id s |}.

Definition set_layer_changed (v : bool) (s : t) : t :=
  {| agent_id := agent_id s; constants := constants s;
     target_inventory_fraction := target_inventory_fraction s;
     risk_lower_bound := risk_lower_bound s;
     risk_upper_bound := risk_upper_bound s;
     stabilization_tolerance := stabilization_tolerance s;
     spread_size := spread_size s; order_size := order_size s;
     wait_time := wait_time s; skew_factor := skew_factor s;
     active_bids := active_bids s; active_asks := active_asks s;
     last_known_price := last_known_price s;
     last_quote_tick := last_quote_tick s;
     current_micro_tick := current_micro_tick s;
     last_mid_price := last_mid_price s;
     last_inventory_ratio := last_inventory_ratio s;
     layer_changed := v;
     order_filled_this_tick := order_filled_this_tick s;
     _last_layer := _last_layer s;
     current_global_tick := current_global_tick s;
     last_quote_global_tick := last_quote_global_tick s;
     __intent_id := __intent_id s |}.

Definition set_order_filled_this_tick (v : bool) (s : t) : t :=
  {| agent_id := agent_id s; constants := constants s;
     target_inventory_fraction := target_inventory_fraction s;
     risk_lower_bound := risk_lower_bound s;
     risk_upper_bound := risk_upper_bound s;
     stabilization_tolerance := stabilization_tolerance s;
     spread_size := spread_size s; order_size := order_size s;
     wait_time := wait_time s; skew_factor := skew_factor s;
     active_bids := active_bids s; active_asks := active_asks s;
     last_known_price := last_known_price s;
     last_quote_tick := last_quote_tick s;
     current_micro_tick := current_micro_tick s;
     last_mid_price := last_mid_price s;
     last_inventory_ratio := last_inventory_ratio s;
     layer_changed := layer_changed s;
     order_filled_this_tick := v;
     _last_layer := _last_layer s;
     current_global_tick := current_global_tick s;
     last_quote_global_tick := last_quote_global_tick s;
     __intent_id := __intent_id s |}.

Definition set__last_layer (v : Layer) (s : t) : t :=
  {| agent_id := agent_id s; constants := constants s;
     target_inventory_fraction := target_inventory_fraction s;
     risk_lower_bound := risk_lower_bound s;
     risk_upper_bound := risk_upper_bound s;
     stabilization_tolerance := stabilization_tolerance s;
     spread_size := spread_size s; order_size := order_size s;
     wait_time := wait_time s; skew_factor := skew_factor s;
     active_bids := active_bids s; active_asks := active_asks s;
     last_known_price := last_known_price s;
     last_quote_tick := last_quote_tick s;
     current_micro_tick := current_micro_tick s;
     last_mid_price := last_mid_price s;
     last_inventory_ratio := last_inventory_ratio s;
     layer_changed := layer_changed s;
     order_filled_this_tick := order_filled_this_tick s;
     _last_layer := v;
     current_global_tick := current_global_tick s;
     last_quote_global_tick := last_quote_global_tick s;
     __intent_id := __intent_id s |}.

Definition set_current_global_tick (v : Z) (s : t) : t :=
  {| agent_id := agent_id s; constants := constants s;
     target_inventory_fraction := target_inventory_fraction s;
     risk_lower_bound := risk_lower_bound s;
     risk_upper_bound := risk_upper_bound s;
     stabilization_tolerance := stabilization_tolerance s;
     spread_size := spread_size s; order_size := order_size s;
     wait_time := wait_time s; skew_factor := skew_factor s;
     active_bids := active_bids s; active_asks := active_asks s;
     last_known_price := last_known_price s;
     last_quote_tick := last_quote_tick s;
     current_micro_tick := current_micro_tick s;
     last_mid_price := last_mid_price s;
     last_inventory_ratio := last_inventory_ratio s;
     layer_changed := layer_changed s;
     order_filled_this_tick := order_filled_this_tick s;
     _last_layer := _last_layer s;
     current_global_tick := v;
     last_quote_global_tick := last_quote_global_tick s;
     __intent_id := __intent_id s |}.

Definition set_last_quote_global_tick (v : option Z) (s : t) : t :=
  {| agent_id := agent_id s; constants := constants s;
     target_inventory_fraction := target_inventory_fraction s;
     risk_lower_bound := risk_lower_bound s;
     risk_upper_bound := risk_upper_bound s;
     stabilization_tolerance := stabilization_tolerance s;
     spread_size := spread_size s; order_size := order_size s;
     wait_time := wait_time s; skew_factor := skew_factor s;
     active_bids := active_bids s; active_asks := active_asks s;
     last_known_price := last_known_price s;
     last_quote_tick := last_quote_tick s;
     current_micro_tick := current_micro_tick s;
     last_mid_price := last_mid_price s;
     last_inventory_ratio := last_inventory_ratio s;
     layer_changed := layer_changed s;
     order_filled_this_tick := order_filled_this_tick s;
     _last_layer := _last_layer s;
     current_global_tick := current_global_tick s;
     last_quote_global_tick := v;
     __intent_id := __intent_id s |}.

Definition set___intent_id (v : Z) (s : t) : t :=
  {| agent_id := agent_id s; constants := constants s;
     target_inventory_fraction := target_inventory_fraction s;
     risk_lower_bound := risk_lower_bound s;
     risk_upper_bound := risk_upper_bound s;
     stabilization_tolerance := stabilization_tolerance s;
     spread_size := spread_size s; order_size := order_size s;
     wait_time := wait_time s; skew_factor := skew_factor s;
     active_bids := active_bids s; active_asks := active_asks s;
     last_known_price := last_known_price s;
     last_quote_tick := last_quote_tick s;
     current_micro_tick := current_micro_tick s;
     last_mid_price := last_mid_price s;
     last_inventory_ratio := last_inventory_ratio s;
     layer_changed := layer_changed s;
     order_filled_this_tick := order_filled_this_tick s;
     _last_layer := _last_layer s;
     current_global_tick := current_global_tick s;
     last_quote_global_tick := last_quote_global_tick s;
     __intent_id := v |}.

(** The [intent_id] property: read the counter, then advance it. *)
Definition intent_id : M t Z :=
  fun s => Ok (__intent_id s, set___intent_id (__intent_id s + 1) s).

Definition _calculate_inventory_ratio (acct : AccountView) (self : t)
  : result float :=
  match last_known_price self with
  | None => Ok (target_inventory_fraction self)
  | Some p =>
      sh <~ PyFloat.of_int (shares acct) ;;
      let total_wealth := cash acct + sh * p in
      if total_wealth <=? 0 then Ok (target_inventory_fraction self)
      else PyFloat.truediv (cash acct) total_wealth
  end.

Definition _should_survive (acct : AccountView) (self : t) : result bool :=
  inventory_ratio <~ _calculate_inventory_ratio acct self ;;
  if inventory_ratio <? risk_lower_bound self then Ok true
  else if PyFloat.gtb inventory_ratio (risk_upper_bound self) then Ok true
  else Ok false.

Definition _should_stabilize (acct : AccountView) (self : t) : result bool :=
  inventory_ratio <~ _calculate_inventory_ratio acct self ;;
  let deviation := abs (inventory_ratio - target_inventory_fraction self) in
  Ok (PyFloat.gtb deviation (stabilization_tolerance self)).

Definition _determine_current_layer (acct : AccountView) (self : t)
  : result Layer :=
  sv <~ _should_survive acct self ;;
  if sv then Ok SURVIVE
  else
    sb <~ _should_stabilize acct self ;;
    if sb then Ok STABILIZE else Ok PROVIDE.

(** The view reaches [_estimate_price] only after [decide] has asserted
    both snapshots; the asserts are repeated as in the source. *)
Definition _estimate_price (view : AgentView) : M t (option float) :=
  match market_data_view view with
  | None => lift (Raise AssertionError)
  | Some md =>
      match mid_price md with
      | Some p => modify (set_last_known_price (Some p)) ;;; ret (Some p)
      | None =>
      match micro_price md with
      | Some p => modify (set_last_known_price (Some p)) ;;; ret (Some p)
      | None =>
      match last_traded_price md with
      | Some p => modify (set_last_known_price (Some p)) ;;; ret (Some p)
      | None =>
          lkp <- gets last_known_price ;;
          match lkp with
          | Some p => ret (Some p)
          | None =>
              match economy_insight_view view with
              | None => lift (Raise AssertionError)
              | Some ev =>
                  let '(tv_l, tv_u) := tv_interval ev in
                  ret (Some ((tv_l + tv_u) / 2))
              end
          end
      end end end
  end.

Definition _validate_bid_quantity (acct : AccountView) (quantity : Z)
  (self : t) : result Z :=
  if (quantity <=? 0)%Z then Ok 0%Z
  else if cash acct <=? 0 then Ok 0%Z
  else
    match last_known_price self with
    | None => Ok 0%Z
    | Some p =>
        let cost_per_share := p * (1 + fee_rate (constants self)) in
        q <~ PyFloat.truediv (cash acct) cost_per_share ;;
        max_quantity <~ PyFloat.to_int q ;;
        Ok (Z.min quantity max_quantity)
    end.

Definition _validate_ask_quantity (acct : AccountView) (quantity : Z) : Z :=
  if (quantity <=? 0)%Z then 0%Z else Z.min quantity (shares acct).

Definition _is_quote_equivalent (order_view : OrderView)
  (target_price : float) (target_side : Side) : bool :=
  if negb (is_working (lifecycle order_view)) then false
  else if negb (Side_eqb (side order_view) target_side) then false
  else
    let price_tolerance := 1 in
    match price order_view with
    | Some p => abs (p - target_price) <=? price_tolerance
    | None => false
    end.

Definition _has_equivalent_working_order (sd : Side) (target_price : float)
  (self : t) : bool :=
  let orders := match sd with
                | BUY => active_bids self
                | SELL => active_asks self
                end in
  existsb (fun order_view => _is_quote_equivalent order_view target_price sd)
    (Dict.values orders).

(** The loop shared by the three cancelling methods: one [CancelOrderIntent],
    with a fresh intent id, for each cached order that [sel] selects. *)
Fixpoint cancel_where (sel : OrderView -> bool) (its : list (Z * OrderView))
  : M t (list AgentIntent) :=
  match its with
  | [] => ret []
  | (oid, order_view) :: rest =>
      if sel order_view then
        n <- intent_id ;;
        tl <- cancel_where sel rest ;;
        ret (CancelOrderIntent n oid :: tl)
      else cancel_where sel rest
  end.

Definition _cancel_all_orders : M t (list AgentIntent) :=
  bids <- gets active_bids ;;
  cb <- cancel_where (fun o => is_working (lifecycle o)) (Dict.items bids) ;;
  asks <- gets active_asks ;;
  ca <- cancel_where (fun o => is_working (lifecycle o)) (Dict.items asks) ;;
  ret (cb ++ ca).

Definition stale (target_price : float) (sd : Side) (o : OrderView) : bool :=
  is_working (lifecycle o) && negb (_is_quote_equivalent o target_price sd).

Definition _cancel_non_equivalent_orders (bid_price ask_price : float)
  : M t (list AgentIntent) :=
  bids <- gets active_bids ;;
  cb <- cancel_where (stale bid_price BUY) (Dict.items bids) ;;
  asks <- gets active_asks ;;
  ca <- cancel_where (stale ask_price SELL) (Dict.items asks) ;;
  ret (cb ++ ca).

Definition _selective_stabilize_cancel (inventory_ratio target_bid
  target_ask : float) : M t (list AgentIntent) :=
  target <- gets target_inventory_fraction ;;
  if inventory_ratio <? target then
    bids <- gets active_bids ;;
    cancel_where (stale target_bid BUY) (Dict.items bids)
  else
    asks <- gets active_asks ;;
    cancel_where (stale target_ask SELL) (Dict.items asks).

(** [f(self)] for a method that only reads [self]. *)
Definition reads {A : Type} (f : t -> result A) : M t A :=
  fun s => lift (f s) s.

Definition _create_panic_sell_intent (acct : AccountView) (view : AgentView)
  : M t (option AgentIntent) :=
  let shares := shares acct in
  if (shares <=? 0)%Z then ret None
  else
    mid <- _estimate_price view ;;
    match mid with
    | None => ret None
    | Some mid_price =>
        sp <- gets spread_size ;;
        off <- lift (PyFloat.of_int (5 * sp)) ;;
        let panic_sell_price := mid_price - off in
        let panic_sell_price := PyFloat.max 0.01 panic_sell_price in
        osz <- gets order_size ;;
        let quantity := Z.min shares (osz * 3) in
        modify (set_last_mid_price (Some mid_price)) ;;;
        n <- intent_id ;;
        ret (Some (PlaceOrderIntent n SELL LIMIT quantity
                     (Some panic_sell_price)))
    end.

Definition _create_panic_buy_intent (acct : AccountView) (view : AgentView)
  : M t (option AgentIntent) :=
  let cash := cash acct in
  if cash <=? 0 then ret None
  else
    mid <- _estimate_price view ;;
    match mid with
    | None => ret None
    | Some mid_price =>
        sp <- gets spread_size ;;
        off <- lift (PyFloat.of_int (5 * sp)) ;;
        let panic_buy_price := mid_price + off in
        c <- gets constants ;;
        let cost_per_share := panic_buy_price * (1 + fee_rate c) in
        q <- lift (PyFloat.truediv cash cost_per_share) ;;
        max_quantity <- lift (PyFloat.to_int q) ;;
        osz <- gets order_size ;;
        let quantity := Z.min max_quantity (osz * 3) in
        if (quantity <=? 0)%Z then ret None
        else
          modify (set_last_mid_price (Some mid_price)) ;;;
          n <- intent_id ;;
          ret (Some (PlaceOrderIntent n BUY LIMIT quantity
                       (Some panic_buy_price)))
    end.

Definition opt_to_list {A : Type} (o : option A) : list A :=
  match o with Some a => [a] | None => [] end.

Definition _survive_layer (acct : AccountView) (view : AgentView)
  : M t (list AgentIntent) :=
  cancels <- _cancel_all_orders ;;
  inventory_ratio <- reads (_calculate_inventory_ratio acct) ;;
  lo <- gets risk_lower_bound ;;
  hi <- gets risk_upper_bound ;;
  if inventory_ratio <? lo then
    intent <- _create_panic_sell_intent acct view ;;
    ret (cancels ++ opt_to_list intent)
  else if PyFloat.gtb inventory_ratio hi then
    intent <- _create_panic_buy_intent acct view ;;
    ret (cancels ++ opt_to_list intent)
  else ret cancels.

Definition _calculate_skew (inventory_ratio : float) (self : t)
  : result float :=
  let deviation := inventory_ratio - target_inventory_fraction self in
  k <~ PyFloat.of_int (skew_factor self) ;;
  Ok (- deviation * k).

Definition _calculate_skewed_prices (mid_price skew : float) (self : t)
  : result (float * float) :=
  sp <~ PyFloat.of_int (spread_size self) ;;
  let max_shift := sp / 2 in
  let skew_direction :=
    if PyFloat.gtb skew 0 then 1 else if skew <? 0 then -1 else 0 in
  let price_shift :=
    skew_direction * PyFloat.min (abs (skew / 100 * mid_price)) max_shift in
  let shifted_mid := mid_price + price_shift in
  let half_spread := sp / 2 in
  let bid_price := shifted_mid - half_spread in
  let ask_price := shifted_mid + half_spread in
  let fee_per_share := mid_price * fee_rate (constants self) in
  let bid_price := bid_price - fee_per_share in
  let ask_price := ask_price + fee_per_share in
  Ok (PyFloat.max 0.01 bid_price, PyFloat.max 0.01 ask_price).

Definition _calculate_skewed_quantities (acct : AccountView)
  (inventory_ratio : float) (self : t) : result (Z * Z) :=
  base_quantity <~ PyFloat.of_int (order_size self) ;;
  let deviation := abs (inventory_ratio - target_inventory_fraction self) in
  let supportive_multiplier := PyFloat.min (2 + deviation * 2) 3 in
  let risk_multiplier := PyFloat.max (0.5 - deviation) 0.25 in
  qs <~ (if PyFloat.gtb inventory_ratio (target_inventory_fraction self) then
           b <~ PyFloat.to_int (base_quantity * supportive_multiplier) ;;
           a <~ PyFloat.to_int (base_quantity * risk_multiplier) ;;
           Ok (b, a)
         else
           b <~ PyFloat.to_int (base_quantity * risk_multiplier) ;;
           a <~ PyFloat.to_int (base_quantity * supportive_multiplier) ;;
           Ok (b, a)) ;;
  let '(bid_quantity, ask_quantity) := qs in
  bid_quantity <~ _validate_bid_quantity acct bid_quantity self ;;
  let ask_quantity := _validate_ask_quantity acct ask_quantity in
  Ok (bid_quantity, ask_quantity).

Definition _stabilize_layer (acct : AccountView) (view : AgentView)
  : M t (list AgentIntent) :=
  inventory_ratio <- reads (_calculate_inventory_ratio acct) ;;
  skew <- reads (_calculate_skew inventory_ratio) ;;
  mid <- _estimate_price view ;;
  match mid with
  | None => ret []
  | Some mid_price =>
      prices <- reads (_calculate_skewed_prices mid_price skew) ;;
      quantities <- reads (_calculate_skewed_quantities acct inventory_ratio) ;;
      let '(bid_price, ask_price) := prices in
      let '(bid_quantity, ask_quantity) := quantities in
      prices <- (if PyFloat.geb bid_price ask_price then
                   sp <- gets spread_size ;;
                   spf <- lift (PyFloat.of_int sp) ;;
                   let spread := PyFloat.max 1 (spf / 2) in
                   ret (mid_price - spread, mid_price + spread)
                 else ret (bid_price, ask_price)) ;;
      let '(bid_price, ask_price) := prices in
      cancels <- _selective_stabilize_cancel inventory_ratio bid_price ask_price ;;
      has_equivalent_bid <- gets (_has_equivalent_working_order BUY bid_price) ;;
      has_equivalent_ask <- gets (_has_equivalent_working_order SELL ask_price) ;;
      bid <- (if negb has_equivalent_bid && (0 <? bid_quantity)%Z
                 && PyFloat.gtb bid_price 0
              then n <- intent_id ;;
                   ret [PlaceOrderIntent n BUY LIMIT bid_quantity (Some bid_price)]
              else ret []) ;;
      ask <- (if negb has_equivalent_ask && (0 <? ask_quantity)%Z
                 && PyFloat.gtb ask_price 0
              then n <- intent_id ;;
                   ret [PlaceOrderIntent n SELL LIMIT ask_quantity (Some ask_price)]
              else ret []) ;;
      modify (set_last_mid_price (Some mid_price)) ;;;
      ret (cancels ++ bid ++ ask)
  end.

Definition _calculate_provide_prices (mid_price : float) (self : t)
  : result (float * float) :=
  sp <~ PyFloat.of_int (spread_size self) ;;
  let half_spread := sp / 2 in
  let bid_price := mid_price - half_spread in
  let ask_price := mid_price + half_spread in
  let total_fee_per_share := 2 * fee_rate (constants self) * mid_price in
  let bid_price := bid_price - total_fee_per_share / 2 in
  let ask_price := ask_price + total_fee_per_share / 2 in
  Ok (PyFloat.max 0.01 bid_price, PyFloat.max 0.01 ask_price).

Definition has_working (d : Dict.t OrderView) : bool :=
  existsb (fun o => is_working (lifecycle o)) (Dict.values d).

Definition _should_refresh_quotes (current_mid_price : option float)
  (self : t) : result bool :=
  match last_quote_global_tick self with
  | None => Ok true
  | Some last_tick =>
      let elapsed := (current_global_tick self - last_tick)%Z in
      if (elapsed <? wait_time self)%Z then Ok false
      else if order_filled_this_tick self then Ok true
      else if layer_changed self then Ok true
      else
        drifted <~
          match current_mid_price, last_mid_price self with
          | Some cur, Some last =>
              if PyFloat.gtb last 0 then
                drift <~ PyFloat.truediv (abs (cur - last)) last ;;
                sp <~ PyFloat.of_int (spread_size self) ;;
                drift_tolerance <~ PyFloat.truediv sp (2 * last) ;;
                Ok (PyFloat.gtb drift drift_tolerance)
              else Ok (PyFloat.gtb 0 0.01)
          | _, _ => Ok false
          end ;;
        if drifted then Ok true
        else
          let has_working_bid := has_working (active_bids self) in
          let has_working_ask := has_working (active_asks self) in
          if negb has_working_bid || negb has_working_ask then Ok true
          else Ok false
  end.

Definition _provide_layer (acct : AccountView) (view : AgentView)
  : M t (list AgentIntent) :=
  mid <- _estimate_price view ;;
  match mid with
  | None => ret []
  | Some mid_price =>
      prices <- reads (_calculate_provide_prices mid_price) ;;
      let '(bid_price, ask_price) := prices in
      if PyFloat.geb bid_price ask_price then ret []
      else
        refresh <- reads (_should_refresh_quotes (Some mid_price)) ;;
        if negb refresh then ret []
        else
          cancels <- _cancel_non_equivalent_orders bid_price ask_price ;;
          has_equivalent_bid <-
            gets (_has_equivalent_working_order BUY bid_price) ;;
          has_equivalent_ask <-
            gets (_has_equivalent_working_order SELL ask_price) ;;
          osz <- gets order_size ;;
          bid <- (if negb has_equivalent_bid then
                    bid_quantity <- reads (_validate_bid_quantity acct osz) ;;
                    if (0 <? bid_quantity)%Z then
                      n <- intent_id ;;
                      ret [PlaceOrderIntent n BUY LIMIT bid_quantity
                             (Some bid_price)]
                    else ret []
                  else ret []) ;;
          ask <- (if negb has_equivalent_ask then
                    let ask_quantity := _validate_ask_quantity acct osz in
                    if (0 <? ask_quantity)%Z then
                      n <- intent_id ;;
                      ret [PlaceOrderIntent n SELL LIMIT ask_quantity
                             (Some ask_price)]
                    else ret []
                  else ret []) ;;
          let intents := cancels ++ bid ++ ask in
          match intents with
          | [] => ret intents
          | _ :: _ =>
              tick <- gets current_global_tick ;;
              modify (set_last_quote_global_tick (Some tick)) ;;;
              modify (set_last_mid_price (Some mid_price)) ;;;
              ret intents
          end
  end.

Definition is_some {A : Type} (o : option A) : bool :=
  match o with Some _ => true | None => false end.

(** [decide(view)]; [acct] is the content of the live account at the call. *)
Definition decide (acct : AccountView) (view : AgentView)
  : M t (list AgentIntent) :=
  aid <- gets agent_id ;;
  py_assert (Z.eqb (view_agent_id view) aid) ;;;
  py_assert (is_some (market_data_view view)) ;;;
  py_assert (is_some (economy_insight_view view)) ;;;
  modify (set_current_micro_tick (micro_tick view)) ;;;
  c <- gets constants ;;
  modify (set_current_global_tick
            (macro_tick view * simulation_micro_tick c + micro_tick view)%Z) ;;;
  modify (set_layer_changed false) ;;;
  current_layer <- reads (_determine_current_layer acct) ;;
  last_layer <- gets _last_layer ;;
  (if negb (Layer_eqb last_layer current_layer)
   then modify (set_layer_changed true) else ret tt) ;;;
  modify (set__last_layer current_layer) ;;;
  new_ratio <- reads (_calculate_inventory_ratio acct) ;;
  last_ratio <- gets last_inventory_ratio ;;
  target <- gets target_inventory_fraction ;;
  match last_ratio with
  | Some old_ratio =>
      let old_direction := old_ratio - target in
      let new_direction := new_ratio - target in
      if old_direction * new_direction <? 0
      then modify (set_layer_changed true) else ret tt
  | None => ret tt
  end ;;;
  modify (set_last_inventory_ratio (Some new_ratio)) ;;;
  match current_layer with
  | SURVIVE => _survive_layer acct view
  | STABILIZE => _stabilize_layer acct view
  | PROVIDE => _provide_layer acct view
  end.

(** One pass of [_cleanup_done_orders] over a snapshot of one cache. *)
Fixpoint cleanup_side (getd : t -> Dict.t OrderView)
  (setd : Dict.t OrderView -> t -> t) (its : list (Z * OrderView))
  : M t unit :=
  match its with
  | [] => ret tt
  | (oid, order_view) :: rest =>
      (if is_done (lifecycle order_view) then
         match end_reason order_view with
         | Some FILLED => modify (set_order_filled_this_tick true)
         | _ => ret tt
         end ;;;
         d <- gets getd ;;
         d' <- lift (Dict.del d oid) ;;
         modify (setd d')
       else ret tt) ;;;
      cleanup_side getd setd rest
  end.

Definition _cleanup_done_orders : M t unit :=
  bids <- gets active_bids ;;
  cleanup_side active_bids set_active_bids (Dict.items bids) ;;;
  asks <- gets active_asks ;;
  cleanup_side active_asks set_active_asks (Dict.items asks).

Fixpoint record_results (its : list (Z * option OrderView)) : M t unit :=
  match its with
  | [] => ret tt
  | (_, None) :: rest => record_results rest
  | (_, Some order_view) :: rest =>
      match side order_view with
      | BUY =>
          bids <- gets active_bids ;;
          modify (set_active_bids
                    (Dict.set bids (order_id order_view) order_view))
      | SELL =>
          asks <- gets active_asks ;;
          modify (set_active_asks
                    (Dict.set asks (order_id order_view) order_view))
      end ;;;
      record_results rest
  end.

Definition update (feedback : AgentFeedback) : M t unit :=
  modify (set_order_filled_this_tick false) ;;;
  record_results (Dict.items (order_results feedback)) ;;;
  _cleanup_done_orders.

End MarketMaker.

(** ** ValueInvestor (agents/agents/value_investor.py) *)

Module ValueInvestor.

Local Open Scope float_scope.

Inductive Intention : Type := WAIT | ACCUMULATE | DISTRIBUTE | PARK_CAPITAL.

Record t : Type := {
  agent_id : Z;
  constants : AgentConstants;
  initial_optimism : float;
  stubbornness : float;
  belief_update_rate : float;
  mispricing_threshold : float;
  max_position_fraction : float;
  deposit_affinity : float;
  deposit_allocation_fraction : float;
  deposit_horizon_preference : float;
  max_order_size : Z;
  patience_discount : float;
  patience_premium : float;
  optimism : float;
  belief : float;
  perceived_pnl : float;
  initial_capital : float;
  current_intention : Intention;
  active_deposits : Dict.t DepositView;
  pending_orders : Dict.t OrderView;
  last_known_price : option float;
  __intent_id : Z
}.

Definition __init__ (agent_id : Z) (account_view : AccountView)
  (constants : AgentConstants)
  (initial_optimism stubbornness belief_update_rate mispricing_threshold
     max_position_fraction deposit_affinity deposit_allocation_fraction
     deposit_horizon_preference : float)
  (max_order_size : Z) (patience_discount patience_premium : float)
  : result t :=
  sh <~ PyFloat.of_int (shares account_view) ;;
  Ok {| agent_id := agent_id;
        constants := constants;
        initial_optimism := initial_optimism;
        stubbornness := stubbornness;
        belief_update_rate := belief_update_rate;
        mispricing_threshold := mispricing_threshold;
        max_position_fraction := max_position_fraction;
        deposit_affinity := deposit_affinity;
        deposit_allocation_fraction := deposit_allocation_fraction;
        deposit_horizon_preference := deposit_horizon_preference;
        max_order_size := max_order_size;
        patience_discount := patience_discount;
        patience_premium := patience_premium;
        optimism := initial_optimism;
        belief := 100;
        perceived_pnl := 0;
        initial_capital := cash account_view + sh * 100;
        current_intention := WAIT;
        active_deposits := Dict.empty;
        pending_orders := Dict.empty;
        last_known_price := None;
        __intent_id := 0 |}.

(** Attribute assignments [self.x = v]. *)
Definition set_optimism (v : float) (s : t) : t :=
  {| agent_id := agent_id s; constants := constants s;
     initial_optimism := initial_optimism s; stubbornness := stubbornness s;
     belief_update_rate := belief_update_rate s;
     mispricing_threshold := mispricing_threshold s;
     max_position_fraction := max_position_fraction s;
     deposit_affinity := deposit_affinity s;
     deposit_allocation_fraction := deposit_allocation_fraction s;
     deposit_horizon_preference := deposit_horizon_preference s;
     max_order_size := max_order_size s;
     patience_discount := patience_discount s;
     patience_premium := patience_premium s; optimism := v;
     belief := belief s; perceived_pnl := perceived_pnl s;
     initial_capital := initial_capital s;
     current_intention := current_intention s;
     active_deposits := active_deposits s;
     pending_orders := pending_orders s;
     last_known_price := last_known_price s; __intent_id := __intent_id s |}.

Definition set_belief (v : float) (s : t) : t :=
  {| agent_id := agent_id s; constants := constants s;
     initial_optimism := initial_optimism s; stubbornness := stubbornness s;
     belief_update_rate := belief_update_rate s;
     mispricing_threshold := mispricing_threshold s;
     max_position_fraction := max_position_fraction s;
     deposit_affinity := deposit_affinity s;
     deposit_allocation_fraction := deposit_allocation_fraction s;
     deposit_horizon_preference := deposit_horizon_preference s;
     max_order_size := max_order_size s;
     patience_discount := patience_discount s;
     patience_premium := patience_premium s; optimism := optimism s;
     belief := v; perceived_pnl := perceived_pnl s;
     initial_capital := initial_capital s;
     current_intention := current_intention s;
     active_deposits := active_deposits s;
     pending_orders := pending_orders s;
     last_known_price := last_known_price s; __intent_id := __intent_id s |}.

Definition set_perceived_pnl (v : float) (s : t) : t :=
  {| agent_id := agent_id s; constants := constants s;
     initial_optimism := initial_optimism s; stubbornness := stubbornness s;
     belief_update_rate := belief_update_rate s;
     mispricing_threshold := mispricing_threshold s;
     max_position_fraction := max_position_fraction s;
     deposit_affinity := deposit_affinity s;
     deposit_allocation_fraction := deposit_allocation_fraction s;
     deposit_horizon_preference := deposit_horizon_preference s;
     max_order_size := max_order_size s;
     patience_discount := patience_discount s;
     patience_premium := patience_premium s; optimism := optimism s;
     belief := belief s; perceived_pnl := v;
     initial_capital := initial_capital s;
     current_intention := current_intention s;
     active_deposits := active_deposits s;
     pending_orders := pending_orders s;
     last_known_price := last_known_price s; __intent_id := __intent_id s |}.

Definition set_current_intention (v : Intention) (s : t) : t :=
  {| agent_id := agent_id s; constants := constants s;
     initial_optimism := initial_optimism s; stubbornness := stubbornness s;
     belief_update_rate := belief_update_rate s;
     mispricing_threshold := mispricing_threshold s;
     max_position_fraction := max_position_fraction s;
     deposit_affinity := deposit_affinity s;
     deposit_allocation_fraction := deposit_allocation_fraction s;
     deposit_horizon_preference := deposit_horizon_preference s;
     max_order_size := max_order_size s;
     patience_discount := patience_discount s;
     patience_premium := patience_premium s; optimism := optimism s;
     belief := belief s; perceived_pnl := perceived_pnl s;
     initial_capital := initial_capital s; current_intention := v;
     active_deposits := active_deposits s;
     pending_orders := pending_orders s;
     last_known_price := last_known_price s; __intent_id := __intent_id s |}.

Definition set_active_deposits (v : Dict.t DepositView) (s : t) : t :=
  {| agent_id := agent_id s; constants := constants s;
     initial_optimism := initial_optimism s; stubbornness := stubbornness s;
     belief_update_rate := belief_update_rate s;
     mispricing_threshold := mispricing_threshold s;
     max_position_fraction := max_position_fraction s;
     deposit_affinity := deposit_affinity s;
     deposit_allocation_fraction := deposit_allocation_fraction s;
     deposit_horizon_preference := deposit_horizon_preference s;
     max_order_size := max_order_size s;
     patience_discount := patience_discount s;
     patience_premium := patience_premium s; optimism := optimism s;
     belief := belief s; perceived_pnl := perceived_pnl s;
     initial_capital := initial_capital s;
     current_intention := current_intention s; active_deposits := v;
     pending_orders := pending_orders s;
     last_known_price := last_known_price s; __intent_id := __intent_id s |}.

Definition set_pending_orders (v : Dict.t OrderView) (s : t) : t :=
  {| agent_id := agent_id s; constants := constants s;
     initial_optimism := initial_optimism s; stubbornness := stubbornness s;
     belief_update_rate := belief_update_rate s;
     mispricing_threshold := mispricing_threshold s;
     max_position_fraction := max_position_fraction s;
     deposit_affinity := deposit_affinity s;
     deposit_allocation_fraction := deposit_allocation_fraction s;
     deposit_horizon_preference := deposit_horizon_preference s;
     max_order_size := max_order_size s;
     patience_discount := patience_discount s;
     patience_premium := patience_premium s; optimism := optimism s;
     belief := belief s; perceived_pnl := perceived_pnl s;
     initial_capital := initial_capital s;
     current_intention := current_intention s;
     active_deposits := active_deposits s; pending_orders := v;
     last_known_price := last_known_price s; __intent_id := __intent_id s |}.

Definition set_last_known_price (v : option float) (s : t) : t :=
  {| agent_id := agent_id s; constants := constants s;
     initial_optimism := initial_optimism s; stubbornness := stubbornness s;
     belief_update_rate := belief_update_rate s;
     mispricing_threshold := mispricing_threshold s;
     max_position_fraction := max_position_fraction s;
     deposit_affinity := deposit_affinity s;
     deposit_allocation_fraction := deposit_allocation_fraction s;
     deposit_horizon_preference := deposit_horizon_preference s;
     max_order_size := max_order_size s;
     patience_discount := patience_discount s;
     patience_premium := patience_premium s; optimism := optimism s;
     belief := belief s; perceived_pnl := perceived_pnl s;
     initial_capital := initial_capital s;
     current_intention := current_intention s;
     active_deposits := active_deposits s;
     pending_orders := pending_orders s; last_known_price := v;
     __intent_id := __intent_id s |}.

Definition set___intent_id (v : Z) (s : t) : t :=
  {| agent_id := agent_id s; constants := constants s;
     initial_optimism := initial_optimism s; stubbornness := stubbornness s;
     belief_update_rate := belief_update_rate s;
     mispricing_threshold := mispricing_threshold s;
     max_position_fraction := max_position_fraction s;
     deposit_affinity := deposit_affinity s;
     deposit_allocation_fraction := deposit_allocation_fraction s;
     deposit_horizon_preference := deposit_horizon_preference s;
     max_order_size := max_order_size s;
     patience_discount := patience_discount s;
     patience_premium := patience_premium s; optimism := optimism s;
     belief := belief s; perceived_pnl := perceived_pnl s;
     initial_capital := initial_capital s;
     current_intention := current_intention s;
     active_deposits := active_deposits s;
     pending_orders := pending_orders s;
     last_known_price := last_known_price s; __intent_id := v |}.

Definition reads {A : Type} (f : t -> result A) : M t A :=
  fun s => lift (f s) s.

Definition intent_id : M t Z :=
  fun s => Ok (__intent_id s, set___intent_id (__intent_id s + 1) s).

Definition _estimate_market_price (view : AgentView) : M t (option float) :=
  match market_data_view view with
  | None => lift (Raise AssertionError)
  | Some md =>
      match mid_price md with
      | Some p => modify (set_last_known_price (Some p)) ;;; ret (Some p)
      | None =>
      match last_traded_price md with
      | Some p => modify (set_last_known_price (Some p)) ;;; ret (Some p)
      | None => gets last_known_price
      end end
  end.

Definition _update_optimism : M t unit :=
  pnl <- gets perceived_pnl ;;
  rate <- gets belief_update_rate ;;
  stub <- gets stubbornness ;;
  opt <- gets optimism ;;
  if PyFloat.gtb pnl 0 then
    let delta := rate * (1 - stub) in
    modify (set_optimism (PyFloat.min 1 (opt + delta)))
  else if pnl <? 0 then
    let delta := rate * (1 - stub) in
    modify (set_optimism (PyFloat.max 0 (opt - delta)))
  else ret tt.

Definition _update_perceived_pnl (acct : AccountView) (view : AgentView)
  : M t unit :=
  mp <- _estimate_market_price view ;;
  b <- gets belief ;;
  let market_price := match mp with Some p => p | None => b end in
  sh <- lift (PyFloat.of_int (shares acct)) ;;
  let portfolio_value := cash acct + sh * market_price in
  ic <- gets initial_capital ;;
  modify (set_perceived_pnl (portfolio_value - ic)).

Definition _update_beliefs (acct : AccountView) (view : AgentView)
  : M t unit :=
  match economy_insight_view view with
  | None => lift (Raise AssertionError)
  | Some economy =>
      let '(TV_low, TV_high) := tv_interval economy in
      opt <- gets optimism ;;
      modify (set_belief (TV_low + opt * (TV_high - TV_low))) ;;;
      _update_optimism ;;;
      _update_perceived_pnl acct view
  end.

Definition _calculate_mispricing (view : AgentView) : M t float :=
  mp <- _estimate_market_price view ;;
  match mp with
  | None => ret 0
  | Some market_price =>
      if market_price <=? 0 then ret 0
      else
        b <- gets belief ;;
        lift (PyFloat.truediv (b - market_price) b)
  end.

Definition _calculate_position_fraction (acct : AccountView) (self : t)
  : result float :=
  match last_known_price self with
  | None => Ok 0
  | Some p =>
      sh <~ PyFloat.of_int (shares acct) ;;
      let total_capital := cash acct + sh * p in
      if total_capital <=? 0 then Ok 0
      else
        let position_value := sh * p in
        PyFloat.truediv position_value total_capital
  end.

(** The scoring loop of [_evaluate_deposit_opportunity]. *)
Fixpoint best_deposit (horizon_preference : float) (max_term : Z)
  (rates : list (Z * float)) (best_term : option Z) (best_score : float)
  : result (option Z) :=
  match rates with
  | [] => Ok best_term
  | (term, rate) :: rest =>
      frac <~ PyInt.truediv term max_term ;;
      let horizon_penalty := (1 - horizon_preference) * frac in
      let score := rate - horizon_penalty in
      if PyFloat.gtb score best_score
      then best_deposit horizon_preference max_term rest (Some term) score
      else best_deposit horizon_preference max_term rest best_term best_score
  end.

Definition _evaluate_deposit_opportunity (view : AgentView) (self : t)
  : result (option (Z * float)) :=
  match economy_insight_view view with
  | None => Raise AssertionError
  | Some economy =>
      let deposit_rates := deposit_rates economy in
      match Dict.keys deposit_rates with
      | [] => Ok None
      | k :: ks =>
          let max_term := PyInt.maximum k ks in
          bt <~ best_deposit (deposit_horizon_preference self) max_term
                  (Dict.items deposit_rates) None neg_infinity ;;
          match bt with
          | None => Ok None
          | Some best_term =>
              if Z.eqb best_term 0 then Ok None
              else
                match Dict.get deposit_rates best_term with
                | None => Raise KeyError
                | Some best_rate =>
                    if PyFloat.geb best_rate (deposit_affinity self)
                    then Ok (Some (best_term, best_rate))
                    else Ok None
                end
          end
      end
  end.

Definition _select_intention (acct : AccountView) (view : AgentView)
  : M t unit :=
  mispricing <- _calculate_mispricing view ;;
  position_fraction <- reads (_calculate_position_fraction acct) ;;
  deposit_opportunity <- reads (_evaluate_deposit_opportunity view) ;;
  threshold <- gets mispricing_threshold ;;
  cap <- gets max_position_fraction ;;
  if PyFloat.gtb mispricing threshold && (position_fraction <? cap) then
    modify (set_current_intention ACCUMULATE)
  else if (mispricing <? - threshold) && PyFloat.gtb position_fraction 0.1 then
    modify (set_current_intention DISTRIBUTE)
  else
    lkp <- gets last_known_price ;;
    parked <-
      match deposit_opportunity, lkp with
      | Some _, Some p =>
          sh <- lift (PyFloat.of_int (shares acct)) ;;
          let total_wealth := cash acct + sh * p in
          if PyFloat.gtb total_wealth 0 then
            frac <- lift (PyFloat.truediv (cash acct) total_wealth) ;;
            ret (PyFloat.gtb frac 0.2)
          else ret false
      | _, _ => ret false
      end ;;
    if parked then modify (set_current_intention PARK_CAPITAL)
    else modify (set_current_intention WAIT).

Definition _execute_wait (view : AgentView) : M t (list AgentIntent) :=
  ret [].

Definition _execute_accumulate (acct : AccountView) (view : AgentView)
  : M t (list AgentIntent) :=
  let cash := cash acct in
  if cash <=? 0 then ret []
  else
    mp <- _estimate_market_price view ;;
    match mp with
    | None => ret []
    | Some market_price =>
        c <- gets constants ;;
        q <- lift (PyFloat.truediv cash (market_price * (1 + fee_rate c))) ;;
        shares_affordable <- lift (PyFloat.to_int q) ;;
        cap <- gets max_order_size ;;
        let quantity := Z.min shares_affordable cap in
        if (quantity <=? 0)%Z then ret []
        else
          discount <- gets patience_discount ;;
          let buy_price := market_price * (1 - discount) in
          n <- intent_id ;;
          ret [PlaceOrderIntent n BUY LIMIT quantity (Some buy_price)]
    end.

Definition _execute_distribute (acct : AccountView) (view : AgentView)
  : M t (list AgentIntent) :=
  let shares := shares acct in
  if (shares <=? 0)%Z then ret []
  else
    mp <- _estimate_market_price view ;;
    match mp with
    | None => ret []
    | Some market_price =>
        cap <- gets max_order_size ;;
        let quantity := Z.min shares cap in
        premium <- gets patience_premium ;;
        let sell_price := market_price * (1 + premium) in
        n <- intent_id ;;
        ret [PlaceOrderIntent n SELL LIMIT quantity (Some sell_price)]
    end.

Definition _execute_park_capital (acct : AccountView) (view : AgentView)
  : M t (list AgentIntent) :=
  let cash := cash acct in
  if cash <=? 0 then ret []
  else
    deposit_opp <- reads (_evaluate_deposit_opportunity view) ;;
    match deposit_opp with
    | None => ret []
    | Some (term, _) =>
        fraction <- gets deposit_allocation_fraction ;;
        let deposit_amount := cash * fraction in
        if deposit_amount <=? 0 then ret []
        else
          n <- intent_id ;;
          ret [CreateDepositIntent n deposit_amount term]
    end.

Definition _execute_intention (acct : AccountView) (view : AgentView)
  : M t (list AgentIntent) :=
  intention <- gets current_intention ;;
  match intention with
  | WAIT => _execute_wait view
  | ACCUMULATE => _execute_accumulate acct view
  | DISTRIBUTE => _execute_distribute acct view
  | PARK_CAPITAL => _execute_park_capital acct view
  end.

Definition decide (acct : AccountView) (view : AgentView)
  : M t (list AgentIntent) :=
  aid <- gets agent_id ;;
  py_assert (Z.eqb (view_agent_id view) aid) ;;;
  py_assert (match economy_insight_view view with
             | Some _ => true | None => false end) ;;;
  _update_beliefs acct view ;;;
  _select_intention acct view ;;;
  _execute_intention acct view.

Fixpoint record_deposits (its : list (Z * option DepositView)) : M t unit :=
  match its with
  | [] => ret tt
  | (_, None) :: rest => record_deposits rest
  | (_, Some deposit_view) :: rest =>
      deposits <- gets active_deposits ;;
      modify (set_active_deposits
                (Dict.set deposits (deposit_id deposit_view) deposit_view)) ;;;
      record_deposits rest
  end.

Fixpoint record_orders (its : list (Z * option OrderView)) : M t unit :=
  match its with
  | [] => ret tt
  | (_, None) :: rest => record_orders rest
  | (_, Some order_view) :: rest =>
      orders <- gets pending_orders ;;
      modify (set_pending_orders
                (Dict.set orders (order_id order_view) order_view)) ;;;
      record_orders rest
  end.

Definition update (feedback : AgentFeedback) : M t unit :=
  record_deposits (Dict.items (deposit_results feedback)) ;;;
  record_orders (Dict.items (order_results feedback)).

(** The two purges of the class, [_cleanup_matured_deposits] and
    [_cleanup_done_orders]: each walks a snapshot of a book and deletes from
    the book itself.  No method of the class calls them. *)
Fixpoint cleanup_deposits_loop (current_macro_tick : Z)
  (its : list (Z * DepositView)) : M t unit :=
  match its with
  | [] => ret tt
  | (deposit_id, deposit_view) :: rest =>
      (if (current_macro_tick >=? maturity_macro_tick deposit_view)%Z then
         d <- gets active_deposits ;;
         d' <- lift (Dict.del d deposit_id) ;;
         modify (set_active_deposits d')
       else ret tt) ;;;
      cleanup_deposits_loop current_macro_tick rest
  end.

Definition _cleanup_matured_deposits (current_macro_tick : Z) : M t unit :=
  deposits <- gets active_deposits ;;
  cleanup_deposits_loop current_macro_tick (Dict.items deposits).

Fixpoint cleanup_orders_loop (its : list (Z * OrderView)) : M t unit :=
  match its with
  | [] => ret tt
  | (order_id, order_view) :: rest =>
      (if is_done (lifecycle order_view) then
         d <- gets pending_orders ;;
         d' <- lift (Dict.del d order_id) ;;
         modify (set_pending_orders d')
       else ret tt) ;;;
      cleanup_orders_loop rest
  end.

Definition _cleanup_done_orders : M t unit :=
  orders <- gets pending_orders ;;
  cleanup_orders_loop (Dict.items orders).

End ValueInvestor.

(** ** MomentumTrader (agents/agents/momentum_trader.py) *)

Module MomentumTrader.

Local Open Scope float_scope.

(** The signal tags ['ENTER_LONG'], ['ENTER_SHORT'], ['EXIT'], ['HOLD']. *)
Inductive Signal : Type := ENTER_LONG | ENTER_SHORT | EXIT | HOLD.

Record t : Type := {
  agent_id : Z;
  constants : AgentConstants;
  momentum_window : Z;
  entry_threshold : float;
  exit_threshold : float;
  aggressiveness : float;
  max_exposure_fraction : float;
  directional_bias : float;
  liquidity_baseline : Z;
  price_history : list float;
  active_orders : Dict.t OrderView;
  __intent_id : Z
}.

Definition __init__ (agent_id : Z) (constants : AgentConstants)
  (momentum_window : Z) (entry_threshold exit_threshold aggressiveness
     max_exposure_fraction directional_bias : float)
  (liquidity_baseline : Z) : t :=
  {| agent_id := agent_id;
     constants := constants;
     momentum_window := momentum_window;
     entry_threshold := entry_threshold;
     exit_threshold := exit_threshold;
     aggressiveness := aggressiveness;
     max_exposure_fraction := max_exposure_fraction;
     directional_bias := directional_bias;
     liquidity_baseline := liquidity_baseline;
     price_history := [];
     active_orders := Dict.empty;
     __intent_id := 0 |}.

(** Attribute assignments [self.x = v]. *)
Definition set_price_history (v : list float) (s : t) : t :=
  {| agent_id := agent_id s; constants := constants s;
     momentum_window := momentum_window s;
     entry_threshold := entry_threshold s;
     exit_threshold := exit_threshold s; aggressiveness := aggressiveness s;
     max_exposure_fraction := max_exposure_fraction s;
     directional_bias := directional_bias s;
     liquidity_baseline := liquidity_baseline s; price_history := v;
     active_orders := active_orders s; __intent_id := __intent_id s |}.

Definition set_active_orders (v : Dict.t OrderView) (s : t) : t :=
  {| agent_id := agent_id s; constants := constants s;
     momentum_window := momentum_window s;
     entry_threshold := entry_threshold s;
     exit_threshold := exit_threshold s; aggressiveness := aggressiveness s;
     max_exposure_fraction := max_exposure_fraction s;
     directional_bias := directional_bias s;
     liquidity_baseline := liquidity_baseline s;
     price_history := price_history s; active_orders := v;
     __intent_id := __intent_id s |}.

Definition set___intent_id (v : Z) (s : t) : t :=
  {| agent_id := agent_id s; constants := constants s;
     momentum_window := momentum_window s;
     entry_threshold := entry_threshold s;
     exit_threshold := exit_threshold s; aggressiveness := aggressiveness s;
     max_exposure_fraction := max_exposure_fraction s;
     directional_bias := directional_bias s;
     liquidity_baseline := liquidity_baseline s;
     price_history := price_history s; active_orders := active_orders s;
     __intent_id := v |}.

Definition reads {A : Type} (f : t -> result A) : M t A :=
  fun s => lift (f s) s.

Definition intent_id : M t Z :=
  fun s => Ok (__intent_id s, set___intent_id (__intent_id s + 1) s).

Definition _get_current_price (view : AgentView) : result (option float) :=
  match market_data_view view with
  | None => Raise AssertionError
  | Some md =>
      match last_traded_price md with
      | Some p => Ok (Some p)
      | None =>
      match mid_price md with
      | Some p => Ok (Some p)
      | None =>
      match micro_price md with
      | Some p => Ok (Some p)
      | None => Ok None
      end end end
  end.

Definition _update_price_history (view : AgentView) : M t unit :=
  current_price <- lift (_get_current_price view) ;;
  match current_price with
  | None => ret tt
  | Some p =>
      h <- gets price_history ;;
      modify (set_price_history (h ++ [p])) ;;;
      h <- gets price_history ;;
      w <- gets momentum_window ;;
      if (w <? Z.of_nat (length h))%Z
      then modify (set_price_history (tl h))
      else ret tt
  end.

(** The loop of [_calculate_momentum_signal] from index [i] on: [prev] is
    [price_history[i-1]] and [rest] is [price_history[i:]]. *)
Fixpoint momentum_loop (i : Z) (prev : float) (rest : list float)
  (total_weight weighted_return : float) : result (float * float) :=
  match rest with
  | [] => Ok (total_weight, weighted_return)
  | curr :: rest' =>
      acc <~ (if PyFloat.gtb prev 0 then
                r <~ PyFloat.truediv (curr - prev) prev ;;
                weight <~ PyFloat.of_int i ;;
                Ok (total_weight + weight, weighted_return + r * weight)
              else Ok (total_weight, weighted_return)) ;;
      let '(total_weight', weighted_return') := acc in
      momentum_loop (i + 1) curr rest' total_weight' weighted_return'
  end.

Definition _calculate_momentum_signal (self : t) : result float :=
  match price_history self with
  | [] | [_] => Ok 0
  | p0 :: rest =>
      acc <~ momentum_loop 1 p0 rest 0 0 ;;
      let '(total_weight, weighted_return) := acc in
      if PyFloat.gtb total_weight 0
      then PyFloat.truediv weighted_return total_weight
      else Ok 0
  end.

Definition _apply_directional_bias (momentum : float) (self : t) : float :=
  momentum + directional_bias self.

Definition _evaluate_signal (biased_momentum : float) (self : t) : Signal :=
  if PyFloat.gtb biased_momentum (entry_threshold self) then ENTER_LONG
  else if biased_momentum <? - entry_threshold self then ENTER_SHORT
  else if abs biased_momentum <? exit_threshold self then EXIT
  else HOLD.

Definition _calculate_liquidity_amplifier (view : AgentView) (self : t)
  : result float :=
  match market_data_view view with
  | None => Raise AssertionError
  | Some md =>
      let total_liquidity := 0%Z in
      let total_liquidity :=
        match L1_bids md with
        | Some l => (total_liquidity + l1_size l)%Z
        | None => total_liquidity
        end in
      let total_liquidity :=
        match L1_asks md with
        | Some l => (total_liquidity + l1_size l)%Z
        | None => total_liquidity
        end in
      if Z.eqb total_liquidity 0 then Ok 1
      else
        liquidity_ratio <~
          PyInt.truediv total_liquidity (liquidity_baseline self) ;;
        PyFloat.truediv 1 (PyFloat.max 0.5 (PyFloat.min 2 liquidity_ratio))
  end.

Definition _enter_long (acct : AccountView) (view : AgentView)
  : M t (list AgentIntent) :=
  let cash := cash acct in
  let shares := shares acct in
  cp <- lift (_get_current_price view) ;;
  match cp with
  | None => ret []
  | Some current_price =>
      sh <- lift (PyFloat.of_int shares) ;;
      let total_wealth := cash + sh * current_price in
      liquidity_amp <- reads (_calculate_liquidity_amplifier view) ;;
      aggr <- gets aggressiveness ;;
      let effective_aggressiveness := aggr * liquidity_amp in
      mef <- gets max_exposure_fraction ;;
      let target_value := total_wealth * mef * effective_aggressiveness in
      q <- lift (PyFloat.truediv target_value current_price) ;;
      target_shares <- lift (PyFloat.to_int q) ;;
      let additional_shares := (target_shares - shares)%Z in
      if (additional_shares <=? 0)%Z then ret []
      else
        c <- gets constants ;;
        add <- lift (PyFloat.of_int additional_shares) ;;
        let cost := add * current_price * (1 + fee_rate c) in
        additional_shares <-
          (if PyFloat.gtb cost cash then
             q <- lift (PyFloat.truediv cash
                          (current_price * (1 + fee_rate c))) ;;
             lift (PyFloat.to_int q)
           else ret additional_shares) ;;
        if (additional_shares <=? 0)%Z then ret []
        else
          n <- intent_id ;;
          ret [PlaceOrderIntent n BUY MARKET additional_shares None]
  end.

Definition _enter_short (acct : AccountView) (view : AgentView)
  : M t (list AgentIntent) :=
  let shares := shares acct in
  if (shares <=? 0)%Z then ret []
  else
    cp <- lift (_get_current_price view) ;;
    match cp with
    | None => ret []
    | Some current_price =>
        liquidity_amp <- reads (_calculate_liquidity_amplifier view) ;;
        aggr <- gets aggressiveness ;;
        let effective_aggressiveness := aggr * liquidity_amp in
        sh <- lift (PyFloat.of_int shares) ;;
        sell_quantity <- lift (PyFloat.to_int (sh * effective_aggressiveness)) ;;
        let sell_quantity := Z.min sell_quantity shares in
        if (sell_quantity <=? 0)%Z then ret []
        else
          n <- intent_id ;;
          ret [PlaceOrderIntent n SELL MARKET sell_quantity None]
    end.

Definition _exit_position (acct : AccountView) (view : AgentView)
  : M t (list AgentIntent) :=
  let shares := shares acct in
  if (0 <? shares)%Z then
    n <- intent_id ;;
    ret [PlaceOrderIntent n SELL MARKET shares None]
  else ret [].

Definition _act_on_signal (acct : AccountView) (signal : Signal)
  (view : AgentView) : M t (list AgentIntent) :=
  match signal with
  | ENTER_LONG => _enter_long acct view
  | ENTER_SHORT => _enter_short acct view
  | EXIT => _exit_position acct view
  | HOLD => ret []
  end.

Definition decide (acct : AccountView) (view : AgentView)
  : M t (list AgentIntent) :=
  aid <- gets agent_id ;;
  py_assert (Z.eqb (view_agent_id view) aid) ;;;
  py_assert (match market_data_view view with
             | Some _ => true | None => false end) ;;;
  _update_price_history view ;;;
  momentum <- reads _calculate_momentum_signal ;;
  biased_momentum <- gets (_apply_directional_bias momentum) ;;
  signal <- gets (_evaluate_signal biased_momentum) ;;
  _act_on_signal acct signal view.

Fixpoint record_results (its : list (Z * option OrderView)) : M t unit :=
  match its with
  | [] => ret tt
  | (_, None) :: rest => record_results rest
  | (_, Some order_view) :: rest =>
      orders <- gets active_orders ;;
      modify (set_active_orders
                (Dict.set orders (order_id order_view) order_view)) ;;;
      record_results rest
  end.

Fixpoint cleanup_loop (its : list (Z * OrderView)) : M t unit :=
  match its with
  | [] => ret tt
  | (oid, order_view) :: rest =>
      (if is_done (lifecycle order_view) then
         d <- gets active_orders ;;
         d' <- lift (Dict.del d oid) ;;
         modify (set_active_orders d')
       else ret tt) ;;;
      cleanup_loop rest
  end.

Definition _cleanup_done_orders : M t unit :=
  orders <- gets active_orders ;;
  cleanup_loop (Dict.items orders).

Definition update (feedback : AgentFeedback) : M t unit :=
  record_results (Dict.items (order_results feedback)) ;;;
  _cleanup_done_orders.

End MomentumTrader.

(** ** Coordination loop (simulation/core) *)

(** The external market.  Modelled from the spec: [environment] is not part
    of the sources; its operations (spec section 6) are the fields of an
    interface, each a transition of the market's own state that may raise.
    An order or a deposit may be refused: the view that comes back is
    optional, as the [is not None] tests of the agents' [update] expect.
    [account_of] is the content of the live account the market handed out
    for an agent id. *)
Class Market : Type := {
  Env : Type;
  create_order :
    Z -> OrderType -> Side -> Z -> option float -> Env ->
    result (option OrderView * Env);
  cancel_order : Z -> Z -> Env -> result Env;
  create_deposit :
    Z -> Z -> float -> Env -> result (option DepositView * Env);
  expire_session : Env -> result Env;
  get_market_data : Env -> MarketDataView;
  get_economy_insight : Env -> EconomyInsightView;
  account_of : Env -> Z -> AccountView
}.

(** The fourth agent class.  Modelled from the spec: [noise_trader.py] is
    not part of the sources; only the agent contract is known of it. *)
Class NoiseTraderModel : Type := {
  NoiseTrader : Type;
  noise_decide : AccountView -> AgentView -> M NoiseTrader (list AgentIntent);
  noise_update : AgentFeedback -> M NoiseTrader unit
}.

(** [random.Random]: the generator state, its construction from a seed and
    the draw [_randbelow(n)] that [shuffle] is built on. *)
Class RandomModel : Type := {
  Rng : Type;
  Random : Z -> Rng;
  randbelow : nat -> Rng -> nat * Rng
}.

Section Coordination.

Context {market : Market} {noise : NoiseTraderModel} {random : RandomModel}.

(** An agent object together with its class ([isinstance]). *)
Inductive Agent : Type :=
| AMarketMaker (a : MarketMaker.t)
| AValueInvestor (a : ValueInvestor.t)
| AMomentumTrader (a : MomentumTrader.t)
| ANoiseTrader (a : NoiseTrader).

Definition is_value_investor (a : Agent) : bool :=
  match a with AValueInvestor _ => true | _ => false end.

Definition is_market_maker (a : Agent) : bool :=
  match a with AMarketMaker _ => true | _ => false end.

Definition over {S A : Type} (inj : S -> Agent) (r : result (A * S))
  : result (A * Agent) :=
  match r with
  | Ok (a, s) => Ok (a, inj s)
  | Raise e => Raise e
  end.

(** [agent.decide(view)], dispatched on the class of the object. *)
Definition agent_decide (acct : AccountView) (view : AgentView) (a : Agent)
  : result (list AgentIntent * Agent) :=
  match a with
  | AMarketMaker s => over AMarketMaker (MarketMaker.decide acct view s)
  | AValueInvestor s => over AValueInvestor (ValueInvestor.decide acct view s)
  | AMomentumTrader s =>
      over AMomentumTrader (MomentumTrader.decide acct view s)
  | ANoiseTrader s => over ANoiseTrader (noise_decide acct view s)
  end.

(** [agent.update(feedback)]. *)
Definition agent_update (feedback : AgentFeedback) (a : Agent)
  : result (unit * Agent) :=
  match a with
  | AMarketMaker s => over AMarketMaker (MarketMaker.update feedback s)
  | AValueInvestor s => over AValueInvestor (ValueInvestor.update feedback s)
  | AMomentumTrader s =>
      over AMomentumTrader (MomentumTrader.update feedback s)
  | ANoiseTrader s => over ANoiseTrader (noise_update feedback s)
  end.

(** *** AgentManager (simulation/core/agent_manager.py) *)

(** The class dictionaries hold the same objects as [agents]; the scheduler
    reads only their keys, so they are kept as key sets. *)
Record AgentManager : Type := {
  rng : Rng;
  agents : Dict.t Agent;
  market_makers : Dict.t unit;
  value_investors : Dict.t unit;
  momentum_traders : Dict.t unit;
  noise_traders : Dict.t unit
}.

Definition AgentManager__init__ (random_seed : Z) : AgentManager :=
  {| rng := Random random_seed;
     agents := Dict.empty;
     market_makers := Dict.empty;
     value_investors := Dict.empty;
     momentum_traders := Dict.empty;
     noise_traders := Dict.empty |}.

Definition set_rng (r : Rng) (m : AgentManager) : AgentManager :=
  {| rng := r; agents := agents m; market_makers := market_makers m;
     value_investors := value_investors m;
     momentum_traders := momentum_traders m;
     noise_traders := noise_traders m |}.

Definition set_agents (d : Dict.t Agent) (m : AgentManager) : AgentManager :=
  {| rng := rng m; agents := d; market_makers := market_makers m;
     value_investors := value_investors m;
     momentum_traders := momentum_traders m;
     noise_traders := noise_traders m |}.

(** The two dictionary writes that end each pass of the four
    [_initialize_*] loops, for the [i]-th agent of a class. *)
Definition add_market_maker (i : Z) (a : MarketMaker.t) (m : AgentManager)
  : AgentManager :=
  let agent_id := (10000 + i)%Z in
  {| rng := rng m;
     agents := Dict.set (agents m) agent_id (AMarketMaker a);
     market_makers := Dict.set (market_makers m) agent_id tt;
     value_investors := value_investors m;
     momentum_traders := momentum_traders m;
     noise_traders := noise_traders m |}.

Definition add_value_investor (i : Z) (a : ValueInvestor.t)
  (m : AgentManager) : AgentManager :=
  let agent_id := (20000 + i)%Z in
  {| rng := rng m;
     agents := Dict.set (agents m) agent_id (AValueInvestor a);
     market_makers := market_makers m;
     value_investors := Dict.set (value_investors m) agent_id tt;
     momentum_traders := momentum_traders m;
     noise_traders := noise_traders m |}.

Definition add_momentum_trader (i : Z) (a : MomentumTrader.t)
  (m : AgentManager) : AgentManager :=
  let agent_id := (30000 + i)%Z in
  {| rng := rng m;
     agents := Dict.set (agents m) agent_id (AMomentumTrader a);
     market_makers := market_makers m;
     value_investors := value_investors m;
     momentum_traders := Dict.set (momentum_traders m) agent_id tt;
     noise_traders := noise_traders m |}.

Definition add_noise_trader (i : Z) (a : NoiseTrader) (m : AgentManager)
  : AgentManager :=
  let agent_id := (40000 + i)%Z in
  {| rng := rng m;
     agents := Dict.set (agents m) agent_id (ANoiseTrader a);
     market_makers := market_makers m;
     value_investors := value_investors m;
     momentum_traders := momentum_traders m;
     noise_traders := Dict.set (noise_traders m) agent_id tt |}.

(** The managers [initialize_agents] can build: starting from [__init__],
    agents are added class by class while parameter sampling advances the
    generator. *)
Inductive populated : AgentManager -> Prop :=
| populated_init (random_seed : Z) :
    populated (AgentManager__init__ random_seed)
| populated_sample (r : Rng) (m : AgentManager) :
    populated m -> populated (set_rng r m)
| populated_market_maker (i : Z) (a : MarketMaker.t) (m : AgentManager) :
    populated m -> populated (add_market_maker i a m)
| populated_value_investor (i : Z) (a : ValueInvestor.t) (m : AgentManager) :
    populated m -> populated (add_value_investor i a m)
| populated_momentum_trader (i : Z) (a : MomentumTrader.t)
    (m : AgentManager) :
    populated m -> populated (add_momentum_trader i a m)
| populated_noise_trader (i : Z) (a : NoiseTrader) (m : AgentManager) :
    populated m -> populated (add_noise_trader i a m).

(** [x[i], x[j] = x[j], x[i]] on a list. *)
Fixpoint list_set {A : Type} (x : list A) (i : nat) (v : A) : list A :=
  match x, i with
  | [], _ => []
  | _ :: x', O => v :: x'
  | a :: x', S i' => a :: list_set x' i' v
  end.

Definition swap {A : Type} (x : list A) (i j : nat) : result (list A) :=
  match nth_error x j, nth_error x i with
  | Some xj, Some xi => Ok (list_set (list_set x i xj) j xi)
  | _, _ => Raise IndexError
  end.

(** [random.shuffle]: for [i] from [len(x) - 1] down to [1], swap [x[i]]
    with [x[randbelow(i + 1)]]. *)
Fixpoint shuffle_loop {A : Type} (i : nat) (x : list A) (r : Rng)
  : result (list A * Rng) :=
  match i with
  | O => Ok (x, r)
  | S i' =>
      let '(j, r') := randbelow (i + 1) r in
      x' <~ swap x i j ;;
      shuffle_loop i' x' r'
  end.

Definition shuffle {A : Type} (x : list A) (r : Rng) : result (list A * Rng) :=
  shuffle_loop (length x - 1) x r.

Definition macro_tick_agents (m : AgentManager)
  : result (list (Z * Agent) * AgentManager) :=
  let candidates := Dict.items (agents m) in
  sh <~ shuffle candidates (rng m) ;;
  let '(candidates, r) := sh in
  Ok (candidates, set_rng r m).

Definition micro_tick_agents (m : AgentManager)
  : result (list (Z * Agent) * AgentManager) :=
  let candidates :=
    filter (fun '(aid, _) => negb (Dict.mem (value_investors m) aid))
      (Dict.items (agents m)) in
  sh <~ shuffle candidates (rng m) ;;
  let '(candidates, r) := sh in
  Ok (candidates, set_rng r m).

(** *** SimulationEngine (simulation/core/engine.py) *)

(** Modelled from the spec: the realtime-data singleton of
    [simulation.configs] is not part of the sources; it holds the two
    snapshots the engine refreshes and the clock [(MACRO_TICK, MICRO_TICK)],
    whose successive values are an input of [run_ticks]. *)
Record SimulationRealtimeData : Type := {
  MARKET_DATA_VIEW : option MarketDataView;
  ECONOMY_INSIGHT_VIEW : option EconomyInsightView
}.

Record SimulationEngine : Type := {
  env : Env;
  agent_manager : AgentManager;
  sim_data : SimulationRealtimeData
}.

Fixpoint process_loop (agent_id : Z) (intents : list AgentIntent)
  (order_results : Dict.t (option OrderView))
  (deposit_results : Dict.t (option DepositView)) (e : Env)
  : result (AgentFeedback * Env) :=
  match intents with
  | [] =>
      Ok ({| feedback_agent_id := agent_id;
             order_results := order_results;
             deposit_results := deposit_results |}, e)
  | PlaceOrderIntent n sd ot quantity price :: rest =>
      r <~ create_order agent_id ot sd quantity price e ;;
      let '(order_view, e') := r in
      process_loop agent_id rest
        (Dict.set order_results n order_view) deposit_results e'
  | CancelOrderIntent n oid :: rest =>
      e' <~ cancel_order agent_id oid e ;;
      process_loop agent_id rest
        (Dict.set order_results n None) deposit_results e'
  | CreateDepositIntent n amount term :: rest =>
      r <~ create_deposit agent_id term amount e ;;
      let '(deposit_view, e') := r in
      process_loop agent_id rest
        order_results (Dict.set deposit_results n deposit_view) e'
  end.

Definition _process_intents (agent_id : Z) (intents : list AgentIntent)
  (e : Env) : result (AgentFeedback * Env) :=
  process_loop agent_id intents Dict.empty Dict.empty e.

(** The view [_agent_loop] builds for an agent: the economy insight goes
    to value investors and market makers only. *)
Definition agent_view (sd : SimulationRealtimeData) (macro micro : Z)
  (agent_id : Z) (agent : Agent) : AgentView :=
  let economy_view :=
    if is_value_investor agent || is_market_maker agent
    then ECONOMY_INSIGHT_VIEW sd else None in
  {| view_agent_id := agent_id;
     macro_tick := macro;
     micro_tick := micro;
     market_data_view := MARKET_DATA_VIEW sd;
     economy_insight_view := economy_view |}.

(** One pass of the loop of [_agent_loop]: the turn of one agent. *)
Definition agent_turn (sd : SimulationRealtimeData) (macro micro : Z)
  (agent_id : Z) (agent : Agent) (e : Env) : result (Agent * Env) :=
  let view := agent_view sd macro micro agent_id agent in
  d <~ agent_decide (account_of e agent_id) view agent ;;
  let '(intents, agent) := d in
  match intents with
  | [] => Ok (agent, e)
  | _ :: _ =>
      if negb (is_value_investor agent)
         && negb (forallb (fun i => negb (is_deposit i)) intents)
      then Raise AssertionError
      else
        p <~ _process_intents agent_id intents e ;;
        let '(feedback, e) := p in
        u <~ agent_update feedback agent ;;
        let '(_, agent) := u in
        Ok (agent, e)
  end.

(** [_agent_loop]: the agents are objects, so what a turn changes in one is
    seen through the manager's dictionary afterwards. *)
Fixpoint _agent_loop (sd : SimulationRealtimeData)
  (agents_ : list (Z * Agent)) (macro micro : Z)
  (store : Dict.t Agent) (e : Env) : result (Dict.t Agent * Env) :=
  match agents_ with
  | [] => Ok (store, e)
  | (agent_id, agent) :: rest =>
      t <~ agent_turn sd macro micro agent_id agent e ;;
      let '(agent', e') := t in
      _agent_loop sd rest macro micro (Dict.set store agent_id agent') e'
  end.

Definition _update_views_macro (e : Env) (sd : SimulationRealtimeData)
  : SimulationRealtimeData :=
  {| MARKET_DATA_VIEW := Some (get_market_data e);
     ECONOMY_INSIGHT_VIEW := Some (get_economy_insight e) |}.

Definition _update_views_micro (e : Env) (sd : SimulationRealtimeData)
  : SimulationRealtimeData :=
  {| MARKET_DATA_VIEW := Some (get_market_data e);
     ECONOMY_INSIGHT_VIEW := ECONOMY_INSIGHT_VIEW sd |}.

(** The body of the loop of [run] at clock value [(macro, micro)]; the
    execution order it drew is returned beside the new state. *)
Definition tick (macro micro : Z) (eng : SimulationEngine)
  : result (list Z * SimulationEngine) :=
  if Z.eqb micro 0 then
    e <~ expire_session (env eng) ;;
    let sd := _update_views_macro e (sim_data eng) in
    a <~ macro_tick_agents (agent_manager eng) ;;
    let '(agents_, m) := a in
    l <~ _agent_loop sd agents_ macro micro (agents m) e ;;
    let '(store, e) := l in
    Ok (map fst agents_,
        {| env := e; agent_manager := set_agents store m; sim_data := sd |})
  else
    let e := env eng in
    let sd := _update_views_micro e (sim_data eng) in
    a <~ micro_tick_agents (agent_manager eng) ;;
    let '(agents_, m) := a in
    l <~ _agent_loop sd agents_ macro micro (agents m) e ;;
    let '(store, e) := l in
    Ok (map fst agents_,
        {| env := e; agent_manager := set_agents store m; sim_data := sd |}).

(** [run] over the successive clock values. *)
Fixpoint run_ticks (clock : list (Z * Z)) (eng : SimulationEngine)
  : result (list (list Z) * SimulationEngine) :=
  match clock with
  | [] => Ok ([], eng)
  | (macro, micro) :: rest =>
      t <~ tick macro micro eng ;;
      let '(order, eng') := t in
      r <~ run_ticks rest eng' ;;
      let '(orders, eng'') := r in
      Ok (order :: orders, eng'')
  end.

End Coordination.

(** ** Properties *)

(** *** Reasoning about methods *)

Lemma bind_ok {S A B : Type} (m : M S A) (k : A -> M S B) s b s'' :
  bind m k s = Ok (b, s'') ->
  exists a s', m s = Ok (a, s') /\ k a s' = Ok (b, s'').
Proof.
  unfold bind. destruct (m s) as [[a s']|e]; [|discriminate].
  intros H. exists a, s'. split; [reflexivity|exact H].
Qed.

Lemma rbind_ok {A B : Type} (r : result A) (k : A -> result B) b :
  rbind r k = Ok b -> exists a, r = Ok a /\ k a = Ok b.
Proof.
  destruct r as [a|e]; simpl; [|discriminate].
  intros H. exists a. split; [reflexivity|exact H].
Qed.

Lemma ret_ok {S A : Type} (a : A) (s : S) b s' :
  ret a s = Ok (b, s') -> b = a /\ s' = s.
Proof. unfold ret. intros H. inversion H. split; reflexivity. Qed.

Lemma gets_ok {S A : Type} (f : S -> A) (s : S) b s' :
  gets f s = Ok (b, s') -> b = f s /\ s' = s.
Proof. unfold gets. intros H. inversion H. split; reflexivity. Qed.

Lemma modify_ok {S : Type} (f : S -> S) (s : S) b s' :
  modify f s = Ok (b, s') -> s' = f s.
Proof. unfold modify. intros H. inversion H. reflexivity. Qed.

Lemma lift_ok {S A : Type} (r : result A) (s : S) b s' :
  lift r s = Ok (b, s') -> r = Ok b /\ s' = s.
Proof.
  unfold lift. destruct r; [|discriminate].
  intros H. inversion H. split; reflexivity.
Qed.

Lemma py_assert_ok {S : Type} (c : bool) (s : S) b s' :
  py_assert c s = Ok (b, s') -> c = true /\ s' = s.
Proof.
  unfold py_assert. destruct c; [|discriminate].
  intros H. inversion H. split; reflexivity.
Qed.

(** Backward symbolic execution of a method call that returned. *)
Ltac monad_inv_step :=
  match goal with
  | H : Raise _ = Ok _ |- _ => discriminate H
  | H : Ok _ = Ok _ |- _ => inversion H; subst; clear H
  | H : bind _ _ _ = Ok _ |- _ =>
      let a := fresh "a" in let s := fresh "s" in
      let H1 := fresh "H" in
      apply bind_ok in H; destruct H as (a & s & H1 & H)
  | H : rbind _ _ = Ok _ |- _ =>
      let a := fresh "a" in let H1 := fresh "H" in
      apply rbind_ok in H; destruct H as (a & H1 & H)
  | H : ret _ _ = Ok _ |- _ =>
      apply ret_ok in H; destruct H; subst
  | H : gets _ _ = Ok _ |- _ =>
      apply gets_ok in H; destruct H; subst
  | H : modify _ _ = Ok _ |- _ =>
      apply modify_ok in H; subst
  | H : lift _ _ = Ok _ |- _ =>
      apply lift_ok in H; destruct H; subst
  | H : py_assert _ _ = Ok _ |- _ =>
      apply py_assert_ok in H; destruct H; subst
  | H : (let '(_, _) := ?p in _) = Ok _ |- _ => destruct p
  | H : (let '(_, _) := ?p in _) _ = Ok _ |- _ => destruct p
  | H : (if ?c then _ else _) = Ok _ |- _ => destruct c eqn:?
  | H : (if ?c then _ else _) _ = Ok _ |- _ => destruct c eqn:?
  | H : match ?x with _ => _ end = Ok _ |- _ => destruct x eqn:?
  | H : match ?x with _ => _ end _ = Ok _ |- _ => destruct x eqn:?
  end.

Ltac monad_inv := repeat monad_inv_step.

(** *** Dictionaries *)

Definition dict_wf {V : Type} (d : Dict.t V) : Prop := NoDup (Dict.keys d).

Lemma dict_keys_set {V : Type} (d : Dict.t V) k v :
  Dict.keys (Dict.set d k v) =
  if Dict.mem d k then Dict.keys d else Dict.keys d ++ [k].
Proof.
  unfold Dict.mem, Dict.keys.
  induction d as [|[k' v'] d IH]; simpl; [reflexivity|].
  destruct (Z.eqb_spec k k') as [->|Hne]; simpl; [reflexivity|].
  rewrite IH. destruct (Dict.get d k); reflexivity.
Qed.

Lemma dict_get_in {V : Type} (d : Dict.t V) k v :
  Dict.get d k = Some v -> In (k, v) d.
Proof.
  induction d as [|[k' v'] d IH]; simpl; [discriminate|].
  destruct (Z.eqb_spec k k') as [->|Hne].
  - intros H. inversion H. left. reflexivity.
  - intros H. right. apply IH, H.
Qed.

Lemma dict_mem_keys {V : Type} (d : Dict.t V) k :
  Dict.mem d k = true <-> In k (Dict.keys d).
Proof.
  unfold Dict.mem, Dict.keys.
  induction d as [|[k' v'] d IH]; simpl.
  - split; [discriminate|tauto].
  - destruct (Z.eqb_spec k k') as [->|Hne].
    + split; auto.
    + rewrite IH. split; [auto|]. intros [H|H]; [congruence|exact H].
Qed.

Lemma dict_in_get {V : Type} (d : Dict.t V) k v :
  dict_wf d -> In (k, v) d -> Dict.get d k = Some v.
Proof.
  unfold dict_wf, Dict.keys.
  induction d as [|[k' v'] d IH]; simpl; [tauto|].
  intros Hnd Hin. inversion Hnd as [|? ? Hnotin Hnd']; subst.
  destruct Hin as [Heq|Hin].
  - inversion Heq; subst. rewrite Z.eqb_refl. reflexivity.
  - destruct (Z.eqb_spec k k') as [->|Hne].
    + exfalso. apply Hnotin. apply (in_map fst) in Hin. exact Hin.
    + apply IH; assumption.
Qed.

Lemma dict_wf_set {V : Type} (d : Dict.t V) k v :
  dict_wf d -> dict_wf (Dict.set d k v).
Proof.
  unfold dict_wf. rewrite dict_keys_set.
  destruct (Dict.mem d k) eqn:Hm; [tauto|].
  intros Hnd. apply NoDup_app; [exact Hnd|repeat constructor; simpl; tauto|].
  intros x Hx [<-|[]].
  apply dict_mem_keys in Hx. congruence.
Qed.

(** *** MomentumTrader: the momentum signal *)

Local Open Scope float_scope.

(** C4. The weighted momentum signal is strictly positive on the history
    [100, 101, 102], strictly negative on [102, 101, 100], and exactly
    [0.0] on every history with fewer than two prices. *)
Theorem momentum_signal_sign (s : MomentumTrader.t) :
  (exists v,
     MomentumTrader._calculate_momentum_signal
       (MomentumTrader.set_price_history [100; 101; 102] s) = Ok v
     /\ PyFloat.gtb v 0 = true)
  /\ (exists v,
        MomentumTrader._calculate_momentum_signal
          (MomentumTrader.set_price_history [102; 101; 100] s) = Ok v
        /\ (v <? 0) = true)
  /\ (forall h : list float,
        (length h < 2)%nat ->
        MomentumTrader._calculate_momentum_signal
          (MomentumTrader.set_price_history h s) = Ok 0).
Proof.
  split; [|split].
  - eexists. split; [vm_compute; reflexivity|vm_compute; reflexivity].
  - eexists. split; [vm_compute; reflexivity|vm_compute; reflexivity].
  - intros h Hlen. unfold MomentumTrader._calculate_momentum_signal. simpl.
    destruct h as [|p0 [|p1 h]]; [reflexivity|reflexivity|].
    simpl in Hlen. lia.
Qed.

(** *** MomentumTrader: the liquidity amplifier *)

(** The sum of the best-bid and best-ask sizes; a missing side counts 0. *)
Definition total_top_of_book_size (md : MarketDataView) : Z :=
  (match L1_bids md with Some l => l1_size l | None => 0 end
   + match L1_asks md with Some l => l1_size l | None => 0 end)%Z.

Definition clamp (x lo hi : float) : float :=
  PyFloat.max lo (PyFloat.min hi x).

(** The amplifier in the words of the specification:
    [1 / clamp(total_top_of_book_size / liquidity_baseline, 0.5, 2.0)]. *)
Definition amplifier_formula (total baseline : Z) : result float :=
  ratio <~ PyInt.truediv total baseline ;;
  PyFloat.truediv 1 (clamp ratio 0.5 2).

Lemma float_neq (x y : float) : Prim2SF x <> Prim2SF y -> x <> y.
Proof. intros H E. apply H. rewrite E. reflexivity. Qed.

Lemma total_liquidity_unfold (md : MarketDataView) :
  (let total_liquidity := 0%Z in
   let total_liquidity :=
     match L1_bids md with
     | Some l => (total_liquidity + l1_size l)%Z
     | None => total_liquidity
     end in
   match L1_asks md with
   | Some l => (total_liquidity + l1_size l)%Z
   | None => total_liquidity
   end) = total_top_of_book_size md.
Proof.
  unfold total_top_of_book_size.
  destruct (L1_bids md), (L1_asks md); simpl; lia.
Qed.

(** C5, as amended. With an empty top of book (total size 0) the amplifier
    is the neutral 1.0; otherwise it is
    [1 / clamp(total / liquidity_baseline, 0.5, 2.0)], which is 2.0 as soon
    as the ratio does not exceed 0.5 and 0.5 as soon as it reaches 2.0. *)
Theorem liquidity_amplifier_spec (view : AgentView) (self : MomentumTrader.t)
  (md : MarketDataView) :
  market_data_view view = Some md ->
  let total := total_top_of_book_size md in
  let baseline := MomentumTrader.liquidity_baseline self in
  MomentumTrader._calculate_liquidity_amplifier view self =
    (if Z.eqb total 0 then Ok 1 else amplifier_formula total baseline)
  /\ (forall ratio,
        PyInt.truediv total baseline = Ok ratio ->
        ((ratio <? 2) = false -> amplifier_formula total baseline = Ok 0.5)
        /\ ((ratio <? 2) = true -> (0.5 <? ratio) = false ->
            amplifier_formula total baseline = Ok 2)).
Proof.
  intros Hmd total baseline. split.
  - unfold MomentumTrader._calculate_liquidity_amplifier. rewrite Hmd.
    rewrite total_liquidity_unfold. fold total.
    destruct (Z.eqb total 0); reflexivity.
  - intros ratio Hr. unfold amplifier_formula, clamp, PyFloat.min, PyFloat.max.
    rewrite Hr. simpl. split.
    + intros H2. rewrite H2. reflexivity.
    + intros H2 H05. rewrite H2, H05. reflexivity.
Qed.

(** *** ValueInvestor: beliefs and intention selection *)

Lemma vi_estimate_market_price_frame (view : AgentView)
  (s : ValueInvestor.t) mp s' :
  ValueInvestor._estimate_market_price view s = Ok (mp, s') ->
  s' = ValueInvestor.set_last_known_price mp s.
Proof.
  unfold ValueInvestor._estimate_market_price. intros H.
  monad_inv; try reflexivity.
  match goal with |- ?x = _ => destruct x; reflexivity end.
Qed.







(** *** MarketMaker: building blocks *)

Lemma mm_set_intent_id_same (s : MarketMaker.t) :
  MarketMaker.set___intent_id (MarketMaker.__intent_id s) s = s.
Proof. destruct s; reflexivity. Qed.

Lemma mm_set_last_known_price_same (s : MarketMaker.t) :
  MarketMaker.set_last_known_price (MarketMaker.last_known_price s) s = s.
Proof. destruct s; reflexivity. Qed.

(** The cancel intents for the order ids [oids], numbered from [n]. *)
Fixpoint mk_cancels (n : Z) (oids : list Z) : list AgentIntent :=
  match oids with
  | [] => []
  | oid :: rest => CancelOrderIntent n oid :: mk_cancels (n + 1) rest
  end.

(** The ids of the cached orders that [sel] selects, in cache order. *)
Definition selected (sel : OrderView -> bool) (its : list (Z * OrderView))
  : list Z :=
  map fst (filter (fun p => sel (snd p)) its).

Lemma mk_cancels_length n oids : length (mk_cancels n oids) = length oids.
Proof. revert n. induction oids; intros n; simpl; [|rewrite IHoids]; reflexivity. Qed.

Lemma mk_cancels_ids n oids :
  map intent_id_of (mk_cancels n oids) = zseq n (length oids).
Proof.
  revert n. induction oids; intros n; simpl; [|rewrite IHoids]; reflexivity.
Qed.

Lemma mk_cancels_app n l1 l2 :
  mk_cancels n (l1 ++ l2) =
  mk_cancels n l1 ++ mk_cancels (n + Z.of_nat (length l1)) l2.
Proof.
  revert n. induction l1 as [|a l1 IH]; intros n; simpl.
  - rewrite Z.add_0_r. reflexivity.
  - rewrite IH. do 3 f_equal. lia.
Qed.

Lemma mk_cancels_in n oids i :
  In i (mk_cancels n oids) ->
  exists m oid, i = CancelOrderIntent m oid /\ In oid oids.
Proof.
  revert n. induction oids as [|a oids IH]; intros n; simpl; [tauto|].
  intros [<-|H].
  - exists n, a. auto.
  - destruct (IH _ H) as (m & oid & -> & Hin). exists m, oid. auto.
Qed.

Lemma zseq_app n a b :
  zseq n (a + b) = zseq n a ++ zseq (n + Z.of_nat a) b.
Proof.
  revert n. induction a as [|a IH]; intros n; simpl.
  - rewrite Z.add_0_r. reflexivity.
  - rewrite IH. do 2 f_equal. f_equal. lia.
Qed.

Lemma cancel_where_eq (sel : OrderView -> bool) (its : list (Z * OrderView))
  (s : MarketMaker.t) :
  MarketMaker.cancel_where sel its s =
  Ok (mk_cancels (MarketMaker.__intent_id s) (selected sel its),
      MarketMaker.set___intent_id
        (MarketMaker.__intent_id s + Z.of_nat (length (selected sel its))) s).
Proof.
  revert s. induction its as [|[oid ov] its IH]; intros s.
  - simpl. rewrite Z.add_0_r, mm_set_intent_id_same. reflexivity.
  - unfold selected. simpl. destruct (sel ov); simpl.
    + unfold bind at 1. unfold MarketMaker.intent_id.
      unfold bind. rewrite IH. unfold ret. simpl.
      do 2 f_equal. destruct s; unfold MarketMaker.set___intent_id; simpl.
      f_equal. unfold selected. lia.
    + apply IH.
Qed.

Lemma mm_estimate_price_frame (view : AgentView) (s : MarketMaker.t) mp s' :
  MarketMaker._estimate_price view s = Ok (mp, s') ->
  (exists p, mp = Some p)
  /\ exists lkp, s' = MarketMaker.set_last_known_price lkp s.
Proof.
  unfold MarketMaker._estimate_price. intros H.
  monad_inv; (split; [eexists; reflexivity|]);
    try (eexists; reflexivity).
  - exists (MarketMaker.last_known_price s).
    rewrite mm_set_last_known_price_same. reflexivity.
  - exists (MarketMaker.last_known_price s).
    rewrite mm_set_last_known_price_same. reflexivity.
Qed.

(** What [_estimate_price] returns depends on the last known price only. *)
Lemma mm_estimate_price_ext (view : AgentView) (s1 s2 : MarketMaker.t) mp s1' :
  MarketMaker.last_known_price s1 = MarketMaker.last_known_price s2 ->
  MarketMaker._estimate_price view s1 = Ok (mp, s1') ->
  exists s2', MarketMaker._estimate_price view s2 = Ok (mp, s2').
Proof.
  unfold MarketMaker._estimate_price. intros Hl H.
  destruct (market_data_view view) as [md|]; [|discriminate].
  destruct (mid_price md); [monad_inv; eexists; reflexivity|].
  destruct (micro_price md); [monad_inv; eexists; reflexivity|].
  destruct (last_traded_price md); [monad_inv; eexists; reflexivity|].
  unfold bind, gets in *. rewrite <- Hl.
  destruct (MarketMaker.last_known_price s1).
  - monad_inv. eexists; reflexivity.
  - destruct (economy_insight_view view); [|discriminate].
    destruct (tv_interval e). monad_inv. eexists; reflexivity.
Qed.

Lemma mm_reads_ok {A : Type} (f : MarketMaker.t -> result A) s a s' :
  MarketMaker.reads f s = Ok (a, s') -> f s = Ok a /\ s' = s.
Proof. unfold MarketMaker.reads. apply lift_ok. Qed.

Lemma mm_intent_id_ok s n s' :
  MarketMaker.intent_id s = Ok (n, s') ->
  n = MarketMaker.__intent_id s
  /\ s' = MarketMaker.set___intent_id (MarketMaker.__intent_id s + 1) s.
Proof. unfold MarketMaker.intent_id. intros H. inversion H. auto. Qed.

Ltac mm_simpl :=
  cbn [MarketMaker.agent_id MarketMaker.constants
       MarketMaker.target_inventory_fraction MarketMaker.risk_lower_bound
       MarketMaker.risk_upper_bound MarketMaker.stabilization_tolerance
       MarketMaker.spread_size MarketMaker.order_size MarketMaker.wait_time
       MarketMaker.skew_factor MarketMaker.active_bids
       MarketMaker.active_asks MarketMaker.last_known_price
       MarketMaker.last_quote_tick MarketMaker.current_micro_tick
       MarketMaker.last_mid_price MarketMaker.last_inventory_ratio
       MarketMaker.layer_changed MarketMaker.order_filled_this_tick
       MarketMaker._last_layer MarketMaker.current_global_tick
       MarketMaker.last_quote_global_tick MarketMaker.__intent_id
       MarketMaker.set_active_bids MarketMaker.set_active_asks
       MarketMaker.set_last_known_price MarketMaker.set_current_micro_tick
       MarketMaker.set_last_mid_price MarketMaker.set_last_inventory_ratio
       MarketMaker.set_layer_changed MarketMaker.set_order_filled_this_tick
       MarketMaker.set__last_layer MarketMaker.set_current_global_tick
       MarketMaker.set_last_quote_global_tick MarketMaker.set___intent_id] in *.

Ltac mm_inv_step :=
  first
    [ monad_inv_step
    | match goal with
      | H : MarketMaker.reads _ _ = Ok _ |- _ =>
          apply mm_reads_ok in H; destruct H as [H ?]; subst
      | H : MarketMaker.intent_id _ = Ok _ |- _ =>
          apply mm_intent_id_ok in H; destruct H; subst
      | H : MarketMaker.cancel_where _ _ _ = Ok _ |- _ =>
          rewrite cancel_where_eq in H
      end ].

Ltac mm_inv := repeat (mm_inv_step; mm_simpl).

(** The intents [l] carry the ids the counter hands out from state [s] on,
    and [s'] has the counter advanced past them. *)
Definition mm_issues (s : MarketMaker.t) (l : list AgentIntent)
  (s' : MarketMaker.t) : Prop :=
  map intent_id_of l = zseq (MarketMaker.__intent_id s) (length l)
  /\ MarketMaker.__intent_id s' =
     (MarketMaker.__intent_id s + Z.of_nat (length l))%Z.

(** What [decide] leaves alone: the order caches and the fill flag. *)
Definition mm_frame (s s' : MarketMaker.t) : Prop :=
  MarketMaker.active_bids s' = MarketMaker.active_bids s
  /\ MarketMaker.active_asks s' = MarketMaker.active_asks s
  /\ MarketMaker.order_filled_this_tick s' =
     MarketMaker.order_filled_this_tick s.

Lemma ids_app n l1 l2 :
  map intent_id_of l1 = zseq n (length l1) ->
  map intent_id_of l2 = zseq (n + Z.of_nat (length l1)) (length l2) ->
  map intent_id_of (l1 ++ l2) = zseq n (length (l1 ++ l2)).
Proof.
  intros H1 H2. rewrite map_app, length_app, zseq_app, H1, H2. reflexivity.
Qed.

Ltac ids_solve :=
  repeat apply ids_app;
  cbn [MarketMaker.opt_to_list map length intent_id_of zseq app];
  rewrite ?length_app, ?mk_cancels_length;
  cbn [length];
  first [ apply mk_cancels_ids | reflexivity | f_equal; lia ].

Ltac mm_issues_solve :=
  unfold mm_issues; mm_simpl; split;
  [ ids_solve
  | cbn [MarketMaker.opt_to_list length app];
    rewrite ?length_app, ?mk_cancels_length; cbn [length]; lia ].

Ltac mm_frame_solve :=
  unfold mm_frame; mm_simpl; repeat split; reflexivity.

Lemma mm_survive_layer_ok acct view s l s' :
  MarketMaker._survive_layer acct view s = Ok (l, s') ->
  mm_issues s l s' /\ mm_frame s s'.
Proof.
  unfold MarketMaker._survive_layer, MarketMaker._cancel_all_orders,
    MarketMaker._create_panic_sell_intent,
    MarketMaker._create_panic_buy_intent.
  intros H. mm_inv.
  all: try match goal with
    | E : MarketMaker._estimate_price _ _ = Ok _ |- _ =>
        apply mm_estimate_price_frame in E;
        destruct E as [[? ?] [? ?]]; subst; mm_simpl
    end.
  all: try discriminate.
  all: split; [mm_issues_solve|mm_frame_solve].
Qed.

Ltac mm_estimate_frame :=
  try match goal with
    | E : MarketMaker._estimate_price _ _ = Ok _ |- _ =>
        apply mm_estimate_price_frame in E;
        destruct E as [[? ?] [? ?]]; subst; mm_simpl
    end.

Lemma mm_stabilize_layer_ok acct view s l s' :
  MarketMaker._stabilize_layer acct view s = Ok (l, s') ->
  mm_issues s l s' /\ mm_frame s s'.
Proof.
  unfold MarketMaker._stabilize_layer, MarketMaker._selective_stabilize_cancel.
  intros H. mm_inv.
  all: mm_estimate_frame.
  all: try discriminate.
  all: split; [mm_issues_solve|mm_frame_solve].
Qed.

Lemma mm_provide_layer_ok acct view s l s' :
  MarketMaker._provide_layer acct view s = Ok (l, s') ->
  mm_issues s l s' /\ mm_frame s s'.
Proof.
  unfold MarketMaker._provide_layer, MarketMaker._cancel_non_equivalent_orders.
  intros H. mm_inv.
  all: mm_estimate_frame.
  all: try discriminate.
  all: try match goal with
    | E : _ ++ _ = _ :: _ |- _ => rewrite <- E
    | E : _ ++ _ = [] |- _ =>
        pose proof (f_equal (@length _) E) as Hlen;
        rewrite ?length_app, ?mk_cancels_length in Hlen;
        cbn [length] in Hlen
    end.
  all: split; [mm_issues_solve|mm_frame_solve].
Qed.

(** What the first half of [decide] does before it enters a layer: it
    touches neither the counter, the caches, the fill flag, the last known
    price nor any parameter. *)
Definition mm_same_inputs (s s0 : MarketMaker.t) : Prop :=
  MarketMaker.__intent_id s0 = MarketMaker.__intent_id s
  /\ MarketMaker.active_bids s0 = MarketMaker.active_bids s
  /\ MarketMaker.active_asks s0 = MarketMaker.active_asks s
  /\ MarketMaker.order_filled_this_tick s0 =
     MarketMaker.order_filled_this_tick s
  /\ MarketMaker.last_known_price s0 = MarketMaker.last_known_price s
  /\ MarketMaker.target_inventory_fraction s0 =
     MarketMaker.target_inventory_fraction s
  /\ MarketMaker.risk_lower_bound s0 = MarketMaker.risk_lower_bound s
  /\ MarketMaker.risk_upper_bound s0 = MarketMaker.risk_upper_bound s
  /\ MarketMaker.spread_size s0 = MarketMaker.spread_size s
  /\ MarketMaker.order_size s0 = MarketMaker.order_size s
  /\ MarketMaker.constants s0 = MarketMaker.constants s.

(** [decide] is its prefix followed by the layer that
    [_determine_current_layer] names. *)
Lemma mm_decide_dispatch acct view s l s' :
  MarketMaker.decide acct view s = Ok (l, s') ->
  exists layer s0,
    MarketMaker._determine_current_layer acct s = Ok layer
    /\ mm_same_inputs s s0
    /\ MarketMaker._last_layer s0 = layer
    /\ MarketMaker.is_some (market_data_view view) = true
    /\ MarketMaker.is_some (economy_insight_view view) = true
    /\ match layer with
       | MarketMaker.SURVIVE => MarketMaker._survive_layer acct view s0
       | MarketMaker.STABILIZE => MarketMaker._stabilize_layer acct view s0
       | MarketMaker.PROVIDE => MarketMaker._provide_layer acct view s0
       end = Ok (l, s').
Proof.
  unfold MarketMaker.decide. intros H.
  mm_inv.
  all: match goal with
       | HL : MarketMaker._determine_current_layer _ _ = Ok ?L,
         HR : _ _ _ ?S0 = Ok (_, _) |- _ =>
           exists L, S0; repeat split; try assumption; try exact HR
       end.
  all: unfold MarketMaker._determine_current_layer,
         MarketMaker._should_survive, MarketMaker._should_stabilize,
         MarketMaker._calculate_inventory_ratio in *; mm_simpl;
       assumption.
Qed.

Lemma mm_decide_ok acct view s l s' :
  MarketMaker.decide acct view s = Ok (l, s') ->
  mm_issues s l s' /\ mm_frame s s'.
Proof.
  intros H. apply mm_decide_dispatch in H.
  destruct H as (layer & s0 & _ & Hin & _ & _ & _ & H).
  destruct Hin as (Hc & Hb & Ha & Hf & _).
  assert (Hl : mm_issues s0 l s' /\ mm_frame s0 s').
  { destruct layer;
      [ apply (mm_survive_layer_ok acct view)
      | apply (mm_stabilize_layer_ok acct view)
      | apply (mm_provide_layer_ok acct view) ]; exact H. }
  unfold mm_issues, mm_frame in *.
  rewrite Hc, Hb, Ha, Hf in Hl. exact Hl.
Qed.

(** *** MarketMaker: the SURVIVE layer *)

Definition working (o : OrderView) : bool := is_working (lifecycle o).

(** One cancel intent for each working order of the two caches, bids
    first, numbered from the counter of [s]. *)
Definition all_cancels (s : MarketMaker.t) : list AgentIntent :=
  mk_cancels (MarketMaker.__intent_id s)
    (selected working (Dict.items (MarketMaker.active_bids s))
     ++ selected working (Dict.items (MarketMaker.active_asks s))).

(** What follows the cancels when there are too many shares: nothing
    without shares, else one limit sell at [max(0.01, mid - 5 * spread)]
    for [min(shares, 3 * order_size)]. *)
Definition panic_sell_tail (acct : AccountView) (view : AgentView)
  (s : MarketMaker.t) (n : Z) (tail : list AgentIntent) : Prop :=
  if (shares acct <=? 0)%Z then tail = []
  else
    exists mid s1 off,
      MarketMaker._estimate_price view s = Ok (Some mid, s1)
      /\ PyFloat.of_int (5 * MarketMaker.spread_size s) = Ok off
      /\ tail =
         [PlaceOrderIntent n SELL LIMIT
            (Z.min (shares acct) (MarketMaker.order_size s * 3))
            (Some (PyFloat.max 0.01 (mid - off)))].

(** What follows the cancels when there is too much cash: nothing without
    cash or when not even one share is affordable, else one limit buy at
    [mid + 5 * spread] for [min(affordable, 3 * order_size)]. *)
Definition panic_buy_tail (acct : AccountView) (view : AgentView)
  (s : MarketMaker.t) (n : Z) (tail : list AgentIntent) : Prop :=
  if cash acct <=? 0 then tail = []
  else
    exists mid s1 off q max_quantity,
      MarketMaker._estimate_price view s = Ok (Some mid, s1)
      /\ PyFloat.of_int (5 * MarketMaker.spread_size s) = Ok off
      /\ PyFloat.truediv (cash acct)
           ((mid + off) * (1 + fee_rate (MarketMaker.constants s))) = Ok q
      /\ PyFloat.to_int q = Ok max_quantity
      /\ let quantity :=
           Z.min max_quantity (MarketMaker.order_size s * 3) in
         if (quantity <=? 0)%Z then tail = []
         else tail = [PlaceOrderIntent n BUY LIMIT quantity
                        (Some (mid + off))].

Lemma mm_survive_layer_spec acct view s r l s' :
  MarketMaker._calculate_inventory_ratio acct s = Ok r ->
  MarketMaker._survive_layer acct view s = Ok (l, s') ->
  exists tail,
    l = all_cancels s ++ tail
    /\ let n := (MarketMaker.__intent_id s
                 + Z.of_nat (length (all_cancels s)))%Z in
       if r <? MarketMaker.risk_lower_bound s
       then panic_sell_tail acct view s n tail
       else if PyFloat.gtb r (MarketMaker.risk_upper_bound s)
            then panic_buy_tail acct view s n tail
            else tail = [].
Proof.
  intros Hr H.
  unfold MarketMaker._survive_layer, MarketMaker._cancel_all_orders,
    MarketMaker._create_panic_sell_intent,
    MarketMaker._create_panic_buy_intent in H.
  mm_inv; try discriminate;
    match goal with
    | E : MarketMaker._calculate_inventory_ratio _ _ = Ok ?a |- _ =>
        assert (a = r) by
          (unfold MarketMaker._calculate_inventory_ratio in *;
           mm_simpl; congruence); subst a
    end;
    try match goal with
      | E : MarketMaker._estimate_price _ ?S = Ok (?mp, ?s2) |- _ =>
          let HX := fresh "HX" in
          assert (HX : exists s1,
                     MarketMaker._estimate_price view s = Ok (mp, s1))
            by (apply (mm_estimate_price_ext view S s mp s2);
                [reflexivity|exact E]);
          destruct HX as [s1 HX];
          apply mm_estimate_price_frame in E;
          destruct E as [[p Hp] [lkp Hs2]];
          try discriminate Hp; subst s2; mm_simpl
      end;
    unfold all_cancels; rewrite mk_cancels_app; fold working;
    (first [ eexists; split; [reflexivity|]
           | exists []; split; [rewrite app_nil_r; reflexivity|] ]);
    rewrite length_app, !mk_cancels_length; cbv zeta;
    repeat match goal with
      | E : (_ <? _) = _ |- _ => rewrite E
      | E : PyFloat.gtb _ _ = _ |- _ => rewrite E
      end;
    unfold panic_sell_tail, panic_buy_tail;
    repeat match goal with
      | E : (_ <=? _)%Z = _ |- _ => rewrite E
      | E : (_ <=? _) = _ |- _ => rewrite E
      end;
    try reflexivity.
  - do 3 eexists. split; [eassumption|]. split; [eassumption|].
    cbn [MarketMaker.opt_to_list]. do 2 f_equal. lia.
  - do 5 eexists. split; [eassumption|]. split; [eassumption|].
    split; [eassumption|]. split; [eassumption|].
    cbv zeta.
    match goal with E : (Z.min _ _ <=? 0)%Z = _ |- _ => rewrite E end.
    reflexivity.
  - do 5 eexists. split; [eassumption|]. split; [eassumption|].
    split; [eassumption|]. split; [eassumption|].
    cbv zeta.
    match goal with E : (Z.min _ _ <=? 0)%Z = _ |- _ => rewrite E end.
    cbn [MarketMaker.opt_to_list]. do 2 f_equal. lia.
Qed.

Lemma mm_ratio_ext acct s s0 :
  mm_same_inputs s s0 ->
  MarketMaker._calculate_inventory_ratio acct s0 =
  MarketMaker._calculate_inventory_ratio acct s.
Proof.
  intros (_ & _ & _ & _ & Hl & Ht & _).
  unfold MarketMaker._calculate_inventory_ratio. rewrite Hl, Ht. reflexivity.
Qed.

Lemma all_cancels_ext s s0 :
  mm_same_inputs s s0 -> all_cancels s0 = all_cancels s.
Proof.
  intros (Hc & Hb & Ha & _). unfold all_cancels. rewrite Hc, Hb, Ha.
  reflexivity.
Qed.

Lemma panic_sell_tail_ext acct view s s0 n tail :
  mm_same_inputs s s0 ->
  panic_sell_tail acct view s0 n tail -> panic_sell_tail acct view s n tail.
Proof.
  intros (_ & _ & _ & _ & Hl & _ & _ & _ & Hsp & Hos & _).
  unfold panic_sell_tail. destruct (shares acct <=? 0)%Z; [tauto|].
  intros (mid & s1 & off & He & Ho & Ht).
  destruct (mm_estimate_price_ext view s0 s _ _ Hl He) as (s2 & He').
  exists mid, s2, off. rewrite <- Hsp, <- Hos. auto.
Qed.

Lemma panic_buy_tail_ext acct view s s0 n tail :
  mm_same_inputs s s0 ->
  panic_buy_tail acct view s0 n tail -> panic_buy_tail acct view s n tail.
Proof.
  intros (_ & _ & _ & _ & Hl & _ & _ & _ & Hsp & Hos & Hk).
  unfold panic_buy_tail. destruct (cash acct <=? 0); [tauto|].
  intros (mid & s1 & off & q & mq & He & Ho & Hq & Hm & Ht).
  destruct (mm_estimate_price_ext view s0 s _ _ Hl He) as (s2 & He').
  exists mid, s2, off, q, mq. rewrite <- Hsp, <- Hos, <- Hk. auto.
Qed.

Lemma panic_sell_tail_length acct view s n tail :
  panic_sell_tail acct view s n tail -> (length tail <= 1)%nat.
Proof.
  unfold panic_sell_tail. destruct (shares acct <=? 0)%Z.
  - intros ->. simpl. lia.
  - intros (mid & s1 & off & _ & _ & ->). simpl. lia.
Qed.

Lemma panic_buy_tail_length acct view s n tail :
  panic_buy_tail acct view s n tail -> (length tail <= 1)%nat.
Proof.
  unfold panic_buy_tail. destruct (cash acct <=? 0).
  - intros ->. simpl. lia.
  - intros (mid & s1 & off & q & mq & _ & _ & _ & _ & H). cbv zeta in H.
    destruct (Z.min mq (MarketMaker.order_size s * 3) <=? 0)%Z;
      rewrite H; simpl; lia.
Qed.

(** C1, as amended. When the inventory ratio is below [risk_lower_bound]
    or above [risk_upper_bound], [decide] runs the SURVIVE layer and nothing
    else: it returns one cancel intent for every working order of its two
    caches, followed by at most one limit order.  With too many shares
    ([r < risk_lower_bound]) that is a sell at
    [max(0.01, mid - 5 * spread_size)] for [min(shares, 3 * order_size)],
    and nothing when no share is held; otherwise it is a buy at
    [mid + 5 * spread_size] for [min(affordable, 3 * order_size)], and
    nothing when there is no cash or the quantity is not positive. *)
Theorem survive_priority acct view s r intents s' :
  MarketMaker._calculate_inventory_ratio acct s = Ok r ->
  (r <? MarketMaker.risk_lower_bound s) = true
  \/ PyFloat.gtb r (MarketMaker.risk_upper_bound s) = true ->
  MarketMaker.decide acct view s = Ok (intents, s') ->
  MarketMaker._determine_current_layer acct s = Ok MarketMaker.SURVIVE
  /\ exists tail,
       intents = all_cancels s ++ tail
       /\ (length tail <= 1)%nat
       /\ let n := (MarketMaker.__intent_id s
                    + Z.of_nat (length (all_cancels s)))%Z in
          if r <? MarketMaker.risk_lower_bound s
          then panic_sell_tail acct view s n tail
          else panic_buy_tail acct view s n tail.
Proof.
  intros Hr Hout H.
  assert (Hlayer :
    MarketMaker._determine_current_layer acct s = Ok MarketMaker.SURVIVE).
  { unfold MarketMaker._determine_current_layer, MarketMaker._should_survive.
    rewrite Hr. simpl.
    destruct (r <? MarketMaker.risk_lower_bound s); [reflexivity|].
    destruct Hout as [Hout|Hout]; [discriminate|].
    rewrite Hout. reflexivity. }
  split; [exact Hlayer|].
  apply mm_decide_dispatch in H.
  destruct H as (layer & s0 & Hl & Hin & _ & _ & _ & H).
  rewrite Hlayer in Hl. inversion Hl; subst layer; clear Hl.
  pose proof Hin as (Hc & _ & _ & _ & _ & _ & Hlo & Hhi & _).
  rewrite <- (mm_ratio_ext acct s s0 Hin) in Hr.
  destruct (mm_survive_layer_spec acct view s0 r intents s' Hr H)
    as (tail & Hint & Htail).
  cbv zeta in Htail.
  rewrite (all_cancels_ext s s0 Hin), Hc, Hlo, Hhi in *.
  exists tail. split; [exact Hint|].
  cbv zeta.
  destruct (r <? MarketMaker.risk_lower_bound s).
  - apply panic_sell_tail_ext with (s := s) in Htail; [|exact Hin].
    split; [eapply panic_sell_tail_length; exact Htail|exact Htail].
  - destruct Hout as [Hout|Hout]; [discriminate|]. rewrite Hout in Htail.
    apply panic_buy_tail_ext with (s := s) in Htail; [|exact Hin].
    split; [eapply panic_buy_tail_length; exact Htail|exact Htail].
Qed.

(** *** Float comparisons *)

Lemma SFcompare_antisym (x y : spec_float) :
  SpecFloat.SFcompare y x = option_map CompOpp (SpecFloat.SFcompare x y).
Proof.
  destruct x as [sx|sx| |sx mx ex], y as [sy|sy| |sy my ey]; simpl;
    try reflexivity;
    try (destruct sx; reflexivity);
    try (destruct sy; reflexivity);
    try (destruct sx, sy; reflexivity).
  destruct sx, sy; simpl; try reflexivity.
  - rewrite (Z.compare_antisym ex ey).
    destruct (ex ?= ey)%Z; simpl; try reflexivity.
    f_equal. rewrite (ZC4 mx my), CompOpp_involutive. reflexivity.
  - rewrite (Z.compare_antisym ex ey).
    destruct (ex ?= ey)%Z; simpl; try reflexivity.
    f_equal. apply ZC4.
Qed.

(** [x < y] excludes [y < x]. *)
Lemma ltb_asym (x y : float) : (x <? y) = true -> (y <? x) = false.
Proof.
  rewrite !ltb_spec. unfold SpecFloat.SFltb.
  rewrite (SFcompare_antisym (Prim2SF x) (Prim2SF y)).
  destruct (SpecFloat.SFcompare (Prim2SF x) (Prim2SF y)) as [[]|];
    simpl; congruence.
Qed.

(** [x < y] excludes [y <= x]. *)
Lemma ltb_not_geb (x y : float) : (x <? y) = true -> (y <=? x) = false.
Proof.
  rewrite ltb_spec, leb_spec. unfold SpecFloat.SFltb, SpecFloat.SFleb.
  rewrite (SFcompare_antisym (Prim2SF x) (Prim2SF y)).
  destruct (SpecFloat.SFcompare (Prim2SF x) (Prim2SF y)) as [[]|];
    simpl; congruence.
Qed.

(** *** MarketMaker: the STABILIZE layer *)

Lemma filter_cancel_mk_cancels n oids :
  filter is_cancel (mk_cancels n oids) = mk_cancels n oids.
Proof.
  revert n. induction oids; intros n; simpl; [|rewrite IHoids]; reflexivity.
Qed.

Lemma selected_in sel its oid :
  In oid (selected sel its) ->
  exists ov, In (oid, ov) its /\ sel ov = true.
Proof.
  unfold selected. intros H. apply in_map_iff in H.
  destruct H as ([k ov] & Heq & Hin). simpl in Heq. subst k.
  apply filter_In in Hin. exists ov. exact Hin.
Qed.

(** Each order id is cached on one side only: the market gives an order
    one id and one side. *)
Definition caches_disjoint (s : MarketMaker.t) : Prop :=
  forall k,
    Dict.mem (MarketMaker.active_bids s) k = true ->
    Dict.mem (MarketMaker.active_asks s) k = false.

Lemma dict_in_mem {V : Type} (d : Dict.t V) k v :
  In (k, v) d -> Dict.mem d k = true.
Proof.
  intros H. apply dict_mem_keys. unfold Dict.keys.
  change k with (fst (k, v)). apply in_map. exact H.
Qed.

Lemma stale_inv target_price sd ov :
  MarketMaker.stale target_price sd ov = true ->
  lifecycle ov = WORKING
  /\ MarketMaker._is_quote_equivalent ov target_price sd = false.
Proof.
  unfold MarketMaker.stale. intros H. apply andb_prop in H.
  destruct H as [Hw Hn]. split.
  - destruct (lifecycle ov); [reflexivity|discriminate].
  - destruct (MarketMaker._is_quote_equivalent ov target_price sd);
      [discriminate|reflexivity].
Qed.

(** *** MarketMaker: the PROVIDE layer *)

Lemma in_cancels_not_place n oids i :
  In i (mk_cancels n oids) -> is_place i = true -> False.
Proof.
  intros Hin Hp. apply mk_cancels_in in Hin.
  destruct Hin as (m & oid & -> & _). discriminate.
Qed.

Lemma mm_provide_layer_prices acct view s l s' :
  MarketMaker._provide_layer acct view s = Ok (l, s') ->
  exists mid s1 bid ask,
    MarketMaker._estimate_price view s = Ok (Some mid, s1)
    /\ MarketMaker._calculate_provide_prices mid s = Ok (bid, ask)
    /\ (PyFloat.geb bid ask = true -> l = [])
    /\ (forall i, In i l -> is_place i = true ->
          PyFloat.geb bid ask = false
          /\ exists n q,
               i = PlaceOrderIntent n BUY LIMIT q (Some bid)
               \/ i = PlaceOrderIntent n SELL LIMIT q (Some ask)).
Proof.
  intros H.
  unfold MarketMaker._provide_layer,
    MarketMaker._cancel_non_equivalent_orders in H.
  mm_inv; try discriminate;
    match goal with
    | E : MarketMaker._estimate_price _ _ = Ok (?mp, ?s2) |- _ =>
        let HF := fresh "HF" in
        pose proof (mm_estimate_price_frame _ _ _ _ E) as HF;
        destruct HF as [[p Hp] [lkp Hs2]];
        try discriminate Hp; subst s2
    end;
    match goal with
    | E : MarketMaker._calculate_provide_prices _ _ = Ok _ |- _ =>
        unfold MarketMaker._calculate_provide_prices in E; mm_simpl;
        fold (MarketMaker._calculate_provide_prices f s) in E
    end;
    try match goal with
      | E : _ ++ _ = _ :: _ |- _ => rewrite <- E
      end;
    (do 4 eexists; split; [eassumption|]; split; [eassumption|]; split;
     [ intros Hge; try reflexivity; congruence
     | intros i Hi Hpl ]).
  all: repeat (apply in_app_or in Hi; destruct Hi as [Hi|Hi]).
  all: try (exfalso; eapply in_cancels_not_place; eassumption).
  all: try (destruct Hi as [Hi|[]]; subst i).
  all: try (destruct Hi; fail).
  all: (split; [assumption|]); do 2 eexists;
    first [left; reflexivity|right; reflexivity].
Qed.

(** C3. In the PROVIDE layer every order intent of one [decide] call is
    quoted at the computed bid price (buys) or ask price (sells) with
    [bid >= ask] false; whenever the computed prices cross ([bid >= ask]),
    [decide] returns no intent at all. *)
Theorem provide_never_crosses acct view s intents s' :
  MarketMaker._determine_current_layer acct s = Ok MarketMaker.PROVIDE ->
  MarketMaker.decide acct view s = Ok (intents, s') ->
  exists mid s1 bid ask,
    MarketMaker._estimate_price view s = Ok (Some mid, s1)
    /\ MarketMaker._calculate_provide_prices mid s = Ok (bid, ask)
    /\ (PyFloat.geb bid ask = true -> intents = [])
    /\ (forall i, In i intents -> is_place i = true ->
          PyFloat.geb bid ask = false
          /\ exists n q,
               i = PlaceOrderIntent n BUY LIMIT q (Some bid)
               \/ i = PlaceOrderIntent n SELL LIMIT q (Some ask)).
Proof.
  intros Hlayer H.
  apply mm_decide_dispatch in H.
  destruct H as (layer & s0 & Hl & Hin & _ & _ & _ & H).
  rewrite Hlayer in Hl. inversion Hl; subst layer; clear Hl.
  pose proof Hin as (_ & _ & _ & _ & Hlkp & _ & _ & _ & Hsp & _ & Hk).
  apply mm_provide_layer_prices in H.
  destruct H as (mid & s1 & bid & ask & He & Hp & Hrest).
  destruct (mm_estimate_price_ext view s0 s _ _ Hlkp He) as (s2 & He').
  exists mid, s2, bid, ask. split; [exact He'|]. split; [|exact Hrest].
  unfold MarketMaker._calculate_provide_prices in *.
  rewrite <- Hsp, <- Hk. exact Hp.
Qed.


(** *** Intent ids: ValueInvestor and MomentumTrader *)

Ltac vi_simpl :=
  cbn [ValueInvestor.agent_id ValueInvestor.constants
       ValueInvestor.initial_optimism ValueInvestor.stubbornness
       ValueInvestor.belief_update_rate ValueInvestor.mispricing_threshold
       ValueInvestor.max_position_fraction ValueInvestor.deposit_affinity
       ValueInvestor.deposit_allocation_fraction
       ValueInvestor.deposit_horizon_preference ValueInvestor.max_order_size
       ValueInvestor.patience_discount ValueInvestor.patience_premium
       ValueInvestor.optimism ValueInvestor.belief
       ValueInvestor.perceived_pnl ValueInvestor.initial_capital
       ValueInvestor.current_intention ValueInvestor.active_deposits
       ValueInvestor.pending_orders ValueInvestor.last_known_price
       ValueInvestor.__intent_id ValueInvestor.set_optimism
       ValueInvestor.set_belief ValueInvestor.set_perceived_pnl
       ValueInvestor.set_current_intention ValueInvestor.set_active_deposits
       ValueInvestor.set_pending_orders ValueInvestor.set_last_known_price
       ValueInvestor.set___intent_id] in *.

Lemma vi_reads_ok {A : Type} (f : ValueInvestor.t -> result A) s a s' :
  ValueInvestor.reads f s = Ok (a, s') -> f s = Ok a /\ s' = s.
Proof. unfold ValueInvestor.reads. apply lift_ok. Qed.

Lemma vi_intent_id_ok s n s' :
  ValueInvestor.intent_id s = Ok (n, s') ->
  n = ValueInvestor.__intent_id s
  /\ s' = ValueInvestor.set___intent_id (ValueInvestor.__intent_id s + 1) s.
Proof. unfold ValueInvestor.intent_id. intros H. inversion H. auto. Qed.

Ltac vi_inv_step :=
  first
    [ monad_inv_step
    | match goal with
      | H : ValueInvestor.reads _ _ = Ok _ |- _ =>
          apply vi_reads_ok in H; destruct H as [H ?]; subst
      | H : ValueInvestor.intent_id _ = Ok _ |- _ =>
          apply vi_intent_id_ok in H; destruct H; subst
      | H : ValueInvestor._estimate_market_price _ _ = Ok _ |- _ =>
          apply vi_estimate_market_price_frame in H; subst
      end ].

Ltac vi_inv := repeat (vi_inv_step; vi_simpl).

Definition vi_issues (s : ValueInvestor.t) (l : list AgentIntent)
  (s' : ValueInvestor.t) : Prop :=
  map intent_id_of l = zseq (ValueInvestor.__intent_id s) (length l)
  /\ ValueInvestor.__intent_id s' =
     (ValueInvestor.__intent_id s + Z.of_nat (length l))%Z.

Lemma vi_update_beliefs_counter acct view s u s' :
  ValueInvestor._update_beliefs acct view s = Ok (u, s') ->
  ValueInvestor.__intent_id s' = ValueInvestor.__intent_id s.
Proof.
  unfold ValueInvestor._update_beliefs, ValueInvestor._update_optimism,
    ValueInvestor._update_perceived_pnl.
  intros H. vi_inv; reflexivity.
Qed.

Lemma vi_select_intention_counter acct view s u s' :
  ValueInvestor._select_intention acct view s = Ok (u, s') ->
  ValueInvestor.__intent_id s' = ValueInvestor.__intent_id s.
Proof.
  unfold ValueInvestor._select_intention, ValueInvestor._calculate_mispricing.
  intros H. vi_inv; reflexivity.
Qed.

Lemma vi_execute_intention_ok acct view s l s' :
  ValueInvestor._execute_intention acct view s = Ok (l, s') ->
  vi_issues s l s'.
Proof.
  unfold ValueInvestor._execute_intention, ValueInvestor._execute_wait,
    ValueInvestor._execute_accumulate, ValueInvestor._execute_distribute,
    ValueInvestor._execute_park_capital.
  intros H. vi_inv; unfold vi_issues; vi_simpl; simpl; split;
    first [reflexivity|lia].
Qed.

Lemma vi_decide_ok acct view s l s' :
  ValueInvestor.decide acct view s = Ok (l, s') -> vi_issues s l s'.
Proof.
  unfold ValueInvestor.decide. intros H.
  apply bind_ok in H. destruct H as (aid & sa & Ha & H).
  apply gets_ok in Ha. destruct Ha as [-> ->].
  apply bind_ok in H. destruct H as (u1 & sb & Hb & H).
  apply py_assert_ok in Hb. destruct Hb as [_ ->].
  apply bind_ok in H. destruct H as (u2 & sc & Hc & H).
  apply py_assert_ok in Hc. destruct Hc as [_ ->].
  apply bind_ok in H. destruct H as (u3 & sd & Hd & H).
  apply bind_ok in H. destruct H as (u4 & se & He & H).
  apply vi_update_beliefs_counter in Hd.
  apply vi_select_intention_counter in He.
  apply vi_execute_intention_ok in H.
  unfold vi_issues in *. rewrite He, Hd in H. exact H.
Qed.

Lemma vi_update_counter feedback s u s' :
  ValueInvestor.update feedback s = Ok (u, s') ->
  ValueInvestor.__intent_id s' = ValueInvestor.__intent_id s.
Proof.
  unfold ValueInvestor.update. intros H.
  apply bind_ok in H. destruct H as (u1 & s1 & H1 & H2).
  assert (Hd : forall its s u s',
             ValueInvestor.record_deposits its s = Ok (u, s') ->
             ValueInvestor.__intent_id s' = ValueInvestor.__intent_id s).
  { clear. induction its as [|[k [dv|]] its IH]; simpl; intros s u s' H.
    - vi_inv. reflexivity.
    - vi_inv. apply IH in H. rewrite H. reflexivity.
    - eapply IH; eassumption. }
  assert (Ho : forall its s u s',
             ValueInvestor.record_orders its s = Ok (u, s') ->
             ValueInvestor.__intent_id s' = ValueInvestor.__intent_id s).
  { clear. induction its as [|[k [ov|]] its IH]; simpl; intros s u s' H.
    - vi_inv. reflexivity.
    - vi_inv. apply IH in H. rewrite H. reflexivity.
    - eapply IH; eassumption. }
  apply Hd in H1. apply Ho in H2. congruence.
Qed.

Ltac mt_simpl :=
  cbn [MomentumTrader.agent_id MomentumTrader.constants
       MomentumTrader.momentum_window MomentumTrader.entry_threshold
       MomentumTrader.exit_threshold MomentumTrader.aggressiveness
       MomentumTrader.max_exposure_fraction MomentumTrader.directional_bias
       MomentumTrader.liquidity_baseline MomentumTrader.price_history
       MomentumTrader.active_orders MomentumTrader.__intent_id
       MomentumTrader.set_price_history MomentumTrader.set_active_orders
       MomentumTrader.set___intent_id] in *.

Lemma mt_reads_ok {A : Type} (f : MomentumTrader.t -> result A) s a s' :
  MomentumTrader.reads f s = Ok (a, s') -> f s = Ok a /\ s' = s.
Proof. unfold MomentumTrader.reads. apply lift_ok. Qed.

Lemma mt_intent_id_ok s n s' :
  MomentumTrader.intent_id s = Ok (n, s') ->
  n = MomentumTrader.__intent_id s
  /\ s' = MomentumTrader.set___intent_id (MomentumTrader.__intent_id s + 1) s.
Proof. unfold MomentumTrader.intent_id. intros H. inversion H. auto. Qed.

Ltac mt_inv_step :=
  first
    [ monad_inv_step
    | match goal with
      | H : MomentumTrader.reads _ _ = Ok _ |- _ =>
          apply mt_reads_ok in H; destruct H as [H ?]; subst
      | H : MomentumTrader.intent_id _ = Ok _ |- _ =>
          apply mt_intent_id_ok in H; destruct H; subst
      end ].

Ltac mt_inv := repeat (mt_inv_step; mt_simpl).

Definition mt_issues (s : MomentumTrader.t) (l : list AgentIntent)
  (s' : MomentumTrader.t) : Prop :=
  map intent_id_of l = zseq (MomentumTrader.__intent_id s) (length l)
  /\ MomentumTrader.__intent_id s' =
     (MomentumTrader.__intent_id s + Z.of_nat (length l))%Z.

Lemma mt_update_price_history_counter view s u s' :
  MomentumTrader._update_price_history view s = Ok (u, s') ->
  MomentumTrader.__intent_id s' = MomentumTrader.__intent_id s.
Proof.
  unfold MomentumTrader._update_price_history.
  intros H. mt_inv; reflexivity.
Qed.

Lemma mt_act_on_signal_ok acct signal view s l s' :
  MomentumTrader._act_on_signal acct signal view s = Ok (l, s') ->
  mt_issues s l s'.
Proof.
  unfold MomentumTrader._act_on_signal, MomentumTrader._enter_long,
    MomentumTrader._enter_short, MomentumTrader._exit_position.
  intros H. mt_inv; unfold mt_issues; mt_simpl; simpl; split;
    first [reflexivity|lia].
Qed.

Lemma mt_decide_ok acct view s l s' :
  MomentumTrader.decide acct view s = Ok (l, s') -> mt_issues s l s'.
Proof.
  unfold MomentumTrader.decide. intros H.
  apply bind_ok in H. destruct H as (aid & sa & Ha & H).
  apply gets_ok in Ha. destruct Ha as [-> ->].
  apply bind_ok in H. destruct H as (u1 & sb & Hb & H).
  apply py_assert_ok in Hb. destruct Hb as [_ ->].
  apply bind_ok in H. destruct H as (u2 & sc & Hc & H).
  apply py_assert_ok in Hc. destruct Hc as [_ ->].
  apply bind_ok in H. destruct H as (u3 & sd & Hd & H).
  apply mt_update_price_history_counter in Hd.
  apply bind_ok in H. destruct H as (m & se & He & H).
  apply mt_reads_ok in He. destruct He as [_ ->].
  apply bind_ok in H. destruct H as (b & sf & Hf & H).
  apply gets_ok in Hf. destruct Hf as [-> ->].
  apply bind_ok in H. destruct H as (sg & sh & Hg & H).
  apply gets_ok in Hg. destruct Hg as [-> ->].
  apply mt_act_on_signal_ok in H.
  unfold mt_issues in *. rewrite Hd in H. exact H.
Qed.

(** *** Feedback reconciliation *)

Definition not_done (p : Z * OrderView) : bool :=
  negb (is_done (lifecycle (snd p))).

Lemma dict_del_app {V : Type} (P R : Dict.t V) k v :
  ~ In k (Dict.keys P) ->
  Dict.del (P ++ (k, v) :: R) k = Ok (P ++ R).
Proof.
  unfold Dict.keys.
  induction P as [|[k' v'] P IH]; simpl; intros Hnin.
  - rewrite Z.eqb_refl. reflexivity.
  - destruct (Z.eqb_spec k k') as [->|Hne]; [tauto|].
    rewrite IH; [reflexivity|tauto].
Qed.

Lemma nodup_keys_app_cons {V : Type} (P R : Dict.t V) k v :
  dict_wf (P ++ (k, v) :: R) ->
  ~ In k (Dict.keys P) /\ dict_wf (P ++ R).
Proof.
  unfold dict_wf, Dict.keys. rewrite !map_app. simpl. intros H.
  split.
  - intros Hin. apply NoDup_remove_2 in H. apply H.
    apply in_or_app. left. exact Hin.
  - apply NoDup_remove_1 in H. exact H.
Qed.

Lemma dict_wf_filter {V : Type} (f : Z * V -> bool) (d : Dict.t V) :
  dict_wf d -> dict_wf (filter f d).
Proof.
  unfold dict_wf, Dict.keys.
  induction d as [|[k v] d IH]; simpl; intros H; [constructor|].
  inversion H as [|? ? Hnin Hnd]; subst.
  destruct (f (k, v)); simpl; [|apply IH; exact Hnd].
  constructor; [|apply IH; exact Hnd].
  intros Hin. apply Hnin. apply in_map_iff in Hin.
  destruct Hin as (x & Hx & Hin). apply filter_In in Hin.
  apply in_map_iff. exists x. tauto.
Qed.

(** One pass of the purge over the snapshot of a cache leaves the cache
    without its done orders and everything but the fill flag as it was. *)
Lemma mm_cleanup_side_spec
  (getd other : MarketMaker.t -> Dict.t OrderView)
  (setd : Dict.t OrderView -> MarketMaker.t -> MarketMaker.t)
  (Hgs : forall d s, getd (setd d s) = d)
  (Hgf : forall v s, getd (MarketMaker.set_order_filled_this_tick v s) = getd s)
  (Hos : forall d s, other (setd d s) = other s)
  (Hof : forall v s,
      other (MarketMaker.set_order_filled_this_tick v s) = other s)
  (Hcs : forall d s,
      MarketMaker.__intent_id (setd d s) = MarketMaker.__intent_id s) :
  forall R P s,
    getd s = P ++ R ->
    dict_wf (P ++ R) ->
    exists s',
      MarketMaker.cleanup_side getd setd R s = Ok (tt, s')
      /\ getd s' = P ++ filter not_done R
      /\ other s' = other s
      /\ MarketMaker.__intent_id s' = MarketMaker.__intent_id s.
Proof.
  induction R as [|[oid ov] R IH]; intros P s Hget Hwf.
  - exists s. simpl. rewrite Hget. auto.
  - simpl. unfold not_done at 1. simpl.
    destruct (is_done (lifecycle ov)) eqn:Hdone; simpl.
    + destruct (nodup_keys_app_cons P R oid ov Hwf) as [Hnin Hwf'].
      set (s1 := match end_reason ov with
                 | Some FILLED =>
                     MarketMaker.set_order_filled_this_tick true s
                 | _ => s
                 end).
      assert (Hs1 : getd s1 = P ++ (oid, ov) :: R
                    /\ other s1 = other s
                    /\ MarketMaker.__intent_id s1 = MarketMaker.__intent_id s).
      { unfold s1. destruct (end_reason ov) as [[]|];
          rewrite ?Hgf, ?Hof; auto. }
      destruct Hs1 as (Hg1 & Ho1 & Hc1).
      destruct (IH P (setd (P ++ R) s1)) as (s' & Hrun & Hg & Ho & Hc).
      { apply Hgs. }
      { exact Hwf'. }
      exists s'. split; [|rewrite Hg, Ho, Hc, Hos, Hcs; auto].
      unfold bind at 1. unfold bind at 1.
      assert (Hflag :
        match end_reason ov with
        | Some FILLED => modify (MarketMaker.set_order_filled_this_tick true)
        | _ => ret tt
        end s = Ok (tt, s1)).
      { unfold s1. destruct (end_reason ov) as [[]|]; reflexivity. }
      unfold bind at 1. rewrite Hflag.
      unfold bind, gets, lift, modify. rewrite Hg1.
      rewrite (dict_del_app P R oid ov Hnin). exact Hrun.
    + destruct (IH (P ++ [(oid, ov)]) s) as (s' & Hrun & Hg & Ho & Hc).
      { rewrite <- app_assoc. exact Hget. }
      { rewrite <- app_assoc. exact Hwf. }
      exists s'. split; [|rewrite Hg, <- app_assoc; auto].
      unfold bind, ret. exact Hrun.
Qed.

Lemma mm_cleanup_done_orders_spec s :
  dict_wf (MarketMaker.active_bids s) ->
  dict_wf (MarketMaker.active_asks s) ->
  exists s',
    MarketMaker._cleanup_done_orders s = Ok (tt, s')
    /\ MarketMaker.active_bids s' = filter not_done (MarketMaker.active_bids s)
    /\ MarketMaker.active_asks s' = filter not_done (MarketMaker.active_asks s)
    /\ MarketMaker.__intent_id s' = MarketMaker.__intent_id s.
Proof.
  intros Hb Ha. unfold MarketMaker._cleanup_done_orders.
  destruct (mm_cleanup_side_spec MarketMaker.active_bids
              MarketMaker.active_asks MarketMaker.set_active_bids
              (fun _ _ => eq_refl) (fun _ _ => eq_refl)
              (fun _ _ => eq_refl) (fun _ _ => eq_refl)
              (fun _ _ => eq_refl)
              (Dict.items (MarketMaker.active_bids s)) [] s eq_refl Hb)
    as (s1 & Hrun1 & Hg1 & Ho1 & Hc1).
  assert (Ha1 : dict_wf (MarketMaker.active_asks s1))
    by (rewrite Ho1; exact Ha).
  destruct (mm_cleanup_side_spec MarketMaker.active_asks
              MarketMaker.active_bids MarketMaker.set_active_asks
              (fun _ _ => eq_refl) (fun _ _ => eq_refl)
              (fun _ _ => eq_refl) (fun _ _ => eq_refl)
              (fun _ _ => eq_refl)
              (Dict.items (MarketMaker.active_asks s1)) [] s1 eq_refl Ha1)
    as (s2 & Hrun2 & Hg2 & Ho2 & Hc2).
  exists s2. split.
  - unfold bind, gets. rewrite Hrun1. exact Hrun2.
  - simpl in Hg1, Hg2. unfold Dict.items in *.
    rewrite Hg2, Ho2, Hg1, Ho1, Hc2, Hc1. auto.
Qed.

Lemma mm_record_results_spec its :
  forall s,
    dict_wf (MarketMaker.active_bids s) ->
    dict_wf (MarketMaker.active_asks s) ->
    exists s',
      MarketMaker.record_results its s = Ok (tt, s')
      /\ dict_wf (MarketMaker.active_bids s')
      /\ dict_wf (MarketMaker.active_asks s')
      /\ MarketMaker.__intent_id s' = MarketMaker.__intent_id s.
Proof.
  induction its as [|[k [ov|]] its IH]; intros s Hb Ha; simpl.
  - exists s. auto.
  - destruct (side ov).
    + destruct (IH (MarketMaker.set_active_bids
                      (Dict.set (MarketMaker.active_bids s) (order_id ov) ov)
                      s)) as (s' & Hrun & Hw).
      { apply dict_wf_set. exact Hb. }
      { exact Ha. }
      exists s'. split; [exact Hrun|exact Hw].
    + destruct (IH (MarketMaker.set_active_asks
                      (Dict.set (MarketMaker.active_asks s) (order_id ov) ov)
                      s)) as (s' & Hrun & Hw).
      { exact Hb. }
      { apply dict_wf_set. exact Ha. }
      exists s'. split; [exact Hrun|exact Hw].
  - apply IH; assumption.
Qed.

Lemma filter_not_done_working (d : Dict.t OrderView) k ov :
  In (k, ov) (filter not_done d) -> lifecycle ov = WORKING.
Proof.
  intros H. apply filter_In in H. destruct H as [_ H].
  unfold not_done in H. simpl in H.
  destruct (lifecycle ov); [reflexivity|discriminate].
Qed.

Lemma mm_update_spec feedback s :
  dict_wf (MarketMaker.active_bids s) ->
  dict_wf (MarketMaker.active_asks s) ->
  exists s',
    MarketMaker.update feedback s = Ok (tt, s')
    /\ (forall k ov,
          In (k, ov) (Dict.items (MarketMaker.active_bids s'))
          \/ In (k, ov) (Dict.items (MarketMaker.active_asks s')) ->
          lifecycle ov = WORKING)
    /\ dict_wf (MarketMaker.active_bids s')
    /\ dict_wf (MarketMaker.active_asks s')
    /\ MarketMaker.__intent_id s' = MarketMaker.__intent_id s.
Proof.
  intros Hb Ha. unfold MarketMaker.update.
  destruct (mm_record_results_spec (Dict.items (order_results feedback))
              (MarketMaker.set_order_filled_this_tick false s) Hb Ha)
    as (s1 & Hrun1 & Hb1 & Ha1 & Hc1).
  destruct (mm_cleanup_done_orders_spec s1 Hb1 Ha1)
    as (s2 & Hrun2 & Hg2 & Ho2 & Hc2).
  exists s2. split; [|split; [|split; [|split]]].
  - unfold bind, modify. rewrite Hrun1. exact Hrun2.
  - unfold Dict.items. rewrite Hg2, Ho2.
    intros k ov [H|H]; eapply filter_not_done_working; exact H.
  - rewrite Hg2. apply dict_wf_filter. exact Hb1.
  - rewrite Ho2. apply dict_wf_filter. exact Ha1.
  - rewrite Hc2, Hc1. reflexivity.
Qed.

Lemma vi_update_total feedback s :
  exists s', ValueInvestor.update feedback s = Ok (tt, s').
Proof.
  unfold ValueInvestor.update.
  assert (Hd : forall its s,
             exists s', ValueInvestor.record_deposits its s = Ok (tt, s')).
  { clear. induction its as [|[k [dv|]] its IH]; intros s; simpl.
    - exists s. reflexivity.
    - apply IH.
    - apply IH. }
  assert (Ho : forall its s,
             exists s', ValueInvestor.record_orders its s = Ok (tt, s')).
  { clear. induction its as [|[k [ov|]] its IH]; intros s; simpl.
    - exists s. reflexivity.
    - apply IH.
    - apply IH. }
  destruct (Hd (Dict.items (deposit_results feedback)) s) as (s1 & H1).
  destruct (Ho (Dict.items (order_results feedback)) s1) as (s2 & H2).
  exists s2. unfold bind. rewrite H1. exact H2.
Qed.

Lemma mt_cleanup_loop_spec :
  forall R P s,
    MomentumTrader.active_orders s = P ++ R ->
    dict_wf (P ++ R) ->
    exists s',
      MomentumTrader.cleanup_loop R s = Ok (tt, s')
      /\ MomentumTrader.active_orders s' = P ++ filter not_done R
      /\ MomentumTrader.__intent_id s' = MomentumTrader.__intent_id s.
Proof.
  induction R as [|[oid ov] R IH]; intros P s Hget Hwf.
  - exists s. simpl. rewrite Hget. auto.
  - simpl. unfold not_done at 1. simpl.
    destruct (is_done (lifecycle ov)) eqn:Hdone; simpl.
    + destruct (nodup_keys_app_cons P R oid ov Hwf) as [Hnin Hwf'].
      destruct (IH P (MomentumTrader.set_active_orders (P ++ R) s))
        as (s' & Hrun & Hg & Hc).
      { reflexivity. }
      { exact Hwf'. }
      exists s'. split; [|rewrite Hg, Hc; auto].
      unfold bind, gets, lift, modify. rewrite Hget.
      rewrite (dict_del_app P R oid ov Hnin). exact Hrun.
    + destruct (IH (P ++ [(oid, ov)]) s) as (s' & Hrun & Hg & Hc).
      { rewrite <- app_assoc. exact Hget. }
      { rewrite <- app_assoc. exact Hwf. }
      exists s'. split; [|rewrite Hg, <- app_assoc; auto].
      unfold bind, ret. exact Hrun.
Qed.

Lemma mt_update_spec feedback s :
  dict_wf (MomentumTrader.active_orders s) ->
  exists s',
    MomentumTrader.update feedback s = Ok (tt, s')
    /\ dict_wf (MomentumTrader.active_orders s')
    /\ (forall k ov,
          In (k, ov) (Dict.items (MomentumTrader.active_orders s')) ->
          lifecycle ov = WORKING)
    /\ MomentumTrader.__intent_id s' = MomentumTrader.__intent_id s.
Proof.
  intros Hwf. unfold MomentumTrader.update.
  assert (Hr : forall its s,
             dict_wf (MomentumTrader.active_orders s) ->
             exists s',
               MomentumTrader.record_results its s = Ok (tt, s')
               /\ dict_wf (MomentumTrader.active_orders s')
               /\ MomentumTrader.__intent_id s' =
                  MomentumTrader.__intent_id s).
  { clear. induction its as [|[k [ov|]] its IH]; intros s Hwf; simpl.
    - exists s. auto.
    - destruct (IH (MomentumTrader.set_active_orders
                      (Dict.set (MomentumTrader.active_orders s)
                         (order_id ov) ov) s)) as (s' & Hrun & Hw).
      { apply dict_wf_set. exact Hwf. }
      exists s'. split; [exact Hrun|exact Hw].
    - apply IH. exact Hwf. }
  destruct (Hr (Dict.items (order_results feedback)) s Hwf)
    as (s1 & Hrun1 & Hw1 & Hc1).
  destruct (mt_cleanup_loop_spec
              (Dict.items (MomentumTrader.active_orders s1)) [] s1
              eq_refl Hw1) as (s2 & Hrun2 & Hg2 & Hc2).
  exists s2. split; [|split; [|split]].
  - unfold bind. rewrite Hrun1.
    unfold MomentumTrader._cleanup_done_orders, bind, gets. exact Hrun2.
  - rewrite Hg2. apply dict_wf_filter. exact Hw1.
  - unfold Dict.items. rewrite Hg2. simpl.
    intros k ov H. eapply filter_not_done_working. exact H.
  - rewrite Hc2, Hc1. reflexivity.
Qed.

(** C9. [update] never raises, whatever subset of the intent ids the
    feedback maps hold and whichever of their values are [None]; after a
    MarketMaker's [update] no order view with lifecycle DONE is left in
    [active_bids] or [active_asks].  (The caches are dictionaries: their
    keys are distinct, which [update] preserves.) *)
Theorem update_never_raises :
  (forall feedback s,
      dict_wf (MarketMaker.active_bids s) ->
      dict_wf (MarketMaker.active_asks s) ->
      exists s',
        MarketMaker.update feedback s = Ok (tt, s')
        /\ (forall k ov,
              In (k, ov) (Dict.items (MarketMaker.active_bids s'))
              \/ In (k, ov) (Dict.items (MarketMaker.active_asks s')) ->
              lifecycle ov <> DONE)
        /\ dict_wf (MarketMaker.active_bids s')
        /\ dict_wf (MarketMaker.active_asks s'))
  /\ (forall feedback s,
        exists s', ValueInvestor.update feedback s = Ok (tt, s'))
  /\ (forall feedback s,
        dict_wf (MomentumTrader.active_orders s) ->
        exists s',
          MomentumTrader.update feedback s = Ok (tt, s')
          /\ dict_wf (MomentumTrader.active_orders s')).
Proof.
  split; [|split].
  - intros feedback s Hb Ha.
    destruct (mm_update_spec feedback s Hb Ha)
      as (s' & Hrun & Hdone & Hb' & Ha' & _).
    exists s'. split; [exact Hrun|]. split; [|split; assumption].
    intros k ov H. rewrite (Hdone k ov H). discriminate.
  - apply vi_update_total.
  - intros feedback s Hwf.
    destruct (mt_update_spec feedback s Hwf) as (s' & Hrun & Hw & _).
    exists s'. split; assumption.
Qed.

(** *** Intent ids over the life of an agent *)

Lemma mm_update_counter feedback s u s' :
  MarketMaker.update feedback s = Ok (u, s') ->
  MarketMaker.__intent_id s' = MarketMaker.__intent_id s.
Proof.
  assert (Hc : forall getd setd,
             (forall d s, MarketMaker.__intent_id (setd d s) =
                          MarketMaker.__intent_id s) ->
             forall its s u s',
               MarketMaker.cleanup_side getd setd its s = Ok (u, s') ->
               MarketMaker.__intent_id s' = MarketMaker.__intent_id s).
  { intros getd setd Hset.
    induction its as [|[oid ov] its IH]; simpl; intros s0 u0 s0' H.
    - mm_inv. reflexivity.
    - apply bind_ok in H. destruct H as (u1 & s1 & H1 & H).
      apply IH in H. rewrite H. clear H IH.
      mm_inv; rewrite ?Hset; reflexivity. }
  assert (Hr : forall its s u s',
             MarketMaker.record_results its s = Ok (u, s') ->
             MarketMaker.__intent_id s' = MarketMaker.__intent_id s).
  { induction its as [|[k [ov|]] its IH]; simpl; intros s0 u0 s0' H.
    - mm_inv. reflexivity.
    - apply bind_ok in H. destruct H as (u1 & s1 & H1 & H).
      apply IH in H. rewrite H. clear H IH.
      mm_inv; reflexivity.
    - eapply IH; eassumption. }
  unfold MarketMaker.update, MarketMaker._cleanup_done_orders. intros H.
  apply bind_ok in H. destruct H as (u1 & s1 & H1 & H).
  apply modify_ok in H1. subst s1.
  apply bind_ok in H. destruct H as (u2 & s2 & H2 & H).
  apply Hr in H2.
  apply bind_ok in H. destruct H as (bids & s3 & H3 & H).
  apply gets_ok in H3. destruct H3 as [-> ->].
  apply bind_ok in H. destruct H as (u4 & s4 & H4 & H).
  apply Hc in H4; [|reflexivity].
  apply bind_ok in H. destruct H as (asks & s5 & H5 & H).
  apply gets_ok in H5. destruct H5 as [-> ->].
  apply Hc in H; [|reflexivity].
  rewrite H, H4, H2. reflexivity.
Qed.

Lemma mt_update_counter feedback s u s' :
  MomentumTrader.update feedback s = Ok (u, s') ->
  MomentumTrader.__intent_id s' = MomentumTrader.__intent_id s.
Proof.
  assert (Hc : forall its s u s',
             MomentumTrader.cleanup_loop its s = Ok (u, s') ->
             MomentumTrader.__intent_id s' = MomentumTrader.__intent_id s).
  { induction its as [|[oid ov] its IH]; simpl; intros s0 u0 s0' H.
    - mt_inv. reflexivity.
    - apply bind_ok in H. destruct H as (u1 & s1 & H1 & H).
      apply IH in H. rewrite H. clear H IH.
      mt_inv; reflexivity. }
  assert (Hr : forall its s u s',
             MomentumTrader.record_results its s = Ok (u, s') ->
             MomentumTrader.__intent_id s' = MomentumTrader.__intent_id s).
  { induction its as [|[k [ov|]] its IH]; simpl; intros s0 u0 s0' H.
    - mt_inv. reflexivity.
    - apply bind_ok in H. destruct H as (u1 & s1 & H1 & H).
      apply IH in H. rewrite H. clear H IH.
      mt_inv; reflexivity.
    - eapply IH; eassumption. }
  unfold MomentumTrader.update, MomentumTrader._cleanup_done_orders.
  intros H.
  apply bind_ok in H. destruct H as (u1 & s1 & H1 & H).
  apply Hr in H1.
  apply bind_ok in H. destruct H as (orders & s2 & H2 & H).
  apply gets_ok in H2. destruct H2 as [-> ->].
  apply Hc in H. rewrite H, H1. reflexivity.
Qed.

(** A call of the agent contract. *)
Inductive Call : Type :=
| CallDecide (acct : AccountView) (view : AgentView)
| CallUpdate (feedback : AgentFeedback).

Section History.

Variable S : Type.
Variable decide : AccountView -> AgentView -> M S (list AgentIntent).
Variable update : AgentFeedback -> M S unit.
Variable counter : S -> Z.

(** The intents an agent issues over a sequence of calls, in order. *)
Fixpoint issued (calls : list Call) (s : S)
  : result (list AgentIntent * S) :=
  match calls with
  | [] => Ok ([], s)
  | CallDecide acct view :: rest =>
      d <~ decide acct view s ;;
      let '(intents, s1) := d in
      r <~ issued rest s1 ;;
      let '(later, s2) := r in
      Ok (intents ++ later, s2)
  | CallUpdate feedback :: rest =>
      u <~ update feedback s ;;
      let '(_, s1) := u in
      issued rest s1
  end.

Hypothesis decide_issues :
  forall acct view s l s',
    decide acct view s = Ok (l, s') ->
    map intent_id_of l = zseq (counter s) (length l)
    /\ counter s' = (counter s + Z.of_nat (length l))%Z.

Hypothesis update_keeps :
  forall feedback s u s',
    update feedback s = Ok (u, s') -> counter s' = counter s.

Lemma issued_consecutive (calls : list Call) :
  forall s l s',
    issued calls s = Ok (l, s') ->
    map intent_id_of l = zseq (counter s) (length l)
    /\ counter s' = (counter s + Z.of_nat (length l))%Z.
Proof.
  induction calls as [|[acct view|feedback] calls IH]; simpl; intros s l s' H.
  - inversion H; subst. simpl. split; [reflexivity|lia].
  - apply rbind_ok in H. destruct H as ([l1 s1] & Hd & H).
    apply rbind_ok in H. destruct H as ([l2 s2] & Hr & H).
    inversion H; subst; clear H.
    apply decide_issues in Hd. destruct Hd as [Hd1 Hd2].
    apply IH in Hr. destruct Hr as [Hr1 Hr2].
    rewrite Hd2 in Hr1, Hr2. split.
    + apply ids_app; assumption.
    + rewrite Hr2, length_app. lia.
  - apply rbind_ok in H. destruct H as ([u s1] & Hu & H).
    apply update_keeps in Hu. apply IH in H. rewrite Hu in H. exact H.
Qed.

End History.

Arguments issued {S} decide update calls s.

(** *** The coordination loop *)

Lemma dict_mem_set {V : Type} (d : Dict.t V) k v k' :
  Dict.mem (Dict.set d k v) k' = true ->
  k' = k \/ Dict.mem d k' = true.
Proof.
  rewrite !dict_mem_keys, dict_keys_set.
  destruct (Dict.mem d k); [auto|].
  intros H. apply in_app_or in H. destruct H as [H|[H|[]]]; auto.
Qed.

Section CoordinationProperties.

Context {market : Market} {noise : NoiseTraderModel} {random : RandomModel}.

Lemma process_loop_keys agent_id intents :
  forall ors drs e feedback e',
    process_loop agent_id intents ors drs e = Ok (feedback, e') ->
    forall k,
      (Dict.mem (order_results feedback) k = true ->
       Dict.mem ors k = true \/ In k (map intent_id_of intents))
      /\ (Dict.mem (deposit_results feedback) k = true ->
          Dict.mem drs k = true \/ In k (map intent_id_of intents)).
Proof.
  induction intents as [|[n sd ot q p|n oid|n amount term] intents IH];
    simpl; intros ors drs e feedback e' H k.
  - inversion H; subst; simpl. auto.
  - apply rbind_ok in H. destruct H as ([ov e1] & _ & H).
    destruct (IH _ _ _ _ _ H k) as [Ho Hd]. split.
    + intros Hk. destruct (Ho Hk) as [Hm|Hin]; [|auto].
      apply dict_mem_set in Hm. destruct Hm as [->|Hm]; auto.
    + intros Hk. destruct (Hd Hk) as [Hm|Hin]; auto.
  - apply rbind_ok in H. destruct H as (e1 & _ & H).
    destruct (IH _ _ _ _ _ H k) as [Ho Hd]. split.
    + intros Hk. destruct (Ho Hk) as [Hm|Hin]; [|auto].
      apply dict_mem_set in Hm. destruct Hm as [->|Hm]; auto.
    + intros Hk. destruct (Hd Hk) as [Hm|Hin]; auto.
  - apply rbind_ok in H. destruct H as ([dv e1] & _ & H).
    destruct (IH _ _ _ _ _ H k) as [Ho Hd]. split.
    + intros Hk. destruct (Ho Hk) as [Hm|Hin]; auto.
    + intros Hk. destruct (Hd Hk) as [Hm|Hin]; [|auto].
      apply dict_mem_set in Hm. destruct Hm as [->|Hm]; auto.
Qed.

(** C7. Over any sequence of [decide] and [update] calls of a MarketMaker,
    a ValueInvestor or a MomentumTrader, the intents issued carry
    consecutive, strictly increasing ids, each call going on from the last
    id issued before (the counter starts at 0); and every key of the two
    feedback maps the engine builds from a batch of intents is the id of
    one of those intents. *)
Theorem intent_ids_round_trip :
  (forall calls s l s',
      issued MarketMaker.decide MarketMaker.update calls s = Ok (l, s') ->
      map intent_id_of l = zseq (MarketMaker.__intent_id s) (length l)
      /\ MarketMaker.__intent_id s' =
         (MarketMaker.__intent_id s + Z.of_nat (length l))%Z)
  /\ (forall calls s l s',
        issued ValueInvestor.decide ValueInvestor.update calls s
        = Ok (l, s') ->
        map intent_id_of l = zseq (ValueInvestor.__intent_id s) (length l)
        /\ ValueInvestor.__intent_id s' =
           (ValueInvestor.__intent_id s + Z.of_nat (length l))%Z)
  /\ (forall calls s l s',
        issued MomentumTrader.decide MomentumTrader.update calls s
        = Ok (l, s') ->
        map intent_id_of l = zseq (MomentumTrader.__intent_id s) (length l)
        /\ MomentumTrader.__intent_id s' =
           (MomentumTrader.__intent_id s + Z.of_nat (length l))%Z)
  /\ (forall agent_id intents e feedback e',
        _process_intents agent_id intents e = Ok (feedback, e') ->
        forall k,
          Dict.mem (order_results feedback) k = true
          \/ Dict.mem (deposit_results feedback) k = true ->
          In k (map intent_id_of intents)).
Proof.
  split; [|split; [|split]].
  - intros calls. apply (issued_consecutive _ _ _ MarketMaker.__intent_id).
    + intros acct view s l s' H. apply mm_decide_ok in H. apply H.
    + apply mm_update_counter.
  - intros calls. apply (issued_consecutive _ _ _ ValueInvestor.__intent_id).
    + intros acct view s l s' H. apply vi_decide_ok in H. apply H.
    + apply vi_update_counter.
  - intros calls. apply (issued_consecutive _ _ _ MomentumTrader.__intent_id).
    + intros acct view s l s' H. apply mt_decide_ok in H. apply H.
    + apply mt_update_counter.
  - intros agent_id intents e feedback e' H k Hk.
    unfold _process_intents in H.
    destruct (process_loop_keys _ _ _ _ _ _ _ H k) as [Ho Hd].
    destruct Hk as [Hk|Hk]; [destruct (Ho Hk)|destruct (Hd Hk)];
      try assumption; discriminate.
Qed.

Lemma over_ok {S A : Type} (inj : S -> Agent) (r : result (A * S)) a agent :
  over inj r = Ok (a, agent) -> exists s, r = Ok (a, s) /\ agent = inj s.
Proof.
  unfold over. destruct r as [[a' s]|]; [|discriminate].
  intros H. inversion H; subst. exists s. auto.
Qed.

(** An agent object keeps its class through [decide] and [update]. *)
Definition same_class (a b : Agent) : Prop :=
  match a, b with
  | AMarketMaker _, AMarketMaker _
  | AValueInvestor _, AValueInvestor _
  | AMomentumTrader _, AMomentumTrader _
  | ANoiseTrader _, ANoiseTrader _ => True
  | _, _ => False
  end.

Lemma agent_decide_class acct view agent intents agent' :
  agent_decide acct view agent = Ok (intents, agent') ->
  same_class agent agent'.
Proof.
  destruct agent; simpl; intros H; apply over_ok in H;
    destruct H as (s & _ & ->); exact I.
Qed.

Lemma agent_update_class feedback agent u agent' :
  agent_update feedback agent = Ok (u, agent') ->
  same_class agent agent'.
Proof.
  destruct agent; simpl; intros H; apply over_ok in H;
    destruct H as (s & _ & ->); exact I.
Qed.

Lemma same_class_trans a b c :
  same_class a b -> same_class b c -> same_class a c.
Proof. destruct a, b, c; simpl; tauto. Qed.

Lemma same_class_vi a b :
  same_class a b -> is_value_investor b = is_value_investor a.
Proof. destruct a, b; simpl; tauto. Qed.

Lemma agent_turn_class sd macro micro agent_id agent e agent' e' :
  agent_turn sd macro micro agent_id agent e = Ok (agent', e') ->
  same_class agent agent'.
Proof.
  unfold agent_turn. intros H.
  apply rbind_ok in H. destruct H as ([intents a1] & Hd & H).
  apply agent_decide_class in Hd.
  destruct intents as [|i intents].
  - inversion H; subst. exact Hd.
  - destruct (negb (is_value_investor a1) && _); [discriminate|].
    apply rbind_ok in H. destruct H as ([fb e1] & _ & H).
    apply rbind_ok in H. destruct H as ([u a2] & Hu & H).
    inversion H; subst. apply agent_update_class in Hu.
    eapply same_class_trans; eassumption.
Qed.

(** C10. When [decide] returns no intent, the turn of the agent ends
    there: nothing is dispatched (the market state is the same) and
    [update] is not called (the agent is left in the state [decide] put it
    in).  For a MarketMaker this means that the fill flag and the two order
    caches, which only [update] writes, are on such a tick what they were
    before it. *)
Theorem empty_decide_skips_update sd macro micro agent_id agent e agent' :
  agent_decide (account_of e agent_id)
    (agent_view sd macro micro agent_id agent) agent = Ok ([], agent') ->
  agent_turn sd macro micro agent_id agent e = Ok (agent', e)
  /\ forall s,
       agent = AMarketMaker s ->
       exists s',
         agent' = AMarketMaker s'
         /\ MarketMaker.order_filled_this_tick s' =
            MarketMaker.order_filled_this_tick s
         /\ MarketMaker.active_bids s' = MarketMaker.active_bids s
         /\ MarketMaker.active_asks s' = MarketMaker.active_asks s.
Proof.
  intros H. split.
  - unfold agent_turn. cbv zeta. rewrite H. reflexivity.
  - intros s ->. simpl in H. apply over_ok in H.
    destruct H as (s' & Hd & ->). exists s'. split; [reflexivity|].
    apply mm_decide_ok in Hd. destruct Hd as [_ (Hb & Ha & Hf)].
    auto.
Qed.

(** **** Shuffling *)

Lemma list_set_in {A : Type} (x : list A) i v y :
  In y (list_set x i v) -> y = v \/ In y x.
Proof.
  revert i. induction x as [|a x IH]; intros i; simpl; [tauto|].
  destruct i as [|i]; simpl.
  - intros [H|H]; auto.
  - intros [H|H]; [auto|]. destruct (IH _ H); auto.
Qed.

Lemma list_set_map {A B : Type} (f : A -> B) (x : list A) i v :
  map f (list_set x i v) = list_set (map f x) i (f v).
Proof.
  revert i. induction x as [|a x IH]; intros i; simpl; [reflexivity|].
  destruct i as [|i]; simpl; [reflexivity|]. rewrite IH. reflexivity.
Qed.

Lemma swap_in {A : Type} (x : list A) i j x' :
  swap x i j = Ok x' -> forall y, In y x' -> In y x.
Proof.
  unfold swap. destruct (nth_error x j) as [xj|] eqn:Hj; [|discriminate].
  destruct (nth_error x i) as [xi|] eqn:Hi; [|discriminate].
  intros H y Hy. inversion H; subst; clear H.
  apply list_set_in in Hy. destruct Hy as [->|Hy].
  - eapply nth_error_In; eassumption.
  - apply list_set_in in Hy. destruct Hy as [->|Hy]; [|exact Hy].
    eapply nth_error_In; eassumption.
Qed.

Lemma swap_map {A B : Type} (f : A -> B) (x : list A) i j x' :
  swap x i j = Ok x' -> swap (map f x) i j = Ok (map f x').
Proof.
  unfold swap. rewrite !nth_error_map.
  destruct (nth_error x j) as [xj|]; [|discriminate].
  destruct (nth_error x i) as [xi|]; [|discriminate].
  simpl. intros H. inversion H; subst.
  rewrite !list_set_map. reflexivity.
Qed.

Lemma shuffle_loop_in {A : Type} i :
  forall (x : list A) r x' r',
    shuffle_loop i x r = Ok (x', r') -> forall y, In y x' -> In y x.
Proof.
  induction i as [|i IH]; simpl; intros x r x' r' H y Hy.
  - inversion H; subst. exact Hy.
  - destruct (randbelow _ r) as [j r1].
    apply rbind_ok in H. destruct H as (x1 & Hs & H).
    eapply swap_in; [exact Hs|]. eapply IH; eassumption.
Qed.

Lemma shuffle_loop_map {A B : Type} (f : A -> B) i :
  forall (x : list A) r x' r',
    shuffle_loop i x r = Ok (x', r') ->
    shuffle_loop i (map f x) r = Ok (map f x', r').
Proof.
  induction i as [|i IH]; simpl; intros x r x' r' H.
  - inversion H; subst. reflexivity.
  - destruct (randbelow _ r) as [j r1].
    apply rbind_ok in H. destruct H as (x1 & Hs & H).
    rewrite (swap_map f _ _ _ _ Hs). simpl. apply IH. exact H.
Qed.

(** A shuffle returns the elements it was given. *)
Lemma shuffle_in {A : Type} (x : list A) r x' r' :
  shuffle x r = Ok (x', r') -> forall y, In y x' -> In y x.
Proof. unfold shuffle. apply shuffle_loop_in. Qed.

(** Which permutation a shuffle applies depends on the generator and on
    the length of the list, not on its elements. *)
Lemma shuffle_map {A B : Type} (f : A -> B) (x : list A) r x' r' :
  shuffle x r = Ok (x', r') -> shuffle (map f x) r = Ok (map f x', r').
Proof. unfold shuffle. rewrite length_map. apply shuffle_loop_map. Qed.

(** **** Scheduling *)

(** What the execution orders of a run are computed from: the generator,
    the agent ids in dictionary order and the ids of the value investors. *)
Definition schedule_state (m : AgentManager) : Rng * list Z * list Z :=
  (rng m, Dict.keys (agents m), Dict.keys (value_investors m)).

(** The execution order of one tick as a function of those alone. *)
Definition next_order (micro : Z) (st : Rng * list Z * list Z)
  : result (list Z * (Rng * list Z * list Z)) :=
  let '(r, ids, vis) := st in
  let candidates :=
    if Z.eqb micro 0 then ids
    else filter (fun aid => negb (existsb (Z.eqb aid) vis)) ids in
  sh <~ shuffle candidates r ;;
  let '(order, r') := sh in
  Ok (order, (r', ids, vis)).

Fixpoint schedule (clock : list (Z * Z)) (st : Rng * list Z * list Z)
  : result (list (list Z) * (Rng * list Z * list Z)) :=
  match clock with
  | [] => Ok ([], st)
  | (_, micro) :: rest =>
      n <~ next_order micro st ;;
      let '(order, st') := n in
      r <~ schedule rest st' ;;
      let '(orders, st'') := r in
      Ok (order :: orders, st'')
  end.

(** Every value investor of the population is registered as one. *)
Definition vi_registered (m : AgentManager) : Prop :=
  forall aid a,
    In (aid, a) (Dict.items (agents m)) ->
    is_value_investor a = true ->
    Dict.mem (value_investors m) aid = true.

Lemma dict_mem_existsb {V : Type} (d : Dict.t V) k :
  Dict.mem d k = existsb (Z.eqb k) (Dict.keys d).
Proof.
  unfold Dict.mem, Dict.keys.
  induction d as [|[k' v] d IH]; simpl; [reflexivity|].
  destruct (Z.eqb k k'); [reflexivity|exact IH].
Qed.

Lemma filter_map_fst {V : Type} (P : Z -> bool) (l : list (Z * V)) :
  map fst (filter (fun '(aid, _) => P aid) l) = filter P (map fst l).
Proof.
  induction l as [|[k v] l IH]; simpl; [reflexivity|].
  destruct (P k); simpl; rewrite IH; reflexivity.
Qed.

Lemma dict_set_in {V : Type} (d : Dict.t V) k0 v k a :
  In (k, a) (Dict.set d k0 v) -> (k = k0 /\ a = v) \/ In (k, a) d.
Proof.
  induction d as [|[k' v'] d IH]; simpl.
  - intros [H|[]]. inversion H. auto.
  - destruct (Z.eqb k0 k'); simpl.
    + intros [H|H]; [inversion H; auto|auto].
    + intros [H|H]; [auto|]. destruct (IH H); auto.
Qed.

Lemma macro_tick_agents_spec m l m' :
  macro_tick_agents m = Ok (l, m') ->
  shuffle (Dict.keys (agents m)) (rng m) = Ok (map fst l, rng m')
  /\ agents m' = agents m
  /\ value_investors m' = value_investors m
  /\ (forall p, In p l -> In p (Dict.items (agents m))).
Proof.
  unfold macro_tick_agents. intros H.
  apply rbind_ok in H. destruct H as ([l1 r1] & Hs & H).
  inversion H; subst; clear H. simpl.
  split; [|split; [reflexivity|split; [reflexivity|]]].
  - unfold Dict.keys. apply (shuffle_map fst). exact Hs.
  - intros p Hp. eapply shuffle_in; eassumption.
Qed.

Lemma micro_tick_agents_spec m l m' :
  micro_tick_agents m = Ok (l, m') ->
  shuffle (filter (fun aid =>
                     negb (existsb (Z.eqb aid)
                             (Dict.keys (value_investors m))))
             (Dict.keys (agents m))) (rng m) = Ok (map fst l, rng m')
  /\ agents m' = agents m
  /\ value_investors m' = value_investors m
  /\ (forall p, In p l ->
        In p (Dict.items (agents m))
        /\ Dict.mem (value_investors m) (fst p) = false).
Proof.
  unfold micro_tick_agents. intros H.
  apply rbind_ok in H. destruct H as ([l1 r1] & Hs & H).
  inversion H; subst; clear H. simpl.
  split; [|split; [reflexivity|split; [reflexivity|]]].
  - unfold Dict.keys at 2.
    rewrite <- (filter_map_fst
                  (fun aid => negb (existsb (Z.eqb aid)
                                      (Dict.keys (value_investors m))))).
    apply (shuffle_map fst).
    erewrite filter_ext; [exact Hs|].
    intros [aid a]. rewrite dict_mem_existsb. reflexivity.
  - intros p Hp. apply (shuffle_in _ _ _ _ Hs) in Hp.
    apply filter_In in Hp. destruct p as [aid a]. destruct Hp as [Hin Hm].
    split; [exact Hin|]. simpl.
    destruct (Dict.mem (value_investors m) aid); [discriminate|reflexivity].
Qed.

Lemma agent_loop_spec sd macro micro (vis : Dict.t unit) l :
  forall store e store' e',
    _agent_loop sd l macro micro store e = Ok (store', e') ->
    (forall aid a, In (aid, a) l -> Dict.mem store aid = true) ->
    Dict.keys store' = Dict.keys store
    /\ ((forall aid a, In (aid, a) l -> is_value_investor a = true ->
           Dict.mem vis aid = true) ->
        (forall aid a, In (aid, a) store -> is_value_investor a = true ->
           Dict.mem vis aid = true) ->
        forall aid a, In (aid, a) store' -> is_value_investor a = true ->
          Dict.mem vis aid = true).
Proof.
  induction l as [|[aid agent] l IH]; simpl; intros store e store' e' H Hmem.
  - inversion H; subst. auto.
  - apply rbind_ok in H. destruct H as ([agent' e1] & Ht & H).
    apply agent_turn_class in Ht. apply same_class_vi in Ht.
    assert (Hk : Dict.keys (Dict.set store aid agent') = Dict.keys store).
    { rewrite dict_keys_set, (Hmem aid agent); auto. }
    destruct (IH _ _ _ _ H) as [Hkeys Hvi].
    { intros aid0 a0 Hin. rewrite dict_mem_keys, Hk, <- dict_mem_keys.
      eapply Hmem. right. exact Hin. }
    split; [rewrite Hkeys; exact Hk|].
    intros Hl Hs. apply Hvi.
    + intros aid0 a0 Hin. apply Hl. right. exact Hin.
    + intros aid0 a0 Hin Hv. apply dict_set_in in Hin.
      destruct Hin as [[-> ->]|Hin].
      * eapply Hl; [left; reflexivity|]. congruence.
      * eapply Hs; eassumption.
Qed.

Lemma tick_spec macro micro eng order eng' :
  tick macro micro eng = Ok (order, eng') ->
  next_order micro (schedule_state (agent_manager eng))
  = Ok (order, schedule_state (agent_manager eng'))
  /\ (vi_registered (agent_manager eng) ->
      vi_registered (agent_manager eng')).
Proof.
  unfold tick, next_order, schedule_state. intros H.
  destruct (Z.eqb micro 0).
  - apply rbind_ok in H. destruct H as (e1 & _ & H).
    apply rbind_ok in H. destruct H as ([l m1] & Hm & H).
    apply rbind_ok in H. destruct H as ([store e2] & Hl & H).
    inversion H; subst; clear H. simpl.
    apply macro_tick_agents_spec in Hm.
    destruct Hm as (Hs & Ha & Hv & Hin).
    destruct (agent_loop_spec _ _ _ (value_investors m1) _ _ _ _ _ Hl)
      as [Hkeys Hvi].
    { intros aid a Hi. rewrite Ha. eapply dict_in_mem. apply Hin. exact Hi. }
    rewrite Hs. simpl. rewrite Hkeys, Ha, Hv. split; [reflexivity|].
    intros Hreg aid a. simpl. apply Hvi.
    + intros aid0 a0 Hi. rewrite Hv. apply Hreg. apply Hin. exact Hi.
    + rewrite Ha, Hv. exact Hreg.
  - apply rbind_ok in H. destruct H as ([l m1] & Hm & H).
    apply rbind_ok in H. destruct H as ([store e2] & Hl & H).
    inversion H; subst; clear H. simpl.
    apply micro_tick_agents_spec in Hm.
    destruct Hm as (Hs & Ha & Hv & Hin).
    destruct (agent_loop_spec _ _ _ (value_investors m1) _ _ _ _ _ Hl)
      as [Hkeys Hvi].
    { intros aid a Hi. rewrite Ha. eapply dict_in_mem.
      apply (Hin (aid, a)). exact Hi. }
    rewrite Hs. simpl. rewrite Hkeys, Ha, Hv. split; [reflexivity|].
    intros Hreg aid a. simpl. apply Hvi.
    + intros aid0 a0 Hi. rewrite Hv. apply Hreg.
      apply (Hin (aid0, a0)). exact Hi.
    + rewrite Ha, Hv. exact Hreg.
Qed.

Lemma run_ticks_spec clock :
  forall eng orders eng',
    run_ticks clock eng = Ok (orders, eng') ->
    schedule clock (schedule_state (agent_manager eng))
    = Ok (orders, schedule_state (agent_manager eng'))
    /\ (vi_registered (agent_manager eng) ->
        vi_registered (agent_manager eng')).
Proof.
  induction clock as [|[macro micro] clock IH];
    intros eng orders eng' H; cbn [run_ticks schedule] in *.
  - inversion H; subst. auto.
  - apply rbind_ok in H. destruct H as ([o eng1] & Ht & H).
    apply rbind_ok in H. destruct H as ([os eng2] & Hr & H).
    inversion H; subst; clear H.
    apply tick_spec in Ht. destruct Ht as [Hn Hreg1].
    apply IH in Hr. destruct Hr as [Hs Hreg2].
    rewrite Hn. cbn [rbind]. rewrite Hs. cbn [rbind].
    split; [reflexivity|auto].
Qed.

Lemma populated_vi_registered m : populated m -> vi_registered m.
Proof.
  unfold vi_registered.
  induction 1 as [seed|r m Hp IH|i a m Hp IH|i a m Hp IH|i a m Hp IH
                 |i a m Hp IH];
    cbn [agents value_investors add_market_maker add_value_investor
         add_momentum_trader add_noise_trader set_rng AgentManager__init__
         Dict.items Dict.empty] in *;
    intros aid ag Hin Hv.
  - destruct Hin.
  - eapply IH; eassumption.
  - apply dict_set_in in Hin. destruct Hin as [[-> ->]|Hin];
      [discriminate|]. eapply IH; eassumption.
  - apply dict_set_in in Hin. destruct Hin as [[-> ->]|Hin].
    + rewrite dict_mem_keys, dict_keys_set.
      destruct (Dict.mem (value_investors m) (20000 + i)) eqn:Hm.
      * apply dict_mem_keys. exact Hm.
      * apply in_or_app. right. left. reflexivity.
    + rewrite dict_mem_keys, dict_keys_set.
      pose proof (IH _ _ Hin Hv) as Hreg.
      destruct (Dict.mem (value_investors m) (20000 + i)).
      * apply dict_mem_keys. exact Hreg.
      * apply in_or_app. left. apply dict_mem_keys. exact Hreg.
  - apply dict_set_in in Hin. destruct Hin as [[-> ->]|Hin];
      [discriminate|]. eapply IH; eassumption.
  - apply dict_set_in in Hin. destruct Hin as [[-> ->]|Hin];
      [discriminate|]. eapply IH; eassumption.
Qed.

Lemma micro_tick_agents_no_value_investor m l m' :
  vi_registered m ->
  micro_tick_agents m = Ok (l, m') ->
  forall aid a, In (aid, a) l -> is_value_investor a = false.
Proof.
  intros Hreg H aid a Hin.
  apply micro_tick_agents_spec in H. destruct H as (_ & _ & _ & Hp).
  destruct (Hp (aid, a) Hin) as [Hag Hm]. simpl in Hm.
  destruct (is_value_investor a) eqn:Hv; [|reflexivity].
  rewrite (Hreg aid a Hag Hv) in Hm. discriminate.
Qed.

End CoordinationProperties.

(** C8. The execution orders of a run are a function of the generator
    state, the agent ids and the value-investor ids alone: two runs that
    start from the same generator state (same seed) and the same
    population draw the same order at every tick, whatever the market and
    the agents do in each.  And at whatever tick of a run that started from
    a population built by [initialize_agents], the list produced for a
    micro tick holds no ValueInvestor. *)
Theorem scheduling_deterministic_and_class_filtered :
  (forall (random : RandomModel) (market1 market2 : Market)
          (noise1 noise2 : NoiseTraderModel) (clock : list (Z * Z))
          (eng1 : @SimulationEngine market1 noise1 random)
          (eng2 : @SimulationEngine market2 noise2 random)
          orders1 eng1' orders2 eng2',
      schedule_state (agent_manager eng1)
      = schedule_state (agent_manager eng2) ->
      run_ticks clock eng1 = Ok (orders1, eng1') ->
      run_ticks clock eng2 = Ok (orders2, eng2') ->
      orders1 = orders2)
  /\ (forall (market : Market) (noise : NoiseTraderModel)
            (random : RandomModel) (clock : list (Z * Z))
            (eng : SimulationEngine) orders eng' l m',
        populated (agent_manager eng) ->
        run_ticks clock eng = Ok (orders, eng') ->
        micro_tick_agents (agent_manager eng') = Ok (l, m') ->
        forall aid a, In (aid, a) l -> is_value_investor a = false).
Proof.
  split.
  - intros random market1 market2 noise1 noise2 clock eng1 eng2
      orders1 eng1' orders2 eng2' Hst H1 H2.
    apply run_ticks_spec in H1. destruct H1 as [H1 _].
    apply run_ticks_spec in H2. destruct H2 as [H2 _].
    rewrite Hst in H1. rewrite H1 in H2. inversion H2. reflexivity.
  - intros market noise random clock eng orders eng' l m' Hpop Hrun Hmicro.
    apply populated_vi_registered in Hpop.
    apply run_ticks_spec in Hrun. destruct Hrun as [_ Hreg].
    eapply micro_tick_agents_no_value_investor; [|exact Hmicro].
    apply Hreg. exact Hpop.
Qed.

(** ** Further properties of the agents and of the loop *)

(** *** MarketMaker: quote throttling *)

(** The state in which [decide] enters its layer, beyond [mm_same_inputs]:
    the tick it has computed and the quoting parameters it has left alone. *)
Definition mm_entered (view : AgentView) (s s0 : MarketMaker.t) : Prop :=
  MarketMaker.current_global_tick s0 =
    (macro_tick view * simulation_micro_tick (MarketMaker.constants s)
     + micro_tick view)%Z
  /\ MarketMaker.wait_time s0 = MarketMaker.wait_time s
  /\ MarketMaker.last_quote_global_tick s0 =
     MarketMaker.last_quote_global_tick s
  /\ MarketMaker.last_mid_price s0 = MarketMaker.last_mid_price s
  /\ MarketMaker.agent_id s0 = MarketMaker.agent_id s.

Lemma mm_decide_enter acct view s l s' :
  MarketMaker.decide acct view s = Ok (l, s') ->
  exists layer s0,
    MarketMaker._determine_current_layer acct s = Ok layer
    /\ mm_same_inputs s s0
    /\ mm_entered view s s0
    /\ view_agent_id view = MarketMaker.agent_id s
    /\ MarketMaker._last_layer s0 = layer
    /\ match layer with
       | MarketMaker.SURVIVE => MarketMaker._survive_layer acct view s0
       | MarketMaker.STABILIZE => MarketMaker._stabilize_layer acct view s0
       | MarketMaker.PROVIDE => MarketMaker._provide_layer acct view s0
       end = Ok (l, s').
Proof.
  unfold MarketMaker.decide. intros H.
  mm_inv.
  all: match goal with
       | HL : MarketMaker._determine_current_layer _ _ = Ok ?L,
         HR : _ _ _ ?S0 = Ok (_, _) |- _ =>
           exists L, S0; unfold mm_entered;
           repeat split; try assumption; try exact HR; try reflexivity
       end.
  all: try (apply Z.eqb_eq; assumption).
  all: unfold MarketMaker._determine_current_layer,
         MarketMaker._should_survive, MarketMaker._should_stabilize,
         MarketMaker._calculate_inventory_ratio in *; mm_simpl;
       assumption.
Qed.

(** Inside the waiting time the PROVIDE layer returns before it looks at
    anything else. *)
Lemma mm_provide_layer_throttled acct view s l s' t :
  MarketMaker._provide_layer acct view s = Ok (l, s') ->
  MarketMaker.last_quote_global_tick s = Some t ->
  (MarketMaker.current_global_tick s - t < MarketMaker.wait_time s)%Z ->
  l = []
  /\ MarketMaker.last_quote_global_tick s' = Some t
  /\ MarketMaker.last_mid_price s' = MarketMaker.last_mid_price s.
Proof.
  intros H Hq Hlt. apply Z.ltb_lt in Hlt.
  unfold MarketMaker._provide_layer in H.
  apply bind_ok in H. destruct H as (mid & s1 & He & H).
  apply mm_estimate_price_frame in He. destruct He as [[p Hp] [lkp Hs1]].
  subst mid s1.
  apply bind_ok in H. destruct H as ([bid ask] & s2 & Hp & H).
  apply mm_reads_ok in Hp. destruct Hp as [_ Hs2]. subst s2.
  destruct (PyFloat.geb bid ask).
  - apply ret_ok in H. destruct H as [Hl Hs]. subst l s'. mm_simpl. auto.
  - apply bind_ok in H. destruct H as (refresh & s3 & Hr & H).
    apply mm_reads_ok in Hr. destruct Hr as [Hr Hs3]. subst s3.
    unfold MarketMaker._should_refresh_quotes in Hr. mm_simpl.
    rewrite Hq, Hlt in Hr. inversion Hr; subst refresh.
    apply ret_ok in H. destruct H as [Hl Hs]. subst l s'. mm_simpl. auto.
Qed.

(** X1. Quote throttling comes first in the PROVIDE layer: while fewer than
    [wait_time] ticks have passed since the last quote round, [decide]
    returns no intent and leaves the quote stamp alone, whether or not an
    order was filled, the layer changed or the price drifted. *)
Theorem provide_waits_out_wait_time acct view s intents s' t :
  MarketMaker._determine_current_layer acct s = Ok MarketMaker.PROVIDE ->
  MarketMaker.last_quote_global_tick s = Some t ->
  (macro_tick view * simulation_micro_tick (MarketMaker.constants s)
   + micro_tick view - t < MarketMaker.wait_time s)%Z ->
  MarketMaker.decide acct view s = Ok (intents, s') ->
  intents = []
  /\ MarketMaker.last_quote_global_tick s' = Some t.
Proof.
  intros Hlayer Hq Hlt H.
  apply mm_decide_enter in H.
  destruct H as (layer & s0 & Hl & _ & Hent & _ & _ & H).
  rewrite Hlayer in Hl. inversion Hl; subst layer; clear Hl.
  destruct Hent as (Hg & Hw & Hq0 & _).
  rewrite Hq in Hq0.
  destruct (mm_provide_layer_throttled acct view s0 intents s' t H Hq0)
    as (Hnil & Hq' & _).
  - rewrite Hg, Hw. exact Hlt.
  - auto.
Qed.

(** What a quote round of the PROVIDE layer leaves behind: the stamp of the
    tick, set exactly when something was emitted. *)
Lemma mm_provide_layer_stamp acct view s l s' :
  MarketMaker._provide_layer acct view s = Ok (l, s') ->
  (l <> [] ->
   MarketMaker.last_quote_global_tick s' =
   Some (MarketMaker.current_global_tick s))
  /\ (l = [] ->
      MarketMaker.last_quote_global_tick s' =
      MarketMaker.last_quote_global_tick s)
  /\ MarketMaker.wait_time s' = MarketMaker.wait_time s
  /\ MarketMaker.constants s' = MarketMaker.constants s.
Proof.
  unfold MarketMaker._provide_layer, MarketMaker._cancel_non_equivalent_orders.
  intros H. mm_inv.
  all: mm_estimate_frame.
  all: try discriminate.
  all: try match goal with
    | E : _ ++ _ = _ :: _ |- _ => rewrite <- E in *; rewrite E
    end.
  all: repeat split; try reflexivity; try congruence.
  all: intros Hx; try (exfalso; apply Hx; reflexivity); try discriminate Hx.
Qed.

(** What [update] leaves alone: everything but the two caches and the fill
    flag. *)
Definition mm_update_frame (s s' : MarketMaker.t) : Prop :=
  MarketMaker.agent_id s' = MarketMaker.agent_id s
  /\ MarketMaker.constants s' = MarketMaker.constants s
  /\ MarketMaker.target_inventory_fraction s' =
     MarketMaker.target_inventory_fraction s
  /\ MarketMaker.risk_lower_bound s' = MarketMaker.risk_lower_bound s
  /\ MarketMaker.risk_upper_bound s' = MarketMaker.risk_upper_bound s
  /\ MarketMaker.stabilization_tolerance s' =
     MarketMaker.stabilization_tolerance s
  /\ MarketMaker.spread_size s' = MarketMaker.spread_size s
  /\ MarketMaker.order_size s' = MarketMaker.order_size s
  /\ MarketMaker.wait_time s' = MarketMaker.wait_time s
  /\ MarketMaker.skew_factor s' = MarketMaker.skew_factor s
  /\ MarketMaker.last_known_price s' = MarketMaker.last_known_price s
  /\ MarketMaker.last_mid_price s' = MarketMaker.last_mid_price s
  /\ MarketMaker.last_inventory_ratio s' = MarketMaker.last_inventory_ratio s
  /\ MarketMaker.layer_changed s' = MarketMaker.layer_changed s
  /\ MarketMaker._last_layer s' = MarketMaker._last_layer s
  /\ MarketMaker.current_global_tick s' = MarketMaker.current_global_tick s
  /\ MarketMaker.last_quote_global_tick s' =
     MarketMaker.last_quote_global_tick s
  /\ MarketMaker.__intent_id s' = MarketMaker.__intent_id s.

Lemma mm_update_frame_refl s : mm_update_frame s s.
Proof. unfold mm_update_frame. repeat split. Qed.

Lemma mm_update_frame_trans s1 s2 s3 :
  mm_update_frame s1 s2 -> mm_update_frame s2 s3 -> mm_update_frame s1 s3.
Proof.
  unfold mm_update_frame. intros H12 H23.
  repeat match goal with H : _ /\ _ |- _ => destruct H end.
  repeat split; congruence.
Qed.

Lemma mm_record_results_frame its :
  forall s u s',
    MarketMaker.record_results its s = Ok (u, s') -> mm_update_frame s s'.
Proof.
  induction its as [|[k [ov|]] its IH]; simpl; intros s u s' H.
  - inversion H; subst. apply mm_update_frame_refl.
  - apply bind_ok in H. destruct H as (u1 & s1 & H1 & H).
    apply IH in H. eapply mm_update_frame_trans; [|exact H].
    destruct (side ov); mm_inv; unfold mm_update_frame; mm_simpl;
      repeat split.
  - eapply IH; exact H.
Qed.

Lemma mm_cleanup_side_frame
  (getd : MarketMaker.t -> Dict.t OrderView)
  (setd : Dict.t OrderView -> MarketMaker.t -> MarketMaker.t)
  (Hset : forall d s, mm_update_frame s (setd d s)) its :
  forall s u s',
    MarketMaker.cleanup_side getd setd its s = Ok (u, s') ->
    mm_update_frame s s'.
Proof.
  induction its as [|[oid ov] its IH]; simpl; intros s u s' H.
  - inversion H; subst. apply mm_update_frame_refl.
  - apply bind_ok in H. destruct H as (u1 & s1 & H1 & H).
    apply IH in H. eapply mm_update_frame_trans; [|exact H].
    destruct (is_done (lifecycle ov)).
    + apply bind_ok in H1. destruct H1 as (u2 & s2 & H2 & H1).
      assert (Hf : mm_update_frame s s2).
      { destruct (end_reason ov) as [[]|]; mm_inv;
          unfold mm_update_frame; mm_simpl; repeat split. }
      eapply mm_update_frame_trans; [exact Hf|].
      apply bind_ok in H1. destruct H1 as (d & s3 & H3 & H1).
      apply gets_ok in H3. destruct H3 as [Hd Hs3]. subst d s3.
      apply bind_ok in H1. destruct H1 as (d' & s4 & H4 & H1).
      apply lift_ok in H4. destruct H4 as [_ Hs4]. subst s4.
      apply modify_ok in H1. subst s1. apply Hset.
    + apply ret_ok in H1. destruct H1 as [_ Hs1]. subst s1.
      apply mm_update_frame_refl.
Qed.

Lemma mm_update_keeps feedback s u s' :
  MarketMaker.update feedback s = Ok (u, s') -> mm_update_frame s s'.
Proof.
  unfold MarketMaker.update, MarketMaker._cleanup_done_orders. intros H.
  apply bind_ok in H. destruct H as (u0 & s0 & H0 & H).
  apply modify_ok in H0. subst s0.
  apply bind_ok in H. destruct H as (u1 & s1 & H1 & H).
  apply mm_record_results_frame in H1.
  apply bind_ok in H. destruct H as (bids & s2 & H2 & H).
  apply gets_ok in H2. destruct H2 as [Hb Hs2]. subst bids s2.
  apply bind_ok in H. destruct H as (u3 & s3 & H3 & H).
  apply mm_cleanup_side_frame in H3;
    [|intros; unfold mm_update_frame; mm_simpl; repeat split].
  apply bind_ok in H. destruct H as (asks & s4 & H4 & H).
  apply gets_ok in H4. destruct H4 as [Ha Hs4]. subst asks s4.
  apply mm_cleanup_side_frame in H;
    [|intros; unfold mm_update_frame; mm_simpl; repeat split].
  eapply mm_update_frame_trans; [|exact H].
  eapply mm_update_frame_trans; [|exact H3].
  eapply mm_update_frame_trans; [|exact H1].
  unfold mm_update_frame; mm_simpl; repeat split.
Qed.

(** X2. Quote rounds of the PROVIDE layer are at least [wait_time] ticks
    apart: a [decide] that emitted intents in that layer stamps its tick, the
    [update] that follows keeps the stamp, and the next [decide] in that
    layer returns nothing while fewer than [wait_time] ticks have passed. *)
Theorem provide_rounds_are_spaced
  acct1 view1 acct2 view2 feedback s intents1 s1 s2 intents2 s3 :
  MarketMaker._determine_current_layer acct1 s = Ok MarketMaker.PROVIDE ->
  MarketMaker.decide acct1 view1 s = Ok (intents1, s1) ->
  intents1 <> [] ->
  MarketMaker.update feedback s1 = Ok (tt, s2) ->
  MarketMaker._determine_current_layer acct2 s2 = Ok MarketMaker.PROVIDE ->
  (macro_tick view2 * simulation_micro_tick (MarketMaker.constants s)
   + micro_tick view2
   - (macro_tick view1 * simulation_micro_tick (MarketMaker.constants s)
      + micro_tick view1)
   < MarketMaker.wait_time s)%Z ->
  MarketMaker.decide acct2 view2 s2 = Ok (intents2, s3) ->
  MarketMaker.last_quote_global_tick s1 =
    Some (macro_tick view1 * simulation_micro_tick (MarketMaker.constants s)
          + micro_tick view1)%Z
  /\ intents2 = [].
Proof.
  intros Hlayer1 Hd1 Hne Hu Hlayer2 Hlt Hd2.
  apply mm_decide_enter in Hd1.
  destruct Hd1 as (layer & s0 & Hl & Hin & Hent & _ & _ & Hd1).
  rewrite Hlayer1 in Hl. inversion Hl; subst layer; clear Hl.
  destruct Hent as (Hg & Hw & _).
  destruct Hin as (_ & _ & _ & _ & _ & _ & _ & _ & _ & _ & Hk).
  apply mm_provide_layer_stamp in Hd1.
  destruct Hd1 as (Hstamp & _ & Hw1 & Hk1).
  specialize (Hstamp Hne). rewrite Hg in Hstamp.
  split; [exact Hstamp|].
  apply mm_update_keeps in Hu.
  destruct Hu as (_ & Hk2 & _ & _ & _ & _ & _ & _ & Hw2 & _ & _ & _ & _ & _
                  & _ & _ & Hq2 & _).
  apply mm_decide_enter in Hd2.
  destruct Hd2 as (layer & s0' & Hl & _ & Hent & _ & _ & Hd2).
  rewrite Hlayer2 in Hl. inversion Hl; subst layer; clear Hl.
  destruct Hent as (Hg' & Hw' & Hq' & _).
  rewrite Hq2, Hstamp in Hq'.
  destruct (mm_provide_layer_throttled acct2 view2 s0' intents2 s3 _ Hd2 Hq')
    as (Hnil & _).
  - rewrite Hg', Hw', Hk2, Hw2, Hk1, Hw1, Hk, Hw. exact Hlt.
  - exact Hnil.
Qed.

(** *** MarketMaker: what an order intent can be *)

(** An order intent of the market maker: a priced limit order, of positive
    quantity when it buys, covered by the shares held when it sells. *)
Definition mm_order_ok (acct : AccountView) (s : MarketMaker.t)
  (i : AgentIntent) : Prop :=
  match i with
  | CancelOrderIntent _ _ => True
  | PlaceOrderIntent _ sd ot q p =>
      ot = LIMIT
      /\ (exists pr, p = Some pr)
      /\ match sd with
         | BUY => (0 < q)%Z
         | SELL =>
             (q <= shares acct)%Z
             /\ ((0 < MarketMaker.order_size s)%Z -> (0 < q)%Z)
         end
  | CreateDepositIntent _ _ _ => False
  end.

Lemma mm_cancels_ok acct s n oids :
  Forall (mm_order_ok acct s) (mk_cancels n oids).
Proof.
  revert n. induction oids as [|oid oids IH]; intros n; simpl;
    constructor; [exact I|apply IH].
Qed.

Lemma validate_ask_quantity_bounds acct q :
  (0 < MarketMaker._validate_ask_quantity acct q)%Z ->
  (MarketMaker._validate_ask_quantity acct q <= shares acct)%Z.
Proof.
  unfold MarketMaker._validate_ask_quantity.
  destruct (q <=? 0)%Z; lia.
Qed.

Lemma skewed_quantities_ask acct r s b a :
  MarketMaker._calculate_skewed_quantities acct r s = Ok (b, a) ->
  (0 < a)%Z -> (a <= shares acct)%Z.
Proof.
  unfold MarketMaker._calculate_skewed_quantities. intros H.
  monad_inv; apply validate_ask_quantity_bounds.
Qed.

Ltac mm_orders_solve :=
  repeat (apply Forall_app; split);
  try apply mm_cancels_ok;
  try apply Forall_nil;
  try (apply Forall_cons; [|apply Forall_nil]);
  cbn [mm_order_ok MarketMaker.opt_to_list];
  try apply Forall_nil;
  try (apply Forall_cons; [|apply Forall_nil]);
  cbn [mm_order_ok];
  repeat match goal with
    | H : (_ <? _)%Z = true |- _ => apply Z.ltb_lt in H
    | H : (_ <? _)%Z = false |- _ => apply Z.ltb_ge in H
    | H : (_ <=? _)%Z = true |- _ => apply Z.leb_le in H
    | H : (_ <=? _)%Z = false |- _ => apply Z.leb_gt in H
    | H : (_ && _)%bool = true |- _ => apply andb_prop in H; destruct H
    end;
  repeat split; try (eexists; reflexivity);
  try (apply validate_ask_quantity_bounds; assumption);
  try (eapply skewed_quantities_ask; eassumption);
  try lia.

Lemma mm_survive_layer_orders acct view s l s' :
  MarketMaker._survive_layer acct view s = Ok (l, s') ->
  Forall (mm_order_ok acct s) l.
Proof.
  unfold MarketMaker._survive_layer, MarketMaker._cancel_all_orders,
    MarketMaker._create_panic_sell_intent,
    MarketMaker._create_panic_buy_intent.
  intros H. mm_inv.
  all: mm_estimate_frame.
  all: try discriminate.
  all: mm_orders_solve.
Qed.

Lemma mm_stabilize_layer_orders acct view s l s' :
  MarketMaker._stabilize_layer acct view s = Ok (l, s') ->
  Forall (mm_order_ok acct s) l.
Proof.
  unfold MarketMaker._stabilize_layer, MarketMaker._selective_stabilize_cancel.
  intros H. mm_inv.
  all: mm_estimate_frame.
  all: try discriminate.
  all: mm_orders_solve.
Qed.

Lemma mm_provide_layer_orders acct view s l s' :
  MarketMaker._provide_layer acct view s = Ok (l, s') ->
  Forall (mm_order_ok acct s) l.
Proof.
  unfold MarketMaker._provide_layer, MarketMaker._cancel_non_equivalent_orders.
  intros H. mm_inv.
  all: mm_estimate_frame.
  all: try discriminate.
  all: try match goal with
    | E : _ ++ _ = _ :: _ |- _ => rewrite <- E
    end.
  all: mm_orders_solve.
Qed.

(** X3. The market maker never sells short and never trades at market:
    every order intent [decide] returns, in whichever layer, is a limit
    order with a price; a buy has a positive quantity; a sell never asks for
    more shares than the account holds (and has a positive quantity as long
    as [order_size] is positive). *)
Theorem market_maker_orders_are_covered acct view s intents s' :
  MarketMaker.decide acct view s = Ok (intents, s') ->
  forall n sd ot q p,
    In (PlaceOrderIntent n sd ot q p) intents ->
    ot = LIMIT
    /\ (exists pr, p = Some pr)
    /\ (sd = BUY -> (0 < q)%Z)
    /\ (sd = SELL ->
        (q <= shares acct)%Z
        /\ ((0 < MarketMaker.order_size s)%Z -> (0 < q)%Z)).
Proof.
  intros H n sd ot q p Hin.
  apply mm_decide_enter in H.
  destruct H as (layer & s0 & _ & Hsame & _ & _ & _ & H).
  destruct Hsame as (_ & _ & _ & _ & _ & _ & _ & _ & _ & Hosz & _).
  assert (Hall : Forall (mm_order_ok acct s0) intents).
  { destruct layer;
      [ eapply mm_survive_layer_orders
      | eapply mm_stabilize_layer_orders
      | eapply mm_provide_layer_orders ]; exact H. }
  rewrite Forall_forall in Hall. specialize (Hall _ Hin).
  cbn [mm_order_ok] in Hall. destruct Hall as (Hot & Hp & Hq).
  rewrite Hosz in Hq.
  split; [exact Hot|]. split; [exact Hp|].
  destruct sd; split; intros Hsd; try discriminate Hsd; exact Hq.
Qed.

(** *** MomentumTrader: what an order intent can be *)

(** An order intent of the momentum trader: a market order without a
    price, of positive quantity, covered by the shares held when it sells. *)
Definition mt_order_ok (acct : AccountView) (i : AgentIntent) : Prop :=
  match i with
  | PlaceOrderIntent _ sd ot q p =>
      ot = MARKET /\ p = None /\ (0 < q)%Z
      /\ (sd = SELL -> (q <= shares acct)%Z)
  | _ => False
  end.

Lemma mt_act_on_signal_orders acct signal view s l s' :
  MomentumTrader._act_on_signal acct signal view s = Ok (l, s') ->
  (length l <= 1)%nat /\ Forall (mt_order_ok acct) l.
Proof.
  unfold MomentumTrader._act_on_signal, MomentumTrader._enter_long,
    MomentumTrader._enter_short, MomentumTrader._exit_position.
  intros H. mt_inv.
  all: split; [simpl; lia|].
  all: try apply Forall_nil.
  all: apply Forall_cons; [|apply Forall_nil].
  all: cbn [mt_order_ok].
  all: repeat match goal with
    | H : (_ <? _)%Z = true |- _ => apply Z.ltb_lt in H
    | H : (_ <? _)%Z = false |- _ => apply Z.ltb_ge in H
    | H : (_ <=? _)%Z = true |- _ => apply Z.leb_le in H
    | H : (_ <=? _)%Z = false |- _ => apply Z.leb_gt in H
    end.
  all: repeat split; try discriminate; try lia.
Qed.

Lemma mt_decide_orders acct view s l s' :
  MomentumTrader.decide acct view s = Ok (l, s') ->
  (length l <= 1)%nat /\ Forall (mt_order_ok acct) l.
Proof.
  unfold MomentumTrader.decide. intros H.
  apply bind_ok in H. destruct H as (aid & sa & Ha & H).
  apply bind_ok in H. destruct H as (u1 & sb & Hb & H).
  apply bind_ok in H. destruct H as (u2 & sc & Hc & H).
  apply bind_ok in H. destruct H as (u3 & sd & Hd & H).
  apply bind_ok in H. destruct H as (m & se & He & H).
  apply bind_ok in H. destruct H as (b & sf & Hf & H).
  apply bind_ok in H. destruct H as (sg & sh & Hg & H).
  eapply mt_act_on_signal_orders. exact H.
Qed.

(** X4. The momentum trader trades at market and never sells short: one
    [decide] call returns at most one intent, a market order without a
    price and of positive quantity, which when it sells never asks for more
    shares than the account holds. *)
Theorem momentum_trader_orders_are_covered acct view s intents s' :
  MomentumTrader.decide acct view s = Ok (intents, s') ->
  (length intents <= 1)%nat
  /\ forall i, In i intents ->
       exists n sd q,
         i = PlaceOrderIntent n sd MARKET q None
         /\ (0 < q)%Z
         /\ (sd = SELL -> (q <= shares acct)%Z).
Proof.
  intros H. apply mt_decide_orders in H. destruct H as [Hlen Hall].
  split; [exact Hlen|].
  intros i Hin. rewrite Forall_forall in Hall. specialize (Hall i Hin).
  destruct i as [n sd ot q p|n oid|n amount term]; cbn [mt_order_ok] in Hall;
    try contradiction.
  destruct Hall as (-> & -> & Hq & Hs). exists n, sd, q. auto.
Qed.

(** *** The coordination loop: dispatch *)

Section DispatchProperties.

Context {market : Market} {noise : NoiseTraderModel}.

Lemma mm_order_ok_no_deposit acct s l :
  Forall (mm_order_ok acct s) l ->
  forallb (fun i => negb (is_deposit i)) l = true.
Proof.
  induction 1 as [|i l Hi _ IH]; simpl; [reflexivity|].
  rewrite IH. destruct i; try reflexivity. contradiction.
Qed.

Lemma mt_order_ok_no_deposit acct l :
  Forall (mt_order_ok acct) l ->
  forallb (fun i => negb (is_deposit i)) l = true.
Proof.
  induction 1 as [|i l Hi _ IH]; simpl; [reflexivity|].
  rewrite IH. destruct i; try reflexivity. contradiction.
Qed.

Lemma mm_decide_orders acct view s l s' :
  MarketMaker.decide acct view s = Ok (l, s') ->
  exists s0, Forall (mm_order_ok acct s0) l.
Proof.
  intros H. apply mm_decide_enter in H.
  destruct H as (layer & s0 & _ & _ & _ & _ & _ & H). exists s0.
  destruct layer;
    [ eapply mm_survive_layer_orders
    | eapply mm_stabilize_layer_orders
    | eapply mm_provide_layer_orders ]; exact H.
Qed.

(** X5. The engine's check that only value investors create deposits never
    fails for a market maker or a momentum trader: neither ever returns a
    deposit intent, so a non-empty batch of theirs always goes on to be
    dispatched and fed back. *)
Theorem deposit_assertion_never_fails
  sd macro micro agent_id agent e i intents agent' :
  is_market_maker agent = true \/ (exists s, agent = AMomentumTrader s) ->
  agent_decide (account_of e agent_id)
    (agent_view sd macro micro agent_id agent) agent
  = Ok (i :: intents, agent') ->
  forallb (fun i => negb (is_deposit i)) (i :: intents) = true
  /\ agent_turn sd macro micro agent_id agent e =
     (p <~ _process_intents agent_id (i :: intents) e ;;
      let '(feedback, e') := p in
      u <~ agent_update feedback agent' ;;
      let '(_, agent'') := u in
      Ok (agent'', e')).
Proof.
  intros Hclass Hd.
  assert (Hno : forallb (fun i => negb (is_deposit i)) (i :: intents) = true).
  { destruct Hclass as [Hmm|[s ->]].
    - destruct agent as [s| | |]; try discriminate Hmm.
      cbn [agent_decide] in Hd. apply over_ok in Hd.
      destruct Hd as (s' & Hd & _).
      apply mm_decide_orders in Hd. destruct Hd as [s0 Hall].
      eapply mm_order_ok_no_deposit. exact Hall.
    - cbn [agent_decide] in Hd. apply over_ok in Hd.
      destruct Hd as (s' & Hd & _).
      apply mt_decide_orders in Hd. destruct Hd as [_ Hall].
      eapply mt_order_ok_no_deposit. exact Hall. }
  split; [exact Hno|].
  unfold agent_turn. cbv zeta. rewrite Hd. cbn [rbind].
  rewrite Hno. rewrite andb_false_r. reflexivity.
Qed.

End DispatchProperties.

(** *** The coordination loop: feedback *)

Lemma dict_get_set {V : Type} (d : Dict.t V) k v k' :
  Dict.get (Dict.set d k v) k' =
  if Z.eqb k' k then Some v else Dict.get d k'.
Proof.
  induction d as [|[k0 v0] d IH]; simpl.
  - destruct (Z.eqb k' k); reflexivity.
  - destruct (Z.eqb_spec k k0) as [->|Hne]; simpl.
    + destruct (Z.eqb k' k0); reflexivity.
    + destruct (Z.eqb_spec k' k0) as [->|Hne'].
      * destruct (Z.eqb_spec k0 k) as [->|_]; [congruence|reflexivity].
      * exact IH.
Qed.

Section FeedbackProperties.

Context {market : Market}.

(** What the feedback holds for one intent of the batch. *)
Definition answered (agent_id : Z) (feedback : AgentFeedback)
  (i : AgentIntent) : Prop :=
  match i with
  | PlaceOrderIntent n sd ot q p =>
      exists ov e1 e2,
        create_order agent_id ot sd q p e1 = Ok (ov, e2)
        /\ Dict.get (order_results feedback) n = Some ov
  | CancelOrderIntent n oid =>
      (exists e1 e2, cancel_order agent_id oid e1 = Ok e2)
      /\ Dict.get (order_results feedback) n = Some None
  | CreateDepositIntent n amount term =>
      exists dv e1 e2,
        create_deposit agent_id term amount e1 = Ok (dv, e2)
        /\ Dict.get (deposit_results feedback) n = Some dv
  end.

Lemma process_loop_entries agent_id intents :
  forall ors drs e feedback e',
    process_loop agent_id intents ors drs e = Ok (feedback, e') ->
    NoDup (map intent_id_of intents) ->
    feedback_agent_id feedback = agent_id
    /\ (forall k, ~ In k (map intent_id_of intents) ->
          Dict.get (order_results feedback) k = Dict.get ors k
          /\ Dict.get (deposit_results feedback) k = Dict.get drs k)
    /\ (forall i, In i intents -> answered agent_id feedback i).
Proof.
  induction intents as [|[n sd ot q p|n oid|n amount term] intents IH];
    cbn [process_loop map intent_id_of]; intros ors drs e feedback e' H Hnd.
  - inversion H; subst; simpl. split; [reflexivity|]. split; [auto|].
    intros i [].
  - apply rbind_ok in H. destruct H as ([ov e1] & Hc & H).
    inversion Hnd as [|? ? Hnin Hnd']; subst.
    destruct (IH _ _ _ _ _ H Hnd') as (Hid & Hout & Hin).
    split; [exact Hid|]. split.
    + intros k Hk. destruct (Hout k) as [Ho Hd]; [simpl in Hk; tauto|].
      rewrite Ho, Hd, dict_get_set.
      destruct (Z.eqb_spec k n) as [->|_]; [simpl in Hk; tauto|auto].
    + intros i [<-|Hi]; [|apply Hin; exact Hi].
      cbn [answered]. exists ov, e, e1. split; [exact Hc|].
      destruct (Hout n Hnin) as [Ho _]. rewrite Ho, dict_get_set, Z.eqb_refl.
      reflexivity.
  - apply rbind_ok in H. destruct H as (e1 & Hc & H).
    inversion Hnd as [|? ? Hnin Hnd']; subst.
    destruct (IH _ _ _ _ _ H Hnd') as (Hid & Hout & Hin).
    split; [exact Hid|]. split.
    + intros k Hk. destruct (Hout k) as [Ho Hd]; [simpl in Hk; tauto|].
      rewrite Ho, Hd, dict_get_set.
      destruct (Z.eqb_spec k n) as [->|_]; [simpl in Hk; tauto|auto].
    + intros i [<-|Hi]; [|apply Hin; exact Hi].
      cbn [answered]. split; [exists e, e1; exact Hc|].
      destruct (Hout n Hnin) as [Ho _]. rewrite Ho, dict_get_set, Z.eqb_refl.
      reflexivity.
  - apply rbind_ok in H. destruct H as ([dv e1] & Hc & H).
    inversion Hnd as [|? ? Hnin Hnd']; subst.
    destruct (IH _ _ _ _ _ H Hnd') as (Hid & Hout & Hin).
    split; [exact Hid|]. split.
    + intros k Hk. destruct (Hout k) as [Ho Hd]; [simpl in Hk; tauto|].
      rewrite Ho, Hd, dict_get_set.
      destruct (Z.eqb_spec k n) as [->|_]; [simpl in Hk; tauto|auto].
    + intros i [<-|Hi]; [|apply Hin; exact Hi].
      cbn [answered]. exists dv, e, e1. split; [exact Hc|].
      destruct (Hout n Hnin) as [_ Hd]. rewrite Hd, dict_get_set, Z.eqb_refl.
      reflexivity.
Qed.

(** X6. The feedback answers every intent: for a batch with distinct
    intent ids, [_process_intents] files under each order intent's id the
    view the market returned for it, under each cancel's id [None], and under
    each deposit intent's id (in the other map) the deposit view the market
    returned; the feedback carries the agent id. *)
Theorem feedback_answers_every_intent agent_id intents e feedback e' :
  NoDup (map intent_id_of intents) ->
  _process_intents agent_id intents e = Ok (feedback, e') ->
  feedback_agent_id feedback = agent_id
  /\ forall i, In i intents -> answered agent_id feedback i.
Proof.
  intros Hnd H. unfold _process_intents in H.
  destruct (process_loop_entries _ _ _ _ _ _ _ H Hnd) as (Hid & _ & Hin).
  split; assumption.
Qed.

End FeedbackProperties.

(** *** MarketMaker: what [update] computes *)

(** The cache of side [sd] once the order views of a feedback are filed in
    it, before the purge. *)
Fixpoint recorded (sd : Side) (d : Dict.t OrderView)
  (its : list (Z * option OrderView)) : Dict.t OrderView :=
  match its with
  | [] => d
  | (_, None) :: rest => recorded sd d rest
  | (_, Some ov) :: rest =>
      if Side_eqb (side ov) sd
      then recorded sd (Dict.set d (order_id ov) ov) rest
      else recorded sd d rest
  end.

(** A done order that was filled. *)
Definition filled_done (p : Z * OrderView) : bool :=
  is_done (lifecycle (snd p))
  && match end_reason (snd p) with Some FILLED => true | _ => false end.

Lemma mm_record_results_eq its :
  forall s,
    exists s',
      MarketMaker.record_results its s = Ok (tt, s')
      /\ MarketMaker.active_bids s' =
         recorded BUY (MarketMaker.active_bids s) its
      /\ MarketMaker.active_asks s' =
         recorded SELL (MarketMaker.active_asks s) its
      /\ MarketMaker.order_filled_this_tick s' =
         MarketMaker.order_filled_this_tick s.
Proof.
  induction its as [|[k [ov|]] its IH]; intros s; cbn [recorded].
  - exists s. simpl. auto.
  - cbn [MarketMaker.record_results]. destruct (side ov); cbn [Side_eqb].
    + destruct (IH (MarketMaker.set_active_bids
                      (Dict.set (MarketMaker.active_bids s) (order_id ov) ov)
                      s)) as (s' & Hrun & Hb & Ha & Hf).
      exists s'. split; [exact Hrun|]. auto.
    + destruct (IH (MarketMaker.set_active_asks
                      (Dict.set (MarketMaker.active_asks s) (order_id ov) ov)
                      s)) as (s' & Hrun & Hb & Ha & Hf).
      exists s'. split; [exact Hrun|]. auto.
  - apply IH.
Qed.

Lemma recorded_wf sd its :
  forall d, dict_wf d -> dict_wf (recorded sd d its).
Proof.
  induction its as [|[k [ov|]] its IH]; intros d Hwf; cbn [recorded].
  - exact Hwf.
  - destruct (Side_eqb (side ov) sd); apply IH; [apply dict_wf_set|];
      exact Hwf.
  - apply IH. exact Hwf.
Qed.

(** The purge of one cache, with the fill flag it leaves. *)
Lemma mm_cleanup_side_flag
  (getd other : MarketMaker.t -> Dict.t OrderView)
  (setd : Dict.t OrderView -> MarketMaker.t -> MarketMaker.t)
  (Hgs : forall d s, getd (setd d s) = d)
  (Hgf : forall v s, getd (MarketMaker.set_order_filled_this_tick v s) = getd s)
  (Hos : forall d s, other (setd d s) = other s)
  (Hof : forall v s,
      other (MarketMaker.set_order_filled_this_tick v s) = other s)
  (Hfs : forall d s,
      MarketMaker.order_filled_this_tick (setd d s) =
      MarketMaker.order_filled_this_tick s) :
  forall R P s,
    getd s = P ++ R ->
    dict_wf (P ++ R) ->
    exists s',
      MarketMaker.cleanup_side getd setd R s = Ok (tt, s')
      /\ getd s' = P ++ filter not_done R
      /\ other s' = other s
      /\ MarketMaker.order_filled_this_tick s' =
         (MarketMaker.order_filled_this_tick s || existsb filled_done R)%bool.
Proof.
  induction R as [|[oid ov] R IH]; intros P s Hget Hwf.
  - exists s. simpl. rewrite Hget, orb_false_r. auto.
  - cbn [MarketMaker.cleanup_side filter existsb].
    unfold not_done at 1, filled_done at 1. cbn [snd].
    destruct (is_done (lifecycle ov)) eqn:Hdone; cbn [negb andb].
    + destruct (nodup_keys_app_cons P R oid ov Hwf) as [Hnin Hwf'].
      set (s1 := match end_reason ov with
                 | Some FILLED =>
                     MarketMaker.set_order_filled_this_tick true s
                 | _ => s
                 end).
      assert (Hs1 : getd s1 = P ++ (oid, ov) :: R
                    /\ other s1 = other s
                    /\ MarketMaker.order_filled_this_tick s1 =
                       (MarketMaker.order_filled_this_tick s
                        || match end_reason ov with
                           | Some FILLED => true
                           | _ => false
                           end)%bool).
      { unfold s1. destruct (end_reason ov) as [[]|];
          rewrite ?Hgf, ?Hof, ?orb_false_r, ?orb_true_r; auto. }
      destruct Hs1 as (Hg1 & Ho1 & Hf1).
      destruct (IH P (setd (P ++ R) s1)) as (s' & Hrun & Hg & Ho & Hf).
      { apply Hgs. }
      { exact Hwf'. }
      exists s'. split; [|rewrite Hg, Ho, Hf, Hos, Hfs, Ho1, Hf1, orb_assoc;
                          auto].
      unfold bind at 1. unfold bind at 1.
      assert (Hflag :
        match end_reason ov with
        | Some FILLED => modify (MarketMaker.set_order_filled_this_tick true)
        | _ => ret tt
        end s = Ok (tt, s1)).
      { unfold s1. destruct (end_reason ov) as [[]|]; reflexivity. }
      unfold bind at 1. rewrite Hflag.
      unfold bind, gets, lift, modify. rewrite Hg1.
      rewrite (dict_del_app P R oid ov Hnin). exact Hrun.
    + destruct (IH (P ++ [(oid, ov)]) s) as (s' & Hrun & Hg & Ho & Hf).
      { rewrite <- app_assoc. exact Hget. }
      { rewrite <- app_assoc. exact Hwf. }
      exists s'. split; [|rewrite Hg, <- app_assoc; auto].
      unfold bind, ret. exact Hrun.
Qed.

Lemma mm_update_eq feedback s :
  dict_wf (MarketMaker.active_bids s) ->
  dict_wf (MarketMaker.active_asks s) ->
  let bids :=
    recorded BUY (MarketMaker.active_bids s) (order_results feedback) in
  let asks :=
    recorded SELL (MarketMaker.active_asks s) (order_results feedback) in
  exists s',
    MarketMaker.update feedback s = Ok (tt, s')
    /\ MarketMaker.active_bids s' = filter not_done bids
    /\ MarketMaker.active_asks s' = filter not_done asks
    /\ MarketMaker.order_filled_this_tick s' =
       (existsb filled_done bids || existsb filled_done asks)%bool.
Proof.
  intros Hb Ha bids asks. unfold MarketMaker.update.
  destruct (mm_record_results_eq (Dict.items (order_results feedback))
              (MarketMaker.set_order_filled_this_tick false s))
    as (s1 & Hrun1 & Hb1 & Ha1 & Hf1).
  mm_simpl. unfold Dict.items in *. fold bids in Hb1. fold asks in Ha1.
  assert (Hwb : dict_wf (MarketMaker.active_bids s1))
    by (rewrite Hb1; apply recorded_wf; exact Hb).
  assert (Hwa : dict_wf (MarketMaker.active_asks s1))
    by (rewrite Ha1; apply recorded_wf; exact Ha).
  destruct (mm_cleanup_side_flag MarketMaker.active_bids
              MarketMaker.active_asks MarketMaker.set_active_bids
              (fun _ _ => eq_refl) (fun _ _ => eq_refl)
              (fun _ _ => eq_refl) (fun _ _ => eq_refl)
              (fun _ _ => eq_refl)
              (MarketMaker.active_bids s1) [] s1 eq_refl Hwb)
    as (s2 & Hrun2 & Hg2 & Ho2 & Hf2).
  assert (Hwa2 : dict_wf (MarketMaker.active_asks s2))
    by (rewrite Ho2; exact Hwa).
  destruct (mm_cleanup_side_flag MarketMaker.active_asks
              MarketMaker.active_bids MarketMaker.set_active_asks
              (fun _ _ => eq_refl) (fun _ _ => eq_refl)
              (fun _ _ => eq_refl) (fun _ _ => eq_refl)
              (fun _ _ => eq_refl)
              (MarketMaker.active_asks s2) [] s2 eq_refl Hwa2)
    as (s3 & Hrun3 & Hg3 & Ho3 & Hf3).
  exists s3. split.
  - unfold bind at 1, modify. unfold bind at 1. rewrite Hrun1.
    unfold MarketMaker._cleanup_done_orders, bind, gets, Dict.items.
    rewrite Hrun2. exact Hrun3.
  - cbn [app] in *. rewrite Hg3, Ho3, Hg2, Hf3, Hf2, Hf1, Ho2, Hb1, Ha1.
    cbn [orb]. auto.
Qed.

(** X7. The fill flag after a market maker's [update] says whether that
    update purged a filled order: the flag is reset, the order views of the
    feedback are filed by side under their order ids, the done orders are
    dropped from both caches, and the flag ends up set exactly when one of
    the dropped orders had end reason FILLED; an order that was done for
    another reason is dropped without setting it. *)
Theorem update_flags_purged_fills feedback s :
  dict_wf (MarketMaker.active_bids s) ->
  dict_wf (MarketMaker.active_asks s) ->
  exists s',
    MarketMaker.update feedback s = Ok (tt, s')
    /\ MarketMaker.active_bids s' =
       filter not_done
         (recorded BUY (MarketMaker.active_bids s) (order_results feedback))
    /\ MarketMaker.active_asks s' =
       filter not_done
         (recorded SELL (MarketMaker.active_asks s) (order_results feedback))
    /\ (MarketMaker.order_filled_this_tick s' = true <->
        exists k ov,
          (In (k, ov)
             (recorded BUY (MarketMaker.active_bids s)
                (order_results feedback))
           \/ In (k, ov)
                (recorded SELL (MarketMaker.active_asks s)
                   (order_results feedback)))
          /\ lifecycle ov = DONE /\ end_reason ov = Some FILLED).
Proof.
  intros Hb Ha.
  destruct (mm_update_eq feedback s Hb Ha) as (s' & Hrun & Hb' & Ha' & Hf).
  exists s'. split; [exact Hrun|]. split; [exact Hb'|]. split; [exact Ha'|].
  rewrite Hf, orb_true_iff, !existsb_exists.
  assert (Hfd : forall p : Z * OrderView,
             filled_done p = true <->
             lifecycle (snd p) = DONE /\ end_reason (snd p) = Some FILLED).
  { intros [k ov]. unfold filled_done. cbn [snd].
    destruct (lifecycle ov); cbn [is_done andb];
      destruct (end_reason ov) as [[]|]; split;
      try discriminate; try (intros [? ?]; discriminate); auto. }
  split.
  - intros [([k ov] & Hin & Hp)|([k ov] & Hin & Hp)];
      apply Hfd in Hp; exists k, ov; cbn [snd] in Hp; tauto.
  - intros (k & ov & [Hin|Hin] & Hl & He); [left|right];
      exists (k, ov); (split; [exact Hin|]); apply Hfd; auto.
Qed.

(** The order ids of the order views a feedback carries. *)
Definition feedback_order_ids (its : list (Z * option OrderView)) : list Z :=
  flat_map (fun p => match snd p with
                     | Some ov => [order_id ov]
                     | None => []
                     end) its.

Lemma get_recorded_other sd its :
  forall d j,
    ~ In j (feedback_order_ids its) ->
    Dict.get (recorded sd d its) j = Dict.get d j.
Proof.
  induction its as [|[k [ov|]] its IH]; intros d j Hj;
    cbn [recorded feedback_order_ids flat_map snd app In] in *.
  - reflexivity.
  - destruct (Side_eqb (side ov) sd).
    + rewrite IH by tauto. rewrite dict_get_set.
      destruct (Z.eqb_spec j (order_id ov)) as [->|_]; [tauto|reflexivity].
    + apply IH. tauto.
  - apply IH. exact Hj.
Qed.

Lemma get_recorded_in sd its :
  forall d k ov,
    NoDup (feedback_order_ids its) ->
    In (k, Some ov) its ->
    side ov = sd ->
    Dict.get (recorded sd d its) (order_id ov) = Some ov.
Proof.
  induction its as [|[k0 [ov0|]] its IH]; intros d k ov Hnd Hin Hsd;
    cbn [recorded feedback_order_ids flat_map snd app In] in *.
  - destruct Hin.
  - inversion Hnd as [|? ? Hnin Hnd']; subst.
    destruct Hin as [Heq|Hin].
    + inversion Heq; subst k0 ov0.
      assert (Hs : Side_eqb (side ov) (side ov) = true)
        by (destruct (side ov); reflexivity).
      rewrite Hs, get_recorded_other by exact Hnin.
      rewrite dict_get_set, Z.eqb_refl. reflexivity.
    + destruct (Side_eqb (side ov0) (side ov)); eapply IH; eauto.
  - destruct Hin as [Heq|Hin]; [discriminate|]. eapply IH; eauto.
Qed.

Lemma dict_get_filter {V : Type} (f : Z * V -> bool) (d : Dict.t V) j v :
  dict_wf d -> Dict.get d j = Some v -> f (j, v) = true ->
  Dict.get (filter f d) j = Some v.
Proof.
  intros Hwf Hg Hf. apply dict_in_get.
  - apply dict_wf_filter. exact Hwf.
  - apply filter_In. split; [apply dict_get_in; exact Hg|exact Hf].
Qed.

(** X8. What [update] files can be looked up: when the order views of a
    feedback have distinct order ids, each of them that is still WORKING is
    found after the market maker's [update] under its order id in the cache
    of its side, and a WORKING order that was cached before and that the
    feedback does not mention is still found there. *)
Theorem update_files_working_orders feedback s s' :
  dict_wf (MarketMaker.active_bids s) ->
  dict_wf (MarketMaker.active_asks s) ->
  NoDup (feedback_order_ids (order_results feedback)) ->
  MarketMaker.update feedback s = Ok (tt, s') ->
  let cache sd st := match sd with
                     | BUY => MarketMaker.active_bids st
                     | SELL => MarketMaker.active_asks st
                     end in
  (forall k ov,
      In (k, Some ov) (Dict.items (order_results feedback)) ->
      lifecycle ov = WORKING ->
      Dict.get (cache (side ov) s') (order_id ov) = Some ov)
  /\ (forall sd j ov,
        Dict.get (cache sd s) j = Some ov ->
        lifecycle ov = WORKING ->
        ~ In j (feedback_order_ids (order_results feedback)) ->
        Dict.get (cache sd s') j = Some ov).
Proof.
  intros Hb Ha Hnd Hrun cache.
  destruct (mm_update_eq feedback s Hb Ha) as (s1 & Hrun1 & Hb1 & Ha1 & _).
  rewrite Hrun in Hrun1. inversion Hrun1; subst s1; clear Hrun1.
  assert (Hnot : forall j ov, lifecycle ov = WORKING -> not_done (j, ov) = true).
  { intros j ov Hw. unfold not_done. cbn [snd]. rewrite Hw. reflexivity. }
  split.
  - intros k ov Hin Hw. unfold cache.
    destruct (side ov) eqn:Hsd.
    + rewrite Hb1. apply dict_get_filter.
      * apply recorded_wf. exact Hb.
      * eapply get_recorded_in; eassumption.
      * apply Hnot. exact Hw.
    + rewrite Ha1. apply dict_get_filter.
      * apply recorded_wf. exact Ha.
      * eapply get_recorded_in; eassumption.
      * apply Hnot. exact Hw.
  - intros sd j ov Hg Hw Hj. unfold cache in *. destruct sd.
    + rewrite Hb1. apply dict_get_filter.
      * apply recorded_wf. exact Hb.
      * rewrite get_recorded_other by exact Hj. exact Hg.
      * apply Hnot. exact Hw.
    + rewrite Ha1. apply dict_get_filter.
      * apply recorded_wf. exact Ha.
      * rewrite get_recorded_other by exact Hj. exact Hg.
      * apply Hnot. exact Hw.
Qed.

(** *** MarketMaker: selective refresh *)

Lemma mk_cancels_complete n oids oid :
  In oid oids -> exists m, In (CancelOrderIntent m oid) (mk_cancels n oids).
Proof.
  revert n. induction oids as [|a oids IH]; intros n; simpl; [tauto|].
  intros [->|H].
  - exists n. left. reflexivity.
  - destruct (IH (n + 1)%Z H) as [m Hm]. exists m. right. exact Hm.
Qed.

Lemma selected_complete sel its oid ov :
  In (oid, ov) its -> sel ov = true -> In oid (selected sel its).
Proof.
  intros Hin Hsel. unfold selected.
  change oid with (fst (oid, ov)). apply in_map.
  apply filter_In. split; assumption.
Qed.

(** The cancel intents of a quote round of the PROVIDE layer are those of
    the stale orders of both caches, bids first. *)
Lemma mm_provide_layer_cancels acct view s l s' :
  MarketMaker._provide_layer acct view s = Ok (l, s') ->
  l <> [] ->
  exists mid s1 bid ask,
    MarketMaker._estimate_price view s = Ok (Some mid, s1)
    /\ MarketMaker._calculate_provide_prices mid s = Ok (bid, ask)
    /\ filter is_cancel l =
       mk_cancels (MarketMaker.__intent_id s)
         (selected (MarketMaker.stale bid BUY)
            (Dict.items (MarketMaker.active_bids s))
          ++ selected (MarketMaker.stale ask SELL)
               (Dict.items (MarketMaker.active_asks s))).
Proof.
  intros H Hne.
  unfold MarketMaker._provide_layer,
    MarketMaker._cancel_non_equivalent_orders in H.
  mm_inv; try discriminate; try (exfalso; apply Hne; reflexivity);
    match goal with
    | E : MarketMaker._estimate_price _ _ = Ok (?mp, ?s2) |- _ =>
        let HF := fresh "HF" in
        pose proof (mm_estimate_price_frame _ _ _ _ E) as HF;
        destruct HF as [[p Hp] [lkp Hs2]];
        try discriminate Hp; subst s2
    end;
    match goal with
    | E : MarketMaker._calculate_provide_prices _ _ = Ok _ |- _ =>
        unfold MarketMaker._calculate_provide_prices in E; mm_simpl;
        fold (MarketMaker._calculate_provide_prices f s) in E
    end;
    try match goal with
      | E : _ ++ _ = _ :: _ |- _ => rewrite <- E
      | E : _ ++ _ = [] |- _ => exfalso; apply Hne; reflexivity
      end;
    (do 4 eexists; split; [eassumption|]; split; [eassumption|]).
  all: rewrite ?filter_app, ?filter_cancel_mk_cancels; cbn [filter is_cancel];
    rewrite ?app_nil_r, mk_cancels_app; reflexivity.
Qed.

(** X9. A quote round of the PROVIDE layer clears every stale quote: when
    [decide] returns intents in that layer, each WORKING order of either
    cache is either price-equivalent (same side, within 1.0) to the new bid
    or ask price, or the target of one of the cancel intents returned; and
    each cancel intent returned targets a WORKING cached order that is not
    price-equivalent. *)
Theorem provide_round_cancels_stale_quotes acct view s intents s' :
  MarketMaker._determine_current_layer acct s = Ok MarketMaker.PROVIDE ->
  MarketMaker.decide acct view s = Ok (intents, s') ->
  intents <> [] ->
  exists mid s1 bid ask,
    MarketMaker._estimate_price view s = Ok (Some mid, s1)
    /\ MarketMaker._calculate_provide_prices mid s = Ok (bid, ask)
    /\ (forall oid ov,
          In (oid, ov) (Dict.items (MarketMaker.active_bids s)) ->
          lifecycle ov = WORKING ->
          MarketMaker._is_quote_equivalent ov bid BUY = true
          \/ exists n, In (CancelOrderIntent n oid) intents)
    /\ (forall oid ov,
          In (oid, ov) (Dict.items (MarketMaker.active_asks s)) ->
          lifecycle ov = WORKING ->
          MarketMaker._is_quote_equivalent ov ask SELL = true
          \/ exists n, In (CancelOrderIntent n oid) intents)
    /\ (forall n oid,
          In (CancelOrderIntent n oid) intents ->
          exists ov,
            lifecycle ov = WORKING
            /\ ((In (oid, ov) (Dict.items (MarketMaker.active_bids s))
                 /\ MarketMaker._is_quote_equivalent ov bid BUY = false)
                \/ (In (oid, ov) (Dict.items (MarketMaker.active_asks s))
                    /\ MarketMaker._is_quote_equivalent ov ask SELL = false))).
Proof.
  intros Hlayer H Hne.
  apply mm_decide_enter in H.
  destruct H as (layer & s0 & Hl & Hin & _ & _ & _ & H).
  rewrite Hlayer in Hl. inversion Hl; subst layer; clear Hl.
  pose proof Hin as (Hc & Hb & Ha & _ & Hlkp & _ & _ & _ & Hsp & _ & Hk).
  destruct (mm_provide_layer_cancels acct view s0 intents s' H Hne)
    as (mid & s1 & bid & ask & He & Hp & Hcancels).
  destruct (mm_estimate_price_ext view s0 s _ _ Hlkp He) as (s2 & He').
  rewrite Hc, Hb, Ha in Hcancels.
  exists mid, s2, bid, ask. split; [exact He'|]. split.
  { unfold MarketMaker._calculate_provide_prices in *.
    rewrite <- Hsp, <- Hk. exact Hp. }
  assert (Hcomplete : forall oid,
             In oid (selected (MarketMaker.stale bid BUY)
                       (Dict.items (MarketMaker.active_bids s))
                     ++ selected (MarketMaker.stale ask SELL)
                          (Dict.items (MarketMaker.active_asks s))) ->
             exists n, In (CancelOrderIntent n oid) intents).
  { intros oid Hoid.
    destruct (mk_cancels_complete (MarketMaker.__intent_id s) _ oid Hoid)
      as [m Hm].
    rewrite <- Hcancels in Hm. apply filter_In in Hm. exists m. apply Hm. }
  split; [|split].
  - intros oid ov Hov Hw.
    destruct (MarketMaker._is_quote_equivalent ov bid BUY) eqn:Heq;
      [left; reflexivity|right].
    apply Hcomplete. apply in_or_app. left.
    eapply selected_complete; [exact Hov|].
    unfold MarketMaker.stale. rewrite Hw, Heq. reflexivity.
  - intros oid ov Hov Hw.
    destruct (MarketMaker._is_quote_equivalent ov ask SELL) eqn:Heq;
      [left; reflexivity|right].
    apply Hcomplete. apply in_or_app. right.
    eapply selected_complete; [exact Hov|].
    unfold MarketMaker.stale. rewrite Hw, Heq. reflexivity.
  - intros n oid Hi.
    assert (Hi' : In (CancelOrderIntent n oid) (filter is_cancel intents))
      by (apply filter_In; split; [exact Hi|reflexivity]).
    rewrite Hcancels in Hi'. apply mk_cancels_in in Hi'.
    destruct Hi' as (m & oid' & Heq & Hsel). inversion Heq; subst m oid'.
    apply in_app_or in Hsel. destruct Hsel as [Hsel|Hsel];
      apply selected_in in Hsel; destruct Hsel as (ov & Hov & Hst);
      apply stale_inv in Hst; destruct Hst as [Hw Hneq];
      exists ov; (split; [exact Hw|]); [left|right]; auto.
Qed.

(** An order intent that does not double a quote the caches already hold. *)
Definition mm_no_double (s : MarketMaker.t) (i : AgentIntent) : Prop :=
  match i with
  | PlaceOrderIntent _ sd _ _ (Some p) =>
      MarketMaker._has_equivalent_working_order sd p s = false
  | _ => True
  end.

Lemma mm_cancels_no_double s n oids :
  Forall (mm_no_double s) (mk_cancels n oids).
Proof.
  revert n. induction oids as [|oid oids IH]; intros n; simpl;
    constructor; [exact I|apply IH].
Qed.

Ltac mm_no_double_solve :=
  repeat (apply Forall_app; split);
  try apply mm_cancels_no_double;
  try apply Forall_nil;
  try (apply Forall_cons; [|apply Forall_nil]);
  cbn [mm_no_double];
  repeat match goal with
    | H : (_ && _)%bool = true |- _ => apply andb_prop in H; destruct H
    end;
  repeat match goal with
    | H : negb (MarketMaker._has_equivalent_working_order _ _ _) = true
      |- _ =>
        apply negb_true_iff in H;
        unfold MarketMaker._has_equivalent_working_order in H; mm_simpl
    end;
  try (unfold MarketMaker._has_equivalent_working_order; assumption).

Lemma mm_stabilize_layer_no_double acct view s l s' :
  MarketMaker._stabilize_layer acct view s = Ok (l, s') ->
  Forall (mm_no_double s) l.
Proof.
  unfold MarketMaker._stabilize_layer, MarketMaker._selective_stabilize_cancel.
  intros H. mm_inv.
  all: mm_estimate_frame.
  all: try discriminate.
  all: mm_no_double_solve.
Qed.

Lemma mm_provide_layer_no_double acct view s l s' :
  MarketMaker._provide_layer acct view s = Ok (l, s') ->
  Forall (mm_no_double s) l.
Proof.
  unfold MarketMaker._provide_layer, MarketMaker._cancel_non_equivalent_orders.
  intros H. mm_inv.
  all: mm_estimate_frame.
  all: try discriminate.
  all: try match goal with
    | E : _ ++ _ = _ :: _ |- _ => rewrite <- E
    end.
  all: mm_no_double_solve.
Qed.

(** X10. Outside the SURVIVE layer the market maker never doubles a quote:
    an order intent that [decide] returns in the STABILIZE or PROVIDE layer
    is priced so that no WORKING order cached on its side is within 1.0 of
    that price. *)
Theorem quotes_are_never_doubled acct view s intents s' layer :
  MarketMaker._determine_current_layer acct s = Ok layer ->
  layer <> MarketMaker.SURVIVE ->
  MarketMaker.decide acct view s = Ok (intents, s') ->
  forall n sd ot q p,
    In (PlaceOrderIntent n sd ot q (Some p)) intents ->
    MarketMaker._has_equivalent_working_order sd p s = false
    /\ forall oid ov,
         In (oid, ov) (Dict.items (match sd with
                                   | BUY => MarketMaker.active_bids s
                                   | SELL => MarketMaker.active_asks s
                                   end)) ->
         MarketMaker._is_quote_equivalent ov p sd = false.
Proof.
  intros Hlayer Hns H n sd ot q p Hin.
  apply mm_decide_enter in H.
  destruct H as (layer' & s0 & Hl & Hsame & _ & _ & _ & H).
  rewrite Hlayer in Hl. inversion Hl; subst layer'; clear Hl.
  destruct Hsame as (_ & Hb & Ha & _).
  assert (Hall : Forall (mm_no_double s0) intents).
  { destruct layer; [congruence
                    | eapply mm_stabilize_layer_no_double
                    | eapply mm_provide_layer_no_double ]; exact H. }
  rewrite Forall_forall in Hall. specialize (Hall _ Hin).
  cbn [mm_no_double] in Hall.
  unfold MarketMaker._has_equivalent_working_order in *.
  rewrite Hb, Ha in Hall. split; [exact Hall|].
  intros oid ov Hov.
  destruct (MarketMaker._is_quote_equivalent ov p sd) eqn:Heq; [|reflexivity].
  assert (Hex : existsb
                  (fun order_view =>
                     MarketMaker._is_quote_equivalent order_view p sd)
                  (Dict.values
                     match sd with
                     | BUY => MarketMaker.active_bids s
                     | SELL => MarketMaker.active_asks s
                     end) = true).
  { apply existsb_exists. exists ov. split; [|exact Heq].
    unfold Dict.values. change ov with (snd (oid, ov)). apply in_map.
    exact Hov. }
  rewrite Hex in Hall. discriminate.
Qed.

(** *** MarketMaker: the layer before a price is known *)

(** [|x - x| > tol] fails for every float [x] as soon as [tol < 0] does:
    the difference is zero, or not a number. *)
Lemma abs_sub_diag_not_gt (x tol : float) :
  (tol <? 0) = false -> PyFloat.gtb (abs (x - x)) tol = false.
Proof.
  unfold PyFloat.gtb. rewrite !ltb_spec, abs_spec, sub_spec.
  change (Prim2SF 0) with (SpecFloat.S754_zero false).
  intros Htol.
  destruct (Prim2SF x) as [sx|sx| |sx mx ex].
  - destruct sx; exact Htol.
  - destruct sx; cbn; unfold SpecFloat.SFltb;
      destruct (Prim2SF tol) as [[]|[]| |[] ? ?]; reflexivity.
  - cbn; unfold SpecFloat.SFltb;
      destruct (Prim2SF tol) as [[]|[]| |[] ? ?]; reflexivity.
  - unfold SF64sub, SpecFloat.SFsub.
    rewrite Z.min_id. unfold SpecFloat.shl_align. rewrite Z.sub_diag.
    cbn [fst]. rewrite ?Z.sub_diag. cbn. exact Htol.
Qed.

Lemma mm_provide_layer_last_layer acct view s l s' :
  MarketMaker._provide_layer acct view s = Ok (l, s') ->
  MarketMaker._last_layer s' = MarketMaker._last_layer s.
Proof.
  unfold MarketMaker._provide_layer, MarketMaker._cancel_non_equivalent_orders.
  intros H. mm_inv.
  all: mm_estimate_frame.
  all: try discriminate.
  all: reflexivity.
Qed.

(** X11. Before it has seen a price the market maker acts as if balanced:
    with no last known price the inventory ratio falls back to the target,
    so with the target inside the risk bounds and a tolerance that is not
    negative the layer is PROVIDE whatever the account holds, all cash or
    all shares included, and [decide] leaves PROVIDE as the last layer. *)
Theorem unpriced_market_maker_provides acct s :
  MarketMaker.last_known_price s = None ->
  (MarketMaker.target_inventory_fraction s <? MarketMaker.risk_lower_bound s)
  = false ->
  (MarketMaker.risk_upper_bound s <? MarketMaker.target_inventory_fraction s)
  = false ->
  (MarketMaker.stabilization_tolerance s <? 0) = false ->
  MarketMaker._calculate_inventory_ratio acct s =
    Ok (MarketMaker.target_inventory_fraction s)
  /\ MarketMaker._determine_current_layer acct s = Ok MarketMaker.PROVIDE
  /\ forall view intents s',
       MarketMaker.decide acct view s = Ok (intents, s') ->
       MarketMaker._last_layer s' = MarketMaker.PROVIDE.
Proof.
  intros Hlkp Hlo Hhi Htol.
  assert (Hr : MarketMaker._calculate_inventory_ratio acct s =
               Ok (MarketMaker.target_inventory_fraction s)).
  { unfold MarketMaker._calculate_inventory_ratio. rewrite Hlkp.
    reflexivity. }
  assert (Hl : MarketMaker._determine_current_layer acct s =
               Ok MarketMaker.PROVIDE).
  { unfold MarketMaker._determine_current_layer, MarketMaker._should_survive,
      MarketMaker._should_stabilize.
    rewrite Hr. cbn [rbind]. unfold PyFloat.gtb at 1. rewrite Hlo, Hhi.
    cbn [rbind]. rewrite (abs_sub_diag_not_gt _ _ Htol). reflexivity. }
  split; [exact Hr|]. split; [exact Hl|].
  intros view intents s' H.
  apply mm_decide_enter in H.
  destruct H as (layer & s0 & Hl' & _ & _ & _ & Hlast & H).
  rewrite Hl in Hl'. injection Hl' as Hlay. rewrite <- Hlay in *.
  apply mm_provide_layer_last_layer in H.
  rewrite H. exact Hlast.
Qed.

(** *** Guarded divisions *)

Lemma not_leb_not_eqb (x y : float) : (x <=? y) = false -> (x =? y) = false.
Proof.
  rewrite leb_spec, eqb_spec. unfold SpecFloat.SFleb, SpecFloat.SFeqb.
  destruct (SpecFloat.SFcompare (Prim2SF x) (Prim2SF y)) as [[]|];
    congruence.
Qed.

(** X12. The wealth shares are computed without ever dividing by zero: the
    market maker's inventory ratio and the value investor's position
    fraction return a value for every account and every remembered price,
    zero and negative wealth included (the fallback is taken), as long as
    the share count fits a float; the only exception they can raise is the
    OverflowError of that conversion. *)
Theorem wealth_ratios_never_divide_by_zero acct :
  (forall s sh,
      PyFloat.of_int (shares acct) = Ok sh ->
      exists r, MarketMaker._calculate_inventory_ratio acct s = Ok r)
  /\ (forall s e,
        MarketMaker._calculate_inventory_ratio acct s = Raise e ->
        e = OverflowError)
  /\ (forall s sh,
        PyFloat.of_int (shares acct) = Ok sh ->
        exists r, ValueInvestor._calculate_position_fraction acct s = Ok r)
  /\ (forall s e,
        ValueInvestor._calculate_position_fraction acct s = Raise e ->
        e = OverflowError).
Proof.
  assert (Hraise : forall n e, PyFloat.of_int n = Raise e -> e = OverflowError).
  { intros n e. unfold PyFloat.of_int.
    destruct (is_infinity _); congruence. }
  assert (Hdiv : forall x y, (y <=? 0) = false ->
                             PyFloat.truediv x y = Ok (x / y)).
  { intros x y Hle. unfold PyFloat.truediv.
    rewrite (not_leb_not_eqb _ _ Hle). reflexivity. }
  split; [|split; [|split]].
  - intros s sh Hsh. unfold MarketMaker._calculate_inventory_ratio.
    rewrite Hsh.
    destruct (MarketMaker.last_known_price s) as [p|];
      [|eexists; reflexivity].
    cbn [rbind].
    destruct (cash acct + sh * p <=? 0) eqn:Hle; [eexists; reflexivity|].
    rewrite (Hdiv _ _ Hle). eexists; reflexivity.
  - intros s e. unfold MarketMaker._calculate_inventory_ratio.
    destruct (MarketMaker.last_known_price s) as [p|]; [|discriminate].
    destruct (PyFloat.of_int (shares acct)) as [sh|e'] eqn:Hsh; cbn [rbind].
    + destruct (cash acct + sh * p <=? 0) eqn:Hle; [discriminate|].
      rewrite (Hdiv _ _ Hle). discriminate.
    + intros H. inversion H; subst. eapply Hraise. exact Hsh.
  - intros s sh Hsh. unfold ValueInvestor._calculate_position_fraction.
    rewrite Hsh.
    destruct (ValueInvestor.last_known_price s) as [p|];
      [|eexists; reflexivity].
    cbn [rbind].
    destruct (cash acct + sh * p <=? 0) eqn:Hle; [eexists; reflexivity|].
    rewrite (Hdiv _ _ Hle). eexists; reflexivity.
  - intros s e. unfold ValueInvestor._calculate_position_fraction.
    destruct (ValueInvestor.last_known_price s) as [p|]; [|discriminate].
    destruct (PyFloat.of_int (shares acct)) as [sh|e'] eqn:Hsh; cbn [rbind].
    + destruct (cash acct + sh * p <=? 0) eqn:Hle; [discriminate|].
      rewrite (Hdiv _ _ Hle). discriminate.
    + intros H. inversion H; subst. eapply Hraise. exact Hsh.
Qed.

(** *** ValueInvestor: the deposit opportunity *)

Lemma pyint_truediv_raise a b e :
  PyInt.truediv a b = Raise e -> e = ZeroDivisionError \/ e = OverflowError.
Proof.
  unfold PyInt.truediv. destruct (Z.eqb b 0); [intros H; inversion H; auto|].
  destruct (is_infinity _); intros H; inversion H; auto.
Qed.

Lemma best_deposit_raise hp max_term rates :
  forall bt bs e,
    ValueInvestor.best_deposit hp max_term rates bt bs = Raise e ->
    e = ZeroDivisionError \/ e = OverflowError.
Proof.
  induction rates as [|[term rate] rates IH]; intros bt bs e;
    cbn [ValueInvestor.best_deposit]; [discriminate|].
  destruct (PyInt.truediv term max_term) as [frac|e'] eqn:Hd; cbn [rbind].
  - destruct (PyFloat.gtb _ bs); apply IH.
  - intros H. inversion H; subst. eapply pyint_truediv_raise. exact Hd.
Qed.

Lemma best_deposit_in hp max_term rates :
  forall bt bs t,
    ValueInvestor.best_deposit hp max_term rates bt bs = Ok (Some t) ->
    bt = Some t \/ In t (Dict.keys rates).
Proof.
  unfold Dict.keys.
  induction rates as [|[term rate] rates IH]; intros bt bs t;
    cbn [ValueInvestor.best_deposit map fst In].
  - intros H. inversion H. auto.
  - destruct (PyInt.truediv term max_term) as [frac|e']; cbn [rbind];
      [|discriminate].
    destruct (PyFloat.gtb _ bs); intros H; apply IH in H.
    + destruct H as [H|H]; [inversion H; auto|auto].
    + destruct H as [H|H]; auto.
Qed.

(** X13. The deposit opportunity of a value investor: none when no deposit
    rate is on offer; a ZeroDivisionError when rates are on offer and their
    longest term is 0 (every term is scored relative to the longest); when
    one is returned, it is a term on offer other than 0, with its own rate,
    and that rate is at least [deposit_affinity]; and the lookup of the best
    term never fails, so the only exceptions are ZeroDivisionError and
    OverflowError. *)
Theorem deposit_opportunity_spec view s ev :
  economy_insight_view view = Some ev ->
  (deposit_rates ev = [] ->
   ValueInvestor._evaluate_deposit_opportunity view s = Ok None)
  /\ (forall k ks,
        Dict.keys (deposit_rates ev) = k :: ks ->
        PyInt.maximum k ks = 0%Z ->
        ValueInvestor._evaluate_deposit_opportunity view s =
          Raise ZeroDivisionError)
  /\ (forall term rate,
        ValueInvestor._evaluate_deposit_opportunity view s =
          Ok (Some (term, rate)) ->
        Dict.get (deposit_rates ev) term = Some rate
        /\ term <> 0%Z
        /\ PyFloat.geb rate (ValueInvestor.deposit_affinity s) = true)
  /\ (forall e,
        ValueInvestor._evaluate_deposit_opportunity view s = Raise e ->
        e = ZeroDivisionError \/ e = OverflowError).
Proof.
  intros Hev. unfold ValueInvestor._evaluate_deposit_opportunity.
  rewrite Hev. split; [|split; [|split]].
  - intros ->. reflexivity.
  - intros k ks Hk Hmax. rewrite Hk, Hmax.
    destruct (deposit_rates ev) as [|[term rate] rates]; [discriminate|].
    cbn [Dict.items ValueInvestor.best_deposit].
    unfold PyInt.truediv. cbn [Z.eqb rbind]. reflexivity.
  - intros term rate H.
    destruct (Dict.keys (deposit_rates ev)) as [|k ks]; [discriminate|].
    monad_inv. apply Z.eqb_neq in Heqb. auto.
  - intros e H.
    destruct (Dict.keys (deposit_rates ev)) as [|k ks] eqn:Hk; [discriminate|].
    destruct (ValueInvestor.best_deposit _ _ _ _ _) as [[t|]|e'] eqn:Hb;
      cbn [rbind] in H; try discriminate.
    + destruct (Z.eqb t 0); [discriminate|].
      destruct (Dict.get (deposit_rates ev) t) as [r|] eqn:Hg.
      * destruct (PyFloat.geb r _); discriminate.
      * exfalso. apply best_deposit_in in Hb.
        destruct Hb as [Hb|Hb]; [discriminate|].
        apply dict_mem_keys in Hb. unfold Dict.mem in Hb.
        unfold Dict.items in Hb. rewrite Hg in Hb. discriminate.
    + inversion H; subst. eapply best_deposit_raise. exact Hb.
Qed.

(** *** ValueInvestor: a belief of zero *)

Lemma vi_update_beliefs_runs acct view s ev md p sh :
  economy_insight_view view = Some ev ->
  market_data_view view = Some md ->
  mid_price md = Some p ->
  PyFloat.of_int (shares acct) = Ok sh ->
  exists s1,
    ValueInvestor._update_beliefs acct view s = Ok (tt, s1)
    /\ ValueInvestor.belief s1 =
       fst (tv_interval ev)
       + ValueInvestor.optimism s
         * (snd (tv_interval ev) - fst (tv_interval ev))
    /\ ValueInvestor.agent_id s1 = ValueInvestor.agent_id s.
Proof.
  intros Hev Hmd Hmid Hsh.
  unfold ValueInvestor._update_beliefs, ValueInvestor._update_optimism,
    ValueInvestor._update_perceived_pnl, ValueInvestor._estimate_market_price.
  rewrite Hev, Hmd, Hmid. destruct (tv_interval ev) as [lo hi]. cbn [fst snd].
  unfold bind, gets, modify, ret, lift. vi_simpl.
  destruct (PyFloat.gtb (ValueInvestor.perceived_pnl s) 0);
    [|destruct (ValueInvestor.perceived_pnl s <? 0)];
    vi_simpl; rewrite Hsh; eexists; (split; [reflexivity|]); vi_simpl;
    split; reflexivity.
Qed.

(** X14. A belief of zero stops the value investor: when the fair-value
    interval and the optimism make the belief [0.0] and the view carries a
    positive mid price, [decide] raises ZeroDivisionError (the mispricing is
    a ratio to the belief); nothing is returned for that tick. *)
Theorem zero_belief_raises acct view s ev md p sh :
  view_agent_id view = ValueInvestor.agent_id s ->
  economy_insight_view view = Some ev ->
  market_data_view view = Some md ->
  mid_price md = Some p ->
  (p <=? 0) = false ->
  PyFloat.of_int (shares acct) = Ok sh ->
  (fst (tv_interval ev)
   + ValueInvestor.optimism s * (snd (tv_interval ev) - fst (tv_interval ev))
   =? 0) = true ->
  ValueInvestor.decide acct view s = Raise ZeroDivisionError.
Proof.
  intros Hid Hev Hmd Hmid Hp Hsh Hb.
  destruct (vi_update_beliefs_runs acct view s ev md p sh Hev Hmd Hmid Hsh)
    as (s1 & Hrun & Hbel & _).
  unfold ValueInvestor.decide.
  unfold bind at 1. unfold gets at 1.
  unfold bind at 1. rewrite Hid, Z.eqb_refl. unfold py_assert at 1.
  unfold bind at 1. rewrite Hev. unfold py_assert at 1.
  unfold bind at 1. rewrite Hrun.
  unfold bind at 1.
  unfold ValueInvestor._select_intention.
  unfold bind at 1.
  unfold ValueInvestor._calculate_mispricing,
    ValueInvestor._estimate_market_price.
  rewrite Hmd, Hmid. unfold bind, modify, ret, gets, lift. rewrite Hp.
  vi_simpl. rewrite Hbel. unfold PyFloat.truediv. rewrite Hb. reflexivity.
Qed.

(** *** ValueInvestor: trading needs a price *)

Lemma ltb_0_opp (x : float) : (0 <? - x) = (x <? 0).
Proof.
  rewrite !ltb_spec, opp_spec.
  change (Prim2SF 0) with (SpecFloat.S754_zero false).
  destruct (Prim2SF x) as [[]|[]| |[] m e]; reflexivity.
Qed.

(** The price a value investor works with: the mid price of the view, else
    its last traded price, else the last price the investor knew. *)
Definition vi_market_price (view : AgentView) (s : ValueInvestor.t)
  : option float :=
  match market_data_view view with
  | Some md =>
      match mid_price md with
      | Some p => Some p
      | None =>
          match last_traded_price md with
          | Some p => Some p
          | None => ValueInvestor.last_known_price s
          end
      end
  | None => ValueInvestor.last_known_price s
  end.

Lemma vi_estimate_market_price_eq view s mp s' :
  ValueInvestor._estimate_market_price view s = Ok (mp, s') ->
  mp = vi_market_price view s
  /\ s' = ValueInvestor.set_last_known_price mp s.
Proof.
  intros H. split; [|eapply vi_estimate_market_price_frame; exact H].
  unfold ValueInvestor._estimate_market_price, vi_market_price in *.
  destruct (market_data_view view) as [md|]; [|discriminate].
  destruct (mid_price md); [monad_inv; reflexivity|].
  destruct (last_traded_price md); [monad_inv; reflexivity|].
  monad_inv. reflexivity.
Qed.

Lemma vi_market_price_again view s t :
  ValueInvestor.last_known_price t = vi_market_price view s ->
  vi_market_price view t = vi_market_price view s.
Proof.
  unfold vi_market_price.
  destruct (market_data_view view) as [md|]; [|auto].
  destruct (mid_price md); [reflexivity|].
  destruct (last_traded_price md); [reflexivity|]. auto.
Qed.

Lemma vi_update_beliefs_price acct view s u s1 :
  ValueInvestor._update_beliefs acct view s = Ok (u, s1) ->
  ValueInvestor.last_known_price s1 = vi_market_price view s
  /\ ValueInvestor.mispricing_threshold s1 =
     ValueInvestor.mispricing_threshold s.
Proof.
  unfold ValueInvestor._update_beliefs, ValueInvestor._update_optimism,
    ValueInvestor._update_perceived_pnl.
  intros H.
  destruct (economy_insight_view view) as [ev|]; [|discriminate].
  destruct (tv_interval ev) as [lo hi].
  apply bind_ok in H. destruct H as (opt & s2 & H2 & H).
  apply gets_ok in H2. destruct H2 as [Hopt Hs2]. subst opt s2.
  apply bind_ok in H. destruct H as (u3 & s3 & H3 & H).
  apply modify_ok in H3. subst s3.
  apply bind_ok in H. destruct H as (u4 & s4 & H4 & H).
  assert (Hs4 : ValueInvestor.last_known_price s4 =
                ValueInvestor.last_known_price s
                /\ ValueInvestor.mispricing_threshold s4 =
                   ValueInvestor.mispricing_threshold s).
  { vi_inv; split; reflexivity. }
  destruct Hs4 as [Hlkp Hthr].
  apply bind_ok in H. destruct H as (mp & s5 & H5 & H).
  apply vi_estimate_market_price_eq in H5. destruct H5 as [Hmp Hs5].
  subst s5.
  assert (Hmp' : mp = vi_market_price view s).
  { rewrite Hmp. unfold vi_market_price. rewrite Hlkp. reflexivity. }
  vi_inv; (split; [assumption|assumption]).
Qed.

Lemma vi_mispricing_without_price view s m s' :
  match vi_market_price view s with
  | None => True
  | Some p => (p <=? 0) = true
  end ->
  ValueInvestor._calculate_mispricing view s = Ok (m, s') ->
  m = 0 /\ s' = ValueInvestor.set_last_known_price (vi_market_price view s) s.
Proof.
  unfold ValueInvestor._calculate_mispricing. intros Hp H.
  apply bind_ok in H. destruct H as (mp & s1 & H1 & H).
  apply vi_estimate_market_price_eq in H1. destruct H1 as [Hmp Hs1].
  subst mp s1.
  destruct (vi_market_price view s) as [p|].
  - rewrite Hp in H. apply ret_ok in H. destruct H; subst. auto.
  - apply ret_ok in H. destruct H; subst. auto.
Qed.

(** X15. A value investor does not trade without a usable price: when the
    price it works with (mid, else last traded, else last known) is missing
    or not positive, and the mispricing threshold is not negative, [decide]
    returns no order intent; when there is no price at all it returns
    nothing and the intention is WAIT. *)
Theorem value_investor_needs_a_price acct view s intents s' :
  (ValueInvestor.mispricing_threshold s <? 0) = false ->
  match vi_market_price view s with
  | None => True
  | Some p => (p <=? 0) = true
  end ->
  ValueInvestor.decide acct view s = Ok (intents, s') ->
  (forall i, In i intents -> is_place i = false)
  /\ (vi_market_price view s = None ->
      intents = [] /\ ValueInvestor.current_intention s' = ValueInvestor.WAIT).
Proof.
  intros Hthr Hp H. unfold ValueInvestor.decide in H.
  apply bind_ok in H. destruct H as (aid & sa & Ha & H).
  apply gets_ok in Ha. destruct Ha as [Haid Hsa]. subst aid sa.
  apply bind_ok in H. destruct H as (u1 & sb & Hb & H).
  apply py_assert_ok in Hb. destruct Hb as [_ Hsb]. subst sb.
  apply bind_ok in H. destruct H as (u2 & sc & Hc & H).
  apply py_assert_ok in Hc. destruct Hc as [_ Hsc]. subst sc.
  apply bind_ok in H. destruct H as (u3 & s1 & Hd & H).
  apply vi_update_beliefs_price in Hd. destruct Hd as [Hlkp1 Hthr1].
  apply bind_ok in H. destruct H as (u4 & s2 & He & H).
  pose proof (vi_market_price_again view s s1 Hlkp1) as Hagain.
  unfold ValueInvestor._select_intention in He.
  apply bind_ok in He. destruct He as (m & s3 & Hm & He).
  apply vi_mispricing_without_price in Hm; [|rewrite Hagain; exact Hp].
  destruct Hm as [Hm0 Hs3]. subst m s3. rewrite Hagain in He.
  apply bind_ok in He. destruct He as (pf & s4 & Hpf & He).
  apply vi_reads_ok in Hpf. destruct Hpf as [_ Hs4]. subst s4.
  apply bind_ok in He. destruct He as (dop & s5 & Hdop & He).
  apply vi_reads_ok in Hdop. destruct Hdop as [_ Hs5]. subst s5.
  apply bind_ok in He. destruct He as (thr & s6 & Ht & He).
  apply gets_ok in Ht. destruct Ht as [Ht Hs6]. subst thr s6.
  apply bind_ok in He. destruct He as (cap & s7 & Hcap & He).
  apply gets_ok in Hcap. destruct Hcap as [Hcap Hs7]. subst cap s7.
  vi_simpl. rewrite Hthr1 in He.
  unfold PyFloat.gtb at 1 in He. rewrite Hthr in He. cbn [andb] in He.
  rewrite ltb_0_opp, Hthr in He. cbn [andb] in He.
  apply bind_ok in He. destruct He as (lkp & s8 & Hl & He).
  apply gets_ok in Hl. destruct Hl as [Hl Hs8]. subst lkp s8. vi_simpl.
  apply bind_ok in He. destruct He as (parked & s9 & Hpk & He).
  assert (Hpark : s9 = ValueInvestor.set_last_known_price
                         (vi_market_price view s) s1
                  /\ (vi_market_price view s = None -> parked = false)).
  { destruct dop as [d|]; destruct (vi_market_price view s) as [p|];
      vi_inv; split; try reflexivity; try discriminate; auto. }
  destruct Hpark as [Hs9 Hnone]. subst s9.
  unfold ValueInvestor._execute_intention in H.
  split.
  - intros i Hi.
    destruct parked; apply modify_ok in He; subst s2;
      unfold ValueInvestor._execute_wait,
        ValueInvestor._execute_park_capital in H;
      vi_inv; try destruct Hi as [Hi|[]]; try destruct Hi; subst;
      reflexivity.
  - intros Hn. rewrite (Hnone Hn) in He. apply modify_ok in He. subst s2.
    unfold ValueInvestor._execute_wait in H. vi_inv; auto.
Qed.

(** *** ValueInvestor: what an intent can be *)

(** An intent of the value investor: a priced limit order of at most
    [max_order_size] shares, covered by the shares held when it sells, or a
    deposit of a positive amount. *)
Definition vi_intent_ok (acct : AccountView) (s : ValueInvestor.t)
  (i : AgentIntent) : Prop :=
  match i with
  | PlaceOrderIntent _ sd ot q p =>
      ot = LIMIT
      /\ (exists pr, p = Some pr)
      /\ (q <= ValueInvestor.max_order_size s)%Z
      /\ match sd with
         | BUY => (0 < q)%Z
         | SELL =>
             (q <= shares acct)%Z
             /\ ((0 < ValueInvestor.max_order_size s)%Z -> (0 < q)%Z)
         end
  | CancelOrderIntent _ _ => False
  | CreateDepositIntent _ amount _ => (amount <=? 0) = false
  end.

Lemma vi_execute_intention_intents acct view s l s' :
  ValueInvestor._execute_intention acct view s = Ok (l, s') ->
  (length l <= 1)%nat /\ Forall (vi_intent_ok acct s) l.
Proof.
  unfold ValueInvestor._execute_intention, ValueInvestor._execute_wait,
    ValueInvestor._execute_accumulate, ValueInvestor._execute_distribute,
    ValueInvestor._execute_park_capital.
  intros H. vi_inv.
  all: split; [simpl; lia|].
  all: try apply Forall_nil.
  all: apply Forall_cons; [|apply Forall_nil].
  all: cbn [vi_intent_ok].
  all: repeat match goal with
    | H : (_ <? _)%Z = true |- _ => apply Z.ltb_lt in H
    | H : (_ <? _)%Z = false |- _ => apply Z.ltb_ge in H
    | H : (_ <=? _)%Z = true |- _ => apply Z.leb_le in H
    | H : (_ <=? _)%Z = false |- _ => apply Z.leb_gt in H
    end.
  all: try assumption.
  all: repeat split; try (eexists; reflexivity); try lia.
Qed.

Lemma vi_update_beliefs_params acct view s u s' :
  ValueInvestor._update_beliefs acct view s = Ok (u, s') ->
  ValueInvestor.max_order_size s' = ValueInvestor.max_order_size s.
Proof.
  unfold ValueInvestor._update_beliefs, ValueInvestor._update_optimism,
    ValueInvestor._update_perceived_pnl.
  intros H. vi_inv; reflexivity.
Qed.

Lemma vi_select_intention_params acct view s u s' :
  ValueInvestor._select_intention acct view s = Ok (u, s') ->
  ValueInvestor.max_order_size s' = ValueInvestor.max_order_size s.
Proof.
  unfold ValueInvestor._select_intention, ValueInvestor._calculate_mispricing.
  intros H. vi_inv; reflexivity.
Qed.

(** X16. The value investor trades in bounded, covered limit orders: one
    [decide] call returns at most one intent; an order intent is a limit
    order with a price for at most [max_order_size] shares, of positive
    quantity when it buys and never for more shares than the account holds
    when it sells; a deposit intent has a positive amount; cancels are never
    issued. *)
Theorem value_investor_orders_are_bounded acct view s intents s' :
  ValueInvestor.decide acct view s = Ok (intents, s') ->
  (length intents <= 1)%nat
  /\ forall i, In i intents ->
       match i with
       | PlaceOrderIntent _ sd ot q p =>
           ot = LIMIT
           /\ (exists pr, p = Some pr)
           /\ (q <= ValueInvestor.max_order_size s)%Z
           /\ (sd = BUY -> (0 < q)%Z)
           /\ (sd = SELL ->
               (q <= shares acct)%Z
               /\ ((0 < ValueInvestor.max_order_size s)%Z -> (0 < q)%Z))
       | CancelOrderIntent _ _ => False
       | CreateDepositIntent _ amount _ => (amount <=? 0) = false
       end.
Proof.
  unfold ValueInvestor.decide. intros H.
  apply bind_ok in H. destruct H as (aid & sa & Ha & H).
  apply gets_ok in Ha. destruct Ha as [Haid Hsa]. subst aid sa.
  apply bind_ok in H. destruct H as (u1 & sb & Hb & H).
  apply py_assert_ok in Hb. destruct Hb as [_ Hsb]. subst sb.
  apply bind_ok in H. destruct H as (u2 & sc & Hc & H).
  apply py_assert_ok in Hc. destruct Hc as [_ Hsc]. subst sc.
  apply bind_ok in H. destruct H as (u3 & s1 & Hd & H).
  apply bind_ok in H. destruct H as (u4 & s2 & He & H).
  apply vi_update_beliefs_params in Hd.
  apply vi_select_intention_params in He.
  apply vi_execute_intention_intents in H. destruct H as [Hlen Hall].
  split; [exact Hlen|].
  intros i Hin. rewrite Forall_forall in Hall. specialize (Hall i Hin).
  destruct i as [n sd ot q p|n oid|n amount term]; cbn [vi_intent_ok] in Hall;
    [|exact Hall|exact Hall].
  rewrite He, Hd in Hall. destruct Hall as (Hot & Hp & Hq & Hsd).
  split; [exact Hot|]. split; [exact Hp|]. split; [exact Hq|].
  destruct sd; split; intros Hx; try discriminate Hx; exact Hsd.
Qed.

(** *** ValueInvestor: what [update] keeps *)

Lemma dict_mem_set_eq {V : Type} (d : Dict.t V) k v k' :
  Dict.mem (Dict.set d k v) k' = (Z.eqb k' k || Dict.mem d k')%bool.
Proof.
  unfold Dict.mem. rewrite dict_get_set.
  destruct (Z.eqb k' k); reflexivity.
Qed.

Lemma vi_record_orders_spec its :
  forall s,
    exists s',
      ValueInvestor.record_orders its s = Ok (tt, s')
      /\ ValueInvestor.active_deposits s' = ValueInvestor.active_deposits s
      /\ (forall k, Dict.mem (ValueInvestor.pending_orders s) k = true ->
            Dict.mem (ValueInvestor.pending_orders s') k = true)
      /\ (forall k ov, In (k, Some ov) its ->
            Dict.mem (ValueInvestor.pending_orders s') (order_id ov) = true).
Proof.
  induction its as [|[k0 [ov0|]] its IH]; intros s;
    cbn [ValueInvestor.record_orders].
  - exists s. split; [reflexivity|]. split; [reflexivity|].
    split; [auto|]. intros k ov [].
  - destruct (IH (ValueInvestor.set_pending_orders
                    (Dict.set (ValueInvestor.pending_orders s)
                       (order_id ov0) ov0) s))
      as (s' & Hrun & Hd & Hmono & Hin).
    vi_simpl. exists s'. split; [exact Hrun|]. split; [exact Hd|]. split.
    + intros k Hk. apply Hmono. rewrite dict_mem_set_eq, Hk.
      apply orb_true_r.
    + intros k ov [Heq|Hi]; [|eapply Hin; exact Hi].
      inversion Heq; subst. apply Hmono.
      rewrite dict_mem_set_eq, Z.eqb_refl. reflexivity.
  - destruct (IH s) as (s' & Hrun & Hd & Hmono & Hin).
    exists s'. split; [exact Hrun|]. split; [exact Hd|].
    split; [exact Hmono|].
    intros k ov [Heq|Hi]; [discriminate|eapply Hin; exact Hi].
Qed.

Lemma vi_record_deposits_spec its :
  forall s,
    exists s',
      ValueInvestor.record_deposits its s = Ok (tt, s')
      /\ ValueInvestor.pending_orders s' = ValueInvestor.pending_orders s
      /\ (forall k, Dict.mem (ValueInvestor.active_deposits s) k = true ->
            Dict.mem (ValueInvestor.active_deposits s') k = true)
      /\ (forall k dv, In (k, Some dv) its ->
            Dict.mem (ValueInvestor.active_deposits s') (deposit_id dv)
            = true).
Proof.
  induction its as [|[k0 [dv0|]] its IH]; intros s;
    cbn [ValueInvestor.record_deposits].
  - exists s. split; [reflexivity|]. split; [reflexivity|].
    split; [auto|]. intros k dv [].
  - destruct (IH (ValueInvestor.set_active_deposits
                    (Dict.set (ValueInvestor.active_deposits s)
                       (deposit_id dv0) dv0) s))
      as (s' & Hrun & Hd & Hmono & Hin).
    vi_simpl. exists s'. split; [exact Hrun|]. split; [exact Hd|]. split.
    + intros k Hk. apply Hmono. rewrite dict_mem_set_eq, Hk.
      apply orb_true_r.
    + intros k dv [Heq|Hi]; [|eapply Hin; exact Hi].
      inversion Heq; subst. apply Hmono.
      rewrite dict_mem_set_eq, Z.eqb_refl. reflexivity.
  - destruct (IH s) as (s' & Hrun & Hd & Hmono & Hin).
    exists s'. split; [exact Hrun|]. split; [exact Hd|].
    split; [exact Hmono|].
    intros k dv [Heq|Hi]; [discriminate|eapply Hin; exact Hi].
Qed.

(** X17. A value investor's [update] only ever adds to its books: every
    order id in [pending_orders] and every deposit id in [active_deposits]
    before the call is still there after it, and every order or deposit
    view of the feedback is filed under its own id, a DONE order included;
    nothing is purged. *)
Theorem value_investor_update_only_adds feedback s :
  exists s',
    ValueInvestor.update feedback s = Ok (tt, s')
    /\ (forall k, Dict.mem (ValueInvestor.pending_orders s) k = true ->
          Dict.mem (ValueInvestor.pending_orders s') k = true)
    /\ (forall k, Dict.mem (ValueInvestor.active_deposits s) k = true ->
          Dict.mem (ValueInvestor.active_deposits s') k = true)
    /\ (forall k ov,
          In (k, Some ov) (Dict.items (order_results feedback)) ->
          Dict.mem (ValueInvestor.pending_orders s') (order_id ov) = true)
    /\ (forall k dv,
          In (k, Some dv) (Dict.items (deposit_results feedback)) ->
          Dict.mem (ValueInvestor.active_deposits s') (deposit_id dv) = true).
Proof.
  unfold ValueInvestor.update.
  destruct (vi_record_deposits_spec (Dict.items (deposit_results feedback)) s)
    as (s1 & Hrun1 & Ho1 & Hmono1 & Hin1).
  destruct (vi_record_orders_spec (Dict.items (order_results feedback)) s1)
    as (s2 & Hrun2 & Hd2 & Hmono2 & Hin2).
  exists s2. split; [unfold bind; rewrite Hrun1; exact Hrun2|].
  split; [|split; [|split]].
  - intros k Hk. apply Hmono2. rewrite Ho1. exact Hk.
  - intros k Hk. rewrite Hd2. apply Hmono1. exact Hk.
  - exact Hin2.
  - intros k dv Hi. rewrite Hd2. eapply Hin1. exact Hi.
Qed.

(** *** ValueInvestor: the purges *)

Definition unmatured (current_macro_tick : Z) (p : Z * DepositView) : bool :=
  negb (current_macro_tick >=? maturity_macro_tick (snd p))%Z.

Lemma vi_cleanup_deposits_loop_spec tick :
  forall R P s,
    ValueInvestor.active_deposits s = P ++ R ->
    dict_wf (P ++ R) ->
    exists s',
      ValueInvestor.cleanup_deposits_loop tick R s = Ok (tt, s')
      /\ ValueInvestor.active_deposits s' = P ++ filter (unmatured tick) R
      /\ ValueInvestor.pending_orders s' = ValueInvestor.pending_orders s.
Proof.
  induction R as [|[did dv] R IH]; intros P s Hget Hwf.
  - exists s. simpl. rewrite Hget. auto.
  - cbn [ValueInvestor.cleanup_deposits_loop filter].
    unfold unmatured at 1. cbn [snd].
    destruct (tick >=? maturity_macro_tick dv)%Z eqn:Hm; cbn [negb].
    + destruct (nodup_keys_app_cons P R did dv Hwf) as [Hnin Hwf'].
      destruct (IH P (ValueInvestor.set_active_deposits (P ++ R) s))
        as (s' & Hrun & Hg & Ho).
      { reflexivity. }
      { exact Hwf'. }
      exists s'. split; [|rewrite Hg, Ho; auto].
      unfold bind, gets, lift, modify. rewrite Hget.
      rewrite (dict_del_app P R did dv Hnin). exact Hrun.
    + destruct (IH (P ++ [(did, dv)]) s) as (s' & Hrun & Hg & Ho).
      { rewrite <- app_assoc. exact Hget. }
      { rewrite <- app_assoc. exact Hwf. }
      exists s'. split; [|rewrite Hg, <- app_assoc; auto].
      unfold bind, ret. exact Hrun.
Qed.

Lemma vi_cleanup_orders_loop_spec :
  forall R P s,
    ValueInvestor.pending_orders s = P ++ R ->
    dict_wf (P ++ R) ->
    exists s',
      ValueInvestor.cleanup_orders_loop R s = Ok (tt, s')
      /\ ValueInvestor.pending_orders s' = P ++ filter not_done R
      /\ ValueInvestor.active_deposits s' = ValueInvestor.active_deposits s.
Proof.
  induction R as [|[oid ov] R IH]; intros P s Hget Hwf.
  - exists s. simpl. rewrite Hget. auto.
  - cbn [ValueInvestor.cleanup_orders_loop filter].
    unfold not_done at 1. cbn [snd].
    destruct (is_done (lifecycle ov)) eqn:Hdone; cbn [negb].
    + destruct (nodup_keys_app_cons P R oid ov Hwf) as [Hnin Hwf'].
      destruct (IH P (ValueInvestor.set_pending_orders (P ++ R) s))
        as (s' & Hrun & Hg & Ho).
      { reflexivity. }
      { exact Hwf'. }
      exists s'. split; [|rewrite Hg, Ho; auto].
      unfold bind, gets, lift, modify. rewrite Hget.
      rewrite (dict_del_app P R oid ov Hnin). exact Hrun.
    + destruct (IH (P ++ [(oid, ov)]) s) as (s' & Hrun & Hg & Ho).
      { rewrite <- app_assoc. exact Hget. }
      { rewrite <- app_assoc. exact Hwf. }
      exists s'. split; [|rewrite Hg, <- app_assoc; auto].
      unfold bind, ret. exact Hrun.
Qed.

(** X18. The two purges of the value investor do what their names say and
    never fail on a missing key: [_cleanup_matured_deposits(t)] leaves in
    [active_deposits] exactly the deposits that mature after tick [t], in
    their order, and [_cleanup_done_orders] leaves in [pending_orders]
    exactly the orders that are not DONE; each leaves the other book
    alone. *)
Theorem value_investor_purges s :
  dict_wf (ValueInvestor.active_deposits s) ->
  dict_wf (ValueInvestor.pending_orders s) ->
  (forall current_macro_tick,
      exists s',
        ValueInvestor._cleanup_matured_deposits current_macro_tick s
        = Ok (tt, s')
        /\ Dict.items (ValueInvestor.active_deposits s') =
           filter (fun p =>
                     (current_macro_tick <? maturity_macro_tick (snd p))%Z)
             (Dict.items (ValueInvestor.active_deposits s))
        /\ ValueInvestor.pending_orders s' = ValueInvestor.pending_orders s)
  /\ exists s',
       ValueInvestor._cleanup_done_orders s = Ok (tt, s')
       /\ Dict.items (ValueInvestor.pending_orders s') =
          filter (fun p => is_working (lifecycle (snd p)))
            (Dict.items (ValueInvestor.pending_orders s))
       /\ ValueInvestor.active_deposits s' = ValueInvestor.active_deposits s.
Proof.
  intros Hd Ho. split.
  - intros tick.
    destruct (vi_cleanup_deposits_loop_spec tick
                (Dict.items (ValueInvestor.active_deposits s)) [] s
                eq_refl Hd) as (s' & Hrun & Hg & Hk).
    exists s'. split; [|split; [|exact Hk]].
    + unfold ValueInvestor._cleanup_matured_deposits, bind, gets. exact Hrun.
    + unfold Dict.items in *. rewrite Hg. cbn [app].
      apply filter_ext. intros [k dv]. unfold unmatured. cbn [snd].
      rewrite Z.geb_leb, <- Z.ltb_antisym. reflexivity.
  - destruct (vi_cleanup_orders_loop_spec
                (Dict.items (ValueInvestor.pending_orders s)) [] s
                eq_refl Ho) as (s' & Hrun & Hg & Hk).
    exists s'. split; [|split; [|exact Hk]].
    + unfold ValueInvestor._cleanup_done_orders, bind, gets. exact Hrun.
    + unfold Dict.items in *. rewrite Hg. cbn [app].
      apply filter_ext. intros [k ov]. unfold not_done. cbn [snd].
      destruct (lifecycle ov); reflexivity.
Qed.

(** *** MomentumTrader: the price history *)

Lemma mt_update_price_history_spec view s u s' :
  MomentumTrader._update_price_history view s = Ok (u, s') ->
  MomentumTrader.momentum_window s' = MomentumTrader.momentum_window s
  /\ MomentumTrader.directional_bias s' = MomentumTrader.directional_bias s
  /\ MomentumTrader.entry_threshold s' = MomentumTrader.entry_threshold s
  /\ MomentumTrader.exit_threshold s' = MomentumTrader.exit_threshold s
  /\ MomentumTrader.__intent_id s' = MomentumTrader.__intent_id s
  /\ exists cp,
       MomentumTrader._get_current_price view = Ok cp
       /\ MomentumTrader.price_history s' =
          match cp with
          | None => MomentumTrader.price_history s
          | Some p =>
              let h := MomentumTrader.price_history s ++ [p] in
              if (MomentumTrader.momentum_window s <? Z.of_nat (length h))%Z
              then tl h else h
          end.
Proof.
  unfold MomentumTrader._update_price_history. intros H.
  mt_inv; repeat split; eexists; (split; [eassumption|]);
    cbv beta iota zeta;
    try match goal with E : (_ <? _)%Z = _ |- _ => rewrite E end;
    reflexivity.
Qed.


(** [decide], cut after the observation: the history it works with, the
    signal it derives from it and the action it takes on it. *)
Lemma mt_decide_steps acct view s l s' :
  MomentumTrader.decide acct view s = Ok (l, s') ->
  exists s1 momentum,
    MomentumTrader._update_price_history view s = Ok (tt, s1)
    /\ MomentumTrader._calculate_momentum_signal s1 = Ok momentum
    /\ MomentumTrader._act_on_signal acct
         (MomentumTrader._evaluate_signal
            (MomentumTrader._apply_directional_bias momentum s1) s1)
         view s1 = Ok (l, s').
Proof.
  unfold MomentumTrader.decide. intros H.
  apply bind_ok in H. destruct H as (aid & sa & Ha & H).
  apply gets_ok in Ha. destruct Ha as [Haid Hsa]. subst aid sa.
  apply bind_ok in H. destruct H as (u1 & sb & Hb & H).
  apply py_assert_ok in Hb. destruct Hb as [_ Hsb]. subst sb.
  apply bind_ok in H. destruct H as (u2 & sc & Hc & H).
  apply py_assert_ok in Hc. destruct Hc as [_ Hsc]. subst sc.
  apply bind_ok in H. destruct H as ([] & s1 & Hd & H).
  apply bind_ok in H. destruct H as (m & se & He & H).
  apply mt_reads_ok in He. destruct He as [He Hse]. subst se.
  apply bind_ok in H. destruct H as (b & sf & Hf & H).
  apply gets_ok in Hf. destruct Hf as [Hb Hsf]. subst b sf.
  apply bind_ok in H. destruct H as (sg & sh & Hg & H).
  apply gets_ok in Hg. destruct Hg as [Hsg Hsh]. subst sg sh.
  exists s1, m. auto.
Qed.


(** *** MomentumTrader: the first decisions *)

(** X20. A momentum trader without a bias starts by selling out: with an
    empty price history the momentum is [0.0] whatever the view shows, so
    with [directional_bias = 0], an entry threshold that is not negative
    and a positive exit threshold the signal is EXIT, and [decide] returns
    one market sell for all the shares of the account when it holds any, and
    nothing otherwise. *)
Theorem unbiased_trader_starts_by_selling_out acct view s intents s' :
  MomentumTrader.price_history s = [] ->
  MomentumTrader.directional_bias s = 0 ->
  (MomentumTrader.entry_threshold s <? 0) = false ->
  (0 <? MomentumTrader.exit_threshold s) = true ->
  MomentumTrader.decide acct view s = Ok (intents, s') ->
  intents =
    if (0 <? shares acct)%Z
    then [PlaceOrderIntent (MomentumTrader.__intent_id s) SELL MARKET
            (shares acct) None]
    else [].
Proof.
  intros Hh Hbias Hentry Hexit H. apply mt_decide_steps in H.
  destruct H as (s1 & m & Hu & Hm & Hact).
  apply mt_update_price_history_spec in Hu.
  destruct Hu as (_ & Hb1 & He1 & Hx1 & Hc1 & cp & _ & Hh1).
  rewrite Hh in Hh1.
  assert (Hshort : MomentumTrader.price_history s1 = []
                   \/ exists p, MomentumTrader.price_history s1 = [p]).
  { rewrite Hh1. destruct cp as [p|]; [|left; reflexivity].
    cbv zeta. cbn [app length].
    destruct (_ <? _)%Z; [left; reflexivity|right; exists p; reflexivity]. }
  assert (Hm0 : m = 0).
  { unfold MomentumTrader._calculate_momentum_signal in Hm.
    destruct Hshort as [Hs|[p Hs]]; rewrite Hs in Hm; inversion Hm;
      reflexivity. }
  subst m.
  assert (Hsig : MomentumTrader._evaluate_signal
                   (MomentumTrader._apply_directional_bias 0 s1) s1
                 = MomentumTrader.EXIT).
  { unfold MomentumTrader._evaluate_signal,
      MomentumTrader._apply_directional_bias.
    rewrite Hb1, Hbias, He1, Hx1.
    change (0 + 0) with 0. unfold PyFloat.gtb.
    rewrite Hentry, ltb_0_opp, Hentry.
    change (abs 0) with 0. rewrite Hexit. reflexivity. }
  rewrite Hsig in Hact.
  unfold MomentumTrader._act_on_signal, MomentumTrader._exit_position in Hact.
  destruct (0 <? shares acct)%Z; mt_inv; rewrite ?Hc1; reflexivity.
Qed.

(** *** MomentumTrader: what [update] computes *)

(** The book once the order views of a feedback are filed in it, before
    the purge. *)
Fixpoint recorded_all (d : Dict.t OrderView)
  (its : list (Z * option OrderView)) : Dict.t OrderView :=
  match its with
  | [] => d
  | (_, None) :: rest => recorded_all d rest
  | (_, Some ov) :: rest =>
      recorded_all (Dict.set d (order_id ov) ov) rest
  end.

Lemma recorded_all_wf its :
  forall d, dict_wf d -> dict_wf (recorded_all d its).
Proof.
  induction its as [|[k [ov|]] its IH]; intros d Hwf; cbn [recorded_all].
  - exact Hwf.
  - apply IH. apply dict_wf_set. exact Hwf.
  - apply IH. exact Hwf.
Qed.

Lemma get_recorded_all_other its :
  forall d j,
    ~ In j (feedback_order_ids its) ->
    Dict.get (recorded_all d its) j = Dict.get d j.
Proof.
  induction its as [|[k [ov|]] its IH]; intros d j Hj;
    cbn [recorded_all feedback_order_ids flat_map snd app In] in *.
  - reflexivity.
  - rewrite IH by tauto. rewrite dict_get_set.
    destruct (Z.eqb_spec j (order_id ov)) as [->|_]; [tauto|reflexivity].
  - apply IH. exact Hj.
Qed.

Lemma get_recorded_all_in its :
  forall d k ov,
    NoDup (feedback_order_ids its) ->
    In (k, Some ov) its ->
    Dict.get (recorded_all d its) (order_id ov) = Some ov.
Proof.
  induction its as [|[k0 [ov0|]] its IH]; intros d k ov Hnd Hin;
    cbn [recorded_all feedback_order_ids flat_map snd app] in *.
  - destruct Hin.
  - inversion Hnd as [|? ? Hnin Hnd']; subst.
    destruct Hin as [Heq|Hin].
    + inversion Heq; subst k0 ov0.
      rewrite get_recorded_all_other by exact Hnin.
      rewrite dict_get_set, Z.eqb_refl. reflexivity.
    + eapply IH; eauto.
  - destruct Hin as [Heq|Hin]; [discriminate|]. eapply IH; eauto.
Qed.

Lemma mt_record_results_eq its :
  forall s,
    exists s',
      MomentumTrader.record_results its s = Ok (tt, s')
      /\ MomentumTrader.active_orders s' =
         recorded_all (MomentumTrader.active_orders s) its
      /\ MomentumTrader.price_history s' = MomentumTrader.price_history s.
Proof.
  induction its as [|[k [ov|]] its IH]; intros s; cbn [recorded_all].
  - exists s. simpl. auto.
  - cbn [MomentumTrader.record_results].
    destruct (IH (MomentumTrader.set_active_orders
                    (Dict.set (MomentumTrader.active_orders s)
                       (order_id ov) ov) s)) as (s' & Hrun & Ha & Hh).
    exists s'. split; [exact Hrun|]. auto.
  - apply IH.
Qed.

Lemma mt_cleanup_loop_history R :
  forall s u s',
    MomentumTrader.cleanup_loop R s = Ok (u, s') ->
    MomentumTrader.price_history s' = MomentumTrader.price_history s.
Proof.
  induction R as [|[oid ov] R IH]; intros s u s' H;
    cbn [MomentumTrader.cleanup_loop] in H.
  - inversion H. reflexivity.
  - apply bind_ok in H. destruct H as (u1 & s1 & H1 & H).
    apply IH in H. rewrite H.
    destruct (is_done (lifecycle ov)); mt_inv; reflexivity.
Qed.

(** X21. A momentum trader's [update] reconciles its order book: when the
    order views of the feedback have distinct order ids, after [update] no
    order of [active_orders] is DONE, each order view of the feedback that
    is still WORKING is found under its order id, a WORKING order that was
    there before and that the feedback does not mention is still there, and
    the price history is untouched. *)
Theorem momentum_update_reconciles feedback s s' :
  dict_wf (MomentumTrader.active_orders s) ->
  NoDup (feedback_order_ids (order_results feedback)) ->
  MomentumTrader.update feedback s = Ok (tt, s') ->
  (forall k ov,
      In (k, ov) (Dict.items (MomentumTrader.active_orders s')) ->
      lifecycle ov = WORKING)
  /\ (forall k ov,
        In (k, Some ov) (Dict.items (order_results feedback)) ->
        lifecycle ov = WORKING ->
        Dict.get (MomentumTrader.active_orders s') (order_id ov) = Some ov)
  /\ (forall j ov,
        Dict.get (MomentumTrader.active_orders s) j = Some ov ->
        lifecycle ov = WORKING ->
        ~ In j (feedback_order_ids (order_results feedback)) ->
        Dict.get (MomentumTrader.active_orders s') j = Some ov)
  /\ MomentumTrader.price_history s' = MomentumTrader.price_history s.
Proof.
  intros Hwf Hnd Hrun. unfold MomentumTrader.update in Hrun.
  destruct (mt_record_results_eq (Dict.items (order_results feedback)) s)
    as (s1 & Hrun1 & Ha1 & Hh1).
  unfold bind at 1 in Hrun. rewrite Hrun1 in Hrun.
  unfold MomentumTrader._cleanup_done_orders, bind, gets in Hrun.
  assert (Hw1 : dict_wf (MomentumTrader.active_orders s1))
    by (rewrite Ha1; apply recorded_all_wf; exact Hwf).
  destruct (mt_cleanup_loop_spec
              (Dict.items (MomentumTrader.active_orders s1)) [] s1
              eq_refl Hw1) as (s2 & Hrun2 & Hg2 & _).
  pose proof (mt_cleanup_loop_history _ _ _ _ Hrun2) as Hh2.
  rewrite Hrun2 in Hrun. inversion Hrun; subst s2; clear Hrun.
  cbn [app] in Hg2. unfold Dict.items in *.
  assert (Hnot : forall j ov, lifecycle ov = WORKING -> not_done (j, ov) = true).
  { intros j ov Hw. unfold not_done. cbn [snd]. rewrite Hw. reflexivity. }
  split; [|split; [|split]].
  - intros k ov Hin. rewrite Hg2 in Hin.
    eapply filter_not_done_working. exact Hin.
  - intros k ov Hin Hw. rewrite Hg2, Ha1. apply dict_get_filter.
    + apply recorded_all_wf. exact Hwf.
    + eapply get_recorded_all_in; eassumption.
    + apply Hnot. exact Hw.
  - intros j ov Hg Hw Hj. rewrite Hg2, Ha1. apply dict_get_filter.
    + apply recorded_all_wf. exact Hwf.
    + rewrite get_recorded_all_other by exact Hj. exact Hg.
    + apply Hnot. exact Hw.
  - rewrite Hh2, Hh1. reflexivity.
Qed.

(** *** The coordination loop: who acts in a tick *)

Lemma list_set_head_perm {A : Type} (a y : A) :
  forall (l : list A) k,
    nth_error l k = Some y ->
    Permutation (a :: l) (y :: list_set l k a).
Proof.
  induction l as [|b l IH]; intros k Hk; [destruct k; discriminate|].
  destruct k as [|k]; cbn [nth_error list_set] in *.
  - inversion Hk; subst. apply perm_swap.
  - eapply perm_trans; [apply perm_swap|].
    eapply perm_trans; [apply perm_skip, IH; exact Hk|].
    apply perm_swap.
Qed.

Lemma list_set_same {A : Type} (l : list A) :
  forall k y, nth_error l k = Some y -> list_set l k y = l.
Proof.
  induction l as [|b l IH]; intros k y Hk; [reflexivity|].
  destruct k as [|k]; cbn [nth_error list_set] in *.
  - inversion Hk. reflexivity.
  - rewrite IH by exact Hk. reflexivity.
Qed.

Lemma swap_perm {A : Type} :
  forall (x : list A) i j x',
    swap x i j = Ok x' -> Permutation x x'.
Proof.
  unfold swap.
  induction x as [|a x IH]; intros i j x'.
  - destruct j; discriminate.
  - destruct (nth_error (a :: x) j) as [xj|] eqn:Hj; [|discriminate].
    destruct (nth_error (a :: x) i) as [xi|] eqn:Hi; [|discriminate].
    intros H. inversion H; subst x'; clear H.
    destruct i as [|i], j as [|j]; cbn [nth_error list_set] in *.
    + inversion Hi; inversion Hj; subst. apply Permutation_refl.
    + inversion Hi; subst. apply list_set_head_perm. exact Hj.
    + inversion Hj; subst. apply list_set_head_perm. exact Hi.
    + apply perm_skip. apply (IH i j). rewrite Hj, Hi. reflexivity.
Qed.

Lemma list_set_length {A : Type} (l : list A) :
  forall k y, length (list_set l k y) = length l.
Proof.
  induction l as [|b l IH]; intros k y; [reflexivity|].
  destruct k; cbn [list_set length]; [reflexivity|].
  rewrite IH. reflexivity.
Qed.

Section WhoActs.

Context {noise : NoiseTraderModel} {random : RandomModel}.

(** The contract of [_randbelow(n)]: a draw below [n]. *)
Definition randbelow_in_range : Prop :=
  forall n r, (0 < n)%nat -> (fst (randbelow n r) < n)%nat.

Lemma shuffle_loop_perm {A : Type} :
  randbelow_in_range ->
  forall i (x : list A) r,
    (i < length x)%nat \/ i = O ->
    exists x' r',
      shuffle_loop i x r = Ok (x', r') /\ Permutation x x'.
Proof.
  intros Hrange.
  induction i as [|i IH]; intros x r Hi; cbn [shuffle_loop].
  - exists x, r. split; [reflexivity|apply Permutation_refl].
  - destruct Hi as [Hi|Hi]; [|discriminate].
    pose proof (Hrange (S i + 1)%nat r ltac:(lia)) as Hj.
    destruct (randbelow (S i + 1) r) as [j r1]. cbn [fst] in Hj.
    assert (Hsw : exists x1, swap x (S i) j = Ok x1).
    { unfold swap.
      destruct (nth_error x j) as [xj|] eqn:Ej;
        [|apply nth_error_None in Ej; lia].
      destruct (nth_error x (S i)) as [xi|] eqn:Ei;
        [|apply nth_error_None in Ei; lia].
      eexists; reflexivity. }
    destruct Hsw as [x1 Hsw]. rewrite Hsw. cbn [rbind].
    pose proof (swap_perm _ _ _ _ Hsw) as Hp.
    destruct (IH x1 r1) as (x' & r' & Hrun & Hp').
    { left. rewrite <- (Permutation_length Hp). lia. }
    exists x', r'. split; [exact Hrun|].
    eapply perm_trans; eassumption.
Qed.

Lemma shuffle_perm {A : Type} (x : list A) r :
  randbelow_in_range ->
  exists x' r', shuffle x r = Ok (x', r') /\ Permutation x x'.
Proof.
  intros Hrange. unfold shuffle. apply shuffle_loop_perm; [exact Hrange|].
  destruct x; cbn [length]; lia.
Qed.

(** X22. Every agent acts exactly once in a tick: with a generator whose
    draws are in range, [macro_tick_agents] returns a permutation of all
    the agents of the population and [micro_tick_agents] a permutation of
    those whose id is not registered as a value investor; neither fails,
    and neither changes the population. *)
Theorem every_agent_acts_once (m : AgentManager) :
  randbelow_in_range ->
  (exists l m',
      macro_tick_agents m = Ok (l, m')
      /\ Permutation (Dict.items (agents m)) l
      /\ agents m' = agents m)
  /\ (exists l m',
        micro_tick_agents m = Ok (l, m')
        /\ Permutation
             (filter (fun p => negb (Dict.mem (value_investors m) (fst p)))
                (Dict.items (agents m))) l
        /\ agents m' = agents m).
Proof.
  intros Hrange. split.
  - unfold macro_tick_agents.
    destruct (shuffle_perm (Dict.items (agents m)) (rng m) Hrange)
      as (l & r' & Hrun & Hp).
    rewrite Hrun. cbn [rbind]. exists l, (set_rng r' m). auto.
  - unfold micro_tick_agents.
    destruct (shuffle_perm
                (filter (fun '(aid, _) =>
                           negb (Dict.mem (value_investors m) aid))
                   (Dict.items (agents m))) (rng m) Hrange)
      as (l & r' & Hrun & Hp).
    rewrite Hrun. cbn [rbind]. exists l, (set_rng r' m).
    split; [reflexivity|]. split; [|reflexivity].
    erewrite filter_ext; [exact Hp|]. intros [aid a]. reflexivity.
Qed.

End WhoActs.

(** *** The coordination loop: the population over a run *)

Section PopulationProperties.

Context {market : Market} {noise : NoiseTraderModel} {random : RandomModel}.

Lemma same_class_refl a : same_class a a.
Proof. destruct a; exact I. Qed.

Lemma same_class_sym a b : same_class a b -> same_class b a.
Proof. destruct a, b; simpl; tauto. Qed.

(** [store'] holds, under the ids of [store], agents of the same classes. *)
Definition same_agents (store store' : Dict.t Agent) : Prop :=
  Dict.keys store' = Dict.keys store
  /\ forall aid a a',
       Dict.get store aid = Some a ->
       Dict.get store' aid = Some a' ->
       same_class a a'.

Lemma same_agents_refl store : same_agents store store.
Proof.
  split; [reflexivity|]. intros aid a a' H1 H2.
  rewrite H1 in H2. inversion H2. apply same_class_refl.
Qed.

Lemma dict_keys_get {V : Type} (d d' : Dict.t V) k :
  Dict.keys d' = Dict.keys d ->
  Dict.get d k = None -> Dict.get d' k = None.
Proof.
  intros Hk Hg.
  destruct (Dict.get d' k) as [v|] eqn:Hg'; [|reflexivity].
  assert (Hm : Dict.mem d' k = true) by (unfold Dict.mem; rewrite Hg'; auto).
  apply dict_mem_keys in Hm. rewrite Hk in Hm. apply dict_mem_keys in Hm.
  unfold Dict.mem in Hm. rewrite Hg in Hm. discriminate.
Qed.

Lemma same_agents_trans s1 s2 s3 :
  same_agents s1 s2 -> same_agents s2 s3 -> same_agents s1 s3.
Proof.
  intros [Hk12 Hc12] [Hk23 Hc23]. split; [congruence|].
  intros aid a a' H1 H3.
  destruct (Dict.get s2 aid) as [a2|] eqn:H2.
  - eapply same_class_trans; [eapply Hc12|eapply Hc23]; eassumption.
  - rewrite (dict_keys_get s2 s3 aid Hk23 H2) in H3. discriminate.
Qed.

Lemma agent_loop_same_agents sd macro micro l :
  forall store e store' e',
    _agent_loop sd l macro micro store e = Ok (store', e') ->
    (forall aid a, In (aid, a) l ->
       exists a0, Dict.get store aid = Some a0 /\ same_class a0 a) ->
    same_agents store store'.
Proof.
  induction l as [|[aid agent] l IH]; cbn [_agent_loop];
    intros store e store' e' H Hl.
  - inversion H; subst. apply same_agents_refl.
  - apply rbind_ok in H. destruct H as ([agent' e1] & Ht & H).
    apply agent_turn_class in Ht.
    destruct (Hl aid agent (or_introl eq_refl)) as (a0 & Hg0 & Hc0).
    assert (Hstep : same_agents store (Dict.set store aid agent')).
    { split.
      - rewrite dict_keys_set. unfold Dict.mem. rewrite Hg0. reflexivity.
      - intros k a a' Hg Hg'. rewrite dict_get_set in Hg'.
        destruct (Z.eqb_spec k aid) as [->|_].
        + rewrite Hg0 in Hg. inversion Hg; inversion Hg'; subst.
          eapply same_class_trans; eassumption.
        + rewrite Hg in Hg'. inversion Hg'. apply same_class_refl. }
    eapply same_agents_trans; [exact Hstep|].
    eapply IH; [exact H|].
    intros aid2 a2 Hin.
    destruct (Hl aid2 a2 (or_intror Hin)) as (a1 & Hg1 & Hc1).
    rewrite dict_get_set. destruct (Z.eqb_spec aid2 aid) as [->|_].
    + exists agent'. split; [reflexivity|].
      rewrite Hg0 in Hg1. inversion Hg1; subst a1.
      eapply same_class_trans; [apply same_class_sym; exact Ht|].
      eapply same_class_trans; [apply same_class_sym; exact Hc0|exact Hc1].
    + exists a1. auto.
Qed.

(** The population of [m'] is that of [m]: same ids, same class registers,
    and under each id an agent of the same class. *)
Definition same_population (m m' : AgentManager) : Prop :=
  same_agents (agents m) (agents m')
  /\ market_makers m' = market_makers m
  /\ value_investors m' = value_investors m
  /\ momentum_traders m' = momentum_traders m
  /\ noise_traders m' = noise_traders m.

Lemma tick_same_population macro micro eng order eng' :
  dict_wf (agents (agent_manager eng)) ->
  tick macro micro eng = Ok (order, eng') ->
  same_population (agent_manager eng) (agent_manager eng').
Proof.
  intros Hwf H. unfold tick in H.
  assert (Hloop : forall sd l m1 store e1 e2,
             agents m1 = agents (agent_manager eng) ->
             (forall p, In p l -> In p (Dict.items (agents (agent_manager eng)))) ->
             _agent_loop sd l macro micro (agents m1) e1 = Ok (store, e2) ->
             same_agents (agents (agent_manager eng)) store).
  { intros sd l m1 store e1 e2 Ha Hin Hl. rewrite Ha in Hl.
    eapply agent_loop_same_agents; [exact Hl|].
    intros aid a Hi. exists a. split; [|apply same_class_refl].
    apply dict_in_get; [exact Hwf|]. apply (Hin (aid, a)). exact Hi. }
  destruct (Z.eqb micro 0).
  - apply rbind_ok in H. destruct H as (e1 & _ & H).
    apply rbind_ok in H. destruct H as ([l m1] & Hm & H).
    apply rbind_ok in H. destruct H as ([store e2] & Hl & H).
    inversion H; subst; clear H. cbn [agent_manager].
    pose proof (macro_tick_agents_spec _ _ _ Hm) as (_ & Ha & _ & Hin).
    unfold macro_tick_agents in Hm.
    apply rbind_ok in Hm. destruct Hm as ([l1 r1] & _ & Hm).
    inversion Hm; subst; clear Hm.
    split; [|cbn; auto].
    cbn [agents set_agents]. eapply Hloop; eassumption.
  - apply rbind_ok in H. destruct H as ([l m1] & Hm & H).
    apply rbind_ok in H. destruct H as ([store e2] & Hl & H).
    inversion H; subst; clear H. cbn [agent_manager].
    pose proof (micro_tick_agents_spec _ _ _ Hm) as (_ & Ha & _ & Hin).
    unfold micro_tick_agents in Hm.
    apply rbind_ok in Hm. destruct Hm as ([l1 r1] & _ & Hm).
    inversion Hm; subst; clear Hm.
    split; [|cbn; auto].
    cbn [agents set_agents]. eapply Hloop; [eassumption| |eassumption].
    intros p Hp. apply Hin. exact Hp.
Qed.

Lemma populated_wf (m : AgentManager) : populated m -> dict_wf (agents m).
Proof.
  induction 1; cbn [agents AgentManager__init__ set_rng add_market_maker
                      add_value_investor add_momentum_trader
                      add_noise_trader];
    try (apply dict_wf_set); try assumption.
  constructor.
Qed.

(** X23. A run keeps its population: whatever the agents and the market do
    over the ticks of a run, the agent dictionary ends with the same ids in
    the same order, each id still holds an agent of the class it held at
    the start, and the four class registers are unchanged; no agent is
    added, dropped or replaced by one of another class. *)
Theorem run_keeps_the_population clock :
  forall (eng : SimulationEngine) orders eng',
    populated (agent_manager eng) ->
    run_ticks clock eng = Ok (orders, eng') ->
    Dict.keys (agents (agent_manager eng')) =
      Dict.keys (agents (agent_manager eng))
    /\ (forall aid a a',
          Dict.get (agents (agent_manager eng)) aid = Some a ->
          Dict.get (agents (agent_manager eng')) aid = Some a' ->
          same_class a a')
    /\ market_makers (agent_manager eng') = market_makers (agent_manager eng)
    /\ value_investors (agent_manager eng') =
       value_investors (agent_manager eng)
    /\ momentum_traders (agent_manager eng') =
       momentum_traders (agent_manager eng)
    /\ noise_traders (agent_manager eng') = noise_traders (agent_manager eng).
Proof.
  intros eng orders eng' Hpop H.
  apply populated_wf in Hpop.
  assert (Hsame : same_population (agent_manager eng) (agent_manager eng')).
  { revert eng orders eng' Hpop H.
    induction clock as [|[macro micro] clock IH];
      intros eng orders eng' Hwf H; cbn [run_ticks] in H.
    - inversion H; subst. split; [apply same_agents_refl|auto].
    - apply rbind_ok in H. destruct H as ([o eng1] & Ht & H).
      apply rbind_ok in H. destruct H as ([os eng2] & Hr & H).
      inversion H; subst; clear H.
      apply (tick_same_population _ _ _ _ _ Hwf) in Ht.
      destruct Ht as ([Hk1 Hc1] & Hmm1 & Hvi1 & Hmt1 & Hnt1).
      assert (Hwf1 : dict_wf (agents (agent_manager eng1)))
        by (unfold dict_wf; rewrite Hk1; exact Hwf).
      destruct (IH _ _ _ Hwf1 Hr) as (Hs2 & Hmm2 & Hvi2 & Hmt2 & Hnt2).
      split; [eapply same_agents_trans; [split; eassumption|exact Hs2]|].
      repeat split; congruence. }
  destruct Hsame as ([Hk Hc] & Hrest). split; [exact Hk|].
  split; [exact Hc|exact Hrest].
Qed.

End PopulationProperties.

(** *** Assertions *)

(** The outcome is not a failed assertion. *)
Definition no_assert {A : Type} (r : result A) : Prop :=
  match r with
  | Raise AssertionError => False
  | _ => True
  end.

Lemma bind_no_assert {S A B : Type} (m : M S A) (k : A -> M S B) s :
  no_assert (m s) ->
  (forall a s', m s = Ok (a, s') -> no_assert (k a s')) ->
  no_assert (bind m k s).
Proof.
  unfold bind. intros Hm Hk.
  destruct (m s) as [[a s']|e]; [apply Hk; reflexivity|exact Hm].
Qed.

Lemma rbind_no_assert {A B : Type} (r : result A) (k : A -> result B) :
  no_assert r ->
  (forall a, r = Ok a -> no_assert (k a)) ->
  no_assert (rbind r k).
Proof.
  unfold rbind. intros Hr Hk.
  destruct r as [a|e]; [apply Hk; reflexivity|exact Hr].
Qed.

Lemma lift_no_assert {S A : Type} (r : result A) (s : S) :
  no_assert r -> no_assert (lift r s).
Proof. unfold lift. destruct r; auto. Qed.

Lemma of_int_no_assert n : no_assert (PyFloat.of_int n).
Proof. unfold PyFloat.of_int. destruct (is_infinity _); exact I. Qed.

Lemma to_int_no_assert x : no_assert (PyFloat.to_int x).
Proof.
  unfold PyFloat.to_int. destruct (Prim2SF x); exact I.
Qed.

Lemma truediv_no_assert x y : no_assert (PyFloat.truediv x y).
Proof. unfold PyFloat.truediv. destruct (y =? 0)%float; exact I. Qed.

Lemma int_truediv_no_assert a b : no_assert (PyInt.truediv a b).
Proof.
  unfold PyInt.truediv. destruct (Z.eqb b 0); [exact I|].
  destruct (is_infinity _); exact I.
Qed.

Ltac no_assert_step :=
  match goal with
  | |- no_assert (Ok _) => exact I
  | |- no_assert (Raise ZeroDivisionError) => exact I
  | |- no_assert (Raise OverflowError) => exact I
  | |- no_assert (Raise ValueError) => exact I
  | |- no_assert (Raise KeyError) => exact I
  | |- no_assert (ret _ _) => exact I
  | |- no_assert (gets _ _) => exact I
  | |- no_assert (modify _ _) => exact I
  | |- no_assert (PyFloat.of_int _) => apply of_int_no_assert
  | |- no_assert (PyFloat.to_int _) => apply to_int_no_assert
  | |- no_assert (PyFloat.truediv _ _) => apply truediv_no_assert
  | |- no_assert (PyInt.truediv _ _) => apply int_truediv_no_assert
  | |- no_assert (lift _ _) => apply lift_no_assert
  | |- no_assert (bind _ _ _) => apply bind_no_assert; [|intros ? ? ?]
  | |- no_assert (rbind _ _) => apply rbind_no_assert; [|intros ? ?]
  | |- no_assert (let '(_, _) := ?p in _) => destruct p
  | |- no_assert ((let '(_, _) := ?p in _) _) => destruct p
  | |- no_assert (if ?c then _ else _) => destruct c eqn:?
  | |- no_assert ((if ?c then _ else _) _) => destruct c eqn:?
  | |- no_assert (match ?x with _ => _ end) => destruct x eqn:?
  | |- no_assert (match ?x with _ => _ end _) => destruct x eqn:?
  end.

Ltac no_assert_solve := repeat no_assert_step.

(** The view has what [decide] asserts of it. *)
Definition view_complete (view : AgentView) : Prop :=
  (exists md, market_data_view view = Some md)
  /\ (exists ev, economy_insight_view view = Some ev).

Lemma mm_estimate_price_no_assert view s :
  view_complete view -> no_assert (MarketMaker._estimate_price view s).
Proof.
  intros [[md Hmd] [ev Hev]]. unfold MarketMaker._estimate_price.
  rewrite Hmd, Hev. no_assert_solve.
Qed.

Lemma mm_cancel_where_no_assert sel its s :
  no_assert (MarketMaker.cancel_where sel its s).
Proof. rewrite cancel_where_eq. exact I. Qed.

Ltac mm_no_assert_solve :=
  repeat first
    [ apply mm_estimate_price_no_assert; assumption
    | apply mm_cancel_where_no_assert
    | match goal with
      | |- no_assert (MarketMaker.reads _ _) =>
          unfold MarketMaker.reads; apply lift_no_assert
      | |- no_assert (MarketMaker.intent_id _) => exact I
      end
    | no_assert_step ].

Lemma mm_ratio_no_assert acct s :
  no_assert (MarketMaker._calculate_inventory_ratio acct s).
Proof.
  unfold MarketMaker._calculate_inventory_ratio. no_assert_solve.
Qed.

Lemma mm_layer_no_assert acct s :
  no_assert (MarketMaker._determine_current_layer acct s).
Proof.
  unfold MarketMaker._determine_current_layer, MarketMaker._should_survive,
    MarketMaker._should_stabilize.
  repeat first [apply mm_ratio_no_assert | no_assert_step].
Qed.

Lemma mm_validate_bid_no_assert acct q s :
  no_assert (MarketMaker._validate_bid_quantity acct q s).
Proof. unfold MarketMaker._validate_bid_quantity. no_assert_solve. Qed.

Lemma mm_survive_no_assert acct view s :
  view_complete view -> no_assert (MarketMaker._survive_layer acct view s).
Proof.
  intros Hv.
  unfold MarketMaker._survive_layer, MarketMaker._cancel_all_orders,
    MarketMaker._create_panic_sell_intent,
    MarketMaker._create_panic_buy_intent.
  repeat first [apply mm_ratio_no_assert | mm_no_assert_solve].
Qed.

Lemma mm_stabilize_no_assert acct view s :
  view_complete view -> no_assert (MarketMaker._stabilize_layer acct view s).
Proof.
  intros Hv.
  unfold MarketMaker._stabilize_layer, MarketMaker._selective_stabilize_cancel,
    MarketMaker._calculate_skew, MarketMaker._calculate_skewed_prices,
    MarketMaker._calculate_skewed_quantities.
  repeat first [ apply mm_ratio_no_assert | apply mm_validate_bid_no_assert
               | mm_no_assert_solve ].
Qed.

Lemma mm_provide_no_assert acct view s :
  view_complete view -> no_assert (MarketMaker._provide_layer acct view s).
Proof.
  intros Hv.
  unfold MarketMaker._provide_layer, MarketMaker._cancel_non_equivalent_orders,
    MarketMaker._calculate_provide_prices, MarketMaker._should_refresh_quotes.
  repeat first [ apply mm_validate_bid_no_assert | mm_no_assert_solve ].
Qed.

Lemma mm_decide_no_assert acct view s :
  view_agent_id view = MarketMaker.agent_id s ->
  view_complete view ->
  no_assert (MarketMaker.decide acct view s).
Proof.
  intros Hid Hv. pose proof Hv as [[md Hmd] [ev Hev]].
  unfold MarketMaker.decide.
  apply bind_no_assert; [exact I|]. intros aid s1 H1.
  apply gets_ok in H1. destruct H1 as [Haid Hs1]. subst aid s1.
  rewrite Hid, Z.eqb_refl, Hmd, Hev. cbn [MarketMaker.is_some].
  repeat first
    [ apply mm_survive_no_assert; assumption
    | apply mm_stabilize_no_assert; assumption
    | apply mm_provide_no_assert; assumption
    | apply mm_layer_no_assert
    | apply mm_ratio_no_assert
    | match goal with
      | |- no_assert (py_assert true _) => exact I
      end
    | mm_no_assert_solve ].
Qed.

Lemma vi_estimate_no_assert view s :
  (exists md, market_data_view view = Some md) ->
  no_assert (ValueInvestor._estimate_market_price view s).
Proof.
  intros [md Hmd]. unfold ValueInvestor._estimate_market_price.
  rewrite Hmd. no_assert_solve.
Qed.

Lemma vi_best_deposit_no_assert hp max_term rates :
  forall bt bs,
    no_assert (ValueInvestor.best_deposit hp max_term rates bt bs).
Proof.
  induction rates as [|[term rate] rates IH]; intros bt bs;
    cbn [ValueInvestor.best_deposit]; [exact I|].
  apply rbind_no_assert; [apply int_truediv_no_assert|]. intros frac _.
  destruct (PyFloat.gtb _ bs); apply IH.
Qed.

Lemma vi_deposit_no_assert view s :
  (exists ev, economy_insight_view view = Some ev) ->
  no_assert (ValueInvestor._evaluate_deposit_opportunity view s).
Proof.
  intros [ev Hev]. unfold ValueInvestor._evaluate_deposit_opportunity.
  rewrite Hev.
  repeat first [apply vi_best_deposit_no_assert | no_assert_step].
Qed.

Ltac vi_no_assert_solve :=
  repeat first
    [ apply vi_estimate_no_assert; assumption
    | apply vi_deposit_no_assert; assumption
    | match goal with
      | |- no_assert (ValueInvestor.reads _ _) =>
          unfold ValueInvestor.reads; apply lift_no_assert
      | |- no_assert (ValueInvestor.intent_id _) => exact I
      | |- no_assert (py_assert true _) => exact I
      end
    | no_assert_step ].

Lemma vi_decide_no_assert acct view s :
  view_agent_id view = ValueInvestor.agent_id s ->
  view_complete view ->
  no_assert (ValueInvestor.decide acct view s).
Proof.
  intros Hid [Hmd Hev]. pose proof Hev as [ev Hev'].
  unfold ValueInvestor.decide.
  apply bind_no_assert; [exact I|]. intros aid s1 H1.
  apply gets_ok in H1. destruct H1 as [Haid Hs1]. subst aid s1.
  rewrite Hid, Z.eqb_refl.
  unfold ValueInvestor._update_beliefs, ValueInvestor._update_optimism,
    ValueInvestor._update_perceived_pnl, ValueInvestor._select_intention,
    ValueInvestor._calculate_mispricing,
    ValueInvestor._calculate_position_fraction,
    ValueInvestor._execute_intention, ValueInvestor._execute_wait,
    ValueInvestor._execute_accumulate, ValueInvestor._execute_distribute,
    ValueInvestor._execute_park_capital.
  rewrite Hev'.
  vi_no_assert_solve.
Qed.

Lemma mt_momentum_loop_no_assert rest :
  forall i prev tw wr,
    no_assert (MomentumTrader.momentum_loop i prev rest tw wr).
Proof.
  induction rest as [|curr rest IH]; intros i prev tw wr;
    cbn [MomentumTrader.momentum_loop]; [exact I|].
  apply rbind_no_assert; [no_assert_solve|].
  intros [tw' wr'] _. apply IH.
Qed.

Ltac mt_no_assert_solve :=
  repeat first
    [ apply mt_momentum_loop_no_assert
    | match goal with
      | |- no_assert (MomentumTrader.reads _ _) =>
          unfold MomentumTrader.reads; apply lift_no_assert
      | |- no_assert (MomentumTrader.intent_id _) => exact I
      | |- no_assert (py_assert true _) => exact I
      end
    | no_assert_step ].

Lemma mt_decide_no_assert acct view s :
  view_agent_id view = MomentumTrader.agent_id s ->
  (exists md, market_data_view view = Some md) ->
  no_assert (MomentumTrader.decide acct view s).
Proof.
  intros Hid [md Hmd].
  unfold MomentumTrader.decide.
  apply bind_no_assert; [exact I|]. intros aid s1 H1.
  apply gets_ok in H1. destruct H1 as [Haid Hs1]. subst aid s1.
  rewrite Hid, Z.eqb_refl.
  unfold MomentumTrader._update_price_history,
    MomentumTrader._calculate_momentum_signal,
    MomentumTrader._act_on_signal, MomentumTrader._enter_long,
    MomentumTrader._enter_short, MomentumTrader._exit_position,
    MomentumTrader._calculate_liquidity_amplifier,
    MomentumTrader._get_current_price.
  rewrite Hmd.
  mt_no_assert_solve.
Qed.

Lemma mm_decide_asserts acct view s :
  view_agent_id view <> MarketMaker.agent_id s
  \/ market_data_view view = None
  \/ economy_insight_view view = None ->
  MarketMaker.decide acct view s = Raise AssertionError.
Proof.
  intros H. unfold MarketMaker.decide, bind, gets, py_assert.
  destruct (Z.eqb_spec (view_agent_id view) (MarketMaker.agent_id s))
    as [Hid|Hid]; [|reflexivity].
  destruct H as [H|[H|H]]; [contradiction| |].
  - rewrite H. reflexivity.
  - rewrite H. destruct (market_data_view view); reflexivity.
Qed.

Lemma vi_decide_asserts acct view s :
  view_agent_id view <> ValueInvestor.agent_id s
  \/ market_data_view view = None
  \/ economy_insight_view view = None ->
  ValueInvestor.decide acct view s = Raise AssertionError.
Proof.
  intros H. unfold ValueInvestor.decide.
  unfold bind at 1. unfold gets at 1. unfold bind at 1.
  destruct (Z.eqb_spec (view_agent_id view) (ValueInvestor.agent_id s))
    as [Hid|Hid]; [|reflexivity].
  unfold py_assert at 1. unfold bind at 1.
  destruct (economy_insight_view view) as [ev|] eqn:Hev; [|reflexivity].
  destruct H as [H|[H|H]]; [contradiction| |discriminate].
  unfold py_assert at 1. unfold bind at 1.
  unfold ValueInvestor._update_beliefs. rewrite Hev.
  destruct (tv_interval ev) as [lo hi].
  unfold ValueInvestor._update_optimism,
    ValueInvestor._update_perceived_pnl,
    ValueInvestor._estimate_market_price.
  rewrite H. unfold bind, gets, modify, ret, lift. vi_simpl.
  destruct (PyFloat.gtb (ValueInvestor.perceived_pnl s) 0);
    [reflexivity|].
  destruct (ValueInvestor.perceived_pnl s <? 0); reflexivity.
Qed.

Lemma mt_decide_asserts acct view s :
  view_agent_id view <> MomentumTrader.agent_id s
  \/ market_data_view view = None ->
  MomentumTrader.decide acct view s = Raise AssertionError.
Proof.
  intros H. unfold MomentumTrader.decide, bind, gets, py_assert.
  destruct (Z.eqb_spec (view_agent_id view) (MomentumTrader.agent_id s))
    as [Hid|Hid]; [|reflexivity].
  destruct H as [H|H]; [contradiction|].
  rewrite H. reflexivity.
Qed.

(** X24. The assertions of [decide] are its preconditions and nothing
    else: a market maker's or a value investor's [decide] raises
    AssertionError exactly when the view is for another agent id or lacks
    the market data or the economy insight, a momentum trader's exactly
    when the view is for another agent id or lacks the market data; no
    computation inside fails an assertion of its own. *)
Theorem assertions_are_the_preconditions acct view :
  (forall s,
      MarketMaker.decide acct view s = Raise AssertionError <->
      view_agent_id view <> MarketMaker.agent_id s
      \/ market_data_view view = None
      \/ economy_insight_view view = None)
  /\ (forall s,
        ValueInvestor.decide acct view s = Raise AssertionError <->
        view_agent_id view <> ValueInvestor.agent_id s
        \/ market_data_view view = None
        \/ economy_insight_view view = None)
  /\ (forall s,
        MomentumTrader.decide acct view s = Raise AssertionError <->
        view_agent_id view <> MomentumTrader.agent_id s
        \/ market_data_view view = None).
Proof.
  split; [|split]; intros s; split.
  - intros H.
    destruct (Z.eqb_spec (view_agent_id view) (MarketMaker.agent_id s))
      as [Hid|Hid]; [|auto].
    destruct (market_data_view view) as [md|] eqn:Hmd; [|auto].
    destruct (economy_insight_view view) as [ev|] eqn:Hev; [|auto].
    exfalso.
    assert (Hn : no_assert (MarketMaker.decide acct view s)).
    { apply mm_decide_no_assert; [exact Hid|].
      split; eexists; eassumption. }
    rewrite H in Hn. exact Hn.
  - apply mm_decide_asserts.
  - intros H.
    destruct (Z.eqb_spec (view_agent_id view) (ValueInvestor.agent_id s))
      as [Hid|Hid]; [|auto].
    destruct (market_data_view view) as [md|] eqn:Hmd; [|auto].
    destruct (economy_insight_view view) as [ev|] eqn:Hev; [|auto].
    exfalso.
    assert (Hn : no_assert (ValueInvestor.decide acct view s)).
    { apply vi_decide_no_assert; [exact Hid|].
      split; eexists; eassumption. }
    rewrite H in Hn. exact Hn.
  - apply vi_decide_asserts.
  - intros H.
    destruct (Z.eqb_spec (view_agent_id view) (MomentumTrader.agent_id s))
      as [Hid|Hid]; [|auto].
    destruct (market_data_view view) as [md|] eqn:Hmd; [|auto].
    exfalso.
    assert (Hn : no_assert (MomentumTrader.decide acct view s)).
    { apply mt_decide_no_assert; [exact Hid|]. eexists; eassumption. }
    rewrite H in Hn. exact Hn.
  - apply mt_decide_asserts.
Qed.

(** *** The coordination loop: the views it hands out *)

Section ViewProperties.

Context {market : Market} {noise : NoiseTraderModel}.

(** The agent object is registered under its own id. *)
Definition keyed_by (agent_id : Z) (agent : Agent) : Prop :=
  match agent with
  | AMarketMaker s => MarketMaker.agent_id s = agent_id
  | AValueInvestor s => ValueInvestor.agent_id s = agent_id
  | AMomentumTrader s => MomentumTrader.agent_id s = agent_id
  | ANoiseTrader _ => False
  end.

Lemma over_no_assert {S A : Type} (inj : S -> Agent) (r : result (A * S)) :
  no_assert r -> no_assert (over inj r).
Proof. unfold over. destruct r as [[a s]|e]; auto. Qed.

Lemma agent_decide_no_assert acct sd macro micro agent_id agent md :
  keyed_by agent_id agent ->
  MARKET_DATA_VIEW sd = Some md ->
  (is_value_investor agent || is_market_maker agent = true ->
   exists ev, ECONOMY_INSIGHT_VIEW sd = Some ev) ->
  no_assert
    (agent_decide acct (agent_view sd macro micro agent_id agent) agent).
Proof.
  intros Hkey Hmd Hev.
  destruct agent as [s|s|s|s]; cbn [keyed_by] in Hkey; try contradiction;
    cbn [agent_decide]; apply over_no_assert.
  - destruct (Hev eq_refl) as [ev Hev'].
    apply mm_decide_no_assert; [symmetry; exact Hkey|].
    unfold view_complete, agent_view.
    cbn [market_data_view economy_insight_view is_value_investor
         is_market_maker orb].
    split; eexists; eassumption.
  - destruct (Hev eq_refl) as [ev Hev'].
    apply vi_decide_no_assert; [symmetry; exact Hkey|].
    unfold view_complete, agent_view.
    cbn [market_data_view economy_insight_view is_value_investor
         is_market_maker orb].
    split; eexists; eassumption.
  - apply mt_decide_no_assert; [symmetry; exact Hkey|].
    unfold agent_view. cbn [market_data_view]. eexists; exact Hmd.
Qed.

(** X25. The views of the engine meet the preconditions of the agents: on
    a macro tick, and on a micro tick once a macro tick has stored the
    economy insight, no market maker, value investor or momentum trader
    that is registered under its own id fails an assertion in [decide]
    (the momentum trader is handed no economy insight and needs none); on
    a micro tick that no macro tick preceded, every market maker does. *)
Theorem engine_views_meet_preconditions
  acct e sd0 macro micro agent_id agent :
  keyed_by agent_id agent ->
  agent_decide acct
    (agent_view (_update_views_macro e sd0) macro micro agent_id agent) agent
  <> Raise AssertionError
  /\ ((exists ev, ECONOMY_INSIGHT_VIEW sd0 = Some ev) ->
      agent_decide acct
        (agent_view (_update_views_micro e sd0) macro micro agent_id agent)
        agent
      <> Raise AssertionError)
  /\ (ECONOMY_INSIGHT_VIEW sd0 = None ->
      is_market_maker agent = true ->
      agent_decide acct
        (agent_view (_update_views_micro e sd0) macro micro agent_id agent)
        agent
      = Raise AssertionError).
Proof.
  intros Hkey. split; [|split].
  - intros H.
    pose proof (agent_decide_no_assert acct (_update_views_macro e sd0)
                  macro micro agent_id agent (get_market_data e) Hkey
                  eq_refl) as Hn.
    rewrite H in Hn. apply Hn. intros _. eexists; reflexivity.
  - intros Hev H.
    pose proof (agent_decide_no_assert acct (_update_views_micro e sd0)
                  macro micro agent_id agent (get_market_data e) Hkey
                  eq_refl) as Hn.
    rewrite H in Hn. apply Hn. intros _. exact Hev.
  - intros Hnone Hmm.
    destruct agent as [s| | |]; try discriminate Hmm.
    cbn [agent_decide].
    rewrite mm_decide_asserts; [reflexivity|].
    right. right. unfold agent_view, _update_views_micro.
    cbn [economy_insight_view ECONOMY_INSIGHT_VIEW is_value_investor
         is_market_maker orb]. exact Hnone.
Qed.

End ViewProperties.

(** *** ValueInvestor: the books over a whole run *)

Definition vi_same_books (s s' : ValueInvestor.t) : Prop :=
  ValueInvestor.pending_orders s' = ValueInvestor.pending_orders s
  /\ ValueInvestor.active_deposits s' = ValueInvestor.active_deposits s.

Lemma vi_update_beliefs_books acct view s u s' :
  ValueInvestor._update_beliefs acct view s = Ok (u, s') ->
  vi_same_books s s'.
Proof.
  unfold ValueInvestor._update_beliefs, ValueInvestor._update_optimism,
    ValueInvestor._update_perceived_pnl, vi_same_books.
  intros H. vi_inv; (split; reflexivity).
Qed.

Lemma vi_select_intention_books acct view s u s' :
  ValueInvestor._select_intention acct view s = Ok (u, s') ->
  vi_same_books s s'.
Proof.
  unfold ValueInvestor._select_intention, ValueInvestor._calculate_mispricing,
    vi_same_books.
  intros H. vi_inv; (split; reflexivity).
Qed.

Lemma vi_execute_intention_books acct view s l s' :
  ValueInvestor._execute_intention acct view s = Ok (l, s') ->
  vi_same_books s s'.
Proof.
  unfold ValueInvestor._execute_intention, ValueInvestor._execute_wait,
    ValueInvestor._execute_accumulate, ValueInvestor._execute_distribute,
    ValueInvestor._execute_park_capital, vi_same_books.
  intros H. vi_inv; (split; reflexivity).
Qed.

Lemma vi_decide_books acct view s l s' :
  ValueInvestor.decide acct view s = Ok (l, s') -> vi_same_books s s'.
Proof.
  unfold ValueInvestor.decide. intros H.
  apply bind_ok in H. destruct H as (aid & sa & Ha & H).
  apply gets_ok in Ha. destruct Ha as [Haid Hsa]. subst aid sa.
  apply bind_ok in H. destruct H as (u1 & sb & Hb & H).
  apply py_assert_ok in Hb. destruct Hb as [_ Hsb]. subst sb.
  apply bind_ok in H. destruct H as (u2 & sc & Hc & H).
  apply py_assert_ok in Hc. destruct Hc as [_ Hsc]. subst sc.
  apply bind_ok in H. destruct H as (u3 & s1 & Hd & H).
  apply bind_ok in H. destruct H as (u4 & s2 & He & H).
  apply vi_update_beliefs_books in Hd.
  apply vi_select_intention_books in He.
  apply vi_execute_intention_books in H.
  unfold vi_same_books in *.
  destruct Hd as [Hd1 Hd2], He as [He1 He2], H as [H1 H2].
  split; congruence.
Qed.

Lemma vi_update_books feedback s u s' :
  ValueInvestor.update feedback s = Ok (u, s') ->
  (forall k, Dict.mem (ValueInvestor.pending_orders s) k = true ->
        Dict.mem (ValueInvestor.pending_orders s') k = true)
  /\ (forall k, Dict.mem (ValueInvestor.active_deposits s) k = true ->
        Dict.mem (ValueInvestor.active_deposits s') k = true).
Proof.
  unfold ValueInvestor.update. intros H.
  destruct (vi_record_deposits_spec (Dict.items (deposit_results feedback)) s)
    as (s1 & Hrun1 & Ho1 & Hmono1 & _).
  destruct (vi_record_orders_spec (Dict.items (order_results feedback)) s1)
    as (s2 & Hrun2 & Hd2 & Hmono2 & _).
  unfold bind in H. rewrite Hrun1, Hrun2 in H.
  inversion H; subst. split.
  - intros k Hk. apply Hmono2. rewrite Ho1. exact Hk.
  - intros k Hk. rewrite Hd2. apply Hmono1. exact Hk.
Qed.

(** X26. A value investor never forgets an order or a deposit: over any
    sequence of [decide] and [update] calls, every id in [pending_orders]
    and every id in [active_deposits] stays there. [decide] does not touch
    the two books, [update] only writes to them, and the two purges of the
    class are called by neither. *)
Theorem value_investor_never_forgets (calls : list Call) :
  forall s l s',
    issued ValueInvestor.decide ValueInvestor.update calls s = Ok (l, s') ->
    (forall k, Dict.mem (ValueInvestor.pending_orders s) k = true ->
          Dict.mem (ValueInvestor.pending_orders s') k = true)
    /\ (forall k, Dict.mem (ValueInvestor.active_deposits s) k = true ->
          Dict.mem (ValueInvestor.active_deposits s') k = true).
Proof.
  induction calls as [|[acct view|feedback] calls IH]; simpl; intros s l s' H.
  - inversion H; subst. auto.
  - apply rbind_ok in H. destruct H as ([l1 s1] & Hd & H).
    apply rbind_ok in H. destruct H as ([l2 s2] & Hr & H).
    inversion H; subst; clear H.
    apply vi_decide_books in Hd. destruct Hd as [Hp Ha].
    apply IH in Hr. rewrite Hp, Ha in Hr. exact Hr.
  - apply rbind_ok in H. destruct H as ([u s1] & Hu & H).
    apply vi_update_books in Hu. destruct Hu as [Hp Ha].
    apply IH in H. destruct H as [Hp' Ha'].
    split; intros k Hk; [apply Hp', Hp|apply Ha', Ha]; exact Hk.
Qed.

(** *** The loop: who a micro tick leaves alone *)

Section MicroTickProperties.

Context {market : Market} {noise : NoiseTraderModel} {random : RandomModel}.

Lemma agent_loop_untouched sd macro micro l :
  forall store e store' e',
    _agent_loop sd l macro micro store e = Ok (store', e') ->
    forall k, ~ In k (map fst l) -> Dict.get store' k = Dict.get store k.
Proof.
  induction l as [|[aid agent] l IH]; cbn [_agent_loop map fst In];
    intros store e store' e' H k Hk.
  - inversion H; subst. reflexivity.
  - apply rbind_ok in H. destruct H as ([agent' e1] & _ & H).
    rewrite (IH _ _ _ _ H k); [|tauto].
    rewrite dict_get_set.
    destruct (Z.eqb_spec k aid) as [->|_]; [tauto|reflexivity].
Qed.

(** X27. A micro tick leaves every value investor alone: at a clock value
    with [micro <> 0], no registered value-investor id is in the execution
    order, and the agent stored under such an id after the tick is the one
    stored before it (neither [decide] nor [update] ran on it), whatever the
    other agents did. *)
Theorem micro_tick_skips_value_investors
  macro micro (eng : SimulationEngine) order eng' :
  micro <> 0%Z ->
  tick macro micro eng = Ok (order, eng') ->
  forall vid,
    Dict.mem (value_investors (agent_manager eng)) vid = true ->
    ~ In vid order
    /\ Dict.get (agents (agent_manager eng')) vid =
       Dict.get (agents (agent_manager eng)) vid.
Proof.
  intros Hmicro H vid Hvid. unfold tick in H.
  destruct (Z.eqb_spec micro 0) as [Heq|_]; [contradiction|].
  apply rbind_ok in H. destruct H as ([agents_ m] & Hm & H).
  apply rbind_ok in H. destruct H as ([store e'] & Hl & H).
  inversion H; subst; clear H. cbn [agent_manager].
  apply micro_tick_agents_spec in Hm.
  destruct Hm as (_ & Hag & _ & Hp).
  assert (Hnin : ~ In vid (map fst agents_)).
  { intros Hin. apply in_map_iff in Hin. destruct Hin as (p & Hfst & Hin).
    destruct (Hp p Hin) as [_ Hno]. rewrite Hfst, Hvid in Hno.
    discriminate. }
  split; [exact Hnin|].
  unfold set_agents. cbn [agents].
  rewrite (agent_loop_untouched _ _ _ _ _ _ _ _ Hl vid Hnin), Hag.
  reflexivity.
Qed.

End MicroTickProperties.
(** *** MarketMaker: the STABILIZE layer over the reachable states *)

(** The target prices of [_stabilize_layer]: the skewed prices, or
    [mid -/+ max(1.0, spread_size / 2.0)] when the skewed prices cross. *)
Definition stabilize_targets (s : MarketMaker.t)
  (mid bid ask target_bid target_ask : float) : Prop :=
  if PyFloat.geb bid ask
  then exists spf,
         PyFloat.of_int (MarketMaker.spread_size s) = Ok spf
         /\ target_bid = mid - PyFloat.max 1 (spf / 2)
         /\ target_ask = mid + PyFloat.max 1 (spf / 2)
  else target_bid = bid /\ target_ask = ask.

(** The cancel intents of the STABILIZE layer are those of the stale
    orders of one cache, measured against the target price the layer
    computes for that side: the bids when the ratio is below the target,
    the asks otherwise. *)
Lemma mm_stabilize_layer_cancels acct view s r l s' :
  MarketMaker._calculate_inventory_ratio acct s = Ok r ->
  MarketMaker._stabilize_layer acct view s = Ok (l, s') ->
  exists mid s1 skew bid ask target_bid target_ask,
    MarketMaker._estimate_price view s = Ok (Some mid, s1)
    /\ MarketMaker._calculate_skew r s = Ok skew
    /\ MarketMaker._calculate_skewed_prices mid skew s = Ok (bid, ask)
    /\ stabilize_targets s mid bid ask target_bid target_ask
    /\ filter is_cancel l =
       if r <? MarketMaker.target_inventory_fraction s
       then mk_cancels (MarketMaker.__intent_id s)
              (selected (MarketMaker.stale target_bid BUY)
                 (Dict.items (MarketMaker.active_bids s)))
       else mk_cancels (MarketMaker.__intent_id s)
              (selected (MarketMaker.stale target_ask SELL)
                 (Dict.items (MarketMaker.active_asks s))).
Proof.
  intros Hr H. unfold MarketMaker._stabilize_layer in H.
  apply bind_ok in H. destruct H as (r0 & sa & H1 & H).
  apply mm_reads_ok in H1. destruct H1 as [H1 Hsa]. subst sa.
  rewrite Hr in H1. inversion H1; subst r0; clear H1.
  apply bind_ok in H. destruct H as (skew & sb & H2 & H).
  apply mm_reads_ok in H2. destruct H2 as [H2 Hsb]. subst sb.
  apply bind_ok in H. destruct H as (mp & s1 & He & H).
  destruct (mm_estimate_price_frame _ _ _ _ He) as [[mid Hmid] [lkp Hs1]].
  subst mp.
  apply bind_ok in H. destruct H as ([bid ask] & sc & H3 & H).
  apply mm_reads_ok in H3. destruct H3 as [H3 Hsc]. subst sc.
  apply bind_ok in H. destruct H as ([bq aq] & sd & H4 & H).
  apply mm_reads_ok in H4. destruct H4 as [_ Hsd]. subst sd.
  apply bind_ok in H. destruct H as ([tb ta] & se & H5 & H).
  assert (Hprices : MarketMaker._calculate_skewed_prices mid skew s
                    = Ok (bid, ask)).
  { rewrite <- H3. subst s1. reflexivity. }
  assert (Htargets : stabilize_targets s mid bid ask tb ta /\ se = s1).
  { unfold stabilize_targets.
    destruct (PyFloat.geb bid ask).
    - apply bind_ok in H5. destruct H5 as (sp & sf & H5 & H6).
      apply gets_ok in H5. destruct H5 as [Hsp Hsf]. subst sp sf.
      apply bind_ok in H6. destruct H6 as (spf & sg & H6 & H7).
      apply lift_ok in H6. destruct H6 as [H6 Hsg]. subst sg.
      apply ret_ok in H7. destruct H7 as [H7 Hse].
      injection H7 as Htb Hta. split; [|exact Hse].
      exists spf. rewrite Hs1 in H6.
      cbn [MarketMaker.spread_size MarketMaker.set_last_known_price] in H6.
      split; [exact H6|]. split; congruence.
    - apply ret_ok in H5. destruct H5 as [H5 Hse].
      injection H5 as Htb Hta. split; [|exact Hse].
      split; congruence. }
  destruct Htargets as [Htargets Hse]. subst se.
  exists mid, s1, skew, bid, ask, tb, ta.
  split; [exact He|]. split; [exact H2|]. split; [exact Hprices|].
  split; [exact Htargets|].
  clear He H2 H3 Hprices Htargets Hr.
  unfold MarketMaker._selective_stabilize_cancel in H.
  subst s1.
  mm_inv; mm_simpl;
    repeat match goal with
      | E : (_ <? MarketMaker.target_inventory_fraction _) = _ |- _ =>
          rewrite E
      end;
    rewrite ?filter_app, ?filter_cancel_mk_cancels; cbn [filter is_cancel];
    rewrite ?app_nil_r; reflexivity.
Qed.

(** What the first half of [decide] leaves alone besides: the skew
    factor. *)
Lemma mm_decide_stabilize acct view s l s' :
  MarketMaker._determine_current_layer acct s = Ok MarketMaker.STABILIZE ->
  MarketMaker.decide acct view s = Ok (l, s') ->
  exists s0,
    mm_same_inputs s s0
    /\ MarketMaker.skew_factor s0 = MarketMaker.skew_factor s
    /\ MarketMaker._stabilize_layer acct view s0 = Ok (l, s').
Proof.
  intros Hlayer H.
  destruct (mm_decide_dispatch _ _ _ _ _ H)
    as (layer & s0 & Hl & Hin & _ & _ & _ & Hrun).
  rewrite Hlayer in Hl. inversion Hl; subst layer; clear Hl.
  unfold MarketMaker.decide in H.
  mm_inv.
  all: match goal with
       | HL : MarketMaker._determine_current_layer _ _ = Ok ?L |- _ =>
           unfold MarketMaker._determine_current_layer,
             MarketMaker._should_survive, MarketMaker._should_stabilize,
             MarketMaker._calculate_inventory_ratio in HL, Hlayer;
           mm_simpl; rewrite Hlayer in HL; try discriminate HL
       end.
  all: match goal with
       | HR : MarketMaker._stabilize_layer _ _ ?S0 = Ok (_, _) |- _ =>
           exists S0; split; [|split; [reflexivity|exact HR]]
       end.
  all: unfold mm_same_inputs; mm_simpl; repeat split.
Qed.

(** The market gives an order one side: every order view of the feedback
    has the side [side_of] gives its order id. *)
Definition feedback_sided (side_of : Z -> Side) (feedback : AgentFeedback)
  : Prop :=
  forall k ov,
    In (k, Some ov) (Dict.items (order_results feedback)) ->
    side ov = side_of (order_id ov).

Definition calls_sided (side_of : Z -> Side) (calls : list Call) : Prop :=
  Forall (fun c => match c with
                   | CallDecide _ _ => True
                   | CallUpdate feedback => feedback_sided side_of feedback
                   end) calls.

(** The states a market maker reaches: from [__init__], by [decide] and
    [update] calls whose feedback comes from such a market. *)
Definition mm_reachable (side_of : Z -> Side) (s : MarketMaker.t) : Prop :=
  exists agent_id constants target_inventory_fraction risk_lower_bound
         risk_upper_bound stabilization_tolerance spread_size order_size
         wait_time skew_factor calls before,
    calls_sided side_of calls
    /\ issued MarketMaker.decide MarketMaker.update calls
         (MarketMaker.__init__ agent_id constants target_inventory_fraction
            risk_lower_bound risk_upper_bound stabilization_tolerance
            spread_size order_size wait_time skew_factor)
       = Ok (before, s).

(** Each cache holds orders of its own side only, under their order ids. *)
Definition caches_sided (side_of : Z -> Side) (s : MarketMaker.t) : Prop :=
  dict_wf (MarketMaker.active_bids s)
  /\ dict_wf (MarketMaker.active_asks s)
  /\ (forall k ov,
        In (k, ov) (Dict.items (MarketMaker.active_bids s)) ->
        side ov = BUY /\ side_of k = BUY)
  /\ (forall k ov,
        In (k, ov) (Dict.items (MarketMaker.active_asks s)) ->
        side ov = SELL /\ side_of k = SELL).

Lemma recorded_in sd its :
  forall d k ov,
    In (k, ov) (recorded sd d its) ->
    In (k, ov) d
    \/ (exists j, In (j, Some ov) its)
       /\ k = order_id ov /\ side ov = sd.
Proof.
  induction its as [|[j [ov0|]] its IH]; intros d k ov Hin;
    cbn [recorded] in Hin.
  - left. exact Hin.
  - destruct (Side_eqb (side ov0) sd) eqn:Hsd.
    + apply IH in Hin. destruct Hin as [Hin|[[j' Hj] Hk]].
      * apply dict_set_in in Hin. destruct Hin as [[Hk Hov]|Hin];
          [|left; exact Hin].
        subst. right. split; [exists j; left; reflexivity|].
        split; [reflexivity|].
        destruct (side ov0), sd; try discriminate Hsd; reflexivity.
      * right. split; [exists j'; right; exact Hj|exact Hk].
    + apply IH in Hin. destruct Hin as [Hin|[[j' Hj] Hk]];
        [left; exact Hin|].
      right. split; [exists j'; right; exact Hj|exact Hk].
  - apply IH in Hin. destruct Hin as [Hin|[[j' Hj] Hk]];
      [left; exact Hin|].
    right. split; [exists j'; right; exact Hj|exact Hk].
Qed.

Lemma mm_update_sided side_of feedback s u s' :
  feedback_sided side_of feedback ->
  caches_sided side_of s ->
  MarketMaker.update feedback s = Ok (u, s') ->
  caches_sided side_of s'.
Proof.
  intros Hfb (Hwb & Hwa & Hb & Ha) H.
  destruct (mm_update_spec feedback s Hwb Hwa)
    as (s1 & Hrun1 & _ & Hwb' & Hwa' & _).
  destruct (mm_update_eq feedback s Hwb Hwa)
    as (s2 & Hrun2 & Hbids & Hasks & _).
  rewrite Hrun1 in H, Hrun2. inversion H; subst s'.
  inversion Hrun2; subst s2. clear H Hrun2.
  split; [exact Hwb'|]. split; [exact Hwa'|]. split.
  - intros k ov Hin. unfold Dict.items in Hin. rewrite Hbids in Hin.
    apply filter_In in Hin. destruct Hin as [Hin _].
    apply recorded_in in Hin. destruct Hin as [Hin|[[j Hj] [Hk Hsd]]].
    + exact (Hb k ov Hin).
    + split; [exact Hsd|]. subst k. rewrite <- (Hfb j ov Hj). exact Hsd.
  - intros k ov Hin. unfold Dict.items in Hin. rewrite Hasks in Hin.
    apply filter_In in Hin. destruct Hin as [Hin _].
    apply recorded_in in Hin. destruct Hin as [Hin|[[j Hj] [Hk Hsd]]].
    + exact (Ha k ov Hin).
    + split; [exact Hsd|]. subst k. rewrite <- (Hfb j ov Hj). exact Hsd.
Qed.

Lemma mm_issued_sided side_of calls :
  calls_sided side_of calls ->
  forall s l s',
    caches_sided side_of s ->
    issued MarketMaker.decide MarketMaker.update calls s = Ok (l, s') ->
    caches_sided side_of s'.
Proof.
  induction 1 as [|[acct view|feedback] calls Hc _ IH]; simpl;
    intros s l s' Hs H.
  - inversion H; subst. exact Hs.
  - apply rbind_ok in H. destruct H as ([l1 s1] & Hd & H).
    apply rbind_ok in H. destruct H as ([l2 s2] & Hr & H).
    inversion H; subst; clear H.
    apply mm_decide_ok in Hd. destruct Hd as [_ (Hb & Ha & _)].
    apply (IH s1 l2 s'); [|exact Hr].
    unfold caches_sided in *. rewrite Hb, Ha. exact Hs.
  - apply rbind_ok in H. destruct H as ([u s1] & Hu & H).
    apply (IH s1 l s'); [|exact H].
    eapply mm_update_sided; eassumption.
Qed.

Lemma mm_reachable_sided side_of s :
  mm_reachable side_of s -> caches_sided side_of s.
Proof.
  intros (a1 & a2 & a3 & a4 & a5 & a6 & a7 & a8 & a9 & a10 & calls & l
          & Hc & H).
  apply (mm_issued_sided side_of calls Hc _ _ _) in H; [exact H|].
  unfold caches_sided, MarketMaker.__init__, dict_wf; mm_simpl.
  split; [constructor|]. split; [constructor|].
  split; intros k ov [].
Qed.

Lemma caches_sided_disjoint side_of s :
  caches_sided side_of s -> caches_disjoint s.
Proof.
  intros (_ & Hwa & Hb & Ha) k Hk.
  destruct (Dict.mem (MarketMaker.active_asks s) k) eqn:Hm; [|reflexivity].
  unfold Dict.mem in Hk, Hm.
  destruct (Dict.get (MarketMaker.active_bids s) k) as [ovb|] eqn:Hgb;
    [|discriminate].
  destruct (Dict.get (MarketMaker.active_asks s) k) as [ova|] eqn:Hga;
    [|discriminate].
  apply dict_get_in in Hgb. apply dict_get_in in Hga.
  destruct (Hb k ovb Hgb) as [_ H1]. destruct (Ha k ova Hga) as [_ H2].
  congruence.
Qed.

(** C2. In the STABILIZE layer of a reachable market maker the cancel
    intents are exactly those of the working, non-price-equivalent orders
    of the risk side, measured against the target price the layer computes
    for that side (the skewed price, or [mid -/+ max(1.0, spread_size/2)]
    when the skewed prices cross): cached bids when the ratio is below the
    target (too many shares), cached asks when it is above (too much
    cash).  The caches of a reachable state share no order id, so no cancel
    intent targets an order of the supportive cache. *)
Theorem stabilize_supportive_side side_of acct view s r intents s' :
  mm_reachable side_of s ->
  MarketMaker._determine_current_layer acct s = Ok MarketMaker.STABILIZE ->
  MarketMaker._calculate_inventory_ratio acct s = Ok r ->
  MarketMaker.decide acct view s = Ok (intents, s') ->
  exists mid s1 skew bid ask target_bid target_ask,
    MarketMaker._estimate_price view s = Ok (Some mid, s1)
    /\ MarketMaker._calculate_skew r s = Ok skew
    /\ MarketMaker._calculate_skewed_prices mid skew s = Ok (bid, ask)
    /\ stabilize_targets s mid bid ask target_bid target_ask
    /\ ((r <? MarketMaker.target_inventory_fraction s) = true ->
        (forall n oid, In (CancelOrderIntent n oid) intents ->
           Dict.mem (MarketMaker.active_asks s) oid = false
           /\ exists ov,
                In (oid, ov) (Dict.items (MarketMaker.active_bids s))
                /\ side ov = BUY
                /\ lifecycle ov = WORKING
                /\ MarketMaker._is_quote_equivalent ov target_bid BUY
                   = false)
        /\ (forall oid ov,
              In (oid, ov) (Dict.items (MarketMaker.active_bids s)) ->
              lifecycle ov = WORKING ->
              MarketMaker._is_quote_equivalent ov target_bid BUY = false ->
              exists n, In (CancelOrderIntent n oid) intents))
    /\ (PyFloat.gtb r (MarketMaker.target_inventory_fraction s) = true ->
        (forall n oid, In (CancelOrderIntent n oid) intents ->
           Dict.mem (MarketMaker.active_bids s) oid = false
           /\ exists ov,
                In (oid, ov) (Dict.items (MarketMaker.active_asks s))
                /\ side ov = SELL
                /\ lifecycle ov = WORKING
                /\ MarketMaker._is_quote_equivalent ov target_ask SELL
                   = false)
        /\ (forall oid ov,
              In (oid, ov) (Dict.items (MarketMaker.active_asks s)) ->
              lifecycle ov = WORKING ->
              MarketMaker._is_quote_equivalent ov target_ask SELL = false ->
              exists n, In (CancelOrderIntent n oid) intents)).
Proof.
  intros Hreach Hlayer Hr H.
  pose proof (mm_reachable_sided _ _ Hreach) as Hsided.
  pose proof (caches_sided_disjoint _ _ Hsided) as Hdis.
  destruct Hsided as (_ & _ & Hsb & Hsa).
  destruct (mm_decide_stabilize _ _ _ _ _ Hlayer H)
    as (s0 & Hin & Hsk & Hrun).
  pose proof Hin as (Hc & Hb & Ha & _ & Hlkp & Ht & _ & _ & Hsp & _ & Hk).
  rewrite <- (mm_ratio_ext acct s s0 Hin) in Hr.
  destruct (mm_stabilize_layer_cancels acct view s0 r intents s' Hr Hrun)
    as (mid & s1 & skew & bid & ask & tb & ta
        & He & Hskew & Hprices & Htargets & Hcancels).
  rewrite Hc, Hb, Ha, Ht in Hcancels.
  destruct (mm_estimate_price_ext view s0 s _ _ Hlkp He) as [s1' He'].
  exists mid, s1', skew, bid, ask, tb, ta.
  split; [exact He'|].
  split.
  { rewrite <- Hskew. unfold MarketMaker._calculate_skew.
    rewrite Ht, Hsk. reflexivity. }
  split.
  { rewrite <- Hprices. unfold MarketMaker._calculate_skewed_prices.
    rewrite Hsp, Hk. reflexivity. }
  split.
  { unfold stabilize_targets in *. rewrite <- Hsp. exact Htargets. }
  assert (Hcancel_in :
            forall n oid sel its,
              filter is_cancel intents =
                mk_cancels (MarketMaker.__intent_id s) (selected sel its) ->
              In (CancelOrderIntent n oid) intents ->
              exists ov, In (oid, ov) its /\ sel ov = true).
  { intros n oid sel its Heq Hi.
    assert (Hi' : In (CancelOrderIntent n oid) (filter is_cancel intents))
      by (apply filter_In; split; [exact Hi|reflexivity]).
    rewrite Heq in Hi'. apply mk_cancels_in in Hi'.
    destruct Hi' as (m & oid' & Heq' & Hsel). inversion Heq'; subst m oid'.
    apply selected_in in Hsel. exact Hsel. }
  assert (Hcancel_all :
            forall oid ov sel its,
              filter is_cancel intents =
                mk_cancels (MarketMaker.__intent_id s) (selected sel its) ->
              In (oid, ov) its -> sel ov = true ->
              exists n, In (CancelOrderIntent n oid) intents).
  { intros oid ov sel its Heq Hov Hsel.
    destruct (mk_cancels_complete (MarketMaker.__intent_id s)
                (selected sel its) oid
                (selected_complete sel its oid ov Hov Hsel)) as [n Hn].
    exists n. rewrite <- Heq in Hn. apply filter_In in Hn. apply Hn. }
  split.
  - intros Hlt. rewrite Hlt in Hcancels. split.
    + intros n oid Hi.
      destruct (Hcancel_in n oid _ _ Hcancels Hi) as (ov & Hov & Hst).
      apply stale_inv in Hst. destruct Hst as [Hw Hne].
      split; [apply Hdis; apply (dict_in_mem _ _ ov); exact Hov|].
      exists ov. split; [exact Hov|].
      split; [exact (proj1 (Hsb oid ov Hov))|]. auto.
    + intros oid ov Hov Hw Hne.
      apply (Hcancel_all oid ov _ _ Hcancels Hov).
      unfold MarketMaker.stale. rewrite Hw, Hne. reflexivity.
  - intros Hgt. unfold PyFloat.gtb in Hgt.
    rewrite (ltb_asym _ _ Hgt) in Hcancels. split.
    + intros n oid Hi.
      destruct (Hcancel_in n oid _ _ Hcancels Hi) as (ov & Hov & Hst).
      apply stale_inv in Hst. destruct Hst as [Hw Hne].
      split.
      * destruct (Dict.mem (MarketMaker.active_bids s) oid) eqn:Hm;
          [|reflexivity].
        apply Hdis in Hm. pose proof (dict_in_mem _ _ ov Hov) as Hm'.
        unfold Dict.items in Hm'. congruence.
      * exists ov. split; [exact Hov|].
        split; [exact (proj1 (Hsa oid ov Hov))|]. auto.
    + intros oid ov Hov Hw Hne.
      apply (Hcancel_all oid ov _ _ Hcancels Hov).
      unfold MarketMaker.stale. rewrite Hw, Hne. reflexivity.
Qed.

(** ** Concrete runs *)

Module Examples.

Local Open Scope float_scope.

Definition constants0 : AgentConstants :=
  {| simulation_macro_tick := 10; simulation_micro_tick := 5;
     fee_rate := 0.001 |}.

Definition md_mid (p : float) : MarketDataView :=
  {| mid_price := Some p; micro_price := None; last_traded_price := None;
     L1_bids := None; L1_asks := None |}.

Definition economy0 : EconomyInsightView :=
  {| tv_interval := (90, 110); deposit_rates := [(1%Z, 0.02); (3%Z, 0.05)] |}.

Definition view_mid (aid : Z) (p : float) : AgentView :=
  {| view_agent_id := aid; macro_tick := 0; micro_tick := 0;
     market_data_view := Some (md_mid p);
     economy_insight_view := Some economy0 |}.

Definition working_order (oid : Z) (sd : Side) (p : float) : OrderView :=
  {| order_id := oid; side := sd; lifecycle := WORKING; end_reason := None;
     price := Some p |}.

Definition done_order (oid : Z) (sd : Side) (p : float) : OrderView :=
  {| order_id := oid; side := sd; lifecycle := DONE;
     end_reason := Some FILLED; price := Some p |}.

(** A market maker with bounds [0.2, 0.8], target 0.5, tolerance 0.05,
    spread 2, order size 10, that last saw the price 100 and holds one
    working bid (id 7) and one working ask (id 8). *)
Definition mm0 : MarketMaker.t :=
  MarketMaker.set_active_asks [(8%Z, working_order 8 SELL 120)]
    (MarketMaker.set_active_bids [(7%Z, working_order 7 BUY 80)]
       (MarketMaker.set_last_known_price (Some 100)
          (MarketMaker.__init__ 10000 constants0 0.5 0.2 0.8 0.05 2 10 3 5))).

Definition all_cash : AccountView := {| cash := 100000; shares := 0 |}.
Definition one_coin : AccountView := {| cash := 1; shares := 0 |}.
Definition all_shares : AccountView := {| cash := 0; shares := 500 |}.
Definition balanced : AccountView := {| cash := 5000; shares := 50 |}.
Definition cash_heavy : AccountView := {| cash := 7000; shares := 30 |}.
Definition share_heavy : AccountView := {| cash := 3000; shares := 70 |}.

Definition mm_out (r : result (list AgentIntent * MarketMaker.t))
  : list AgentIntent * MarketMaker.t :=
  match r with Ok p => p | Raise _ => ([], mm0) end.

(** The market maker is all in cash: SURVIVE cancels both orders and
    buys. *)
Definition survive_buy_run :=
  Eval vm_compute in
    mm_out (MarketMaker.decide all_cash (view_mid 10000 100) mm0).

Lemma survive_priority_witness :
  MarketMaker._calculate_inventory_ratio all_cash mm0 = Ok 1
  /\ PyFloat.gtb 1 (MarketMaker.risk_upper_bound mm0) = true
  /\ MarketMaker.decide all_cash (view_mid 10000 100) mm0
     = Ok ([CancelOrderIntent 0 7; CancelOrderIntent 1 8;
            PlaceOrderIntent 2 BUY LIMIT 30 (Some 110)],
           snd survive_buy_run)
  /\ MarketMaker._determine_current_layer all_cash mm0
     = Ok MarketMaker.SURVIVE
  /\ exists tail,
       [CancelOrderIntent 0 7; CancelOrderIntent 1 8;
        PlaceOrderIntent 2 BUY LIMIT 30 (Some 110)]
       = all_cancels mm0 ++ tail
       /\ (length tail <= 1)%nat.
Proof.
  assert (Hr : MarketMaker._calculate_inventory_ratio all_cash mm0 = Ok 1)
    by (vm_compute; reflexivity).
  assert (Hb : PyFloat.gtb 1 (MarketMaker.risk_upper_bound mm0) = true)
    by (vm_compute; reflexivity).
  assert (Hd : MarketMaker.decide all_cash (view_mid 10000 100) mm0
               = Ok ([CancelOrderIntent 0 7; CancelOrderIntent 1 8;
                      PlaceOrderIntent 2 BUY LIMIT 30 (Some 110)],
                     snd survive_buy_run))
    by (vm_compute; reflexivity).
  split; [exact Hr|]. split; [exact Hb|]. split; [exact Hd|].
  destruct (survive_priority all_cash (view_mid 10000 100) mm0 1 _ _
              Hr (or_intror Hb) Hd) as (Hl & tail & Ht & Hlen & _).
  split; [exact Hl|]. exists tail. split; [exact Ht|exact Hlen].
Defined.

(** The claim as stated fails when nothing is affordable: with one unit
    of cash and no share the ratio is 1 > 0.8, the layer is SURVIVE, and
    [decide] returns the two cancels and no order. *)
Lemma survive_priority_counterexample :
  MarketMaker._calculate_inventory_ratio one_coin mm0 = Ok 1
  /\ PyFloat.gtb 1 (MarketMaker.risk_upper_bound mm0) = true
  /\ exists s',
       MarketMaker.decide one_coin (view_mid 10000 100) mm0
       = Ok ([CancelOrderIntent 0 7; CancelOrderIntent 1 8], s').
Proof.
  split; [vm_compute; reflexivity|]. split; [vm_compute; reflexivity|].
  eexists. vm_compute. reflexivity.
Qed.

(** A new market maker quotes once; the market reports its bid as order 7
    and its ask as order 8.  With too much cash within the bounds (ratio
    0.7) and the price at 110, STABILIZE then cancels the stale ask 8 and
    leaves the bid 7 alone. *)
Definition mm_start : MarketMaker.t :=
  MarketMaker.__init__ 10000 constants0 0.5 0.2 0.8 0.05 2 10 3 5.

Definition feedback_quotes : AgentFeedback :=
  {| feedback_agent_id := 10000;
     order_results :=
       [(0%Z, Some (working_order 7 BUY 98.9));
        (1%Z, Some (working_order 8 SELL 101.1))];
     deposit_results := [] |}.

Definition history_quotes : list Call :=
  [CallDecide balanced (view_mid 10000 100); CallUpdate feedback_quotes].

Definition quotes_run :=
  Eval vm_compute in
    mm_out (issued MarketMaker.decide MarketMaker.update history_quotes
              mm_start).

Definition stabilize_run :=
  Eval vm_compute in
    mm_out (MarketMaker.decide cash_heavy (view_mid 10000 110)
              (snd quotes_run)).

Definition side_of_quotes (k : Z) : Side :=
  if (k =? 7)%Z then BUY else SELL.

Lemma quotes_run_reachable : mm_reachable side_of_quotes (snd quotes_run).
Proof.
  exists 10000%Z, constants0, 0.5, 0.2, 0.8, 0.05, 2%Z, 10%Z, 3%Z, 5%Z,
    history_quotes, (fst quotes_run).
  split; [|vm_compute; reflexivity].
  repeat constructor.
  intros k ov [H|[H|[]]]; inversion H; reflexivity.
Qed.

Lemma stabilize_supportive_side_witness :
  MarketMaker._determine_current_layer cash_heavy (snd quotes_run)
  = Ok MarketMaker.STABILIZE
  /\ MarketMaker._calculate_inventory_ratio cash_heavy (snd quotes_run)
     = Ok 0.7
  /\ PyFloat.gtb 0.7
       (MarketMaker.target_inventory_fraction (snd quotes_run)) = true
  /\ In (CancelOrderIntent 2 8) (fst stabilize_run)
  /\ Dict.mem (MarketMaker.active_bids (snd quotes_run)) 8 = false
  /\ exists ov,
       In (8%Z, ov) (Dict.items (MarketMaker.active_asks (snd quotes_run)))
       /\ side ov = SELL
       /\ lifecycle ov = WORKING.
Proof.
  assert (Hl : MarketMaker._determine_current_layer cash_heavy
                 (snd quotes_run)
               = Ok MarketMaker.STABILIZE) by (vm_compute; reflexivity).
  assert (Hr : MarketMaker._calculate_inventory_ratio cash_heavy
                 (snd quotes_run)
               = Ok 0.7) by (vm_compute; reflexivity).
  assert (Hg : PyFloat.gtb 0.7
                 (MarketMaker.target_inventory_fraction (snd quotes_run))
               = true) by (vm_compute; reflexivity).
  assert (Hd : MarketMaker.decide cash_heavy (view_mid 10000 110)
                 (snd quotes_run)
               = Ok (fst stabilize_run, snd stabilize_run))
    by (vm_compute; reflexivity).
  assert (Hi : In (CancelOrderIntent 2 8) (fst stabilize_run))
    by (left; reflexivity).
  split; [exact Hl|]. split; [exact Hr|]. split; [exact Hg|].
  split; [exact Hi|].
  destruct (stabilize_supportive_side side_of_quotes cash_heavy
              (view_mid 10000 110) (snd quotes_run) 0.7 _ _
              quotes_run_reachable Hl Hr Hd)
    as (mid & s1 & skew & bid & ask & tb & ta & _ & _ & _ & _ & _ & Hgt).
  destruct (Hgt Hg) as [Hcancel _].
  destruct (Hcancel 2%Z 8%Z Hi) as [Hmem (ov & Hov & Hsd & Hw & _)].
  split; [exact Hmem|]. exists ov. auto.
Defined.

(** A balanced inventory (ratio 0.5): PROVIDE quotes 98.9 / 101.1. *)
Definition provide_run :=
  Eval vm_compute in
    mm_out (MarketMaker.decide balanced (view_mid 10000 100) mm0).

Lemma provide_never_crosses_witness :
  MarketMaker._determine_current_layer balanced mm0 = Ok MarketMaker.PROVIDE
  /\ In (PlaceOrderIntent 2 BUY LIMIT 10 (Some (100 - 1 - 0.1)))
       (fst provide_run)
  /\ exists mid s1 bid ask,
       MarketMaker._estimate_price (view_mid 10000 100) mm0
       = Ok (Some mid, s1)
       /\ MarketMaker._calculate_provide_prices mid mm0 = Ok (bid, ask)
       /\ PyFloat.geb bid ask = false.
Proof.
  assert (Hl : MarketMaker._determine_current_layer balanced mm0
               = Ok MarketMaker.PROVIDE) by (vm_compute; reflexivity).
  assert (Hd : MarketMaker.decide balanced (view_mid 10000 100) mm0
               = Ok (fst provide_run, snd provide_run))
    by (vm_compute; reflexivity).
  assert (Hi : In (PlaceOrderIntent 2 BUY LIMIT 10 (Some (100 - 1 - 0.1)))
                 (fst provide_run))
    by (right; right; left; vm_compute; reflexivity).
  split; [exact Hl|]. split; [exact Hi|].
  destruct (provide_never_crosses balanced (view_mid 10000 100) mm0 _ _
              Hl Hd) as (mid & s1 & bid & ask & He & Hp & _ & Hplace).
  exists mid, s1, bid, ask. split; [exact He|]. split; [exact Hp|].
  exact (proj1 (Hplace _ Hi eq_refl)).
Defined.

(** A momentum trader with liquidity baseline 100. *)
Definition mt0 : MomentumTrader.t :=
  MomentumTrader.__init__ 30000 constants0 5 0.01 0.002 0.5 0.5 0 100.

Definition md_book (bid_size ask_size : Z) : MarketDataView :=
  {| mid_price := Some 100; micro_price := None; last_traded_price := None;
     L1_bids := Some {| l1_price := 99; l1_size := bid_size; l1_orders := 1 |};
     L1_asks := Some {| l1_price := 101; l1_size := ask_size;
                        l1_orders := 1 |} |}.

Definition view_book (bid_size ask_size : Z) : AgentView :=
  {| view_agent_id := 30000; macro_tick := 0; micro_tick := 1;
     market_data_view := Some (md_book bid_size ask_size);
     economy_insight_view := None |}.

(** A thin book (30 + 20 against a baseline of 100) doubles the size. *)
Lemma liquidity_amplifier_spec_witness :
  market_data_view (view_book 30 20) = Some (md_book 30 20)
  /\ MomentumTrader._calculate_liquidity_amplifier (view_book 30 20) mt0
     = Ok 2.
Proof.
  split; [reflexivity|].
  destruct (liquidity_amplifier_spec (view_book 30 20) mt0 (md_book 30 20)
              eq_refl) as [Heq _].
  etransitivity; [exact Heq|vm_compute; reflexivity].
Defined.

(** The claim as stated fails on an empty book: the formula gives
    [1 / clamp(0 / 100, 0.5, 2.0) = 2.0], the code returns 1.0. *)
Lemma liquidity_amplifier_counterexample :
  total_top_of_book_size (md_mid 100) = 0%Z
  /\ amplifier_formula (total_top_of_book_size (md_mid 100))
       (MomentumTrader.liquidity_baseline mt0) = Ok 2
  /\ MomentumTrader._calculate_liquidity_amplifier (view_mid 30000 100) mt0
     = Ok 1
  /\ MomentumTrader._calculate_liquidity_amplifier (view_mid 30000 100) mt0
     <> amplifier_formula (total_top_of_book_size (md_mid 100))
          (MomentumTrader.liquidity_baseline mt0).
Proof.
  split; [reflexivity|]. split; [vm_compute; reflexivity|].
  split; [vm_compute; reflexivity|].
  vm_compute. intros H. inversion H.
Qed.

(** A value investor with optimism 0.5, threshold 0.03 and cap 0.8. *)
Definition vi0 : ValueInvestor.t :=
  {| ValueInvestor.agent_id := 20000;
     ValueInvestor.constants := constants0;
     ValueInvestor.initial_optimism := 0.5;
     ValueInvestor.stubbornness := 0.5;
     ValueInvestor.belief_update_rate := 0.1;
     ValueInvestor.mispricing_threshold := 0.03;
     ValueInvestor.max_position_fraction := 0.8;
     ValueInvestor.deposit_affinity := 0.03;
     ValueInvestor.deposit_allocation_fraction := 0.5;
     ValueInvestor.deposit_horizon_preference := 0.5;
     ValueInvestor.max_order_size := 20;
     ValueInvestor.patience_discount := 0.01;
     ValueInvestor.patience_premium := 0.01;
     ValueInvestor.optimism := 0.5;
     ValueInvestor.belief := 100;
     ValueInvestor.perceived_pnl := 0;
     ValueInvestor.initial_capital := 10000;
     ValueInvestor.current_intention := ValueInvestor.WAIT;
     ValueInvestor.active_deposits := Dict.empty;
     ValueInvestor.pending_orders := Dict.empty;
     ValueInvestor.last_known_price := None;
     ValueInvestor.__intent_id := 0 |}.

Definition vi_out {A : Type} (d : A) (r : result (A * ValueInvestor.t))
  : A * ValueInvestor.t :=
  match r with Ok p => p | Raise _ => (d, vi0) end.



Definition vi_decide_run :=
  Eval vm_compute in
    vi_out [] (ValueInvestor.decide balanced (view_mid 20000 95) vi0).


(** A market that accepts everything: its state is the next order id; an
    order comes back working, or already filled when [fills] is set. *)
Definition test_market (fills : bool) (account : AccountView) : Market :=
  {| Env := Z;
     create_order := fun _ _ sd _ p e =>
       Ok (Some {| order_id := e; side := sd;
                   lifecycle := if fills then DONE else WORKING;
                   end_reason := if fills then Some FILLED else None;
                   price := p |}, (e + 1)%Z);
     cancel_order := fun _ _ e => Ok e;
     create_deposit := fun _ term _ e =>
       Ok (Some {| deposit_id := e; maturity_macro_tick := term |},
           (e + 1)%Z);
     expire_session := fun e => Ok e;
     get_market_data := fun _ => md_mid 100;
     get_economy_insight := fun _ => economy0;
     account_of := fun _ _ => account |}.

(** A noise trader that never trades. *)
Definition idle_noise : NoiseTraderModel :=
  {| NoiseTrader := unit;
     noise_decide := fun _ _ => ret [];
     noise_update := fun _ => ret tt |}.

(** A linear congruential generator. *)
Definition lcg : RandomModel :=
  {| Rng := Z;
     Random := fun seed => seed;
     randbelow := fun n r =>
       (Z.to_nat (r mod Z.of_nat n),
        ((r * 5 + 3) mod 64)%Z) |}.

(** Two [decide] calls of the market maker with an [update] in between:
    the ids run on from 0 to 5. *)
Definition feedback0 : AgentFeedback :=
  {| feedback_agent_id := 10000;
     order_results :=
       [(0%Z, None); (1%Z, None);
        (2%Z, Some (done_order 21 BUY 110))];
     deposit_results := [] |}.

Definition history0 : list Call :=
  [CallDecide all_cash (view_mid 10000 100);
   CallUpdate feedback0;
   CallDecide all_shares (view_mid 10000 100)].

Definition history_run :=
  Eval vm_compute in
    mm_out (issued MarketMaker.decide MarketMaker.update history0 mm0).

Definition feedback_run :=
  Eval vm_compute in
    match @_process_intents (test_market false balanced) 10000
            (fst survive_buy_run) 21%Z with
    | Ok p => p
    | Raise _ => (feedback0, 0%Z)
    end.

Lemma intent_ids_round_trip_witness :
  map intent_id_of (fst history_run) = [0; 1; 2; 3; 4; 5]%Z
  /\ MarketMaker.__intent_id (snd history_run) = 6%Z
  /\ Dict.keys (order_results (fst feedback_run)) = [0; 1; 2]%Z
  /\ In 2%Z (map intent_id_of (fst survive_buy_run)).
Proof.
  destruct (@intent_ids_round_trip (test_market false balanced))
    as (Hmm & _ & _ & Hkeys).
  assert (Hrun : issued MarketMaker.decide MarketMaker.update history0 mm0
                 = Ok (fst history_run, snd history_run))
    by (vm_compute; reflexivity).
  assert (Hfb : @_process_intents (test_market false balanced) 10000
                  (fst survive_buy_run) 21%Z
                = Ok (fst feedback_run, snd feedback_run))
    by (vm_compute; reflexivity).
  destruct (Hmm history0 mm0 _ _ Hrun) as [Hids Hcnt].
  split; [exact Hids|]. split; [exact Hcnt|].
  split; [vm_compute; reflexivity|].
  exact (Hkeys 10000%Z _ 21%Z _ _ Hfb 2%Z (or_introl eq_refl)).
Defined.

Definition quiet_market : Market := test_market false balanced.

Definition busy_market : Market := test_market true cash_heavy.

#[local] Existing Instance idle_noise.
#[local] Existing Instance lcg.

(** A market maker that quoted at tick 0 and was filled since keeps its
    quotes at tick 1: its turn ends after [decide], and the fill flag is
    still set when the turn is over. *)
Definition mm_quoted : MarketMaker.t :=
  MarketMaker.set_order_filled_this_tick true
    (MarketMaker.set_last_quote_global_tick (Some 0%Z) mm0).

Definition sim_data0 : SimulationRealtimeData :=
  {| MARKET_DATA_VIEW := Some (md_mid 100);
     ECONOMY_INSIGHT_VIEW := Some economy0 |}.

Definition idle_turn_run :=
  Eval vm_compute in
    match @agent_turn quiet_market idle_noise sim_data0 0 1 10000
            (AMarketMaker mm_quoted) 21%Z with
    | Ok p => p
    | Raise _ => (AMarketMaker mm0, 0%Z)
    end.

Lemma empty_decide_skips_update_witness :
  @agent_turn quiet_market idle_noise sim_data0 0 1 10000
    (AMarketMaker mm_quoted) 21%Z = Ok idle_turn_run
  /\ snd idle_turn_run = 21%Z
  /\ exists s',
       fst idle_turn_run = AMarketMaker s'
       /\ MarketMaker.order_filled_this_tick s' = true
       /\ MarketMaker.active_bids s' = [(7%Z, working_order 7 BUY 80)]
       /\ MarketMaker.active_asks s' = [(8%Z, working_order 8 SELL 120)].
Proof.
  assert (Hd : @agent_decide idle_noise (@account_of quiet_market 21%Z 10000%Z)
                 (agent_view sim_data0 0 1 10000 (AMarketMaker mm_quoted))
                 (AMarketMaker mm_quoted)
               = Ok ([], fst idle_turn_run))
    by (vm_compute; reflexivity).
  destruct (@empty_decide_skips_update quiet_market idle_noise
              sim_data0 0%Z 1%Z 10000%Z (AMarketMaker mm_quoted) 21%Z
              (fst idle_turn_run) Hd) as [Hturn Hmm].
  split; [exact Hturn|]. split; [reflexivity|].
  destruct (Hmm mm_quoted eq_refl) as (s' & Hs & Hf & Hb & Ha).
  exists s'. split; [exact Hs|]. split; [exact Hf|].
  split; [exact Hb|exact Ha].
Defined.

(** Feedback that reports a cancel, the fill of the resting bid and a
    new working ask. *)
Definition feedback1 : AgentFeedback :=
  {| feedback_agent_id := 10000;
     order_results :=
       [(0%Z, None);
        (1%Z, Some (done_order 7 BUY 80));
        (2%Z, Some (working_order 9 SELL 101))];
     deposit_results := [(3%Z, None)] |}.

Definition update_run :=
  Eval vm_compute in
    match MarketMaker.update feedback1 mm0 with
    | Ok (_, s) => s
    | Raise _ => mm0
    end.


Lemma update_never_raises_witness :
  MarketMaker.update feedback1 mm0 = Ok (tt, update_run)
  /\ MarketMaker.active_bids update_run = []
  /\ MarketMaker.active_asks update_run =
     [(8%Z, working_order 8 SELL 120); (9%Z, working_order 9 SELL 101)]
  /\ (forall k ov,
        In (k, ov) (Dict.items (MarketMaker.active_bids update_run))
        \/ In (k, ov) (Dict.items (MarketMaker.active_asks update_run)) ->
        lifecycle ov <> DONE)
  /\ (exists s', ValueInvestor.update feedback1 vi0 = Ok (tt, s'))
  /\ (exists s', MomentumTrader.update feedback1 mt0 = Ok (tt, s')).
Proof.
  destruct update_never_raises as (Hmm & Hvi & Hmt).
  assert (Hb : dict_wf (MarketMaker.active_bids mm0))
    by (repeat constructor; simpl; tauto).
  assert (Ha : dict_wf (MarketMaker.active_asks mm0))
    by (repeat constructor; simpl; tauto).
  destruct (Hmm feedback1 mm0 Hb Ha) as (s' & Hrun & Hdone & _).
  assert (Hs : s' = update_run).
  { assert (E : MarketMaker.update feedback1 mm0 = Ok (tt, update_run))
      by (vm_compute; reflexivity).
    rewrite E in Hrun. inversion Hrun. reflexivity. }
  subst s'.
  split; [exact Hrun|]. split; [reflexivity|]. split; [reflexivity|].
  split; [exact Hdone|]. split; [apply Hvi|].
  destruct (Hmt feedback1 mt0) as (s' & Hrun' & _).
  - constructor.
  - exists s'. exact Hrun'.
Defined.

(** A population of one agent per class, run for four ticks in two
    markets that answer differently: the execution orders are the same. *)
Definition manager0 : AgentManager :=
  add_noise_trader 0 tt
    (add_momentum_trader 0 mt0
       (add_value_investor 0 vi0
          (add_market_maker 0 mm0 (AgentManager__init__ 42)))).

Definition sim_data_init : SimulationRealtimeData :=
  {| MARKET_DATA_VIEW := None; ECONOMY_INSIGHT_VIEW := None |}.

Definition quiet_engine : @SimulationEngine quiet_market idle_noise lcg :=
  @Build_SimulationEngine quiet_market idle_noise lcg
    21%Z manager0 sim_data_init.

Definition busy_engine : @SimulationEngine busy_market idle_noise lcg :=
  @Build_SimulationEngine busy_market idle_noise lcg
    500%Z manager0 sim_data_init.

Definition clock0 : list (Z * Z) := [(0, 0); (0, 1); (0, 2); (1, 0)]%Z.


Definition run_out {market : Market}
  (r : result (list (list Z) * @SimulationEngine market idle_noise lcg))
  (d : @SimulationEngine market idle_noise lcg)
  : list (list Z) * @SimulationEngine market idle_noise lcg :=
  match r with Ok p => p | Raise _ => ([], d) end.

Definition quiet_run :=
  Eval vm_compute in run_out (run_ticks clock0 quiet_engine) quiet_engine.

Definition busy_run :=
  Eval vm_compute in run_out (run_ticks clock0 busy_engine) busy_engine.

Definition micro_run :=
  Eval vm_compute in
    match micro_tick_agents (agent_manager (snd quiet_run)) with
    | Ok p => p
    | Raise _ => ([], manager0)
    end.

Lemma manager0_populated : populated manager0.
Proof.
  unfold manager0.
  apply populated_noise_trader, populated_momentum_trader,
    populated_value_investor, populated_market_maker, populated_init.
Qed.

Lemma scheduling_deterministic_and_class_filtered_witness :
  fst quiet_run = fst busy_run
  /\ fst quiet_run =
     [[20000; 40000; 10000; 30000]; [40000; 10000; 30000];
      [40000; 10000; 30000]; [30000; 20000; 10000; 40000]]%Z
  /\ env (snd quiet_run) <> env (snd busy_run)
  /\ map fst (fst micro_run) = [10000; 30000; 40000]%Z
  /\ forall aid a, In (aid, a) (fst micro_run) -> is_value_investor a = false.
Proof.
  destruct scheduling_deterministic_and_class_filtered as [Hdet Hclass].
  assert (H1 : run_ticks clock0 quiet_engine
               = Ok (fst quiet_run, snd quiet_run))
    by reflexivity.
  assert (H2 : run_ticks clock0 busy_engine
               = Ok (fst busy_run, snd busy_run))
    by reflexivity.
  assert (H3 : micro_tick_agents (agent_manager (snd quiet_run))
               = Ok (fst micro_run, snd micro_run))
    by reflexivity.
  split.
  - exact (Hdet lcg quiet_market busy_market idle_noise idle_noise clock0
             quiet_engine busy_engine _ _ _ _ eq_refl H1 H2).
  - split; [reflexivity|]. split; [vm_compute; discriminate|].
    split; [vm_compute; reflexivity|].
    exact (Hclass quiet_market idle_noise lcg clock0 quiet_engine _ _ _ _
             manager0_populated H1 H3).
Defined.


(** *** Further runs *)

(** The quoted market maker (last round at global tick 0, wait time 3)
    is asked again at global tick 0: nothing is sent although a fill was
    flagged. *)
Definition throttled_run :=
  Eval vm_compute in
    mm_out (MarketMaker.decide balanced (view_mid 10000 100) mm_quoted).

Lemma provide_waits_out_wait_time_witness :
  MarketMaker.order_filled_this_tick mm_quoted = true
  /\ fst throttled_run = []
  /\ MarketMaker.last_quote_global_tick (snd throttled_run) = Some 0%Z.
Proof.
  split; [reflexivity|].
  apply (provide_waits_out_wait_time balanced (view_mid 10000 100) mm_quoted
           (fst throttled_run) (snd throttled_run) 0%Z);
    vm_compute; reflexivity.
Defined.

(** A round at global tick 0, an update, and a second call at global
    tick 2 (wait time 3). *)
Definition view_tick (aid : Z) (p : float) (macro micro : Z) : AgentView :=
  {| view_agent_id := aid; macro_tick := macro; micro_tick := micro;
     market_data_view := Some (md_mid p);
     economy_insight_view := Some economy0 |}.

Definition provide_updated :=
  Eval vm_compute in
    match MarketMaker.update feedback1 (snd provide_run) with
    | Ok (_, s) => s
    | Raise _ => mm0
    end.

Definition provide_again_run :=
  Eval vm_compute in
    mm_out (MarketMaker.decide balanced (view_tick 10000 103 0 2)
              provide_updated).

Lemma provide_rounds_are_spaced_witness :
  length (fst provide_run) = 4%nat
  /\ MarketMaker.last_quote_global_tick (snd provide_run) = Some 0%Z
  /\ fst provide_again_run = [].
Proof.
  split; [reflexivity|].
  assert (Hne : fst provide_run <> []) by (vm_compute; discriminate).
  destruct (provide_rounds_are_spaced balanced (view_mid 10000 100)
              balanced (view_tick 10000 103 0 2) feedback1 mm0
              (fst provide_run) (snd provide_run) provide_updated
              (fst provide_again_run) (snd provide_again_run))
    as [Hq He];
    try (vm_compute; reflexivity); [exact Hne|].
  split; [exact Hq|exact He].
Defined.

(** The panic sale of a market maker holding 500 shares. *)
Definition survive_sell_run :=
  Eval vm_compute in
    mm_out (MarketMaker.decide all_shares (view_mid 10000 100) mm0).

Lemma market_maker_orders_are_covered_witness :
  In (PlaceOrderIntent 2 SELL LIMIT 30 (Some 90)) (fst survive_sell_run)
  /\ (30 <= shares all_shares)%Z.
Proof.
  assert (Hi : In (PlaceOrderIntent 2 SELL LIMIT 30 (Some 90))
                 (fst survive_sell_run))
    by (right; right; left; vm_compute; reflexivity).
  split; [exact Hi|].
  assert (Hd : MarketMaker.decide all_shares (view_mid 10000 100) mm0
               = Ok (fst survive_sell_run, snd survive_sell_run))
    by (vm_compute; reflexivity).
  destruct (market_maker_orders_are_covered all_shares (view_mid 10000 100)
              mm0 _ _ Hd _ _ _ _ _ Hi) as (_ & _ & _ & Hsell).
  exact (proj1 (Hsell eq_refl)).
Defined.

(** The first call of a momentum trader holding 50 shares. *)
Definition mt_out (r : result (list AgentIntent * MomentumTrader.t))
  : list AgentIntent * MomentumTrader.t :=
  match r with Ok p => p | Raise _ => ([], mt0) end.

Definition mt_first_run :=
  Eval vm_compute in
    mt_out (MomentumTrader.decide balanced (view_mid 30000 100) mt0).

Lemma momentum_trader_orders_are_covered_witness :
  (length (fst mt_first_run) <= 1)%nat
  /\ forall i, In i (fst mt_first_run) ->
       exists n sd q,
         i = PlaceOrderIntent n sd MARKET q None
         /\ (0 < q)%Z
         /\ (sd = SELL -> (q <= shares balanced)%Z).
Proof.
  apply (momentum_trader_orders_are_covered balanced (view_mid 30000 100)
           mt0 (fst mt_first_run) (snd mt_first_run)).
  vm_compute; reflexivity.
Defined.

Lemma unbiased_trader_starts_by_selling_out_witness :
  fst mt_first_run = [PlaceOrderIntent 0 SELL MARKET 50 None].
Proof.
  apply (unbiased_trader_starts_by_selling_out balanced
           (view_mid 30000 100) mt0 (fst mt_first_run) (snd mt_first_run));
    vm_compute; reflexivity.
Defined.




(** The turn of a market maker whose [decide] returns the four intents
    of a PROVIDE round. *)
Lemma deposit_assertion_never_fails_witness :
  forallb (fun i => negb (is_deposit i)) (fst provide_run) = true
  /\ exists r,
       @agent_turn quiet_market idle_noise sim_data0 0 0 10000
         (AMarketMaker mm0) 21%Z = Ok r.
Proof.
  assert (Hd : @agent_decide idle_noise
                 (@account_of quiet_market 21%Z 10000%Z)
                 (agent_view sim_data0 0 0 10000 (AMarketMaker mm0))
                 (AMarketMaker mm0)
               = Ok (fst provide_run, AMarketMaker (snd provide_run)))
    by reflexivity.
  destruct (@deposit_assertion_never_fails quiet_market idle_noise
              sim_data0 0%Z 0%Z 10000%Z (AMarketMaker mm0) 21%Z _ _ _
              (or_introl eq_refl) Hd) as [Hall Hturn].
  split; [exact Hall|].
  rewrite Hturn. eexists. reflexivity.
Defined.

(** The engine answers the three intents of the SURVIVE round. *)
Lemma feedback_answers_every_intent_witness :
  length (fst survive_buy_run) = 3%nat
  /\ feedback_agent_id (fst feedback_run) = 10000%Z
  /\ forall i, In i (fst survive_buy_run) ->
       @answered (test_market false balanced) 10000 (fst feedback_run) i.
Proof.
  split; [reflexivity|].
  apply (@feedback_answers_every_intent (test_market false balanced)
           10000%Z (fst survive_buy_run) 21%Z (fst feedback_run)
           (snd feedback_run)).
  - vm_compute. repeat (constructor; [simpl; intuition discriminate|]).
    constructor.
  - reflexivity.
Defined.

Lemma mm0_bids_wf : dict_wf (MarketMaker.active_bids mm0).
Proof. vm_compute. repeat (constructor; [simpl; tauto|]). constructor. Qed.

Lemma mm0_asks_wf : dict_wf (MarketMaker.active_asks mm0).
Proof. vm_compute. repeat (constructor; [simpl; tauto|]). constructor. Qed.

(** The feedback reports bid 7 filled: it leaves the cache and raises
    the flag. *)
Lemma update_flags_purged_fills_witness :
  exists s',
    MarketMaker.update feedback1 mm0 = Ok (tt, s')
    /\ MarketMaker.active_bids s' = []
    /\ MarketMaker.active_asks s' =
       [(8%Z, working_order 8 SELL 120); (9%Z, working_order 9 SELL 101)]
    /\ MarketMaker.order_filled_this_tick s' = true.
Proof.
  destruct (update_flags_purged_fills feedback1 mm0 mm0_bids_wf mm0_asks_wf)
    as (s' & Hu & Hb & Ha & Hf).
  exists s'. split; [exact Hu|].
  split; [rewrite Hb; vm_compute; reflexivity|].
  split; [rewrite Ha; vm_compute; reflexivity|].
  apply Hf. exists 7%Z, (done_order 7 BUY 80).
  split; [left; vm_compute; left; reflexivity|].
  split; reflexivity.
Defined.

(** The same feedback reports ask 9 working: it is filed among the
    asks, and ask 8, which the feedback does not mention, stays. *)
Lemma update_files_working_orders_witness :
  Dict.get (MarketMaker.active_asks update_run) 9 =
    Some (working_order 9 SELL 101)
  /\ Dict.get (MarketMaker.active_asks update_run) 8 =
     Some (working_order 8 SELL 120).
Proof.
  assert (Hn : NoDup (feedback_order_ids (order_results feedback1))).
  { vm_compute. repeat (constructor; [simpl; intuition discriminate|]).
    constructor. }
  assert (Hu : MarketMaker.update feedback1 mm0 = Ok (tt, update_run))
    by (vm_compute; reflexivity).
  pose proof (update_files_working_orders feedback1 mm0 update_run
                mm0_bids_wf mm0_asks_wf Hn Hu) as H.
  cbv zeta in H. destruct H as [Hnew Hold]. split.
  - apply (Hnew 2%Z (working_order 9 SELL 101)); [|reflexivity].
    right; right; left; reflexivity.
  - apply (Hold SELL 8%Z (working_order 8 SELL 120));
      [reflexivity|reflexivity|].
    vm_compute. intuition discriminate.
Defined.

(** The PROVIDE round at mid 100 quotes 98.9 / 101.1 and cancels the
    bid at 80 and the ask at 120. *)
Lemma provide_round_cancels_stale_quotes_witness :
  exists n, In (CancelOrderIntent n 7) (fst provide_run).
Proof.
  assert (Hl : MarketMaker._determine_current_layer balanced mm0
               = Ok MarketMaker.PROVIDE) by (vm_compute; reflexivity).
  assert (Hd : MarketMaker.decide balanced (view_mid 10000 100) mm0
               = Ok (fst provide_run, snd provide_run))
    by (vm_compute; reflexivity).
  assert (Hne : fst provide_run <> []) by (vm_compute; discriminate).
  destruct (provide_round_cancels_stale_quotes balanced (view_mid 10000 100)
              mm0 _ _ Hl Hd Hne)
    as (mid & s1 & bid & ask & He & Hp & Hbids & _ & _).
  assert (Hmid : mid = 100).
  { vm_compute in He. injection He as Hm _. symmetry. exact Hm. }
  subst mid.
  assert (Hbid : bid = 100 - 1 - 0.1).
  { vm_compute in Hp. injection Hp as Hb _. rewrite <- Hb.
    vm_compute. reflexivity. }
  subst bid.
  destruct (Hbids 7%Z (working_order 7 BUY 80)) as [Heq|Hc];
    [left; reflexivity|reflexivity| |exact Hc].
  vm_compute in Heq. discriminate.
Defined.

(** The bid of that round matches no order of the bid cache. *)
Lemma quotes_are_never_doubled_witness :
  MarketMaker._has_equivalent_working_order BUY (100 - 1 - 0.1) mm0 = false.
Proof.
  assert (Hl : MarketMaker._determine_current_layer balanced mm0
               = Ok MarketMaker.PROVIDE) by (vm_compute; reflexivity).
  assert (Hd : MarketMaker.decide balanced (view_mid 10000 100) mm0
               = Ok (fst provide_run, snd provide_run))
    by (vm_compute; reflexivity).
  assert (Hi : In (PlaceOrderIntent 2 BUY LIMIT 10 (Some (100 - 1 - 0.1)))
                 (fst provide_run))
    by (right; right; left; vm_compute; reflexivity).
  assert (Hns : MarketMaker.PROVIDE <> MarketMaker.SURVIVE) by discriminate.
  exact (proj1 (quotes_are_never_doubled balanced (view_mid 10000 100) mm0
                  _ _ _ Hl Hns Hd _ _ _ _ _ Hi)).
Defined.

(** A new market maker, all in cash, that has seen no price. *)
Definition mm_new : MarketMaker.t :=
  MarketMaker.__init__ 10000 constants0 0.5 0.2 0.8 0.05 2 10 3 5.

Lemma unpriced_market_maker_provides_witness :
  MarketMaker._calculate_inventory_ratio all_cash mm_new = Ok 0.5
  /\ MarketMaker._determine_current_layer all_cash mm_new
     = Ok MarketMaker.PROVIDE.
Proof.
  destruct (unpriced_market_maker_provides all_cash mm_new)
    as (Hr & Hl & _); try (vm_compute; reflexivity).
  split; [exact Hr|exact Hl].
Defined.

(** An economy that offers a deposit of term 0 only: the horizon penalty
    divides by the largest term. *)
Definition view_zero_term : AgentView :=
  {| view_agent_id := 20000; macro_tick := 0; micro_tick := 0;
     market_data_view := Some (md_mid 95);
     economy_insight_view :=
       Some {| tv_interval := (90, 110);
               deposit_rates := [(0%Z, 0.05)] |} |}.

Lemma deposit_opportunity_spec_witness :
  ValueInvestor._evaluate_deposit_opportunity view_zero_term vi0
  = Raise ZeroDivisionError.
Proof.
  destruct (deposit_opportunity_spec view_zero_term vi0 _ eq_refl)
    as (_ & Hzero & _).
  apply (Hzero 0%Z []); reflexivity.
Defined.

(** A true-value interval of (-10, 10) and optimism 0.5 give a belief of
    exactly 0. *)
Definition view_zero_belief : AgentView :=
  {| view_agent_id := 20000; macro_tick := 0; micro_tick := 0;
     market_data_view := Some (md_mid 95);
     economy_insight_view :=
       Some {| tv_interval := (-10, 10);
               deposit_rates := [(1%Z, 0.02)] |} |}.

Lemma zero_belief_raises_witness :
  ValueInvestor.decide balanced view_zero_belief vi0
  = Raise ZeroDivisionError.
Proof.
  apply (zero_belief_raises balanced view_zero_belief vi0 _ _ 95 50
           eq_refl eq_refl eq_refl eq_refl);
    vm_compute; reflexivity.
Defined.

(** A value investor that has never seen a price, in a market without
    one. *)
Definition view_unpriced : AgentView :=
  {| view_agent_id := 20000; macro_tick := 0; micro_tick := 0;
     market_data_view :=
       Some {| mid_price := None; micro_price := None;
               last_traded_price := None;
               L1_bids := None; L1_asks := None |};
     economy_insight_view := Some economy0 |}.

Definition vi_unpriced_run :=
  Eval vm_compute in
    vi_out [] (ValueInvestor.decide balanced view_unpriced vi0).

Lemma value_investor_needs_a_price_witness :
  fst vi_unpriced_run = []
  /\ ValueInvestor.current_intention (snd vi_unpriced_run)
     = ValueInvestor.WAIT.
Proof.
  assert (Ht : (ValueInvestor.mispricing_threshold vi0 <? 0) = false)
    by (vm_compute; reflexivity).
  assert (Hd : ValueInvestor.decide balanced view_unpriced vi0
               = Ok (fst vi_unpriced_run, snd vi_unpriced_run))
    by (vm_compute; reflexivity).
  destruct (value_investor_needs_a_price balanced view_unpriced vi0 _ _
              Ht I Hd) as [_ Hnone].
  exact (Hnone eq_refl).
Defined.

(** The limit buy of the undervalued market: 20 shares, the largest order
    the investor sends. *)
Lemma value_investor_orders_are_bounded_witness :
  (length (fst vi_decide_run) <= 1)%nat
  /\ forall i, In i (fst vi_decide_run) ->
       match i with
       | PlaceOrderIntent _ sd ot q p =>
           ot = LIMIT
           /\ (exists pr, p = Some pr)
           /\ (q <= ValueInvestor.max_order_size vi0)%Z
           /\ (sd = BUY -> (0 < q)%Z)
           /\ (sd = SELL ->
               (q <= shares balanced)%Z
               /\ ((0 < ValueInvestor.max_order_size vi0)%Z -> (0 < q)%Z))
       | CancelOrderIntent _ _ => False
       | CreateDepositIntent _ amount _ => (amount <=? 0) = false
       end.
Proof.
  apply (value_investor_orders_are_bounded balanced (view_mid 20000 95) vi0
           (fst vi_decide_run) (snd vi_decide_run)).
  vm_compute; reflexivity.
Defined.

(** A value investor with two deposits (maturing at 3 and at 7) and two
    orders (one done, one working). *)
Definition vi_stocked : ValueInvestor.t :=
  ValueInvestor.set_pending_orders
    [(5%Z, done_order 5 BUY 95); (6%Z, working_order 6 SELL 105)]
    (ValueInvestor.set_active_deposits
       [(1%Z, {| deposit_id := 1; maturity_macro_tick := 3 |});
        (2%Z, {| deposit_id := 2; maturity_macro_tick := 7 |})]
       vi0).

Lemma value_investor_purges_witness :
  (exists s',
      ValueInvestor._cleanup_matured_deposits 5 vi_stocked = Ok (tt, s')
      /\ Dict.items (ValueInvestor.active_deposits s') =
         [(2%Z, {| deposit_id := 2; maturity_macro_tick := 7 |})])
  /\ exists s',
       ValueInvestor._cleanup_done_orders vi_stocked = Ok (tt, s')
       /\ Dict.items (ValueInvestor.pending_orders s') =
          [(6%Z, working_order 6 SELL 105)].
Proof.
  assert (Hd : dict_wf (ValueInvestor.active_deposits vi_stocked)).
  { vm_compute. repeat (constructor; [simpl; intuition discriminate|]).
    constructor. }
  assert (Ho : dict_wf (ValueInvestor.pending_orders vi_stocked)).
  { vm_compute. repeat (constructor; [simpl; intuition discriminate|]).
    constructor. }
  destruct (value_investor_purges vi_stocked Hd Ho) as [Hdep Hord].
  split.
  - destruct (Hdep 5%Z) as (s' & Hrun & Hitems & _).
    exists s'. split; [exact Hrun|]. rewrite Hitems. reflexivity.
  - destruct Hord as (s' & Hrun & Hitems & _).
    exists s'. split; [exact Hrun|]. rewrite Hitems. reflexivity.
Defined.

(** A momentum trader tracking order 8 takes the feedback of the market
    maker's example: 7 is done and dropped, 9 is working and filed, 8 is
    not mentioned and stays. *)
Definition mt_tracking : MomentumTrader.t :=
  MomentumTrader.set_active_orders [(8%Z, working_order 8 SELL 120)] mt0.

Definition mt_update_run :=
  Eval vm_compute in
    match MomentumTrader.update feedback1 mt_tracking with
    | Ok (_, s) => s
    | Raise _ => mt0
    end.

Lemma momentum_update_reconciles_witness :
  Dict.get (MomentumTrader.active_orders mt_update_run) 9 =
    Some (working_order 9 SELL 101)
  /\ Dict.get (MomentumTrader.active_orders mt_update_run) 8 =
     Some (working_order 8 SELL 120)
  /\ Dict.get (MomentumTrader.active_orders mt_update_run) 7 = None.
Proof.
  assert (Hw : dict_wf (MomentumTrader.active_orders mt_tracking)).
  { vm_compute. repeat (constructor; [simpl; tauto|]). constructor. }
  assert (Hn : NoDup (feedback_order_ids (order_results feedback1))).
  { vm_compute. repeat (constructor; [simpl; intuition discriminate|]).
    constructor. }
  assert (Hu : MomentumTrader.update feedback1 mt_tracking
               = Ok (tt, mt_update_run)) by (vm_compute; reflexivity).
  destruct (momentum_update_reconciles feedback1 mt_tracking mt_update_run
              Hw Hn Hu) as (_ & Hnew & Hold & _).
  split; [|split; [|reflexivity]].
  - apply (Hnew 2%Z (working_order 9 SELL 101)); [|reflexivity].
    right; right; left; reflexivity.
  - apply (Hold 8%Z (working_order 8 SELL 120)); [reflexivity|reflexivity|].
    vm_compute. intuition discriminate.
Defined.

Lemma lcg_in_range : @randbelow_in_range lcg.
Proof.
  intros n r Hn. cbn [randbelow lcg fst].
  pose proof (Z.mod_pos_bound r (Z.of_nat n) ltac:(lia)) as Hb.
  lia.
Qed.

(** The four agents of the example population, shuffled. *)
Lemma every_agent_acts_once_witness :
  (exists l m',
      macro_tick_agents manager0 = Ok (l, m')
      /\ Permutation (Dict.items (agents manager0)) l)
  /\ exists l m',
       micro_tick_agents manager0 = Ok (l, m')
       /\ length l = 3%nat.
Proof.
  destruct (every_agent_acts_once manager0 lcg_in_range)
    as [(l & m' & Hrun & Hperm & _) (l2 & m2 & Hrun2 & Hperm2 & _)].
  split.
  - exists l, m'. split; [exact Hrun|exact Hperm].
  - exists l2, m2. split; [exact Hrun2|].
    rewrite <- (Permutation_length Hperm2). reflexivity.
Defined.

(** Four ticks of the quiet market leave the population as it was. *)
Lemma run_keeps_the_population_witness :
  Dict.keys (agents (agent_manager (snd quiet_run))) =
    Dict.keys (agents manager0)
  /\ value_investors (agent_manager (snd quiet_run)) =
     value_investors manager0.
Proof.
  assert (Hrun : run_ticks clock0 quiet_engine
                 = Ok (fst quiet_run, snd quiet_run)) by reflexivity.
  destruct (run_keeps_the_population clock0 quiet_engine _ _
              manager0_populated Hrun) as (Hk & _ & _ & Hv & _).
  split; [exact Hk|exact Hv].
Defined.

(** The market maker of the example on the first macro tick, and on a micro
    tick of an engine that has run no macro tick yet. *)
Lemma engine_views_meet_preconditions_witness :
  @agent_decide idle_noise balanced
    (agent_view (@_update_views_macro quiet_market 21%Z sim_data_init)
       0 0 10000 (AMarketMaker mm0))
    (AMarketMaker mm0)
  <> Raise AssertionError
  /\ @agent_decide idle_noise balanced
       (agent_view (@_update_views_micro quiet_market 21%Z sim_data_init)
          0 1 10000 (AMarketMaker mm0))
       (AMarketMaker mm0)
     = Raise AssertionError.
Proof.
  assert (Hk : keyed_by 10000 (AMarketMaker mm0)) by reflexivity.
  split.
  - exact (proj1 (@engine_views_meet_preconditions quiet_market idle_noise
                    balanced 21%Z sim_data_init 0%Z 0%Z 10000%Z
                    (AMarketMaker mm0) Hk)).
  - exact (proj2 (proj2 (@engine_views_meet_preconditions quiet_market
                           idle_noise balanced 21%Z sim_data_init 0%Z 1%Z
                           10000%Z (AMarketMaker mm0) Hk))
             eq_refl eq_refl).
Defined.

(** Two calls of [decide] around an [update]: the done order 5 and the
    matured deposit 1 of the stocked investor are still in its books. *)
Definition feedback_vi : AgentFeedback :=
  {| feedback_agent_id := 20000;
     order_results := [(0%Z, Some (done_order 30 BUY 94))];
     deposit_results := [] |}.

Definition history_vi : list Call :=
  [CallDecide balanced (view_mid 20000 95);
   CallUpdate feedback_vi;
   CallDecide balanced (view_tick 20000 95 4 0)].

Definition history_vi_run :=
  Eval vm_compute in
    vi_out []
      (issued ValueInvestor.decide ValueInvestor.update history_vi
         vi_stocked).

Lemma value_investor_never_forgets_witness :
  Dict.mem (ValueInvestor.pending_orders (snd history_vi_run)) 5 = true
  /\ Dict.mem (ValueInvestor.active_deposits (snd history_vi_run)) 1 = true.
Proof.
  assert (Hrun : issued ValueInvestor.decide ValueInvestor.update history_vi
                   vi_stocked
                 = Ok (fst history_vi_run, snd history_vi_run))
    by (vm_compute; reflexivity).
  destruct (value_investor_never_forgets history_vi vi_stocked _ _ Hrun)
    as [Ho Hd].
  split; [apply Ho|apply Hd]; reflexivity.
Defined.

(** A micro tick of the quiet market after the four ticks of the run:
    the value investor 20000 is not scheduled and is left as it was. *)
Definition micro_tick_run :=
  Eval vm_compute in
    match tick 0 1 (snd quiet_run) with
    | Ok p => p
    | Raise _ => ([], quiet_engine)
    end.

Lemma micro_tick_skips_value_investors_witness :
  ~ In 20000%Z (fst micro_tick_run)
  /\ Dict.get (agents (agent_manager (snd micro_tick_run))) 20000 =
     Dict.get (agents (agent_manager (snd quiet_run))) 20000.
Proof.
  assert (Hrun : tick 0 1 (snd quiet_run)
                 = Ok (fst micro_tick_run, snd micro_tick_run))
    by reflexivity.
  assert (Hmicro : 1%Z <> 0%Z) by discriminate.
  apply (micro_tick_skips_value_investors 0%Z 1%Z (snd quiet_run)
           (fst micro_tick_run) (snd micro_tick_run) Hmicro Hrun 20000%Z).
  reflexivity.
Defined.

End Examples.
